(** * Agent commission and payout settlement: a shallow embedding

    The development follows the commission / payout core of the server:

    - [models/PayoutSettings.js]     the policy singleton and its predicates,
    - [models/Commission.js]         the ledger entry and the rate calculator,
    - [models/PayoutRequest.js]      the withdrawal request and its transitions,
    - [middleware/payoutValidation.js]            [validatePayoutRequest],
    - [controllers/commissionController.js]       [createCommission],
      [createPayoutRequest], [processPayoutRequest], [cancelCommissionsForOrder],
      [getCommissionStats], [getCommissionRates], [bulkProcessPayouts],
    - [controllers/payoutSettingsController.js]   [checkPayoutWindow],
      [validateWithdrawalRequest], [getAutoApprovalAnalytics],
    - [controllers/adminSettingsController.js]    [checkPayoutWindow],
    - [controllers/userController.js]             the hard delete of
      [deleteUser].

    Conventions of the embedding.

    - Mongo collections are lists in insertion (natural) order; [_id]s are
      natural numbers drawn from a counter kept in the database state.
    - Money is a whole number of shillings ([Z]): on whole numbers below
      2^53 the arithmetic of the code (binary floating point) is exact.
      Amounts with a fractional part, which no validator excludes, are
      outside the embedding.  The agent-order rate is a rational ([Q]) and
      [Math.round] is [floor (x + 1/2)].
    - A string stands for the JavaScript string with the same code units
      (all below 256, see [JS]).
    - A [Date] is a number of milliseconds of local time ([Z]); the local
      calendar has no daylight-saving jumps.
    - Every handler is a function from the database state (and the clock
      reading of the request) to a response and a new database state.
      Database calls themselves do not fail, except the load of the policy
      collection, whose failure is part of the state ([Unreachable]).
    - Mongoose [populate] joins are modelled where the code reads a joined
      field (the agent of a payout request in the pay action and in the
      bulk payment) and left out where they only decorate an answer;
      console logging and the free-text [description] of a commission are
      left out;
      messages built with [toLocaleString] are kept as structured values. *)

From Stdlib Require Import ZArith QArith Qround List String Ascii Bool Lia.
From Stdlib Require Import Permutation Sorted.
Import ListNotations.

Local Open Scope string_scope.
Local Open Scope list_scope.
Local Open Scope Z_scope.

(** ** JavaScript values used by the handlers *)

Module JS.

(** A JavaScript string is a sequence of UTF-16 code units.  A [string]
    stands for the JavaScript string whose code units are the codes of its
    characters, one unit per character: the strings with all code units
    below 256.  [String.length] is then [s.length], and the order on
    characters is the order on code units.

    [s.trim()] strips white space and line terminators; of the code units
    below 256 these are tab, line feed, vertical tab, form feed, carriage
    return, space and the no-break space (160). *)
Definition isSpace (c : ascii) : bool :=
  match nat_of_ascii c with
  | 32%nat | 9%nat | 10%nat | 11%nat | 12%nat | 13%nat | 160%nat => true
  | _ => false
  end.

Fixpoint trimStart (s : string) : string :=
  match s with
  | String c r => if isSpace c then trimStart r else s
  | EmptyString => EmptyString
  end.

Fixpoint trimEnd (s : string) : string :=
  match s with
  | EmptyString => EmptyString
  | String c r =>
      match trimEnd r with
      | EmptyString => if isSpace c then EmptyString else String c EmptyString
      | r' => String c r'
      end
  end.

Definition trim (s : string) : string := trimEnd (trimStart s).

(** Truthiness of a string: the empty string is falsy. *)
Definition truthy (s : string) : bool :=
  match s with EmptyString => false | _ => true end.

Definition isDigit (c : ascii) : bool :=
  let n := nat_of_ascii c in (48 <=? n)%nat && (n <=? 57)%nat.

Definition digitVal (c : ascii) : Z := Z.of_nat (nat_of_ascii c) - 48.

Fixpoint allDigits (s : string) : bool :=
  match s with
  | EmptyString => true
  | String c r => isDigit c && allDigits r
  end.

(** Longest prefix of decimal digits, read as a number. *)
Fixpoint digitsPrefix (acc : Z) (s : string) : Z :=
  match s with
  | String c r => if isDigit c then digitsPrefix (10 * acc + digitVal c) r else acc
  | EmptyString => acc
  end.

(** [parseInt(s)] on an unsigned decimal: [None] is [NaN]. *)
Definition parseInt (s : string) : option Z :=
  match trimStart s with
  | String c r => if isDigit c then Some (digitsPrefix 0 (String c r)) else None
  | EmptyString => None
  end.

(** [Number(s)] on an unsigned decimal without fraction: [None] is [NaN];
    the empty string converts to [0]. *)
Definition Number (s : string) : option Z :=
  let t := trim s in
  if allDigits t then Some (digitsPrefix 0 t) else None.

(** [s.split(':')]. *)
Fixpoint splitColon (s : string) : list string :=
  match s with
  | EmptyString => [EmptyString]
  | String c r =>
      if Ascii.eqb c ":"%char then EmptyString :: splitColon r
      else match splitColon r with
           | h :: t => String c h :: t
           | [] => [String c EmptyString]
           end
  end.

(** [Math.round] on a rational: the nearest integer, halves upwards.  The
    argument is the exact product of the order total and the rate; the
    code forms that product in binary floating point, which agrees with
    the exact one whenever the exact product is not within one rounding
    step of a half (as [50 * 0.29] is). *)
Definition round (x : Q) : Z := Qfloor (x + (1 # 2))%Q.

(** Decimal rendering of a natural number, as in a template literal. *)
Definition digitChar (n : nat) : ascii := ascii_of_nat (48 + n).

Fixpoint showNatFuel (fuel n : nat) (acc : string) : string :=
  match fuel with
  | O => acc
  | S f =>
      let acc' := String (digitChar (n mod 10)) acc in
      if (n <? 10)%nat then acc' else showNatFuel f (n / 10) acc'
  end.

Definition showNat (n : nat) : string := showNatFuel (S n) n EmptyString.

End JS.

(** ** Local dates *)

Module Date.

(** Milliseconds of local time since the epoch of the calendar. *)
Definition t := Z.

Definition msPerMinute : Z := 60000.
Definition msPerHour : Z := 3600000.
Definition msPerDay : Z := 86400000.

Definition dayNumber (d : t) : Z := d / msPerDay.
Definition msOfDay (d : t) : Z := d mod msPerDay.

(** Day 0 of the calendar is a Thursday (1 January 1970). *)
Definition getDay (d : t) : Z := (dayNumber d + 4) mod 7.
Definition getHours (d : t) : Z := msOfDay d / msPerHour.
Definition getMinutes (d : t) : Z := (msOfDay d / msPerMinute) mod 60.

Definition twoDigits (n : Z) : string :=
  String (JS.digitChar (Z.to_nat (n / 10)))
    (String (JS.digitChar (Z.to_nat (n mod 10))) EmptyString).

(** [d.toTimeString().substr(0, 5)]: the local time as ["HH:MM"]. *)
Definition hhmm (d : t) : string :=
  (twoDigits (getHours d) ++ ":" ++ twoDigits (getMinutes d))%string.

(** The text ["ab:cd"] of four decimal digits. *)
Definition clock (a b c d : nat) : string :=
  String (JS.digitChar a)
    (String (JS.digitChar b)
       (String ":"
          (String (JS.digitChar c) (String (JS.digitChar d) EmptyString)))).

(** [d.setDate(d.getDate() + k)]. *)
Definition addDays (d : t) (k : Z) : t := d + k * msPerDay.

(** [d.setHours(h, m, 0, 0)]. *)
Definition setHours (d : t) (h m : Z) : t :=
  dayNumber d * msPerDay + h * msPerHour + m * msPerMinute.

End Date.

(** ** Documents *)

Definition ObjectId := nat.

(** [models/PayoutSettings.js]: the fields the settlement core reads. *)
Module PayoutSettings.

Record CommissionRates := mkRates {
  deliveryAmount : Z;          (* fixed shillings per delivered item *)
  agentOrder : Q               (* fraction of the order total *)
}.

Record PayoutSchedule := mkSchedule {
  enabled : bool;
  dayOfWeek : Z;               (* 0 = Sunday .. 6 = Saturday *)
  startTime : string;          (* "HH:MM" *)
  endTime : string
}.

Record t := mk {
  _id : ObjectId;
  minWithdrawalAmount : Z;
  maxWithdrawalAmount : Z;
  commissionRates : CommissionRates;
  payoutSchedule : PayoutSchedule;
  globalPayoutHold : bool;
  holdReason : string;
  processingFee : Z;
  autoApprovalThreshold : Z;
  requireManagerApproval : bool;
  maxPayoutsPerDay : Z;
  maxPayoutAmountPerDay : Z
}.

(** The document [getCurrentSettings] creates when the collection is empty
    (unlisted fields take the schema defaults). *)
Definition defaults (id : ObjectId) : t :=
  {| _id := id;
     minWithdrawalAmount := 100;
     maxWithdrawalAmount := 50000;
     commissionRates := {| deliveryAmount := 200; agentOrder := (3 # 100)%Q |};
     payoutSchedule :=
       {| enabled := false; dayOfWeek := 5;
          startTime := "07:00"; endTime := "23:59" |};
     globalPayoutHold := false;
     holdReason := "";
     processingFee := 0;
     autoApprovalThreshold := 1000;
     requireManagerApproval := false;
     maxPayoutsPerDay := 5;
     maxPayoutAmountPerDay := 100000 |}.

(** The state of the policy collection: the server may fail to load it. *)
Inductive Store :=
| Unreachable
| Stored (doc : option t).

(** [PayoutSettings.findOne()] as the controllers use it. *)
Definition findOne (st : Store) : option t :=
  match st with
  | Stored d => d
  | Unreachable => None
  end.

Inductive Allowed := mkAllowed {
  allowed : bool;
  reason : string
}.

(** [settings.getDayName(n)]. *)
Definition getDayName (n : Z) : string :=
  match n with
  | 0 => "Sunday" | 1 => "Monday" | 2 => "Tuesday" | 3 => "Wednesday"
  | 4 => "Thursday" | 5 => "Friday" | 6 => "Saturday"
  | _ => "Unknown"
  end.

(** [isCorrectDay] and [isWithinTimeRange], shared by every window check:
    the day is compared as a number, the time as a string. *)
Definition isCorrectDay (s : t) (now : Date.t) : bool :=
  Date.getDay now =? dayOfWeek (payoutSchedule s).

Definition isWithinTimeRange (s : t) (now : Date.t) : bool :=
  String.leb (startTime (payoutSchedule s)) (Date.hhmm now)
  && String.leb (Date.hhmm now) (endTime (payoutSchedule s)).

(** [settings.arePayoutsAllowed()], with the clock reading made explicit. *)
Definition arePayoutsAllowed (s : t) (now : Date.t) : Allowed :=
  if globalPayoutHold s then
    {| allowed := false; reason := "Global payout hold is active" |}
  else if negb (enabled (payoutSchedule s)) then
    {| allowed := true; reason := "Payout scheduling is disabled" |}
  else if negb (isCorrectDay s now) then
    {| allowed := false;
       reason := ("Payouts are only allowed on "
                  ++ getDayName (dayOfWeek (payoutSchedule s)))%string |}
  else if negb (isWithinTimeRange s now) then
    {| allowed := false;
       reason := ("Payouts are only allowed between "
                  ++ startTime (payoutSchedule s) ++ " and "
                  ++ endTime (payoutSchedule s))%string |}
  else
    {| allowed := true; reason := "Within payout window" |}.

(** [settings.requiresManagerApproval(amount)]. *)
Definition requiresManagerApproval (s : t) (amount : Z) : bool :=
  requireManagerApproval s && (autoApprovalThreshold s <? amount).

(** The schema's time pattern [^([0-1]?[0-9]|2[0-3]):[0-5][0-9]$]. *)
Definition matchesTimePattern (s : string) : bool :=
  match JS.splitColon s with
  | [h; m] =>
      (match h with
       | String a EmptyString => JS.isDigit a
       | String a (String b EmptyString) =>
           ((Ascii.eqb a "0" || Ascii.eqb a "1") && JS.isDigit b)
           || (Ascii.eqb a "2" && JS.isDigit b && (JS.digitVal b <=? 3))
       | _ => false
       end)
      && (match m with
          | String a (String b EmptyString) =>
              JS.isDigit a && (JS.digitVal a <=? 5) && JS.isDigit b
          | _ => false
          end)
  | _ => false
  end.

(** A time written with both hour digits, ["00:00"] to ["23:59"], the
    way the clock is rendered. *)
Definition isHHMM (s : string) : bool :=
  match s with
  | String a (String b (String c (String d (String e EmptyString)))) =>
      JS.isDigit a && JS.isDigit b && Ascii.eqb c ":"
      && JS.isDigit d && JS.isDigit e
      && (10 * JS.digitVal a + JS.digitVal b <? 24) && (JS.digitVal d <? 6)
  | _ => false
  end.

(** The minute of the day such a time names. *)
Definition minutesOf (s : string) : Z :=
  match s with
  | String a (String b (String _ (String d (String e _)))) =>
      (10 * JS.digitVal a + JS.digitVal b) * 60
      + (10 * JS.digitVal d + JS.digitVal e)
  | _ => 0
  end.

End PayoutSettings.

(** [models/User.js] and [models/Order.js]: what the core reads of them. *)
Module User.

Inductive Role := user | agent | admin.

Record PayoutHold := mkHold {
  isHeld : bool;
  reason : string
}.

Record t := mk {
  _id : ObjectId;
  role : Role;
  isActive : bool;
  payoutHold : PayoutHold
}.

Definition isAgent (u : t) : bool :=
  match role u with agent => true | _ => false end.

End User.

Module Order.

Record OrderItem := mkItem {
  quantity : Z                 (* schema: at least 1 *)
}.

Record t := mk {
  _id : ObjectId;
  orderItems : list OrderItem;
  totalPrice : Z
}.

End Order.

(** [models/Commission.js]. *)
Module Commission.

Inductive Type_ := delivery | agent_order.

Inductive Status := pending | paid | cancelled.

Record t := mk {
  _id : ObjectId;
  orderId : ObjectId;
  agentId : ObjectId;
  type : Type_;
  amount : Z;
  status : Status;
  orderTotal : Z;
  commissionRate : Q;
  isFixedAmount : bool;
  deliveryCount : Z;
  paidAt : option Date.t;
  cancelledAt : option Date.t;
  payoutRequestId : option ObjectId;
  settingsVersion : option ObjectId;
  createdAt : Date.t
}.

Definition type_eqb (a b : Type_) : bool :=
  match a, b with
  | delivery, delivery | agent_order, agent_order => true
  | _, _ => false
  end.

Definition status_eqb (a b : Status) : bool :=
  match a, b with
  | pending, pending | paid, paid | cancelled, cancelled => true
  | _, _ => false
  end.

(** The number validators of the schema: [amount] has [min: 0],
    [commissionRate] has [min: 0] and [deliveryCount] has [min: 1]. *)
Definition valid (c : t) : bool :=
  (0 <=? amount c) && Qle_bool 0 (commissionRate c) && (1 <=? deliveryCount c).

(** Field updates, each standing for an assignment to the document. *)
Definition setAmount (v : Z) (c : t) : t :=
  mk (_id c) (orderId c) (agentId c) (type c) v (status c) (orderTotal c)
     (commissionRate c) (isFixedAmount c) (deliveryCount c) (paidAt c)
     (cancelledAt c) (payoutRequestId c) (settingsVersion c) (createdAt c).

Definition setStatus (v : Status) (c : t) : t :=
  mk (_id c) (orderId c) (agentId c) (type c) (amount c) v (orderTotal c)
     (commissionRate c) (isFixedAmount c) (deliveryCount c) (paidAt c)
     (cancelledAt c) (payoutRequestId c) (settingsVersion c) (createdAt c).

Definition setPaidAt (v : Date.t) (c : t) : t :=
  mk (_id c) (orderId c) (agentId c) (type c) (amount c) (status c)
     (orderTotal c) (commissionRate c) (isFixedAmount c) (deliveryCount c)
     (Some v) (cancelledAt c) (payoutRequestId c) (settingsVersion c)
     (createdAt c).

Definition setCancelledAt (v : Date.t) (c : t) : t :=
  mk (_id c) (orderId c) (agentId c) (type c) (amount c) (status c)
     (orderTotal c) (commissionRate c) (isFixedAmount c) (deliveryCount c)
     (paidAt c) (Some v) (payoutRequestId c) (settingsVersion c)
     (createdAt c).

Definition setPayoutRequestId (v : ObjectId) (c : t) : t :=
  mk (_id c) (orderId c) (agentId c) (type c) (amount c) (status c)
     (orderTotal c) (commissionRate c) (isFixedAmount c) (deliveryCount c)
     (paidAt c) (cancelledAt c) (Some v) (settingsVersion c) (createdAt c).

(** What the rate calculator returns. *)
Record Calculated := mkCalculated {
  c_amount : Z;
  c_rate : Q;
  c_isFixedAmount : bool;
  c_deliveryCount : Z;
  c_settingsId : option ObjectId
}.

(** The [try] block of [calculateCommission], once the policy is loaded. *)
Definition calculateWith (settings : PayoutSettings.t)
    (orderTotal : Z) (ty : Type_) (deliveryCount : Z) : Calculated :=
  let rates := PayoutSettings.commissionRates settings in
  match ty with
  | delivery =>
      {| c_amount := PayoutSettings.deliveryAmount rates * deliveryCount;
         c_rate := inject_Z (PayoutSettings.deliveryAmount rates);
         c_isFixedAmount := true;
         c_deliveryCount := deliveryCount;
         c_settingsId := Some (PayoutSettings._id settings) |}
  | agent_order =>
      (* rate = settings.commissionRates.agentOrder || 0.03 *)
      let rate := if Qeq_bool (PayoutSettings.agentOrder rates) 0
                  then (3 # 100)%Q
                  else PayoutSettings.agentOrder rates in
      {| c_amount := JS.round (inject_Z orderTotal * rate);
         c_rate := rate;
         c_isFixedAmount := false;
         c_deliveryCount := deliveryCount;
         c_settingsId := Some (PayoutSettings._id settings) |}
  end.

(** The [catch] block of [calculateCommission]: the hard-coded defaults. *)
Definition calculateFallback
    (orderTotal : Z) (ty : Type_) (deliveryCount : Z) : Calculated :=
  match ty with
  | delivery =>
      {| c_amount := 200 * deliveryCount;
         c_rate := inject_Z 200;
         c_isFixedAmount := true;
         c_deliveryCount := deliveryCount;
         c_settingsId := None |}
  | agent_order =>
      {| c_amount := JS.round (inject_Z orderTotal * (3 # 100));
         c_rate := (3 # 100)%Q;
         c_isFixedAmount := false;
         c_deliveryCount := deliveryCount;
         c_settingsId := None |}
  end.

End Commission.

(** [models/PayoutRequest.js]. *)
Module PayoutRequest.

Inductive Method := mpesa | bank.

Inductive Status := pending | approved | paid | rejected | on_hold.

Definition status_eqb (a b : Status) : bool :=
  match a, b with
  | pending, pending | approved, approved | paid, paid
  | rejected, rejected | on_hold, on_hold => true
  | _, _ => false
  end.

(** Warnings of the validation middleware, kept with the request. *)
Inductive Warning :=
| NextPayoutWindow (at_ : option Date.t)
| WillAutoApprove (threshold : Z)
| PaymentAutomatic
| PaymentPendingBalance
| NeedsManagerApproval (threshold : Z)
| AllNeedManagerApproval
| ProcessingFeeDeducted (fee : Z).

Record Metadata := mkMetadata {
  settingsVersion : option ObjectId;
  m_processingFee : Z;
  validatedAt : Date.t;
  validationWarnings : list Warning;
  autoApproved : bool;
  m_autoApprovalThreshold : Z;
  autoPaid : bool
}.

Record t := mk {
  _id : ObjectId;
  agentId : ObjectId;
  amount : Z;
  method : Method;
  accountDetails : string;
  status : Status;
  requestedAt : Date.t;
  processedAt : option Date.t;
  processedBy : option ObjectId;
  notes : string;
  rejectionReason : option string;
  commissionIds : list ObjectId;
  metadata : Metadata;
  createdAt : Date.t
}.

Definition setStatus (v : Status) (p : t) : t :=
  mk (_id p) (agentId p) (amount p) (method p) (accountDetails p) v
     (requestedAt p) (processedAt p) (processedBy p) (notes p)
     (rejectionReason p) (commissionIds p) (metadata p) (createdAt p).

Definition setProcessed (at_ : Date.t) (by_ : ObjectId) (p : t) : t :=
  mk (_id p) (agentId p) (amount p) (method p) (accountDetails p) (status p)
     (requestedAt p) (Some at_) (Some by_) (notes p)
     (rejectionReason p) (commissionIds p) (metadata p) (createdAt p).

Definition setNotes (v : string) (p : t) : t :=
  mk (_id p) (agentId p) (amount p) (method p) (accountDetails p) (status p)
     (requestedAt p) (processedAt p) (processedBy p) v
     (rejectionReason p) (commissionIds p) (metadata p) (createdAt p).

Definition setRejectionReason (v : string) (p : t) : t :=
  mk (_id p) (agentId p) (amount p) (method p) (accountDetails p) (status p)
     (requestedAt p) (processedAt p) (processedBy p) (notes p)
     (Some v) (commissionIds p) (metadata p) (createdAt p).

Definition setCommissionIds (v : list ObjectId) (p : t) : t :=
  mk (_id p) (agentId p) (amount p) (method p) (accountDetails p) (status p)
     (requestedAt p) (processedAt p) (processedBy p) (notes p)
     (rejectionReason p) v (metadata p) (createdAt p).

(** [this.notes ? `${this.notes}; extra` : alone]. *)
Definition appendNote (extra alone : string) (p : t) : t :=
  setNotes (if JS.truthy (notes p)
            then (notes p ++ "; " ++ extra)%string
            else alone) p.

(** The instance methods, up to the final [save]. *)
Definition approve (processedBy_ : ObjectId) (now : Date.t) (p : t) : t :=
  appendNote "Manually approved" "Manually approved by admin"
    (setProcessed now processedBy_ (setStatus approved p)).

Definition markAsPaid (processedBy_ : ObjectId) (now : Date.t) (p : t) : t :=
  appendNote "Manually marked as paid" "Manually marked as paid by admin"
    (setProcessed now processedBy_ (setStatus paid p)).

Definition reject (reason_ : string) (processedBy_ : ObjectId) (now : Date.t)
    (p : t) : t :=
  setProcessed now processedBy_ (setRejectionReason reason_ (setStatus rejected p)).

End PayoutRequest.

(** ** The database state, queries and writes *)

Module Db.

Record t := mk {
  settings : PayoutSettings.Store;
  users : list User.t;
  orders : list Order.t;
  commissions : list Commission.t;
  payoutRequests : list PayoutRequest.t;
  nextId : ObjectId
}.

Definition withSettings (v : PayoutSettings.Store) (db : t) : t :=
  mk v (users db) (orders db) (commissions db) (payoutRequests db) (nextId db).

Definition withCommissions (v : list Commission.t) (db : t) : t :=
  mk (settings db) (users db) (orders db) v (payoutRequests db) (nextId db).

Definition withPayoutRequests (v : list PayoutRequest.t) (db : t) : t :=
  mk (settings db) (users db) (orders db) (commissions db) v (nextId db).

Definition withNextId (v : ObjectId) (db : t) : t :=
  mk (settings db) (users db) (orders db) (commissions db) (payoutRequests db) v.

Definition empty : t := mk (PayoutSettings.Stored None) [] [] [] [] 0%nat.

(** Every stored id is below the counter and ids do not repeat inside a
    collection; stored commissions and payout requests passed the schema
    validators. *)
Fixpoint distinct (l : list ObjectId) : bool :=
  match l with
  | [] => true
  | x :: r => negb (existsb (Nat.eqb x) r) && distinct r
  end.

Definition wf (db : t) : bool :=
  distinct (map Commission._id (commissions db))
  && forallb (fun c => (Commission._id c <? nextId db)%nat) (commissions db)
  && forallb Commission.valid (commissions db)
  && distinct (map PayoutRequest._id (payoutRequests db))
  && forallb (fun p => (PayoutRequest._id p <? nextId db)%nat) (payoutRequests db)
  && forallb (fun p => 1 <=? PayoutRequest.amount p) (payoutRequests db).

End Db.

(** A thrown error or a returned value. *)
Inductive Exc (E A : Type) :=
| Ok (a : A)
| Throw (e : E).
Arguments Ok {E A} a.
Arguments Throw {E A} e.

Module Query.

Definition userById (id : ObjectId) (db : Db.t) : option User.t :=
  find (fun u => (User._id u =? id)%nat) (Db.users db).

Definition orderById (id : ObjectId) (db : Db.t) : option Order.t :=
  find (fun o => (Order._id o =? id)%nat) (Db.orders db).

Definition payoutRequestById (id : ObjectId) (db : Db.t)
  : option PayoutRequest.t :=
  find (fun p => (PayoutRequest._id p =? id)%nat) (Db.payoutRequests db).

Definition commissionById (id : ObjectId) (db : Db.t) : option Commission.t :=
  find (fun c => (Commission._id c =? id)%nat) (Db.commissions db).

(** The filter [{ orderId, agentId, type }]. *)
Definition sameKey (orderId agentId : ObjectId) (ty : Commission.Type_)
    (c : Commission.t) : bool :=
  (Commission.orderId c =? orderId)%nat
  && (Commission.agentId c =? agentId)%nat
  && Commission.type_eqb (Commission.type c) ty.

(** [Commission.findOne({ orderId, agentId, type })]. *)
Definition commissionForOrder (orderId agentId : ObjectId)
    (ty : Commission.Type_) (db : Db.t) : option Commission.t :=
  find (sameKey orderId agentId ty) (Db.commissions db).

(** The filter [{ agentId, status: 'pending' }]. *)
Definition isPendingOf (agentId : ObjectId) (c : Commission.t) : bool :=
  (Commission.agentId c =? agentId)%nat
  && Commission.status_eqb (Commission.status c) Commission.pending.

(** [Commission.find({ agentId, status: 'pending' })]. *)
Definition pendingCommissions (agentId : ObjectId) (db : Db.t)
  : list Commission.t :=
  filter (isPendingOf agentId) (Db.commissions db).

(** [.sort({ createdAt: 1 })]: oldest first, ties in natural order. *)
Fixpoint insertByCreatedAt (c : Commission.t) (l : list Commission.t)
  : list Commission.t :=
  match l with
  | [] => [c]
  | d :: r =>
      if Commission.createdAt c <=? Commission.createdAt d
      then c :: d :: r
      else d :: insertByCreatedAt c r
  end.

Definition sortByCreatedAt (l : list Commission.t) : list Commission.t :=
  fold_right insertByCreatedAt [] l.

Definition pendingOldestFirst (agentId : ObjectId) (db : Db.t)
  : list Commission.t :=
  sortByCreatedAt (pendingCommissions agentId db).

(** [list.reduce((sum, c) => sum + c.amount, 0)]. *)
Definition totalAmount (l : list Commission.t) : Z :=
  fold_left (fun sum c => sum + Commission.amount c) l 0.

(** [PayoutRequest.findOne({ agentId, status: { $in: statuses } })]. *)
Definition payoutRequestIn (agentId : ObjectId)
    (statuses : list PayoutRequest.Status) (db : Db.t)
  : option PayoutRequest.t :=
  find (fun p => (PayoutRequest.agentId p =? agentId)%nat
                 && existsb (PayoutRequest.status_eqb (PayoutRequest.status p))
                      statuses)
       (Db.payoutRequests db).

(** [PayoutRequest.find({ agentId, createdAt: { $gte: since } })]. *)
Definition payoutRequestsSince (agentId : ObjectId) (since : Date.t)
    (db : Db.t) : list PayoutRequest.t :=
  filter (fun p => (PayoutRequest.agentId p =? agentId)%nat
                   && (since <=? PayoutRequest.createdAt p))
         (Db.payoutRequests db).

End Query.

Module Write.

(** [PayoutSettings.getCurrentSettings()]: loads the singleton, creating the
    default document when the collection is empty; [None] stands for the
    rejection of the load. *)
Definition getCurrentSettings (db : Db.t) : option PayoutSettings.t * Db.t :=
  match Db.settings db with
  | PayoutSettings.Unreachable => (None, db)
  | PayoutSettings.Stored (Some s) => (Some s, db)
  | PayoutSettings.Stored None =>
      let s := PayoutSettings.defaults (Db.nextId db) in
      (Some s,
       Db.withNextId (S (Db.nextId db))
         (Db.withSettings (PayoutSettings.Stored (Some s)) db))
  end.

(** [Commission.create(fields)]: the document gets a fresh id, the schema
    defaults and the creation time, and is stored when the validators pass. *)
Definition createCommission (fields : Commission.t) (now : Date.t) (db : Db.t)
  : Exc string Commission.t * Db.t :=
  let c := Commission.mk (Db.nextId db)
             (Commission.orderId fields) (Commission.agentId fields)
             (Commission.type fields) (Commission.amount fields)
             (Commission.status fields) (Commission.orderTotal fields)
             (Commission.commissionRate fields)
             (Commission.isFixedAmount fields) (Commission.deliveryCount fields)
             None None None (Commission.settingsVersion fields) now in
  if Commission.valid c
  then (Ok c,
        Db.withNextId (S (Db.nextId db))
          (Db.withCommissions (Db.commissions db ++ [c]) db))
  else (Throw "Commission validation failed", db).

(** [commission.save()]: the document replaces the stored one of its id. *)
Definition saveCommission (c : Commission.t) (db : Db.t) : Db.t :=
  Db.withCommissions
    (map (fun d => if (Commission._id d =? Commission._id c)%nat then c else d)
         (Db.commissions db))
    db.

(** The message of the validation error of [PayoutRequest.create]: the
    failing paths in schema order. *)
Definition payoutRequestInvalid (p : PayoutRequest.t) : string :=
  "PayoutRequest validation failed: "
  ++ String.concat ", "
       ((if 1 <=? PayoutRequest.amount p then []
         else ["amount: Payout amount must be at least 1"])
        ++ (if JS.truthy (PayoutRequest.accountDetails p) then []
            else ["accountDetails: Path `accountDetails` is required."])).

(** [PayoutRequest.create(fields)].  Of the schema validators two can fail
    on what the handler passes: [amount] has [min: 1], and [accountDetails]
    is [required], which an empty string does not satisfy. *)
Definition createPayoutRequest (fields : PayoutRequest.t) (now : Date.t)
    (db : Db.t) : Exc string PayoutRequest.t * Db.t :=
  let p := PayoutRequest.mk (Db.nextId db)
             (PayoutRequest.agentId fields) (PayoutRequest.amount fields)
             (PayoutRequest.method fields) (PayoutRequest.accountDetails fields)
             (PayoutRequest.status fields) now
             (PayoutRequest.processedAt fields)
             (PayoutRequest.processedBy fields) (PayoutRequest.notes fields)
             None [] (PayoutRequest.metadata fields) now in
  if (1 <=? PayoutRequest.amount p)
     && JS.truthy (PayoutRequest.accountDetails p)
  then (Ok p,
        Db.withNextId (S (Db.nextId db))
          (Db.withPayoutRequests (Db.payoutRequests db ++ [p]) db))
  else (Throw (payoutRequestInvalid p), db).

(** [User.findByIdAndDelete(id)], the hard delete of [deleteUser] in
    [controllers/userController.js]: it is taken for an account without
    orders and reviews of its own, and leaves the commissions and payout
    requests of the account behind. *)
Definition deleteUser (id : ObjectId) (db : Db.t) : Db.t :=
  Db.mk (Db.settings db)
    (filter (fun u => negb (User._id u =? id)%nat) (Db.users db))
    (Db.orders db) (Db.commissions db) (Db.payoutRequests db) (Db.nextId db).

(** [payoutRequest.save()]. *)
Definition savePayoutRequest (p : PayoutRequest.t) (db : Db.t) : Db.t :=
  Db.withPayoutRequests
    (map (fun q => if (PayoutRequest._id q =? PayoutRequest._id p)%nat
                   then p else q)
         (Db.payoutRequests db))
    db.

End Write.

(** ** The rate calculator and the ledger operations *)

Module Ledger.

(** [Commission.calculateCommission(orderTotal, type, deliveryCount)]:
    the policy is loaded first; when the load fails the [catch] block
    answers with the defaults. *)
Definition calculateCommission (orderTotal : Z) (ty : Commission.Type_)
    (deliveryCount : Z) (db : Db.t) : Commission.Calculated * Db.t :=
  match Write.getCurrentSettings db with
  | (Some settings, db') =>
      (Commission.calculateWith settings orderTotal ty deliveryCount, db')
  | (None, db') =>
      (Commission.calculateFallback orderTotal ty deliveryCount, db')
  end.

(** [order.orderItems.reduce((sum, item) => sum + item.quantity, 0)]. *)
Definition itemCount (o : Order.t) : Z :=
  fold_left (fun sum item => sum + Order.quantity item) (Order.orderItems o) 0.

(** The fields [createCommission] hands to [Commission.create]. *)
Definition newCommissionFields (orderId agentId : ObjectId)
    (ty : Commission.Type_) (o : Order.t) (data : Commission.Calculated)
  : Commission.t :=
  Commission.mk 0%nat orderId agentId ty (Commission.c_amount data)
    Commission.pending (Order.totalPrice o) (Commission.c_rate data)
    (Commission.c_isFixedAmount data) (Commission.c_deliveryCount data)
    None None None (Commission.c_settingsId data) 0.

(** [exports.createCommission(orderId, agentId, type)]. *)
Definition createCommission (orderId agentId : ObjectId)
    (ty : Commission.Type_) (now : Date.t) (db : Db.t)
  : Exc string Commission.t * Db.t :=
  match Query.orderById orderId db with
  | None => (Throw "Order not found", db)
  | Some order =>
      match Query.userById agentId db with
      | None => (Throw "Invalid agent", db)
      | Some agent =>
          if negb (User.isAgent agent) then (Throw "Invalid agent", db)
          else
            match Query.commissionForOrder orderId agentId ty db with
            | Some existingCommission => (Ok existingCommission, db)
            | None =>
                let deliveryCount :=
                  match ty with
                  | Commission.delivery => itemCount order
                  | Commission.agent_order => 1
                  end in
                let (commissionData, db1) :=
                  calculateCommission (Order.totalPrice order) ty
                                      deliveryCount db in
                Write.createCommission
                  (newCommissionFields orderId agentId ty order commissionData)
                  now db1
            end
      end
  end.

(** [exports.cancelCommissionsForOrder(orderId)]: an [updateMany] over the
    pending entries of the order; the answer is the number of documents
    modified. *)
Definition cancelCommissionsForOrder (orderId : ObjectId) (now : Date.t)
    (db : Db.t) : nat * Db.t :=
  let hit c := (Commission.orderId c =? orderId)%nat
               && Commission.status_eqb (Commission.status c)
                    Commission.pending in
  (List.length (filter hit (Db.commissions db)),
   Db.withCommissions
     (map (fun c => if hit c
                    then Commission.setCancelledAt now
                           (Commission.setStatus Commission.cancelled c)
                    else c)
          (Db.commissions db))
     db).

(** The entries of one [(orderId, agentId, type)] key. *)
Definition entriesFor (orderId agentId : ObjectId) (ty : Commission.Type_)
    (db : Db.t) : list Commission.t :=
  filter (Query.sameKey orderId agentId ty) (Db.commissions db).

End Ledger.

(** ** Settlement: paying a request out of the pending entries *)

Module Settlement.

(** An element of [commissionsToUpdate]. *)
Record Update := mkUpdate {
  commission : Commission.t;
  newStatus : Commission.Status;
  amountPaid : Z
}.

(** The accumulators of the allocation loop when it ends. *)
Record Walk := mkWalk {
  paidCommissionIds : list ObjectId;
  commissionsToUpdate : list Update;
  remainingAmount : Z
}.

(** The fields of the entry created for the unpaid part of a split entry.
    The manual path does not copy [settingsVersion]; the automatic path
    does.  [isFixedAmount] and [deliveryCount] take the schema defaults. *)
Definition remainderFields (copySettingsVersion : bool) (c : Commission.t)
    (remainingCommissionAmount : Z) : Commission.t :=
  Commission.mk 0%nat (Commission.orderId c) (Commission.agentId c)
    (Commission.type c) remainingCommissionAmount Commission.pending
    (Commission.orderTotal c) (Commission.commissionRate c) false 1
    None None None
    (if copySettingsVersion then Commission.settingsVersion c else None) 0.

(** The loop [for (const commission of pendingCommissions)]. *)
Fixpoint walk (copySettingsVersion : bool) (now : Date.t)
    (pendingCommissions : list Commission.t) (remaining : Z) (db : Db.t)
  : Exc string Walk * Db.t :=
  match pendingCommissions with
  | [] => (Ok (mkWalk [] [] remaining), db)
  | c :: rest =>
      if remaining <=? 0 then (Ok (mkWalk [] [] remaining), db)
      else if Commission.amount c <=? remaining then
        (* pay the entire commission *)
        match walk copySettingsVersion now rest
                (remaining - Commission.amount c) db with
        | (Ok w, db') =>
            (Ok (mkWalk (Commission._id c :: paidCommissionIds w)
                   (mkUpdate c Commission.paid (Commission.amount c)
                      :: commissionsToUpdate w)
                   (remainingAmount w)),
             db')
        | (Throw e, db') => (Throw e, db')
        end
      else
        (* split the commission *)
        let paidAmount := remaining in
        let remainingCommissionAmount := Commission.amount c - paidAmount in
        match Write.createCommission
                (remainderFields copySettingsVersion c remainingCommissionAmount)
                now db with
        | (Ok _, db') =>
            (Ok (mkWalk [Commission._id c]
                   [mkUpdate (Commission.setAmount paidAmount c)
                      Commission.paid paidAmount]
                   0),
             db')
        | (Throw e, db') => (Throw e, db')
        end
  end.

(** One turn of the loop over [commissionsToUpdate]. *)
Definition applyUpdate (payoutRequestId : ObjectId) (now : Date.t)
    (u : Update) : Commission.t :=
  Commission.setPayoutRequestId payoutRequestId
    (Commission.setPaidAt now
       (Commission.setStatus (newStatus u) (commission u))).

Definition saveUpdates (payoutRequestId : ObjectId) (now : Date.t)
    (updates : list Update) (db : Db.t) : Db.t :=
  fold_left
    (fun acc u => Write.saveCommission (applyUpdate payoutRequestId now u) acc)
    updates db.

(** What the handler answers. *)
Inductive Message :=
| PayoutRequestNotFound
| InvalidAction
| AlreadyPaid
| AlreadyRejected
| OnlyPendingCanBeApproved
| OnlyPendingOrApprovedCanBePaid
| InsufficientPendingCommissions (available requested : Z)
| PaymentProcessingError (paid requested : Z)
| RejectionReasonRequired
| RejectionReasonTooShort
| RejectionReasonTooLong
| OnlyHeldCanBeReleased
| Thrown (error : string)
| ApprovedSuccessfully
| ProcessedSuccessfully (totalPaid : Z) (count : nat)
| RejectedSuccessfully
| PutOnHoldSuccessfully
| ReleasedSuccessfully.

Inductive Response :=
| Json (message : Message) (payoutRequest : option PayoutRequest.t)
| Status (code : nat) (message : Message).

(** The [pay] case from the sufficiency check on, run on the documents the
    handler holds in memory: the request read by [findById] and the pending
    entries read by [Commission.find].  [Throw] carries an early answer. *)
Definition pay (payoutRequest : PayoutRequest.t)
    (pendingCommissions : list Commission.t) (userId : ObjectId)
    (now : Date.t) (db : Db.t)
  : Exc Response (PayoutRequest.t * Message) * Db.t :=
  let totalPendingAmount := Query.totalAmount pendingCommissions in
  if totalPendingAmount <? PayoutRequest.amount payoutRequest then
    (Throw (Status 400 (InsufficientPendingCommissions totalPendingAmount
                          (PayoutRequest.amount payoutRequest))), db)
  else
    match walk false now pendingCommissions
               (PayoutRequest.amount payoutRequest) db with
    | (Throw e, db1) => (Throw (Status 400 (Thrown e)), db1)
    | (Ok w, db1) =>
        let db2 := saveUpdates (PayoutRequest._id payoutRequest) now
                     (commissionsToUpdate w) db1 in
        let totalPaid := PayoutRequest.amount payoutRequest - remainingAmount w in
        if negb (totalPaid =? PayoutRequest.amount payoutRequest) then
          (Throw (Status 400 (PaymentProcessingError totalPaid
                                (PayoutRequest.amount payoutRequest))), db2)
        else
          let updated :=
            PayoutRequest.markAsPaid userId now
              (PayoutRequest.setCommissionIds (paidCommissionIds w)
                 payoutRequest) in
          (Ok (updated,
               ProcessedSuccessfully totalPaid
                 (List.length (paidCommissionIds w))),
           Write.savePayoutRequest updated db2)
    end.

Definition isPendingOrApproved (p : PayoutRequest.t) : bool :=
  existsb (PayoutRequest.status_eqb (PayoutRequest.status p))
    [PayoutRequest.pending; PayoutRequest.approved].

(** The message of the [TypeError] that [payoutRequest.agentId._id] raises
    when the joined [agentId] is null (the wording of V8). *)
Definition nullAgentError : string :=
  "Cannot read properties of null (reading '_id')".

(** The body of the [switch (action)].  The request was read by
    [findById(...).populate('agentId', ...)]: its [agentId] is the joined
    account, or null when that account has been deleted.  Only the [pay]
    case reads a field of it, and throws into the [catch] of the handler
    when it is null. *)
Definition dispatch (payoutRequest : PayoutRequest.t) (action notes
    rejectionReason : string) (userId : ObjectId) (now : Date.t) (db : Db.t)
  : Exc Response (PayoutRequest.t * Message) * Db.t :=
  if String.eqb action "approve" then
    if negb (PayoutRequest.status_eqb (PayoutRequest.status payoutRequest)
               PayoutRequest.pending)
    then (Throw (Status 400 OnlyPendingCanBeApproved), db)
    else
      let updated := PayoutRequest.approve userId now payoutRequest in
      (Ok (updated, ApprovedSuccessfully), Write.savePayoutRequest updated db)
  else if String.eqb action "pay" then
    if negb (isPendingOrApproved payoutRequest)
    then (Throw (Status 400 OnlyPendingOrApprovedCanBePaid), db)
    else
      match Query.userById (PayoutRequest.agentId payoutRequest) db with
      | None => (Throw (Status 400 (Thrown nullAgentError)), db)
      | Some _ =>
          pay payoutRequest
            (Query.pendingOldestFirst (PayoutRequest.agentId payoutRequest) db)
            userId now db
      end
  else if String.eqb action "reject" then
    if negb (JS.truthy rejectionReason)
       || (String.length (JS.trim rejectionReason) =? 0)%nat
    then (Throw (Status 400 RejectionReasonRequired), db)
    else if (String.length (JS.trim rejectionReason) <? 3)%nat
    then (Throw (Status 400 RejectionReasonTooShort), db)
    else if (500 <? String.length (JS.trim rejectionReason))%nat
    then (Throw (Status 400 RejectionReasonTooLong), db)
    else
      let updated :=
        PayoutRequest.reject (JS.trim rejectionReason) userId now
          payoutRequest in
      (Ok (updated, RejectedSuccessfully), Write.savePayoutRequest updated db)
  else if String.eqb action "hold" then
    let held :=
      PayoutRequest.setProcessed now userId
        (PayoutRequest.setStatus PayoutRequest.on_hold payoutRequest) in
    let updated :=
      if JS.truthy notes then PayoutRequest.setNotes (JS.trim notes) held
      else held in
    (Ok (updated, PutOnHoldSuccessfully), Write.savePayoutRequest updated db)
  else (* release *)
    if negb (PayoutRequest.status_eqb (PayoutRequest.status payoutRequest)
               PayoutRequest.on_hold)
    then (Throw (Status 400 OnlyHeldCanBeReleased), db)
    else
      let released :=
        PayoutRequest.setProcessed now userId
          (PayoutRequest.setStatus PayoutRequest.pending payoutRequest) in
      let updated :=
        if JS.truthy notes then PayoutRequest.setNotes (JS.trim notes) released
        else released in
      (Ok (updated, ReleasedSuccessfully), Write.savePayoutRequest updated db).

(** [exports.processPayoutRequest]: [id] is the route parameter, [action],
    [notes] and [rejectionReason] come from the body (a missing string is
    the empty one) and [userId] is the acting administrator. *)
Definition processPayoutRequest (id : ObjectId)
    (action notes rejectionReason : string) (userId : ObjectId)
    (now : Date.t) (db : Db.t) : Response * Db.t :=
  match Query.payoutRequestById id db with
  | None => (Status 404 PayoutRequestNotFound, db)
  | Some payoutRequest =>
      if negb (existsb (String.eqb action)
                 ["approve"; "pay"; "reject"; "hold"; "release"])
      then (Status 400 InvalidAction, db)
      else if PayoutRequest.status_eqb (PayoutRequest.status payoutRequest)
                PayoutRequest.paid
      then (Status 400 AlreadyPaid, db)
      else if PayoutRequest.status_eqb (PayoutRequest.status payoutRequest)
                PayoutRequest.rejected
      then (Status 400 AlreadyRejected, db)
      else
        match dispatch payoutRequest action notes rejectionReason userId
                now db with
        | (Throw response, db1) => (response, db1)
        | (Ok (updatedRequest, message), db1) =>
            let db2 :=
              if JS.truthy notes
                 && negb (JS.truthy (PayoutRequest.notes updatedRequest))
                 && negb (String.eqb action "reject")
              then Write.savePayoutRequest
                     (PayoutRequest.setNotes (JS.trim notes) updatedRequest)
                     db1
              else db1 in
            (Json message
               (Query.payoutRequestById (PayoutRequest._id updatedRequest) db2),
             db2)
        end
  end.

End Settlement.

(** ** The payout window *)

Module Window.

(** [(dayOfWeek - currentDay + 7) % 7]. *)
Definition daysUntilNext (s : PayoutSettings.t) (now : Date.t) : Z :=
  Z.rem (PayoutSettings.dayOfWeek (PayoutSettings.payoutSchedule s)
         - Date.getDay now + 7) 7.

(** The next-window computation written inline in the validation
    middleware and in the payout-settings controller: [None] is an invalid
    date. *)
Definition nextWindowInline (s : PayoutSettings.t) (now : Date.t)
  : option Date.t :=
  let schedule := PayoutSettings.payoutSchedule s in
  let nextDate :=
    if (daysUntilNext s now =? 0)
       && String.ltb (PayoutSettings.endTime schedule) (Date.hhmm now)
    then Date.addDays now 7
    else Date.addDays now (daysUntilNext s now) in
  match JS.splitColon (PayoutSettings.startTime schedule) with
  | hours :: minutes :: _ =>
      match JS.parseInt hours, JS.parseInt minutes with
      | Some h, Some m => Some (Date.setHours nextDate h m)
      | _, _ => None
      end
  | _ => None
  end.

(** The answer of a window-status request. *)
Inductive Status :=
| Report (isPayoutWindowOpen : bool) (nextPayoutWindow : option Date.t)
| Failed.

(** [checkPayoutWindow] of [controllers/payoutSettingsController.js]. *)
Definition checkPayoutWindow_payoutSettings (now : Date.t) (db : Db.t)
  : Status :=
  match Db.settings db with
  | PayoutSettings.Unreachable => Failed
  | PayoutSettings.Stored None => Report true None
  | PayoutSettings.Stored (Some settings) =>
      if negb (PayoutSettings.enabled (PayoutSettings.payoutSchedule settings))
      then Report true None
      else
        let isPayoutWindowOpen :=
          PayoutSettings.isCorrectDay settings now
          && PayoutSettings.isWithinTimeRange settings now
          && negb (PayoutSettings.globalPayoutHold settings) in
        if negb isPayoutWindowOpen then
          match nextWindowInline settings now with
          | Some next => Report false (Some next)
          | None => Failed   (* toISOString of an invalid date throws *)
          end
        else Report true None
  end.

(** [checkPayoutWindow] of [controllers/adminSettingsController.js], which
    asks the model method and adds the next window. *)
Definition nextWindowAdmin (s : PayoutSettings.t) (now : Date.t)
  : option Date.t :=
  match map JS.Number
            (JS.splitColon
               (PayoutSettings.startTime (PayoutSettings.payoutSchedule s)))
  with
  | Some startHour :: Some startMinute :: _ =>
      let currentTimeMinutes := Date.getHours now * 60 + Date.getMinutes now in
      let startTimeMinutes := startHour * 60 + startMinute in
      if (daysUntilNext s now =? 0) && (currentTimeMinutes <? startTimeMinutes)
      then Some (Date.setHours now startHour startMinute)
      else
        Some (Date.setHours
                (Date.addDays now
                   (if daysUntilNext s now =? 0 then 7 else daysUntilNext s now))
                startHour startMinute)
  | _ => None
  end.

Definition checkPayoutWindow_adminSettings (now : Date.t) (db : Db.t)
  : Status * Db.t :=
  match Write.getCurrentSettings db with
  | (None, db') => (Failed, db')
  | (Some settings, db') =>
      let payoutStatus := PayoutSettings.arePayoutsAllowed settings now in
      if negb (PayoutSettings.allowed payoutStatus)
         && PayoutSettings.enabled (PayoutSettings.payoutSchedule settings)
         && negb (PayoutSettings.globalPayoutHold settings)
      then
        match nextWindowAdmin settings now with
        | Some next => (Report (PayoutSettings.allowed payoutStatus) (Some next), db')
        | None => (Failed, db')
        end
      else (Report (PayoutSettings.allowed payoutStatus) None, db')
  end.

(** The minute of the day of an instant. *)
Definition minuteOfDay (now : Date.t) : Z :=
  Date.getHours now * 60 + Date.getMinutes now.

(** Whether the instant falls in the scheduled window: the configured day
    of the week, between the start and end minutes inclusive. *)
Definition inWindow (s : PayoutSettings.t) (now : Date.t) : bool :=
  let schedule := PayoutSettings.payoutSchedule s in
  (Date.getDay now =? PayoutSettings.dayOfWeek schedule)
  && (PayoutSettings.minutesOf (PayoutSettings.startTime schedule)
      <=? minuteOfDay now)
  && (minuteOfDay now
      <=? PayoutSettings.minutesOf (PayoutSettings.endTime schedule)).

(** An instant at which a window starts: the configured day of the week at
    the start time, zero seconds. *)
Definition isWindowStart (s : PayoutSettings.t) (t : Date.t) : Prop :=
  let schedule := PayoutSettings.payoutSchedule s in
  Date.getDay t = PayoutSettings.dayOfWeek schedule
  /\ Date.msOfDay t
     = PayoutSettings.minutesOf (PayoutSettings.startTime schedule)
       * Date.msPerMinute.

(** The first window start strictly after [now]. *)
Definition isNextWindowStart (s : PayoutSettings.t) (now next : Date.t)
  : Prop :=
  isWindowStart s next /\ now < next
  /\ forall t, isWindowStart s t -> now < t -> next <= t.

End Window.

(** ** Validation and creation of a payout request *)

Module Workflow.

Inductive Error_ :=
| GlobalHoldActive
| BelowMinimum (minimum : Z)
| AboveMaximum (maximum : Z)
| OutsideWindow
| InsufficientBalance (available : Z)
| AlreadyPending          (* "You already have a pending payout request" *)
| AccountOnHold
| DailyCountReached (limit : Z)
| DailyAmountExceeded (limit : Z).

Definition error_eqb (a b : Error_) : bool :=
  match a, b with
  | GlobalHoldActive, GlobalHoldActive | OutsideWindow, OutsideWindow
  | AlreadyPending, AlreadyPending | AccountOnHold, AccountOnHold => true
  | BelowMinimum x, BelowMinimum y | AboveMaximum x, AboveMaximum y
  | InsufficientBalance x, InsufficientBalance y
  | DailyCountReached x, DailyCountReached y
  | DailyAmountExceeded x, DailyAmountExceeded y => x =? y
  | _, _ => false
  end.

(** The request body.  [amount] is [None] when the body carries no
    [amount] (it is then [undefined] in the handlers); a missing [method]
    or [accountDetails] reads as the empty string, which the handlers
    treat alike. *)
Record Body := mkBody {
  amount : option Z;
  method : string;
  accountDetails : string
}.

(** [amount < z], [amount > z] and [amount <= z]: a comparison with
    [undefined] is false. *)
Definition amountLt (a : option Z) (z : Z) : bool :=
  match a with Some x => x <? z | None => false end.

Definition amountGt (a : option Z) (z : Z) : bool :=
  match a with Some x => z <? x | None => false end.

Definition amountLe (a : option Z) (z : Z) : bool :=
  match a with Some x => x <=? z | None => false end.

(** [req.payoutValidation]. *)
Record PayoutValidation := mkValidation {
  settings : PayoutSettings.t;
  warnings : list PayoutRequest.Warning;
  availableBalance : Z;
  willAutoApprove : bool;
  willRequireApproval : bool
}.

Inductive Outcome :=
| Next (validation : option PayoutValidation)
| ValidationFailed (errors : list Error_) (warnings : list PayoutRequest.Warning)
| ServiceUnavailable.

Definition when {A : Type} (b : bool) (x : A) : list A := if b then [x] else [].

(** [exports.validatePayoutRequest], for the agent [agentId] signed in. *)
Definition validatePayoutRequest (body : Body) (agentId : ObjectId)
    (now : Date.t) (db : Db.t) : Outcome :=
  match Db.settings db with
  | PayoutSettings.Unreachable => ServiceUnavailable
  | PayoutSettings.Stored None => Next None
  | PayoutSettings.Stored (Some s) =>
      let schedule := PayoutSettings.payoutSchedule s in
      let closed :=
        PayoutSettings.enabled schedule
        && (negb (PayoutSettings.isCorrectDay s now)
            || negb (PayoutSettings.isWithinTimeRange s now)) in
      let available :=
        Query.totalAmount (Query.pendingCommissions agentId db) in
      let existingPayout :=
        Query.payoutRequestIn agentId
          [PayoutRequest.pending; PayoutRequest.approved; PayoutRequest.on_hold]
          db in
      let auto :=
        negb (PayoutSettings.requireManagerApproval s)
        && amountLe (amount body) (PayoutSettings.autoApprovalThreshold s) in
      let manual :=
        PayoutSettings.requireManagerApproval s
        && amountGt (amount body) (PayoutSettings.autoApprovalThreshold s) in
      let recentPayouts :=
        Query.payoutRequestsSince agentId (now - 24 * 60 * 60 * 1000) db in
      let dailyPayoutCount := Z.of_nat (List.length recentPayouts) in
      let dailyPayoutAmount :=
        fold_left (fun sum p => sum + PayoutRequest.amount p) recentPayouts 0 in
      let held :=
        match Query.userById agentId db with
        | Some agent => User.isHeld (User.payoutHold agent)
        | None => false
        end in
      let errors :=
        when (PayoutSettings.globalPayoutHold s) GlobalHoldActive
        ++ when (amountLt (amount body) (PayoutSettings.minWithdrawalAmount s))
             (BelowMinimum (PayoutSettings.minWithdrawalAmount s))
        ++ when (amountGt (amount body) (PayoutSettings.maxWithdrawalAmount s))
             (AboveMaximum (PayoutSettings.maxWithdrawalAmount s))
        ++ when closed OutsideWindow
        ++ when (amountGt (amount body) available) (InsufficientBalance available)
        ++ when (match existingPayout with Some _ => true | None => false end)
             AlreadyPending
        ++ when (auto && held) AccountOnHold
        ++ when (auto
                 && negb (PayoutSettings.maxPayoutsPerDay s =? 0)
                 && (PayoutSettings.maxPayoutsPerDay s <=? dailyPayoutCount))
             (DailyCountReached (PayoutSettings.maxPayoutsPerDay s))
        ++ when (auto
                 && negb (PayoutSettings.maxPayoutAmountPerDay s =? 0)
                 && match amount body with
                    | Some x => PayoutSettings.maxPayoutAmountPerDay s
                                <? dailyPayoutAmount + x
                    | None => false
                    end)
             (DailyAmountExceeded (PayoutSettings.maxPayoutAmountPerDay s)) in
      let warnings_ :=
        when closed
          (PayoutRequest.NextPayoutWindow (Window.nextWindowInline s now))
        ++ (if auto then
              [PayoutRequest.WillAutoApprove
                 (PayoutSettings.autoApprovalThreshold s);
               if amountLe (amount body) available
               then PayoutRequest.PaymentAutomatic
               else PayoutRequest.PaymentPendingBalance]
            else if manual then
              [PayoutRequest.NeedsManagerApproval
                 (PayoutSettings.autoApprovalThreshold s)]
            else if PayoutSettings.requireManagerApproval s then
              [PayoutRequest.AllNeedManagerApproval]
            else [])
        ++ when (0 <? PayoutSettings.processingFee s)
             (PayoutRequest.ProcessingFeeDeducted
                (PayoutSettings.processingFee s)) in
      match errors with
      | [] => Next (Some (mkValidation s warnings_ available auto manual))
      | _ :: _ => ValidationFailed errors warnings_
      end
  end.

(** The pattern [/^(\+254|254|0)[17]\d{8}$/]. *)
Definition stripPrefix (p s : string) : option string :=
  if String.prefix p s
  then Some (String.substring (String.length p)
                              (String.length s - String.length p) s)
  else None.

Definition subscriberNumber (s : string) : bool :=
  match s with
  | String c r =>
      (Ascii.eqb c "1" || Ascii.eqb c "7")
      && JS.allDigits r && (String.length r =? 8)%nat
  | EmptyString => false
  end.

Definition mpesaRegex (s : string) : bool :=
  existsb (fun p => match stripPrefix p s with
                    | Some r => subscriberNumber r
                    | None => false
                    end)
          ["+254"; "254"; "0"].

Inductive CreateError :=
| MissingFields
| InvalidMethod
| InvalidMpesaNumber
| AmountNotAboveFee (fee : Z)
| CreateThrown (error : string).

Inductive CreateMessage :=
| AutoApprovedAndPaid
| AutoApproved
| CreatedSuccessfully.

Inductive CreateResponse :=
| Created (message : CreateMessage) (payoutRequest : option PayoutRequest.t)
    (warnings : list PayoutRequest.Warning)
    (autoApproved : option Z)     (* the threshold, when auto-approved *)
    (autoPaid : bool)
| BadRequest (error : CreateError).

(** The automatic payment of a request created as approved. *)
Definition autoPay (payoutRequest : PayoutRequest.t) (now : Date.t)
    (db : Db.t) : Db.t :=
  let pendingCommissions :=
    Query.pendingOldestFirst (PayoutRequest.agentId payoutRequest) db in
  let totalPendingAmount := Query.totalAmount pendingCommissions in
  if PayoutRequest.amount payoutRequest <=? totalPendingAmount then
    match Settlement.walk true now pendingCommissions
            (PayoutRequest.amount payoutRequest) db with
    | (Ok w, db1) =>
        let db2 :=
          Settlement.saveUpdates (PayoutRequest._id payoutRequest) now
            (Settlement.commissionsToUpdate w) db1 in
        Write.savePayoutRequest
          (PayoutRequest.setNotes
             ("Auto-approved and auto-paid. Processed "
              ++ JS.showNat (List.length (Settlement.paidCommissionIds w))
              ++ " commission(s).")%string
             (PayoutRequest.setCommissionIds (Settlement.paidCommissionIds w)
                (PayoutRequest.setStatus PayoutRequest.paid payoutRequest)))
          db2
    | (Throw e, db1) =>
        (* catch (autoPayError) *)
        Write.savePayoutRequest
          (PayoutRequest.setNotes
             ("Auto-approved but auto-payment failed: " ++ e)%string
             payoutRequest)
          db1
    end
  else
    Write.savePayoutRequest
      (PayoutRequest.setNotes
         "Auto-approved but insufficient commission balance for auto-payment"
         payoutRequest)
      db.

(** [shouldAutoApprove]. *)
Definition shouldAutoApprove (validation : option PayoutValidation)
    (amount_ : Z) : bool :=
  match validation with
  | Some v =>
      negb (PayoutSettings.requireManagerApproval (settings v))
      && (amount_ <=? PayoutSettings.autoApprovalThreshold (settings v))
  | None => false
  end.

(** [payoutRequestData], for the [amount] the handler has found in the
    body. *)
Definition payoutRequestData (amount_ : Z) (body : Body)
    (method_ : PayoutRequest.Method) (agentId : ObjectId)
    (validation : option PayoutValidation) (now : Date.t) : PayoutRequest.t :=
  let auto := shouldAutoApprove validation amount_ in
  PayoutRequest.mk 0%nat agentId amount_ method_
    (JS.trim (accountDetails body))
    (if auto then PayoutRequest.approved else PayoutRequest.pending)
    now
    (if auto then Some now else None)
    (if auto then Some agentId else None)
    (if auto then "Auto-approved based on admin settings" else "")
    None []
    {| PayoutRequest.settingsVersion :=
         option_map (fun v => PayoutSettings._id (settings v)) validation;
       PayoutRequest.m_processingFee :=
         match validation with
         | Some v => PayoutSettings.processingFee (settings v)
         | None => 0
         end;
       PayoutRequest.validatedAt := now;
       PayoutRequest.validationWarnings :=
         match validation with Some v => warnings v | None => [] end;
       PayoutRequest.autoApproved := auto;
       PayoutRequest.m_autoApprovalThreshold :=
         match validation with
         | Some v => PayoutSettings.autoApprovalThreshold (settings v)
         | None => 0
         end;
       PayoutRequest.autoPaid := false |}
    now.

(** [exports.createPayoutRequest], after the middleware let the request
    through with [validation] attached. *)
Definition createPayoutRequest (body : Body) (agentId : ObjectId)
    (validation : option PayoutValidation) (now : Date.t) (db : Db.t)
  : CreateResponse * Db.t :=
  match amount body with
  | None => (BadRequest MissingFields, db)
  | Some amount_ =>
  if (amount_ =? 0) || negb (JS.truthy (method body))
     || negb (JS.truthy (accountDetails body))
  then (BadRequest MissingFields, db)
  else
    match (if String.eqb (method body) "mpesa" then Some PayoutRequest.mpesa
           else if String.eqb (method body) "bank" then Some PayoutRequest.bank
           else None) with
    | None => (BadRequest InvalidMethod, db)
    | Some method_ =>
        if String.eqb (method body) "mpesa"
           && negb (mpesaRegex (JS.trim (accountDetails body)))
        then (BadRequest InvalidMpesaNumber, db)
        else if match validation with
                | Some v =>
                    (0 <? PayoutSettings.processingFee (settings v))
                    && (amount_ <=? PayoutSettings.processingFee (settings v))
                | None => false
                end
        then (BadRequest
                (AmountNotAboveFee
                   (match validation with
                    | Some v => PayoutSettings.processingFee (settings v)
                    | None => 0
                    end)), db)
        else
          let auto := shouldAutoApprove validation amount_ in
          match Write.createPayoutRequest
                  (payoutRequestData amount_ body method_ agentId validation
                     now)
                  now db with
          | (Throw e, db1) => (BadRequest (CreateThrown e), db1)
          | (Ok payoutRequest, db1) =>
              let db2 := if auto then autoPay payoutRequest now db1 else db1 in
              let finalPayoutRequest :=
                Query.payoutRequestById (PayoutRequest._id payoutRequest) db2 in
              let isPaid :=
                match finalPayoutRequest with
                | Some p => PayoutRequest.status_eqb (PayoutRequest.status p)
                              PayoutRequest.paid
                | None => false
                end in
              (Created
                 (if auto
                  then (if isPaid then AutoApprovedAndPaid else AutoApproved)
                  else CreatedSuccessfully)
                 finalPayoutRequest
                 (match validation with Some v => warnings v | None => [] end)
                 (if auto
                  then option_map
                         (fun v => PayoutSettings.autoApprovalThreshold (settings v))
                         validation
                  else None)
                 (auto && isPaid),
               db2)
          end
    end
  end.

(** The route [POST /payout-requests] when no other request is served
    between the middleware and the handler: both then see the same
    database.  (The route awaits between the two; what another request can
    change in between is not part of this definition.) *)
Inductive SubmitResponse :=
| Refused (outcome : Outcome)
| Handled (response : CreateResponse).

Definition submitPayoutRequest (body : Body) (agentId : ObjectId)
    (now : Date.t) (db : Db.t) : SubmitResponse * Db.t :=
  match validatePayoutRequest body agentId now db with
  | Next validation =>
      let (response, db') := createPayoutRequest body agentId validation now db in
      (Handled response, db')
  | refused => (Refused refused, db)
  end.

End Workflow.

(** ** The dry-run validation of the payout-settings controller *)

Module PayoutSettingsController.

Inductive Answer :=
| Validated (isValid : bool) (errors : list Workflow.Error_)
    (warnings : list PayoutRequest.Warning)
| InvalidAmount
| AgentIdRequired
| AgentNotFound
| Unavailable.

(** [exports.validateWithdrawalRequest] of
    [controllers/payoutSettingsController.js]; [amount] and [agentId] come
    from the body. *)
Definition validateWithdrawalRequest (amount : Z) (agentId : option ObjectId)
    (now : Date.t) (db : Db.t) : Answer :=
  if (amount =? 0) || (amount <=? 0) then InvalidAmount
  else
    match agentId with
    | None => AgentIdRequired
    | Some agentId =>
        match Db.settings db with
        | PayoutSettings.Unreachable => Unavailable
        | PayoutSettings.Stored settings =>
            match Query.userById agentId db with
            | None => AgentNotFound
            | Some agent =>
                let withSettings (f : PayoutSettings.t -> bool) : bool :=
                  match settings with Some s => f s | None => false end in
                let closed :=
                  withSettings (fun s =>
                    PayoutSettings.enabled (PayoutSettings.payoutSchedule s)
                    && negb (PayoutSettings.isCorrectDay s now
                             && PayoutSettings.isWithinTimeRange s now
                             && negb (PayoutSettings.globalPayoutHold s))) in
                let availableBalance :=
                  Query.totalAmount (Query.pendingCommissions agentId db) in
                let existingPayout :=
                  Query.payoutRequestIn agentId
                    [PayoutRequest.pending; PayoutRequest.approved] db in
                let errors :=
                  Workflow.when
                    (withSettings (fun s =>
                       amount <? PayoutSettings.minWithdrawalAmount s))
                    (Workflow.BelowMinimum
                       (match settings with
                        | Some s => PayoutSettings.minWithdrawalAmount s
                        | None => 0
                        end))
                  ++ Workflow.when
                       (withSettings (fun s =>
                          PayoutSettings.maxWithdrawalAmount s <? amount))
                       (Workflow.AboveMaximum
                          (match settings with
                           | Some s => PayoutSettings.maxWithdrawalAmount s
                           | None => 0
                           end))
                  ++ Workflow.when
                       (withSettings PayoutSettings.globalPayoutHold)
                       Workflow.GlobalHoldActive
                  ++ Workflow.when (User.isHeld (User.payoutHold agent))
                       Workflow.AccountOnHold
                  ++ Workflow.when closed Workflow.OutsideWindow
                  ++ Workflow.when (availableBalance <? amount)
                       (Workflow.InsufficientBalance availableBalance)
                  ++ Workflow.when
                       (match existingPayout with
                        | Some _ => true
                        | None => false
                        end)
                       Workflow.AlreadyPending in
                let warnings :=
                  match settings with
                  | Some s =>
                      Workflow.when closed
                        (PayoutRequest.NextPayoutWindow
                           (Window.nextWindowInline s now))
                      ++ Workflow.when
                           (PayoutSettings.requireManagerApproval s
                            && (PayoutSettings.autoApprovalThreshold s <? amount))
                           (PayoutRequest.NeedsManagerApproval
                              (PayoutSettings.autoApprovalThreshold s))
                      ++ Workflow.when (0 <? PayoutSettings.processingFee s)
                           (PayoutRequest.ProcessingFeeDeducted
                              (PayoutSettings.processingFee s))
                  | None => []
                  end in
                Validated (match errors with [] => true | _ => false end)
                          errors warnings
            end
        end
    end.

End PayoutSettingsController.

(** ** Two pay requests served by one event loop

    A handler runs without interruption between two [await]s.  A pay
    request in flight is therefore in one of these states: nothing read
    yet, the payout request read together with its joined agent, the
    pending entries read as well, or answered.  The third move runs the
    rest of the handler in one piece, which is one of the schedules the
    event loop allows. *)

Module EventLoop.

Inductive Handler :=
| Received (id userId : ObjectId)
| HoldsRequest (payoutRequest : PayoutRequest.t) (agent : option User.t)
    (userId : ObjectId)
| HoldsEntries (payoutRequest : PayoutRequest.t)
    (pendingCommissions : list Commission.t) (userId : ObjectId)
| Answered (response : Settlement.Response).

(** One move of a handler serving [action: 'pay'] without notes. *)
Definition step (now : Date.t) (h : Handler) (db : Db.t) : Handler * Db.t :=
  match h with
  | Received id userId =>
      (* await PayoutRequest.findById(id).populate('agentId', ...), then
         the status checks *)
      match Query.payoutRequestById id db with
      | None => (Answered (Settlement.Status 404 Settlement.PayoutRequestNotFound), db)
      | Some payoutRequest =>
          if PayoutRequest.status_eqb (PayoutRequest.status payoutRequest)
               PayoutRequest.paid
          then (Answered (Settlement.Status 400 Settlement.AlreadyPaid), db)
          else if PayoutRequest.status_eqb (PayoutRequest.status payoutRequest)
                    PayoutRequest.rejected
          then (Answered (Settlement.Status 400 Settlement.AlreadyRejected), db)
          else if negb (Settlement.isPendingOrApproved payoutRequest)
          then (Answered
                  (Settlement.Status 400
                     Settlement.OnlyPendingOrApprovedCanBePaid), db)
          else (HoldsRequest payoutRequest
                  (Query.userById (PayoutRequest.agentId payoutRequest) db)
                  userId, db)
      end
  | HoldsRequest payoutRequest None userId =>
      (* payoutRequest.agentId._id throws *)
      (Answered (Settlement.Status 400
                   (Settlement.Thrown Settlement.nullAgentError)), db)
  | HoldsRequest payoutRequest (Some _) userId =>
      (* await Commission.find({ agentId, status: 'pending' }).sort(...) *)
      (HoldsEntries payoutRequest
         (Query.pendingOldestFirst (PayoutRequest.agentId payoutRequest) db)
         userId,
       db)
  | HoldsEntries payoutRequest pendingCommissions userId =>
      match Settlement.pay payoutRequest pendingCommissions userId now db with
      | (Throw response, db1) => (Answered response, db1)
      | (Ok (updatedRequest, message), db1) =>
          (Answered
             (Settlement.Json message
                (Query.payoutRequestById (PayoutRequest._id updatedRequest) db1)),
           db1)
      end
  | Answered response => (Answered response, db)
  end.

(** A schedule says which of the two handlers moves next. *)
Inductive Turn := First | Second.

Fixpoint run (now : Date.t) (schedule : list Turn) (h1 h2 : Handler)
    (db : Db.t) : Handler * Handler * Db.t :=
  match schedule with
  | [] => (h1, h2, db)
  | First :: rest =>
      let (h1', db') := step now h1 db in run now rest h1' h2 db'
  | Second :: rest =>
      let (h2', db') := step now h2 db in run now rest h1 h2' db'
  end.

Definition succeeded (h : Handler) : bool :=
  match h with
  | Answered (Settlement.Json (Settlement.ProcessedSuccessfully _ _) _) => true
  | _ => false
  end.

End EventLoop.

(** ** Quantities the properties speak about *)

Module Ledgers.

(** The agent's balance available for withdrawal. *)
Definition pendingBalance (agentId : ObjectId) (db : Db.t) : Z :=
  Query.totalAmount (Query.pendingCommissions agentId db).

(** The sum over every entry of the agent, whatever its status. *)
Definition ledgerTotal (agentId : ObjectId) (db : Db.t) : Z :=
  Query.totalAmount
    (filter (fun c => (Commission.agentId c =? agentId)%nat)
            (Db.commissions db)).

(** An entry as the settlement leaves it once paid for request [rid]. *)
Definition paidFor (rid : ObjectId) (now : Date.t) (c : Commission.t)
  : Commission.t :=
  Commission.setPayoutRequestId rid
    (Commission.setPaidAt now (Commission.setStatus Commission.paid c)).

(** The order of the settlement walk: oldest first. *)
Definition olderOrEqual (a b : Commission.t) : Prop :=
  Commission.createdAt a <= Commission.createdAt b.

(** The entry [walk] records for an entry paid in full. *)
Definition fullUpdate (c : Commission.t) : Settlement.Update :=
  Settlement.mkUpdate c Commission.paid (Commission.amount c).

(** The entry stored for the unpaid part of [c] when [need] of it is paid. *)
Definition remainderOf (copySettingsVersion : bool) (c : Commission.t)
    (need : Z) (now : Date.t) (id : ObjectId) : Commission.t :=
  Commission.mk id (Commission.orderId c) (Commission.agentId c)
    (Commission.type c) (Commission.amount c - need) Commission.pending
    (Commission.orderTotal c) (Commission.commissionRate c) false 1
    None None None
    (if copySettingsVersion then Commission.settingsVersion c else None) now.

(** What the settlement of request [rid] makes of a stored entry [d]:
    paid when [d] is one of the entries paid in full, paid with its amount
    lowered to [need] when it is the entry split, untouched otherwise. *)
Definition settled (rid : ObjectId) (now : Date.t)
    (paidInFull : list Commission.t) (split : option (Commission.t * Z))
    (d : Commission.t) : Commission.t :=
  if existsb (fun c => (Commission._id c =? Commission._id d)%nat) paidInFull
  then paidFor rid now d
  else match split with
       | Some (c, need) =>
           if (Commission._id c =? Commission._id d)%nat
           then paidFor rid now (Commission.setAmount need d)
           else d
       | None => d
       end.

(** The ids recorded on the request, in walk order, and the entry a split
    appends to the collection. *)
Definition paidIds (paidInFull : list Commission.t)
    (split : option (Commission.t * Z)) : list ObjectId :=
  map Commission._id paidInFull
  ++ match split with Some (c, _) => [Commission._id c] | None => [] end.

(** Whether the id of [d] is one of [ids]. *)
Definition inIds (ids : list ObjectId) (d : Commission.t) : bool :=
  existsb (Nat.eqb (Commission._id d)) ids.

(** The entries a settlement marks paid, in walk order. *)
Definition paidEntries (paidInFull : list Commission.t)
    (split : option (Commission.t * Z)) : list Commission.t :=
  paidInFull ++ match split with Some (c, _) => [c] | None => [] end.

Definition remainder (copySettingsVersion : bool)
    (split : option (Commission.t * Z)) (now : Date.t) (id : ObjectId)
  : list Commission.t :=
  match split with
  | Some (c, need) => [remainderOf copySettingsVersion c need now id]
  | None => []
  end.

(** The schema bounds on the two commission rates of a stored policy. *)
Definition ratesInRange (st : PayoutSettings.Store) : Prop :=
  match st with
  | PayoutSettings.Stored (Some s) =>
      0 <= PayoutSettings.deliveryAmount (PayoutSettings.commissionRates s)
      /\ (0 <= PayoutSettings.agentOrder (PayoutSettings.commissionRates s))%Q
  | _ => True
  end.

End Ledgers.

(** ** Concrete states used below *)

Module Scenario.

Definition agentA : User.t :=
  User.mk 7%nat User.agent true (User.mkHold false "").

Definition order1 : Order.t :=
  Order.mk 100%nat [Order.mkItem 2; Order.mkItem 1] 10000.

Definition policy (rate : Q) (hold scheduled : bool) : PayoutSettings.t :=
  PayoutSettings.mk 50%nat 100 50000
    (PayoutSettings.mkRates 200 rate)
    (PayoutSettings.mkSchedule scheduled 5 "07:00" "23:59")
    hold "" 0 1000 false 5 100000.

Definition entry (id : ObjectId) (amount : Z) (createdAt : Date.t)
  : Commission.t :=
  Commission.mk id 100%nat 7%nat Commission.delivery amount Commission.pending
    10000 (inject_Z 200) true 1 None None None None createdAt.

Definition request (id : ObjectId) (amount : Z) (st : PayoutRequest.Status)
  : PayoutRequest.t :=
  PayoutRequest.mk id 7%nat amount PayoutRequest.mpesa "0712345678" st 0
    None None "" None []
    (PayoutRequest.mkMetadata None 0 0 [] false 0 false) 0.

(** One agent, one order, no ledger entry yet. *)
Definition fresh (st : PayoutSettings.Store) : Db.t :=
  Db.mk st [agentA] [order1] [] [] 200%nat.

(** The ledger of the settlement example: entries of 100, 150 and 80
    shillings, oldest first, and an approved request of 180. *)
Definition threeEntries : Db.t :=
  Db.mk (PayoutSettings.Stored None) [agentA] [order1]
    [entry 1%nat 100 10; entry 2%nat 150 20; entry 3%nat 80 30]
    [request 4%nat 180 PayoutRequest.approved] 5%nat.

(** A request larger than the pending balance of 330. *)
Definition overdrawn : Db.t :=
  Db.mk (PayoutSettings.Stored None) [agentA] [order1]
    [entry 1%nat 100 10; entry 2%nat 150 20; entry 3%nat 80 30]
    [request 4%nat 400 PayoutRequest.approved] 5%nat.

Definition threeEntriesDeleted : Db.t := Write.deleteUser 7%nat threeEntries.

(** One pending entry of 100 and two approved requests of 100 each. *)
Definition twoRequests : Db.t :=
  Db.mk (PayoutSettings.Stored None) [agentA] [order1]
    [entry 1%nat 100 10]
    [request 2%nat 100 PayoutRequest.approved;
     request 3%nat 100 PayoutRequest.approved] 4%nat.

(** A delivery commission recorded for [order1], a request for part of it
    paid by an administrator: the entry is split in two. *)
Definition afterSplit : Db.t :=
  let db1 := snd (Ledger.createCommission 100%nat 7%nat Commission.delivery 10
                    (fresh (PayoutSettings.Stored None))) in
  let db2 := Db.withPayoutRequests [request 300%nat 250 PayoutRequest.approved] db1 in
  snd (Settlement.processPayoutRequest 300%nat "pay" "" "" 9%nat 20 db2).

(** A delivery commission recorded for [order1], then cancelled with the
    order. *)
Definition afterCancel : Db.t :=
  snd (Ledger.cancelCommissionsForOrder 100%nat 20
         (snd (Ledger.createCommission 100%nat 7%nat Commission.delivery 10
                 (fresh (PayoutSettings.Stored None))))).

(** An agent with an outstanding request, with and without a policy. *)
Definition outstanding (st : PayoutSettings.Store)
    (status : PayoutRequest.Status) : Db.t :=
  Db.mk st [agentA] [order1] [entry 1%nat 5000 10] [request 2%nat 500 status] 60%nat.

(** Wednesday 7 January 1970 at 10:30 and Friday 9 January 1970 at 08:00. *)
Definition wednesday1030 : Date.t := 6 * 86400000 + 10 * 3600000 + 30 * 60000.
Definition friday0800 : Date.t := 8 * 86400000 + 8 * 3600000.

End Scenario.

(** * Further handlers and model methods *)

(** ** Further methods of the policy model, [models/PayoutSettings.js] *)

Module Policy.

(** [settings.calculateCommission(orderTotal, commissionType,
    deliveryCount)]. *)
Definition calculateCommission (s : PayoutSettings.t) (orderTotal : Z)
    (commissionType : Commission.Type_) (deliveryCount : Z) : Z :=
  match commissionType with
  | Commission.delivery =>
      PayoutSettings.deliveryAmount (PayoutSettings.commissionRates s)
      * deliveryCount
  | Commission.agent_order =>
      let rate :=
        if Qeq_bool (PayoutSettings.agentOrder (PayoutSettings.commissionRates s)) 0
        then (3 # 100)%Q
        else PayoutSettings.agentOrder (PayoutSettings.commissionRates s) in
      JS.round (inject_Z orderTotal * rate)
  end.

(** The [pre('save')] hook.  The hook calls [next] with an error for each
    failed comparison and once more at its end; the first call decides. *)
Definition preSave (s : PayoutSettings.t) : Exc string unit :=
  if PayoutSettings.maxWithdrawalAmount s <=? PayoutSettings.minWithdrawalAmount s
  then Throw "Minimum withdrawal amount must be less than maximum withdrawal amount"
  else if String.leb (PayoutSettings.endTime (PayoutSettings.payoutSchedule s))
            (PayoutSettings.startTime (PayoutSettings.payoutSchedule s))
  then Throw "Start time must be before end time"
  else Ok tt.

End Policy.

(** ** The rates shown to agents, [getCommissionRates] *)

Module Rates.

Record Example := mkExample {
  orderValue : Z;
  deliveryCommission : Z;
  agentOrderCommission : Z
}.

Record t := mk {
  deliveryAmount : Z;
  agentOrderRate : Q;
  examples : list Example
}.

Definition exampleOrderValues : list Z := [1000; 5000; 10000; 20000].

(** [exports.getCommissionRates]; [None] is the 400 answer. *)
Definition getCommissionRates (db : Db.t) : option t * Db.t :=
  match Write.getCurrentSettings db with
  | (None, db') => (None, db')
  | (Some settings, db') =>
      let rates := PayoutSettings.commissionRates settings in
      (Some
         {| deliveryAmount := PayoutSettings.deliveryAmount rates;
            agentOrderRate := PayoutSettings.agentOrder rates;
            examples :=
              map (fun orderValue =>
                     {| orderValue := orderValue;
                        deliveryCommission := PayoutSettings.deliveryAmount rates;
                        agentOrderCommission :=
                          JS.round (inject_Z orderValue
                                    * PayoutSettings.agentOrder rates) |})
                  exampleOrderValues |},
       db')
  end.

End Rates.

(** ** The agent's statistics, [getCommissionStats] *)

Module Stats.

(** A group of the [$group] stage: [_id] is the status. *)
Record Group := mkGroup {
  g_status : Commission.Status;
  total : Z;
  count : nat
}.

Definition ofAgent (agentId : ObjectId) (c : Commission.t) : bool :=
  (Commission.agentId c =? agentId)%nat.

Definition withStatus (st : Commission.Status) (c : Commission.t) : bool :=
  Commission.status_eqb (Commission.status c) st.

Definition groupFor (st : Commission.Status) (mine : list Commission.t)
  : list Group :=
  match filter (withStatus st) mine with
  | [] => []
  | g => [mkGroup st (Query.totalAmount g) (List.length g)]
  end.

(** The pipeline [$match { agentId }], [$group { _id: '$status', total,
    count }]: one group for each status present. *)
Definition aggregate (agentId : ObjectId) (db : Db.t) : list Group :=
  let mine := filter (ofAgent agentId) (Db.commissions db) in
  groupFor Commission.pending mine ++ groupFor Commission.paid mine
  ++ groupFor Commission.cancelled mine.

Record CommissionStats := mkStats {
  totalEarnings : Z;
  pendingCommissions : Z;
  paidCommissions : Z;
  cancelledCommissions : Z;
  totalCommissionsCount : nat;
  pendingCount : nat;
  paidCount : nat;
  cancelledCount : nat
}.

Definition initial : CommissionStats := mkStats 0 0 0 0 0 0 0 0.

(** One turn of [stats.forEach]. *)
Definition addGroup (acc : CommissionStats) (stat : Group) : CommissionStats :=
  let acc' :=
    match g_status stat with
    | Commission.pending =>
        mkStats (totalEarnings acc) (total stat) (paidCommissions acc)
          (cancelledCommissions acc) (totalCommissionsCount acc)
          (count stat) (paidCount acc) (cancelledCount acc)
    | Commission.paid =>
        mkStats (totalEarnings acc) (pendingCommissions acc) (total stat)
          (cancelledCommissions acc) (totalCommissionsCount acc)
          (pendingCount acc) (count stat) (cancelledCount acc)
    | Commission.cancelled =>
        mkStats (totalEarnings acc) (pendingCommissions acc)
          (paidCommissions acc) (total stat) (totalCommissionsCount acc)
          (pendingCount acc) (paidCount acc) (count stat)
    end in
  mkStats (totalEarnings acc' + total stat) (pendingCommissions acc')
    (paidCommissions acc') (cancelledCommissions acc')
    (totalCommissionsCount acc' + count stat) (pendingCount acc')
    (paidCount acc') (cancelledCount acc').

Definition summarize (stats : list Group) : CommissionStats :=
  fold_left addGroup stats initial.

Record FinalStats := mkFinal {
  commissionStats : CommissionStats;
  currentBalance : Z;
  recentEarnings : Z;
  recentCommissionsCount : nat
}.

(** [exports.getCommissionStats] for the agent signed in. *)
Definition getCommissionStats (agentId : ObjectId) (now : Date.t) (db : Db.t)
  : FinalStats :=
  let commissionStats := summarize (aggregate agentId db) in
  let thirtyDaysAgo := now - 30 * 24 * 60 * 60 * 1000 in
  let recentCommissions :=
    filter (fun c => ofAgent agentId c
                     && (thirtyDaysAgo <=? Commission.createdAt c))
           (Db.commissions db) in
  {| commissionStats := commissionStats;
     currentBalance := pendingCommissions commissionStats;
     recentEarnings := Query.totalAmount recentCommissions;
     recentCommissionsCount := List.length recentCommissions |}.

End Stats.

(** ** Bulk processing, [bulkProcessPayouts] *)

Module Bulk.

Inductive RejectError :=
| NotPending (payoutId : ObjectId)   (* "Payout ... is not in pending status" *)
| NotFound (payoutId : ObjectId).    (* "Payout ... not found" *)

Inductive Response :=
| InvalidIds                    (* 400 "Please provide valid payout IDs" *)
| InvalidAction                 (* 400 "Invalid action" *)
| ReasonTooShort                (* 400 *)
| Rejected (processedCount totalRequested : nat) (errors : list RejectError)
| Updated (modifiedCount matchedCount : nat).

Definition defaultReason : string :=
  "Bulk rejection - Contact support for specific details".

(** One turn of the rejection loop. *)
Definition rejectOne (reason : string) (userId : ObjectId) (now : Date.t)
    (acc : nat * list RejectError * Db.t) (payoutId : ObjectId)
  : nat * list RejectError * Db.t :=
  let '(processedCount, errors, db) := acc in
  match Query.payoutRequestById payoutId db with
  | Some payoutRequest =>
      if PayoutRequest.status_eqb (PayoutRequest.status payoutRequest)
           PayoutRequest.pending
      then (S processedCount, errors,
            Write.savePayoutRequest
              (PayoutRequest.reject reason userId now payoutRequest) db)
      else (processedCount, errors ++ [NotPending payoutId], db)
  | None => (processedCount, errors ++ [NotFound payoutId], db)
  end.

(** [allowedStatuses[action] || []] and the status of [updateData]. *)
Definition allowedStatuses (action : string) : list PayoutRequest.Status :=
  if String.eqb action "approve" then [PayoutRequest.pending]
  else if String.eqb action "pay"
  then [PayoutRequest.pending; PayoutRequest.approved]
  else if String.eqb action "hold"
  then [PayoutRequest.pending; PayoutRequest.approved]
  else if String.eqb action "release" then [PayoutRequest.on_hold]
  else [].

Definition newStatus (action : string) (old : PayoutRequest.Status)
  : PayoutRequest.Status :=
  if String.eqb action "approve" then PayoutRequest.approved
  else if String.eqb action "pay" then PayoutRequest.paid
  else if String.eqb action "hold" then PayoutRequest.on_hold
  else if String.eqb action "release" then PayoutRequest.pending
  else old.

(** The filter [{ _id: { $in: payoutIds }, status: { $in: allowed } }]. *)
Definition matches (payoutIds : list ObjectId) (action : string)
    (p : PayoutRequest.t) : bool :=
  existsb (Nat.eqb (PayoutRequest._id p)) payoutIds
  && existsb (PayoutRequest.status_eqb (PayoutRequest.status p))
       (allowedStatuses action).

(** [updateData] applied to one matched document. *)
Definition update (action notes : string) (userId : ObjectId) (now : Date.t)
    (p : PayoutRequest.t) : PayoutRequest.t :=
  let p1 := PayoutRequest.setProcessed now userId
              (PayoutRequest.setStatus
                 (newStatus action (PayoutRequest.status p)) p) in
  if JS.truthy notes then PayoutRequest.setNotes (JS.trim notes) p1 else p1.

(** [commission.markAsPaid(payoutRequestId)] of [models/Commission.js]. *)
Definition markAsPaid (payoutRequestId : ObjectId) (now : Date.t)
    (c : Commission.t) : Commission.t :=
  Commission.setPayoutRequestId payoutRequestId
    (Commission.setPaidAt now (Commission.setStatus Commission.paid c)).

(** The loop over the pending entries of one request marked paid: an entry
    is taken when it still fits, skipped otherwise; no entry is split. *)
Fixpoint allocate (payoutRequestId : ObjectId) (now : Date.t)
    (commissions : list Commission.t) (amount totalPaid : Z) (db : Db.t)
  : list ObjectId * Db.t :=
  match commissions with
  | [] => ([], db)
  | commission :: rest =>
      if totalPaid + Commission.amount commission <=? amount then
        let db1 :=
          Write.saveCommission (markAsPaid payoutRequestId now commission) db in
        if amount <=? totalPaid + Commission.amount commission
        then ([Commission._id commission], db1)
        else
          let (ids, db2) :=
            allocate payoutRequestId now rest amount
              (totalPaid + Commission.amount commission) db1 in
          (Commission._id commission :: ids, db2)
      else allocate payoutRequestId now rest amount totalPaid db
  end.

(** The body of the loop over [paidPayouts].  The request was read through
    the [find] hook that populates [agentId]: when the account is missing
    the field is null and the commission query finds nothing. *)
Definition settleOne (now : Date.t) (db : Db.t)
    (payoutRequest : PayoutRequest.t) : Db.t :=
  let commissions :=
    match Query.userById (PayoutRequest.agentId payoutRequest) db with
    | Some _ =>
        firstn 100
          (Query.pendingOldestFirst (PayoutRequest.agentId payoutRequest) db)
    | None => []
    end in
  let (paidCommissionIds, db1) :=
    allocate (PayoutRequest._id payoutRequest) now commissions
      (PayoutRequest.amount payoutRequest) 0 db in
  (* PayoutRequest.findByIdAndUpdate(_id, { commissionIds }) *)
  Db.withPayoutRequests
    (map (fun q =>
            if (PayoutRequest._id q =? PayoutRequest._id payoutRequest)%nat
            then PayoutRequest.setCommissionIds paidCommissionIds q
            else q)
         (Db.payoutRequests db1))
    db1.

(** [exports.bulkProcessPayouts]: [payoutIds] is [None] when the body
    carries no array. *)
Definition bulkProcessPayouts (payoutIds : option (list ObjectId))
    (action notes rejectionReason : string) (userId : ObjectId)
    (now : Date.t) (db : Db.t) : Response * Db.t :=
  match payoutIds with
  | None | Some [] => (InvalidIds, db)
  | Some payoutIds =>
      if negb (existsb (String.eqb action)
                 ["approve"; "pay"; "reject"; "hold"; "release"])
      then (InvalidAction, db)
      else if String.eqb action "reject" then
        let genericRejectionReason :=
          if JS.truthy rejectionReason then rejectionReason
          else defaultReason in
        if (String.length (JS.trim genericRejectionReason) <? 3)%nat
        then (ReasonTooShort, db)
        else
          let '(processedCount, errors, db') :=
            fold_left (rejectOne (JS.trim genericRejectionReason) userId now)
              payoutIds (0%nat, [], db) in
          (Rejected processedCount (List.length payoutIds) errors, db')
      else
        let matched := filter (matches payoutIds action) (Db.payoutRequests db) in
        let db1 :=
          Db.withPayoutRequests
            (map (fun p => if matches payoutIds action p
                           then update action notes userId now p else p)
                 (Db.payoutRequests db))
            db in
        let db2 :=
          if String.eqb action "pay" && (0 <? List.length matched)%nat then
            let paidPayouts :=
              filter (fun p =>
                        existsb (Nat.eqb (PayoutRequest._id p)) payoutIds
                        && PayoutRequest.status_eqb (PayoutRequest.status p)
                             PayoutRequest.paid)
                     (Db.payoutRequests db1) in
            fold_left (settleOne now) paidPayouts db1
          else db1 in
        (Updated (List.length matched) (List.length matched), db2)
  end.

End Bulk.

(** ** Auto-approval eligibility and analytics *)

Module AutoApproval.

Inductive Eligibility :=
| Eligible (threshold : Z)
| SettingsOrAgentNotFound
| ManagerApprovalRequired
| AboveThreshold (threshold : Z)
| AgentHasPayoutHold
| HasPendingRequest
| ErrorCheckingEligibility.

(** [PayoutRequest.checkAutoApprovalEligibility(agentId, amount)]. *)
Definition checkAutoApprovalEligibility (agentId : ObjectId) (amount : Z)
    (db : Db.t) : Eligibility :=
  match Db.settings db with
  | PayoutSettings.Unreachable => ErrorCheckingEligibility
  | PayoutSettings.Stored settings =>
      match settings, Query.userById agentId db with
      | Some settings, Some agent =>
          if PayoutSettings.requireManagerApproval settings
          then ManagerApprovalRequired
          else if PayoutSettings.autoApprovalThreshold settings <? amount
          then AboveThreshold (PayoutSettings.autoApprovalThreshold settings)
          else if User.isHeld (User.payoutHold agent) then AgentHasPayoutHold
          else
            match Query.payoutRequestIn agentId
                    [PayoutRequest.pending; PayoutRequest.approved] db with
            | Some _ => HasPendingRequest
            | None => Eligible (PayoutSettings.autoApprovalThreshold settings)
            end
      | _, _ => SettingsOrAgentNotFound
      end
  end.

(** The counts of [getAutoApprovalAnalytics]: the requests created in the
    range ([None] is an absent bound), those flagged as auto-approved and
    those flagged as auto-paid. *)
Definition inRange (startDate endDate : option Date.t) (p : PayoutRequest.t)
  : bool :=
  match startDate with
  | Some d => d <=? PayoutRequest.createdAt p
  | None => true
  end
  && match endDate with
     | Some d => PayoutRequest.createdAt p <=? d
     | None => true
     end.

Record Counts := mkCounts {
  totalRequests : nat;
  autoApprovedCount : nat;
  autoPaidCount : nat
}.

Definition counts (startDate endDate : option Date.t) (db : Db.t) : Counts :=
  let inside := filter (inRange startDate endDate) (Db.payoutRequests db) in
  {| totalRequests := List.length inside;
     autoApprovedCount :=
       List.length
         (filter (fun p => PayoutRequest.autoApproved (PayoutRequest.metadata p))
                 inside);
     autoPaidCount :=
       List.length
         (filter (fun p => PayoutRequest.autoPaid (PayoutRequest.metadata p))
                 inside) |}.

(** [exports.getAutoApprovalAnalytics] of
    [controllers/payoutSettingsController.js]: the three counts of the
    summary; [None] is the 400 answer when the policy cannot be read.  The
    two rates and the settings block of the answer are computed from these
    counts and from the stored policy and are not modelled. *)
Definition getAutoApprovalAnalytics (startDate endDate : option Date.t)
    (db : Db.t) : option Counts :=
  match Db.settings db with
  | PayoutSettings.Unreachable => None
  | PayoutSettings.Stored _ => Some (counts startDate endDate db)
  end.

End AutoApproval.

(** ** Quantities the further properties speak about *)

(** The entries the allocation loop of the bulk payment takes. *)
Fixpoint taken (commissions : list Commission.t) (amount totalPaid : Z)
  : list Commission.t :=
  match commissions with
  | [] => []
  | c :: rest =>
      if totalPaid + Commission.amount c <=? amount then
        c :: (if amount <=? totalPaid + Commission.amount c then []
              else taken rest amount (totalPaid + Commission.amount c))
      else taken rest amount totalPaid
  end.

(** The pending entries the bulk payment reads for a request. *)
Definition bulkCandidates (db : Db.t) (p : PayoutRequest.t)
  : list Commission.t :=
  match Query.userById (PayoutRequest.agentId p) db with
  | Some _ =>
      firstn 100 (Query.pendingOldestFirst (PayoutRequest.agentId p) db)
  | None => []
  end.

(** What identifies a payout request and what a payment may not alter. *)
Definition requestCore (p : PayoutRequest.t)
  : ObjectId * ObjectId * Z * PayoutRequest.Status * PayoutRequest.Metadata :=
  (PayoutRequest._id p, PayoutRequest.agentId p, PayoutRequest.amount p,
   PayoutRequest.status p, PayoutRequest.metadata p).

(** What a run of bulk settlements keeps of the database it started from:
    the entries, their ids and amounts, every agent's ledger total, and
    the payout requests up to their recorded commission ids; pending
    balances can only go down. *)
Definition settledFrom (db db' : Db.t) : Prop :=
  map Commission._id (Db.commissions db') = map Commission._id (Db.commissions db)
  /\ map Commission.amount (Db.commissions db')
     = map Commission.amount (Db.commissions db)
  /\ Db.nextId db' = Db.nextId db
  /\ Db.users db' = Db.users db
  /\ Db.orders db' = Db.orders db
  /\ Db.settings db' = Db.settings db
  /\ (forall agentId,
        Ledgers.ledgerTotal agentId db' = Ledgers.ledgerTotal agentId db)
  /\ (forall agentId,
        Ledgers.pendingBalance agentId db' <= Ledgers.pendingBalance agentId db)
  /\ map requestCore (Db.payoutRequests db')
     = map requestCore (Db.payoutRequests db).

(** No stored payout request carries the auto-paid flag. *)
Definition neverAutoPaid (db : Db.t) : Prop :=
  forall p, In p (Db.payoutRequests db) ->
            PayoutRequest.autoPaid (PayoutRequest.metadata p) = false.

(** ** Relations the further properties speak about *)

(** The fields of a request that no transition writes. *)
Definition sameRequest (a b : PayoutRequest.t) : Prop :=
  PayoutRequest._id a = PayoutRequest._id b
  /\ PayoutRequest.agentId a = PayoutRequest.agentId b
  /\ PayoutRequest.amount a = PayoutRequest.amount b
  /\ PayoutRequest.method a = PayoutRequest.method b
  /\ PayoutRequest.accountDetails a = PayoutRequest.accountDetails b
  /\ PayoutRequest.requestedAt a = PayoutRequest.requestedAt b
  /\ PayoutRequest.metadata a = PayoutRequest.metadata b
  /\ PayoutRequest.createdAt a = PayoutRequest.createdAt b.

(** What the collections other than the payout requests keep. *)
Definition sameLedger (db' db : Db.t) : Prop :=
  Db.commissions db' = Db.commissions db
  /\ Db.users db' = Db.users db
  /\ Db.orders db' = Db.orders db
  /\ Db.settings db' = Db.settings db
  /\ Db.nextId db' = Db.nextId db.

(** What a run of the handler leaves outside the payout requests and the
    commissions. *)
Definition sameAccounts (db' db : Db.t) : Prop :=
  Db.users db' = Db.users db /\ Db.orders db' = Db.orders db
  /\ Db.settings db' = Db.settings db.

(** The request as the action hold of [processPayoutRequest] stores it. *)
Definition heldRequest (notes : string) (userId : ObjectId) (now : Date.t)
    (pr : PayoutRequest.t) : PayoutRequest.t :=
  let held := PayoutRequest.setProcessed now userId
                (PayoutRequest.setStatus PayoutRequest.on_hold pr) in
  if JS.truthy notes then PayoutRequest.setNotes (JS.trim notes) held else held.

(** The request as the action release stores it. *)
Definition releasedRequest (notes : string) (userId : ObjectId) (now : Date.t)
    (pr : PayoutRequest.t) : PayoutRequest.t :=
  let released := PayoutRequest.setProcessed now userId
                    (PayoutRequest.setStatus PayoutRequest.pending pr) in
  if JS.truthy notes then PayoutRequest.setNotes (JS.trim notes) released
  else released.

(** The second save of the handler, which stores the notes of the body
    when the updated request carries none. *)
Definition withBodyNotes (action notes : string) (updated : PayoutRequest.t)
  : PayoutRequest.t :=
  if JS.truthy notes && negb (JS.truthy (PayoutRequest.notes updated))
     && negb (String.eqb action "reject")
  then PayoutRequest.setNotes (JS.trim notes) updated
  else updated.

(** The request as the action reject stores it: [payoutRequest.reject] with
    the trimmed reason. *)
Definition rejectedRequest (reason : string) (userId : ObjectId)
    (now : Date.t) (pr : PayoutRequest.t) : PayoutRequest.t :=
  PayoutRequest.reject (JS.trim reason) userId now pr.

(** * Properties *)

(** ** Sums and lookups *)

Lemma fold_amount_shift (A : Type) (f : A -> Z) (l : list A) (a : Z) :
  fold_left (fun sum x => sum + f x) l a
  = a + fold_left (fun sum x => sum + f x) l 0.
Proof.
  revert a. induction l as [|x l IH]; intro a; simpl.
  - lia.
  - rewrite IH, (IH (f x)). lia.
Qed.

Lemma totalAmount_nil : Query.totalAmount [] = 0.
Proof. reflexivity. Qed.

Lemma totalAmount_cons c l :
  Query.totalAmount (c :: l) = Commission.amount c + Query.totalAmount l.
Proof.
  unfold Query.totalAmount. simpl.
  rewrite fold_amount_shift. reflexivity.
Qed.

Lemma totalAmount_app l1 l2 :
  Query.totalAmount (l1 ++ l2) = Query.totalAmount l1 + Query.totalAmount l2.
Proof.
  induction l1 as [|c l1 IH]; cbn [app].
  - rewrite totalAmount_nil. lia.
  - rewrite !totalAmount_cons, IH. lia.
Qed.

Lemma totalAmount_perm l1 l2 :
  Permutation l1 l2 -> Query.totalAmount l1 = Query.totalAmount l2.
Proof.
  induction 1; rewrite ?totalAmount_cons in *; lia.
Qed.

Lemma round_nonneg (t : Z) (q : Q) :
  0 <= t -> (0 <= q)%Q -> 0 <= JS.round (inject_Z t * q).
Proof.
  intros Ht Hq. unfold JS.round.
  change 0 with (Qfloor 0).
  apply Qfloor_resp_le.
  assert (H : (0 <= inject_Z t * q)%Q).
  { apply Qmult_le_0_compat; [|assumption].
    change 0%Q with (inject_Z 0). rewrite <- Zle_Qle. assumption. }
  apply Qle_trans with (inject_Z t * q)%Q; [assumption|].
  rewrite <- (Qplus_0_r (inject_Z t * q)) at 1.
  apply Qplus_le_r. discriminate.
Qed.

(** ** The rate calculator *)

Lemma calculateCommission_loaded (s : PayoutSettings.t) (db : Db.t)
    (orderTotal : Z) (ty : Commission.Type_) (deliveryCount : Z) :
  Db.settings db = PayoutSettings.Stored (Some s) ->
  Ledger.calculateCommission orderTotal ty deliveryCount db
  = (Commission.calculateWith s orderTotal ty deliveryCount, db).
Proof.
  intro H. unfold Ledger.calculateCommission, Write.getCurrentSettings.
  rewrite H. reflexivity.
Qed.

(** With a loaded policy a delivery commission is the fixed amount times
    the number of deliveries, flagged as fixed, with the fixed amount as
    its rate. *)
Lemma calculateCommission_delivery (s : PayoutSettings.t) (db : Db.t)
    (orderTotal deliveryCount : Z) :
  Db.settings db = PayoutSettings.Stored (Some s) ->
  let r := fst (Ledger.calculateCommission orderTotal Commission.delivery
                  deliveryCount db) in
  Commission.c_amount r
  = PayoutSettings.deliveryAmount (PayoutSettings.commissionRates s)
    * deliveryCount
  /\ Commission.c_isFixedAmount r = true
  /\ Commission.c_rate r
     = inject_Z (PayoutSettings.deliveryAmount (PayoutSettings.commissionRates s)).
Proof.
  intro H. rewrite (calculateCommission_loaded s db _ _ _ H). simpl. auto.
Qed.

(** With a loaded policy whose agent-order rate is not zero, an agent-order
    commission is the order total times the rate, rounded to the nearest
    shilling, flagged as a percentage, with the rate recorded. *)
Lemma calculateCommission_agent_order (s : PayoutSettings.t) (db : Db.t)
    (orderTotal deliveryCount : Z) :
  Db.settings db = PayoutSettings.Stored (Some s) ->
  ~ (PayoutSettings.agentOrder (PayoutSettings.commissionRates s) == 0)%Q ->
  let r := fst (Ledger.calculateCommission orderTotal Commission.agent_order
                  deliveryCount db) in
  Commission.c_amount r
  = JS.round (inject_Z orderTotal
              * PayoutSettings.agentOrder (PayoutSettings.commissionRates s))
  /\ Commission.c_isFixedAmount r = false
  /\ Commission.c_rate r
     = PayoutSettings.agentOrder (PayoutSettings.commissionRates s).
Proof.
  intros H Hz. rewrite (calculateCommission_loaded s db _ _ _ H). simpl.
  destruct (Qeq_bool _ 0) eqn:E.
  - apply Qeq_bool_iff in E. contradiction.
  - auto.
Qed.

(** An order of 10000 at 3% earns exactly 300. *)
Lemma calculateCommission_three_percent :
  Commission.c_amount
    (fst (Ledger.calculateCommission 10000 Commission.agent_order 1
            (Scenario.fresh
               (PayoutSettings.Stored
                  (Some (Scenario.policy (3 # 100) false false))))))
  = 300.
Proof. reflexivity. Qed.

(** C5 (the code departs from the claim): under a loaded policy whose
    agent-order rate is 0, the calculator answers 300 on an order of 10000
    and records the rate 3/100, where the order total times the policy's
    rate, rounded, is 0; the delivery branch of the same policy still uses
    the stored amount as it is. *)
Theorem calculateCommission_zero_rate_replaced :
  let db := Scenario.fresh
              (PayoutSettings.Stored
                 (Some (Scenario.policy 0 false false))) in
  let r := fst (Ledger.calculateCommission 10000 Commission.agent_order 1 db) in
  Commission.c_amount r = 300
  /\ Commission.c_rate r = (3 # 100)%Q
  /\ JS.round (inject_Z 10000 * 0) = 0
  /\ Commission.c_amount
       (fst (Ledger.calculateCommission 10000 Commission.delivery 3 db)) = 600.
Proof. repeat split; reflexivity. Qed.

(** ** Commission creation *)

Lemma find_none_filter (A : Type) (p : A -> bool) (l : list A) :
  find p l = None <-> filter p l = [].
Proof.
  induction l as [|x l IH]; simpl; [tauto|].
  destruct (p x); [split; discriminate|exact IH].
Qed.

Lemma find_some_head (A : Type) (p : A -> bool) (l : list A) (x : A) :
  find p l = Some x -> exists r, filter p l = x :: r.
Proof.
  induction l as [|y l IH]; simpl; [discriminate|].
  destruct (p y) eqn:E.
  - intro H. injection H as ->. eauto.
  - exact IH.
Qed.

Lemma filter_app_single (A : Type) (p : A -> bool) (l : list A) (x : A) :
  filter p (l ++ [x]) = filter p l ++ (if p x then [x] else []).
Proof. rewrite filter_app. reflexivity. Qed.

Lemma itemCount_unfold (o : Order.t) :
  Ledger.itemCount o
  = fold_left (fun sum item => sum + Order.quantity item) (Order.orderItems o) 0.
Proof. reflexivity. Qed.

(** The calculated amount and rate pass the schema validators when the
    order total and the policy's rates are not negative. *)
Lemma calculated_valid (db : Db.t) (orderTotal : Z) (ty : Commission.Type_)
    (deliveryCount : Z) :
  Ledgers.ratesInRange (Db.settings db) ->
  0 <= orderTotal -> 0 <= deliveryCount ->
  let r := fst (Ledger.calculateCommission orderTotal ty deliveryCount db) in
  0 <= Commission.c_amount r /\ (0 <= Commission.c_rate r)%Q
  /\ Commission.c_deliveryCount r = deliveryCount.
Proof.
  intros Hr Ht Hd. unfold Ledger.calculateCommission, Write.getCurrentSettings.
  assert (H3 : (0 <= 3 # 100)%Q) by discriminate.
  assert (H200 : (0 <= inject_Z 200)%Q) by discriminate.
  destruct (Db.settings db) as [|[s|]]; cbn [fst Ledgers.ratesInRange] in *.
  - destruct ty; cbn [Commission.calculateFallback Commission.c_amount
                      Commission.c_rate Commission.c_deliveryCount];
      repeat split; try lia; try assumption.
    apply round_nonneg; assumption.
  - destruct Hr as [Hda Hao].
    destruct ty; cbn [Commission.calculateWith Commission.c_amount
                      Commission.c_rate Commission.c_deliveryCount];
      repeat split; try nia.
    + change 0%Q with (inject_Z 0). rewrite <- Zle_Qle. exact Hda.
    + destruct (Qeq_bool _ 0); apply round_nonneg; assumption.
    + destruct (Qeq_bool _ 0); assumption.
  - destruct ty; cbn -[JS.round Z.mul Qle inject_Z];
      repeat split; try lia; try assumption.
    apply round_nonneg; assumption.
Qed.

Lemma createCommission_existing {db : Db.t} {orderId agentId : ObjectId}
    {ty : Commission.Type_} (now : Date.t) {order : Order.t} {agent : User.t}
    {c : Commission.t} :
  Query.orderById orderId db = Some order ->
  Query.userById agentId db = Some agent ->
  User.isAgent agent = true ->
  Query.commissionForOrder orderId agentId ty db = Some c ->
  Ledger.createCommission orderId agentId ty now db = (Ok c, db).
Proof.
  intros Ho Hu Ha Hc. unfold Ledger.createCommission.
  rewrite Ho, Hu, Ha, Hc. reflexivity.
Qed.

Lemma getCurrentSettings_keeps (db : Db.t) :
  let db' := snd (Write.getCurrentSettings db) in
  Db.commissions db' = Db.commissions db
  /\ Db.orders db' = Db.orders db
  /\ Db.users db' = Db.users db
  /\ Db.payoutRequests db' = Db.payoutRequests db.
Proof.
  unfold Write.getCurrentSettings.
  destruct (Db.settings db) as [|[s|]]; simpl; auto.
Qed.

(** What a first recording stores: one new pending entry, at the end of
    the collection, carrying what the calculator answered. *)
Lemma createCommission_new {db : Db.t} {orderId agentId : ObjectId}
    (ty : Commission.Type_) (now : Date.t) {order : Order.t} {agent : User.t} :
  Query.orderById orderId db = Some order ->
  Query.userById agentId db = Some agent ->
  User.isAgent agent = true ->
  Query.commissionForOrder orderId agentId ty db = None ->
  Ledgers.ratesInRange (Db.settings db) ->
  0 <= Order.totalPrice order ->
  (ty = Commission.delivery -> 1 <= Ledger.itemCount order) ->
  exists c db1,
    Ledger.createCommission orderId agentId ty now db = (Ok c, db1)
    /\ Db.commissions db1 = Db.commissions db ++ [c]
    /\ Db.orders db1 = Db.orders db
    /\ Db.users db1 = Db.users db
    /\ Query.sameKey orderId agentId ty c = true
    /\ Commission.status c = Commission.pending
    /\ let data := fst (Ledger.calculateCommission (Order.totalPrice order) ty
                          (match ty with
                           | Commission.delivery => Ledger.itemCount order
                           | Commission.agent_order => 1
                           end) db) in
       Commission.amount c = Commission.c_amount data
       /\ Commission.commissionRate c = Commission.c_rate data
       /\ Commission.isFixedAmount c = Commission.c_isFixedAmount data
       /\ Commission.settingsVersion c = Commission.c_settingsId data.
Proof.
  intros Ho Hu Ha Hc Hr Ht Hn. unfold Ledger.createCommission.
  rewrite Ho, Hu, Ha, Hc. cbn [negb].
  set (n := match ty with
            | Commission.delivery => Ledger.itemCount order
            | Commission.agent_order => 1
            end).
  assert (Hn1 : 1 <= n) by (subst n; destruct ty; [apply Hn; reflexivity|lia]).
  destruct (calculated_valid db (Order.totalPrice order) ty n Hr Ht
              (ltac:(lia) : 0 <= n))
    as (Hamt & Hrate & Hcount).
  pose proof (getCurrentSettings_keeps db) as Hkeep.
  destruct (Ledger.calculateCommission (Order.totalPrice order) ty n db)
    as [data db0] eqn:Ecalc.
  assert (Edb0 : db0 = snd (Write.getCurrentSettings db)).
  { unfold Ledger.calculateCommission in Ecalc.
    destruct (Write.getCurrentSettings db) as [[s|] d]; inversion Ecalc; reflexivity. }
  cbn [fst] in *.
  unfold Write.createCommission.
  cbn [Ledger.newCommissionFields Commission.orderId Commission.agentId
       Commission.type Commission.amount Commission.status
       Commission.orderTotal Commission.commissionRate
       Commission.isFixedAmount Commission.deliveryCount
       Commission.settingsVersion].
  assert (Hv : Commission.valid
                 (Commission.mk (Db.nextId db0) orderId agentId ty
                    (Commission.c_amount data) Commission.pending
                    (Order.totalPrice order) (Commission.c_rate data)
                    (Commission.c_isFixedAmount data)
                    (Commission.c_deliveryCount data) None None None
                    (Commission.c_settingsId data) now) = true).
  { unfold Commission.valid. cbn [Commission.amount Commission.commissionRate
                                   Commission.deliveryCount].
    rewrite Hcount.
    apply andb_true_iff; split; [apply andb_true_iff; split|].
    - apply Z.leb_le; assumption.
    - apply Qle_bool_iff; assumption.
    - apply Z.leb_le; assumption. }
  rewrite Hv.
  eexists; eexists. split; [reflexivity|].
  destruct Hkeep as (Hk1 & Hk2 & Hk3 & _). rewrite <- Edb0 in *.
  cbn. rewrite Hk1, Hk2, Hk3.
  repeat split; try reflexivity.
  unfold Query.sameKey. cbn.
  rewrite !Nat.eqb_refl. destruct ty; reflexivity.
Qed.

Lemma entriesFor_find (db : Db.t) (orderId agentId : ObjectId)
    (ty : Commission.Type_) :
  Query.commissionForOrder orderId agentId ty db
  = hd_error (Ledger.entriesFor orderId agentId ty db).
Proof.
  unfold Query.commissionForOrder, Ledger.entriesFor.
  induction (Db.commissions db) as [|c l IH]; simpl; [reflexivity|].
  destruct (Query.sameKey orderId agentId ty c); [reflexivity|exact IH].
Qed.

(** C4 (as amended): for an existing order whose total is not negative
    (and, for a delivery commission, which has at least one item), an
    account with the agent role and policy rates within the schema bounds,
    recording a commission twice for the same (order, agent, type) answers
    the same entry both times and the second call leaves the database as
    the first left it; afterwards the key has exactly one entry whenever
    it had at most one before, and a call that finds an entry stores
    nothing. *)
Theorem createCommission_twice (db : Db.t) (orderId agentId : ObjectId)
    (ty : Commission.Type_) (now1 now2 : Date.t) (order : Order.t)
    (agent : User.t) :
  Query.orderById orderId db = Some order ->
  Query.userById agentId db = Some agent ->
  User.isAgent agent = true ->
  Ledgers.ratesInRange (Db.settings db) ->
  0 <= Order.totalPrice order ->
  (ty = Commission.delivery -> 1 <= Ledger.itemCount order) ->
  exists c db1,
    Ledger.createCommission orderId agentId ty now1 db = (Ok c, db1)
    /\ Ledger.createCommission orderId agentId ty now2 db1 = (Ok c, db1)
    /\ ((List.length (Ledger.entriesFor orderId agentId ty db) <= 1)%nat ->
        Ledger.entriesFor orderId agentId ty db1 = [c])
    /\ (Ledger.entriesFor orderId agentId ty db <> [] -> db1 = db).
Proof.
  intros Ho Hu Ha Hr Ht Hn.
  destruct (Query.commissionForOrder orderId agentId ty db) as [c|] eqn:Hc.
  - exists c, db.
    rewrite !(createCommission_existing _ Ho Hu Ha Hc).
    repeat split; try reflexivity.
    rewrite entriesFor_find in Hc.
    destruct (Ledger.entriesFor orderId agentId ty db) as [|x [|y r]];
      simpl in *; try discriminate; try lia.
    intros _. congruence.
  - destruct (createCommission_new ty now1 Ho Hu Ha Hc Hr Ht Hn)
      as (c & db1 & H1 & Hcs & Hos & Hus & Hkey & _).
    exists c, db1. split; [exact H1|].
    assert (Hnone : Ledger.entriesFor orderId agentId ty db = []).
    { rewrite entriesFor_find in Hc.
      destruct (Ledger.entriesFor orderId agentId ty db); [reflexivity|discriminate]. }
    assert (Hone : Ledger.entriesFor orderId agentId ty db1 = [c]).
    { unfold Ledger.entriesFor in *. rewrite Hcs, filter_app_single, Hnone, Hkey.
      reflexivity. }
    split; [|split].
    + apply createCommission_existing with (order := order) (agent := agent).
      * unfold Query.orderById. rewrite Hos. exact Ho.
      * unfold Query.userById. rewrite Hus. exact Hu.
      * exact Ha.
      * rewrite entriesFor_find, Hone. reflexivity.
    + intros _. exact Hone.
    + intro H. contradiction.
Qed.

Lemma createCommission_twice_witness :
  exists c db1,
    Ledger.createCommission 100%nat 7%nat Commission.delivery 10
      (Scenario.fresh (PayoutSettings.Stored None)) = (Ok c, db1)
    /\ Ledger.createCommission 100%nat 7%nat Commission.delivery 20 db1
       = (Ok c, db1)
    /\ ((List.length (Ledger.entriesFor 100%nat 7%nat Commission.delivery
                        (Scenario.fresh (PayoutSettings.Stored None))) <= 1)%nat ->
        Ledger.entriesFor 100%nat 7%nat Commission.delivery db1 = [c])
    /\ (Ledger.entriesFor 100%nat 7%nat Commission.delivery
          (Scenario.fresh (PayoutSettings.Stored None)) <> [] ->
        db1 = Scenario.fresh (PayoutSettings.Stored None)).
Proof.
  apply (@createCommission_twice (Scenario.fresh (PayoutSettings.Stored None))
           100%nat 7%nat Commission.delivery 10 20
           Scenario.order1 Scenario.agentA).
  - reflexivity.
  - reflexivity.
  - reflexivity.
  - exact I.
  - vm_compute; discriminate.
  - intros _. vm_compute; discriminate.
Defined.

(** C4 (the claim as stated fails): once a settlement has split the entry
    of a key, two more recordings for that key answer the same entry and
    store nothing, yet the key has two entries, not one. *)
Lemma createCommission_after_split_two_entries :
  exists c,
    Ledger.createCommission 100%nat 7%nat Commission.delivery 30
      Scenario.afterSplit = (Ok c, Scenario.afterSplit)
    /\ Ledger.createCommission 100%nat 7%nat Commission.delivery 40
         Scenario.afterSplit = (Ok c, Scenario.afterSplit)
    /\ List.length (Ledger.entriesFor 100%nat 7%nat Commission.delivery
                      Scenario.afterSplit) = 2%nat
    /\ List.length (Ledger.entriesFor 100%nat 7%nat Commission.delivery
                      Scenario.afterSplit) <> 1%nat.
Proof.
  eexists. split; [|split; [|split]].
  - vm_compute. reflexivity.
  - vm_compute. reflexivity.
  - vm_compute. reflexivity.
  - vm_compute. discriminate.
Qed.

(** C9 (as amended): when the policy collection cannot be loaded, recording
    a commission for an existing order and an agent account does not fail
    on that account: the calculator answers with the built-in defaults, 200
    shillings per delivered item or 3% of the order total, with no policy
    reference, and the entry computed from them is stored as pending. *)
Theorem createCommission_policy_unreachable (db : Db.t)
    (orderId agentId : ObjectId) (ty : Commission.Type_) (now : Date.t)
    (order : Order.t) (agent : User.t) :
  Db.settings db = PayoutSettings.Unreachable ->
  Query.orderById orderId db = Some order ->
  Query.userById agentId db = Some agent ->
  User.isAgent agent = true ->
  Query.commissionForOrder orderId agentId ty db = None ->
  0 <= Order.totalPrice order ->
  (ty = Commission.delivery -> 1 <= Ledger.itemCount order) ->
  exists c db1,
    Ledger.createCommission orderId agentId ty now db = (Ok c, db1)
    /\ Db.commissions db1 = Db.commissions db ++ [c]
    /\ Commission.status c = Commission.pending
    /\ Commission.settingsVersion c = None
    /\ match ty with
       | Commission.delivery =>
           Commission.amount c = 200 * Ledger.itemCount order
           /\ Commission.commissionRate c = inject_Z 200
           /\ Commission.isFixedAmount c = true
       | Commission.agent_order =>
           Commission.amount c
           = JS.round (inject_Z (Order.totalPrice order) * (3 # 100))
           /\ Commission.commissionRate c = (3 # 100)%Q
           /\ Commission.isFixedAmount c = false
       end.
Proof.
  intros Hs Ho Hu Ha Hc Ht Hn.
  assert (Hr : Ledgers.ratesInRange (Db.settings db)) by (rewrite Hs; exact I).
  destruct (createCommission_new ty now Ho Hu Ha Hc Hr Ht Hn)
    as (c & db1 & H1 & Hcs & _ & _ & _ & Hst & Hamt & Hrate & Hfix & Hver).
  exists c, db1.
  unfold Ledger.calculateCommission, Write.getCurrentSettings in *.
  rewrite Hs in *. cbn [fst] in *.
  repeat split; try assumption.
  - rewrite Hver. destruct ty; reflexivity.
  - destruct ty; repeat split; assumption.
Qed.

Lemma createCommission_policy_unreachable_witness :
  exists c db1,
    Ledger.createCommission 100%nat 7%nat Commission.agent_order 10
      (Scenario.fresh PayoutSettings.Unreachable) = (Ok c, db1)
    /\ Db.commissions db1
       = Db.commissions (Scenario.fresh PayoutSettings.Unreachable) ++ [c]
    /\ Commission.status c = Commission.pending
    /\ Commission.settingsVersion c = None
    /\ (Commission.amount c
        = JS.round (inject_Z (Order.totalPrice Scenario.order1) * (3 # 100))
        /\ Commission.commissionRate c = (3 # 100)%Q
        /\ Commission.isFixedAmount c = false).
Proof.
  apply (@createCommission_policy_unreachable
           (Scenario.fresh PayoutSettings.Unreachable)
           100%nat 7%nat Commission.agent_order 10
           Scenario.order1 Scenario.agentA).
  - reflexivity.
  - reflexivity.
  - reflexivity.
  - reflexivity.
  - reflexivity.
  - vm_compute; discriminate.
  - discriminate.
Defined.

(** C9 (the claim as stated fails): with the policy collection unreachable
    the recording of an agent-order commission on an order of 10000 does
    not fail; it stores an entry of 300 computed from the substituted 3%. *)
Lemma createCommission_unreachable_not_failing :
  exists c db1,
    Ledger.createCommission 100%nat 7%nat Commission.agent_order 10
      (Scenario.fresh PayoutSettings.Unreachable) = (Ok c, db1)
    /\ Commission.amount c = 300
    /\ Commission.commissionRate c = (3 # 100)%Q
    /\ Commission.settingsVersion c = None
    /\ In c (Db.commissions db1).
Proof.
  eexists; eexists. split; [vm_compute; reflexivity|].
  repeat split; try reflexivity. left; reflexivity.
Qed.

(** C10: when every entry of the key (order, agent, type) is cancelled and
    there is at least one, recording the commission again for an existing
    order and an agent account answers a stored cancelled entry of that key
    and leaves the database unchanged: no pending entry is created. *)
Theorem createCommission_returns_cancelled (db : Db.t)
    (orderId agentId : ObjectId) (ty : Commission.Type_) (now : Date.t)
    (order : Order.t) (agent : User.t) :
  Query.orderById orderId db = Some order ->
  Query.userById agentId db = Some agent ->
  User.isAgent agent = true ->
  Ledger.entriesFor orderId agentId ty db <> [] ->
  (forall c, In c (Ledger.entriesFor orderId agentId ty db) ->
             Commission.status c <> Commission.pending
             /\ Commission.status c <> Commission.paid) ->
  exists c,
    Ledger.createCommission orderId agentId ty now db = (Ok c, db)
    /\ In c (Db.commissions db)
    /\ Query.sameKey orderId agentId ty c = true
    /\ Commission.status c = Commission.cancelled.
Proof.
  intros Ho Hu Ha Hne Hall.
  destruct (Ledger.entriesFor orderId agentId ty db) as [|c r] eqn:E;
    [contradiction|].
  exists c. split.
  - apply createCommission_existing with (order := order) (agent := agent);
      try assumption.
    rewrite entriesFor_find, E. reflexivity.
  - assert (Hin : In c (Ledger.entriesFor orderId agentId ty db))
      by (rewrite E; left; reflexivity).
    unfold Ledger.entriesFor in Hin. apply filter_In in Hin.
    destruct Hin as [Hin Hk]. repeat split; try assumption.
    destruct (Hall c (or_introl eq_refl)) as [Hp Hq].
    destruct (Commission.status c); congruence.
Qed.

(** ** Oldest first *)

Lemma insertByCreatedAt_perm c l :
  Permutation (Query.insertByCreatedAt c l) (c :: l).
Proof.
  induction l as [|d l IH]; simpl.
  - apply Permutation_refl.
  - destruct (Commission.createdAt c <=? Commission.createdAt d).
    + apply Permutation_refl.
    + apply perm_trans with (d :: c :: l).
      * apply perm_skip. exact IH.
      * apply perm_swap.
Qed.

Lemma sortByCreatedAt_perm l : Permutation (Query.sortByCreatedAt l) l.
Proof.
  induction l as [|c l IH]; simpl.
  - apply perm_nil.
  - apply perm_trans with (c :: Query.sortByCreatedAt l).
    + apply insertByCreatedAt_perm.
    + apply perm_skip. exact IH.
Qed.

Lemma insertByCreatedAt_sorted c l :
  StronglySorted Ledgers.olderOrEqual l ->
  StronglySorted Ledgers.olderOrEqual (Query.insertByCreatedAt c l).
Proof.
  induction 1 as [|d l Hs IH Hall]; simpl.
  - constructor; constructor.
  - destruct (Commission.createdAt c <=? Commission.createdAt d) eqn:E.
    + apply Z.leb_le in E. constructor.
      * constructor; assumption.
      * constructor; [exact E|].
        eapply Forall_impl; [|exact Hall].
        intros x Hx. unfold Ledgers.olderOrEqual in *. lia.
    + apply Z.leb_gt in E. constructor; [exact IH|].
      apply (Permutation_Forall (Permutation_sym (insertByCreatedAt_perm c l))).
      constructor; [unfold Ledgers.olderOrEqual; lia|exact Hall].
Qed.

Lemma sortByCreatedAt_sorted l :
  StronglySorted Ledgers.olderOrEqual (Query.sortByCreatedAt l).
Proof.
  induction l as [|c l IH]; simpl.
  - constructor.
  - apply insertByCreatedAt_sorted. exact IH.
Qed.

(** ** Well-formed databases *)

Lemma distinct_NoDup l : Db.distinct l = true <-> NoDup l.
Proof.
  induction l as [|x l IH]; simpl.
  - split; [constructor|reflexivity].
  - rewrite andb_true_iff, negb_true_iff, IH. split.
    + intros [Hx Hl]. constructor; [|exact Hl].
      intro Hin. assert (existsb (Nat.eqb x) l = true).
      { apply existsb_exists. exists x. split; [exact Hin|apply Nat.eqb_refl]. }
      congruence.
    + intro H. inversion H as [|? ? Hx Hl]; subst. split; [|exact Hl].
      destruct (existsb (Nat.eqb x) l) eqn:E; [|reflexivity].
      apply existsb_exists in E. destruct E as (y & Hy & Hxy).
      apply Nat.eqb_eq in Hxy. subst. contradiction.
Qed.

Lemma wf_parts db :
  Db.wf db = true ->
  NoDup (map Commission._id (Db.commissions db))
  /\ (forall c, In c (Db.commissions db) -> (Commission._id c < Db.nextId db)%nat)
  /\ (forall c, In c (Db.commissions db) -> Commission.valid c = true)
  /\ NoDup (map PayoutRequest._id (Db.payoutRequests db))
  /\ (forall p, In p (Db.payoutRequests db) ->
                (PayoutRequest._id p < Db.nextId db)%nat)
  /\ (forall p, In p (Db.payoutRequests db) -> 1 <= PayoutRequest.amount p).
Proof.
  unfold Db.wf. rewrite !andb_true_iff, !forallb_forall, !distinct_NoDup.
  intros (((((H1 & H2) & H3) & H4) & H5) & H6). repeat split; try assumption.
  - intros c Hc. apply Nat.ltb_lt. auto.
  - intros p Hp. apply Nat.ltb_lt. auto.
  - intros p Hp. apply Z.leb_le. auto.
Qed.

Lemma same_id_same_doc {l : list Commission.t} {c d : Commission.t} :
  NoDup (map Commission._id l) -> In c l -> In d l ->
  Commission._id c = Commission._id d -> c = d.
Proof.
  induction l as [|x l IH]; simpl; [contradiction|].
  intros Hnd Hc Hd E. inversion Hnd as [|? ? Hx Hl]; subst.
  destruct Hc as [->|Hc], Hd as [->|Hd]; try reflexivity.
  - exfalso. apply Hx. rewrite E. apply in_map. exact Hd.
  - exfalso. apply Hx. rewrite <- E. apply in_map. exact Hc.
  - auto.
Qed.

Lemma distinct_ids_filter (keep : Commission.t -> bool)
    (cs : list Commission.t) :
  NoDup (map Commission._id cs) ->
  NoDup (map Commission._id (filter keep cs)).
Proof.
  induction cs as [|c cs IH]; cbn [filter map]; [auto|].
  intro Hnd. apply NoDup_cons_iff in Hnd. destruct Hnd as [Hc Hcs].
  destruct (keep c); cbn [map]; [|auto].
  apply NoDup_cons; [|auto].
  intro Hin. apply Hc. apply in_map_iff in Hin.
  destruct Hin as (d & Ed & Hd). apply filter_In in Hd.
  apply in_map_iff. exists d. tauto.
Qed.

(** The pending list of an agent, as the settlement reads it. *)
Lemma pendingOldestFirst_facts db agentId :
  Db.wf db = true ->
  let pend := Query.pendingOldestFirst agentId db in
  Permutation pend (Query.pendingCommissions agentId db)
  /\ StronglySorted Ledgers.olderOrEqual pend
  /\ NoDup (map Commission._id pend)
  /\ (forall c, In c pend ->
        In c (Db.commissions db)
        /\ Commission.agentId c = agentId
        /\ Commission.status c = Commission.pending
        /\ Commission.valid c = true).
Proof.
  intros Hwf pend. destruct (wf_parts db Hwf) as (Hnd & _ & Hval & _).
  assert (Hperm : Permutation pend (Query.pendingCommissions agentId db))
    by apply sortByCreatedAt_perm.
  split; [exact Hperm|]. split; [apply sortByCreatedAt_sorted|]. split.
  - apply (Permutation_NoDup (Permutation_map _ (Permutation_sym Hperm))).
    apply distinct_ids_filter. exact Hnd.
  - intros c Hc. apply (Permutation_in _ Hperm) in Hc.
    unfold Query.pendingCommissions in Hc. apply filter_In in Hc.
    destruct Hc as [Hin Hp]. unfold Query.isPendingOf in Hp.
    apply andb_true_iff in Hp. destruct Hp as [Ha Hs].
    apply Nat.eqb_eq in Ha.
    repeat split; auto.
    destruct (Commission.status c); simpl in Hs; congruence.
Qed.

(** ** The allocation walk *)

Lemma walk_nothing_left copy now l db :
  Settlement.walk copy now l 0 db = (Ok (Settlement.mkWalk [] [] 0), db).
Proof. destruct l; reflexivity. Qed.

Lemma createCommission_remainder copy c need now db :
  Commission.valid c = true -> need < Commission.amount c ->
  Write.createCommission
    (Settlement.remainderFields copy c (Commission.amount c - need)) now db
  = (Ok (Ledgers.remainderOf copy c need now (Db.nextId db)),
     Db.withNextId (S (Db.nextId db))
       (Db.withCommissions
          (Db.commissions db
           ++ [Ledgers.remainderOf copy c need now (Db.nextId db)]) db)).
Proof.
  intros Hv Hn. unfold Write.createCommission.
  cbn [Settlement.remainderFields Commission.orderId Commission.agentId
       Commission.type Commission.amount Commission.status
       Commission.orderTotal Commission.commissionRate
       Commission.isFixedAmount Commission.deliveryCount
       Commission.settingsVersion].
  fold (Ledgers.remainderOf copy c need now (Db.nextId db)).
  assert (E : Commission.valid (Ledgers.remainderOf copy c need now (Db.nextId db))
              = true).
  { unfold Commission.valid in *.
    cbn [Ledgers.remainderOf Commission.amount Commission.commissionRate
         Commission.deliveryCount].
    apply andb_true_iff in Hv. destruct Hv as [Hv _].
    apply andb_true_iff in Hv. destruct Hv as [_ Hr]. rewrite Hr.
    replace (0 <=? Commission.amount c - need) with true
      by (symmetry; apply Z.leb_le; lia).
    reflexivity. }
  rewrite E. reflexivity.
Qed.

(** The outcome of the walk over a list that covers the requested amount:
    a prefix is paid in full, each of its entries within what was still
    needed at its turn, and either the prefix adds up to the request or
    the next entry is larger than what is still needed and is split. *)
Lemma walk_covering copy now db : forall l r,
  (forall c, In c l -> Commission.valid c = true) ->
  0 < r -> r <= Query.totalAmount l ->
  exists full rest,
    l = full ++ rest
    /\ (forall pre c post, full = pre ++ c :: post ->
          0 < r - Query.totalAmount pre
          /\ Commission.amount c <= r - Query.totalAmount pre)
    /\ ((r = Query.totalAmount full
         /\ Settlement.walk copy now l r db
            = (Ok (Settlement.mkWalk (map Commission._id full)
                     (map Ledgers.fullUpdate full) 0), db))
        \/ (exists c rest',
              rest = c :: rest'
              /\ 0 < r - Query.totalAmount full
              /\ r - Query.totalAmount full < Commission.amount c
              /\ Settlement.walk copy now l r db
                 = (Ok (Settlement.mkWalk
                          (map Commission._id full ++ [Commission._id c])
                          (map Ledgers.fullUpdate full
                           ++ [Settlement.mkUpdate
                                 (Commission.setAmount
                                    (r - Query.totalAmount full) c)
                                 Commission.paid
                                 (r - Query.totalAmount full)])
                          0),
                    Db.withNextId (S (Db.nextId db))
                      (Db.withCommissions
                         (Db.commissions db
                          ++ [Ledgers.remainderOf copy c
                                (r - Query.totalAmount full) now
                                (Db.nextId db)]) db)))).
Proof.
  induction l as [|c l IH]; intros r Hval Hr Hcover.
  - rewrite totalAmount_nil in Hcover. lia.
  - rewrite totalAmount_cons in Hcover.
    cbn [Settlement.walk].
    replace (r <=? 0) with false by (symmetry; apply Z.leb_gt; lia).
    destruct (Commission.amount c <=? r) eqn:Efit.
    + apply Z.leb_le in Efit.
      destruct (Z.eq_dec (r - Commission.amount c) 0) as [Ez|Ez].
      * (* the entry completes the request *)
        exists [c], l. split; [reflexivity|]. split.
        { intros pre x post E.
          destruct pre as [|y pre]; cbn in E.
          - injection E as <- _. rewrite totalAmount_nil. lia.
          - injection E as _ E. destruct pre; discriminate. }
        left. rewrite totalAmount_cons, totalAmount_nil.
        split; [lia|]. rewrite Ez, walk_nothing_left. reflexivity.
      * destruct (IH (r - Commission.amount c))
          as (full & rest & El & Hpre & Hcase).
        { intros x Hx. apply Hval. right. exact Hx. }
        { lia. }
        { lia. }
        exists (c :: full), rest. split; [cbn; rewrite El; reflexivity|]. split.
        { intros pre x post E.
          destruct pre as [|y pre]; cbn in E.
          - injection E as <- _. rewrite totalAmount_nil. lia.
          - injection E as <- E. rewrite totalAmount_cons.
            destruct (Hpre pre x post E). lia. }
        destruct Hcase as [[Hsum Hw]|(x & rest' & Er & Hpos & Hlt & Hw)].
        { left. rewrite totalAmount_cons. split; [lia|].
          rewrite Hw. reflexivity. }
        { right. exists x, rest'. rewrite totalAmount_cons.
          replace (r - (Commission.amount c + Query.totalAmount full))
            with (r - Commission.amount c - Query.totalAmount full) by lia.
          repeat split; try assumption.
          rewrite Hw. reflexivity. }
    + apply Z.leb_gt in Efit.
      exists [], (c :: l). split; [reflexivity|]. split.
      { intros pre x post E. destruct pre; discriminate. }
      right. exists c, l. rewrite totalAmount_nil, Z.sub_0_r.
      repeat split; try lia.
      rewrite createCommission_remainder;
        [reflexivity|apply Hval; left; reflexivity|exact Efit].
Qed.

(** ** Saving the updates *)

Lemma saveCommission_fields c db :
  Db.commissions (Write.saveCommission c db)
  = map (fun d => if (Commission._id d =? Commission._id c)%nat then c else d)
        (Db.commissions db)
  /\ Db.payoutRequests (Write.saveCommission c db) = Db.payoutRequests db
  /\ Db.nextId (Write.saveCommission c db) = Db.nextId db
  /\ Db.settings (Write.saveCommission c db) = Db.settings db
  /\ Db.users (Write.saveCommission c db) = Db.users db
  /\ Db.orders (Write.saveCommission c db) = Db.orders db.
Proof. repeat split; reflexivity. Qed.

Lemma saveUpdates_nil rid now db : Settlement.saveUpdates rid now [] db = db.
Proof. reflexivity. Qed.

Lemma saveUpdates_cons rid now u us db :
  Settlement.saveUpdates rid now (u :: us) db
  = Settlement.saveUpdates rid now us
      (Write.saveCommission (Settlement.applyUpdate rid now u) db).
Proof. reflexivity. Qed.

Lemma saveUpdates_app rid now us vs db :
  Settlement.saveUpdates rid now (us ++ vs) db
  = Settlement.saveUpdates rid now vs (Settlement.saveUpdates rid now us db).
Proof. unfold Settlement.saveUpdates. apply fold_left_app. Qed.

Lemma applyUpdate_full rid now c :
  Settlement.applyUpdate rid now (Ledgers.fullUpdate c) = Ledgers.paidFor rid now c.
Proof. reflexivity. Qed.

Lemma paidFor_id rid now c :
  Commission._id (Ledgers.paidFor rid now c) = Commission._id c.
Proof. reflexivity. Qed.

Lemma settled_id rid now full split d :
  Commission._id (Ledgers.settled rid now full split d) = Commission._id d.
Proof.
  unfold Ledgers.settled.
  destruct (existsb _ full); [reflexivity|].
  destruct split as [[c need]|]; [|reflexivity].
  destruct (Commission._id c =? Commission._id d)%nat; reflexivity.
Qed.

Lemma existsb_id_false (l : list Commission.t) (i : ObjectId) :
  ~ In i (map Commission._id l) ->
  existsb (fun c => (Commission._id c =? i)%nat) l = false.
Proof.
  intro H. destruct (existsb _ l) eqn:E; [|reflexivity].
  apply existsb_exists in E. destruct E as (c & Hc & Ec).
  apply Nat.eqb_eq in Ec. exfalso. apply H. rewrite <- Ec.
  apply in_map. exact Hc.
Qed.

Lemma existsb_id_true (l : list Commission.t) (c : Commission.t) :
  In c l -> existsb (fun x => (Commission._id x =? Commission._id c)%nat) l = true.
Proof.
  intro H. apply existsb_exists. exists c. split; [exact H|apply Nat.eqb_refl].
Qed.

Lemma withCommissions_same db :
  Db.withCommissions (Db.commissions db) db = db.
Proof. destruct db; reflexivity. Qed.

Lemma withCommissions_twice l l' db :
  Db.withCommissions l (Db.withCommissions l' db) = Db.withCommissions l db.
Proof. reflexivity. Qed.

(** Saving the entries paid in full rewrites exactly those entries. *)
Lemma saveUpdates_full rid now : forall full db,
  NoDup (map Commission._id (Db.commissions db)) ->
  NoDup (map Commission._id full) ->
  (forall c, In c full -> In c (Db.commissions db)) ->
  Settlement.saveUpdates rid now (map Ledgers.fullUpdate full) db
  = Db.withCommissions
      (map (Ledgers.settled rid now full None) (Db.commissions db)) db.
Proof.
  induction full as [|c full IH]; intros db Hnd Hfull Hin.
  - cbn [map]. rewrite saveUpdates_nil.
    rewrite (map_ext _ (fun d => d)), map_id; [|reflexivity].
    symmetry. apply withCommissions_same.
  - cbn [map]. rewrite saveUpdates_cons, applyUpdate_full.
    inversion Hfull as [|? ? Hc Hfull']; subst.
    rewrite IH; unfold Write.saveCommission; cbn [Db.commissions Db.withCommissions].
    + rewrite withCommissions_twice. f_equal. rewrite map_map. apply map_ext_in. intros d Hd.
      rewrite paidFor_id. unfold Ledgers.settled. cbn [existsb].
      destruct (Commission._id d =? Commission._id c)%nat eqn:E.
      * apply Nat.eqb_eq in E.
        assert (d = c).
        { apply (same_id_same_doc Hnd Hd); [apply Hin; left; reflexivity|exact E]. }
        subst d. rewrite paidFor_id, Nat.eqb_refl. cbn [orb].
        rewrite existsb_id_false by exact Hc. reflexivity.
      * rewrite Nat.eqb_sym, E. reflexivity.
    + rewrite map_map. rewrite (map_ext _ Commission._id); [exact Hnd|].
      intro d. destruct (Commission._id d =? Commission._id (Ledgers.paidFor rid now c))%nat eqn:E;
        [|reflexivity].
      apply Nat.eqb_eq in E. symmetry. exact E.
    + exact Hfull'.
    + intros x Hx. apply in_map_iff. exists x. split; [|apply Hin; right; exact Hx].
      rewrite paidFor_id.
      destruct (Commission._id x =? Commission._id c)%nat eqn:E; [|reflexivity].
      apply Nat.eqb_eq in E. exfalso. apply Hc. rewrite <- E.
      apply in_map. exact Hx.
Qed.

(** Saving the entries paid in full and then the split entry. *)
Lemma saveUpdates_split rid now full c need db :
  NoDup (map Commission._id (Db.commissions db)) ->
  NoDup (map Commission._id (full ++ [c])) ->
  (forall x, In x (full ++ [c]) -> In x (Db.commissions db)) ->
  Settlement.saveUpdates rid now
    (map Ledgers.fullUpdate full
     ++ [Settlement.mkUpdate (Commission.setAmount need c) Commission.paid need])
    db
  = Db.withCommissions
      (map (Ledgers.settled rid now full (Some (c, need))) (Db.commissions db))
      db.
Proof.
  intros Hnd Hnd2 Hin.
  rewrite map_app in Hnd2.
  assert (Hc : ~ In (Commission._id c) (map Commission._id full)).
  { apply NoDup_remove_2 with (l' := []) in Hnd2. rewrite app_nil_r in Hnd2.
    exact Hnd2. }
  assert (Hfull : NoDup (map Commission._id full)).
  { apply NoDup_remove_1 with (l' := []) in Hnd2. rewrite app_nil_r in Hnd2.
    exact Hnd2. }
  rewrite saveUpdates_app, saveUpdates_full; try assumption.
  - rewrite saveUpdates_cons, saveUpdates_nil.
    unfold Write.saveCommission; cbn [Db.commissions Db.withCommissions].
    rewrite withCommissions_twice. f_equal. rewrite map_map. apply map_ext_in. intros d Hd.
    rewrite settled_id.
    change (Commission._id (Settlement.applyUpdate rid now
              (Settlement.mkUpdate (Commission.setAmount need c)
                 Commission.paid need)))
      with (Commission._id c).
    unfold Ledgers.settled.
    destruct (Commission._id d =? Commission._id c)%nat eqn:E.
    + apply Nat.eqb_eq in E.
      assert (d = c).
      { apply (same_id_same_doc Hnd Hd); [|exact E].
        apply Hin. apply in_or_app. right. left. reflexivity. }
      subst d. rewrite existsb_id_false by exact Hc.
      rewrite Nat.eqb_refl. reflexivity.
    + rewrite (Nat.eqb_sym (Commission._id c)), E.
      destruct (existsb _ full); reflexivity.
  - intros x Hx. apply Hin. apply in_or_app. left. exact Hx.
Qed.

Lemma find_by_id_map (g : Commission.t -> Commission.t)
    (l : list Commission.t) (d : Commission.t) :
  NoDup (map Commission._id l) -> In d l ->
  (forall x, Commission._id (g x) = Commission._id x) ->
  find (fun x => (Commission._id x =? Commission._id d)%nat) (map g l)
  = Some (g d).
Proof.
  intros Hnd Hin Hg. induction l as [|x l IH]; [contradiction|].
  cbn [map find]. rewrite Hg.
  destruct (Commission._id x =? Commission._id d)%nat eqn:E.
  - apply Nat.eqb_eq in E.
    rewrite (same_id_same_doc Hnd (or_introl eq_refl) Hin E). reflexivity.
  - inversion Hnd; subst. destruct Hin as [->|Hin].
    + rewrite Nat.eqb_refl in E. discriminate.
    + apply IH; assumption.
Qed.

(** ** The ledger after a settlement *)

Lemma settle_commissions copy rid now db agentId r :
  Db.wf db = true ->
  0 < r ->
  r <= Query.totalAmount (Query.pendingOldestFirst agentId db) ->
  exists full rest split w db1,
    Query.pendingOldestFirst agentId db = full ++ rest
    /\ (forall pre c post, full = pre ++ c :: post ->
          0 < r - Query.totalAmount pre
          /\ Commission.amount c <= r - Query.totalAmount pre)
    /\ match split with
       | None => r = Query.totalAmount full
       | Some (c, need) =>
           need = r - Query.totalAmount full
           /\ 0 < need /\ need < Commission.amount c
           /\ exists rest', rest = c :: rest'
       end
    /\ Settlement.walk copy now (Query.pendingOldestFirst agentId db) r db
       = (Ok w, db1)
    /\ Settlement.remainingAmount w = 0
    /\ Settlement.paidCommissionIds w = Ledgers.paidIds full split
    /\ Db.commissions
         (Settlement.saveUpdates rid now (Settlement.commissionsToUpdate w) db1)
       = map (Ledgers.settled rid now full split) (Db.commissions db)
         ++ Ledgers.remainder copy split now (Db.nextId db)
    /\ Db.payoutRequests
         (Settlement.saveUpdates rid now (Settlement.commissionsToUpdate w) db1)
       = Db.payoutRequests db
    /\ Db.nextId
         (Settlement.saveUpdates rid now (Settlement.commissionsToUpdate w) db1)
       = (Db.nextId db + List.length (Ledgers.remainder copy split now (Db.nextId db)))%nat.
Proof.
  intros Hwf Hr Hcover.
  destruct (pendingOldestFirst_facts db agentId Hwf) as (_ & _ & Hndp & Hpend).
  destruct (wf_parts db Hwf) as (Hnd & Hlt & _ & _).
  set (pend := Query.pendingOldestFirst agentId db) in *.
  destruct (walk_covering copy now db pend r) as (full & rest & El & Hpre & Hcase);
    [intros c Hc; apply Hpend; exact Hc|exact Hr|exact Hcover|].
  assert (Hfull_in : forall c, In c full -> In c (Db.commissions db)).
  { intros c Hc. apply Hpend. rewrite El. apply in_or_app. left. exact Hc. }
  destruct Hcase as [[Hsum Hw]|(c & rest' & Er & Hpos & Hlt' & Hw)].
  - exists full, rest, None. eexists; eexists.
    split; [exact El|]. split; [exact Hpre|]. split; [exact Hsum|].
    split; [exact Hw|]. split; [reflexivity|].
    split; [unfold Ledgers.paidIds; rewrite app_nil_r; reflexivity|].
    cbn [Settlement.commissionsToUpdate Ledgers.remainder List.length].
    rewrite saveUpdates_full; try assumption.
    + cbn [Db.commissions Db.withCommissions Db.payoutRequests Db.nextId].
      rewrite app_nil_r, Nat.add_0_r. auto.
    + rewrite El, map_app in Hndp. apply NoDup_app_remove_r in Hndp. exact Hndp.
  - exists full, rest, (Some (c, r - Query.totalAmount full)). eexists; eexists.
    split; [exact El|]. split; [exact Hpre|].
    split; [repeat split; try assumption; exists rest'; exact Er|].
    split; [exact Hw|]. split; [reflexivity|]. split; [reflexivity|].
    cbn [Settlement.commissionsToUpdate Ledgers.remainder List.length].
    set (rem := Ledgers.remainderOf copy c (r - Query.totalAmount full) now
                  (Db.nextId db)).
    assert (Hc_in : In c (Db.commissions db)).
    { apply Hpend. rewrite El, Er. apply in_or_app. right. left. reflexivity. }
    assert (Hnd2 : NoDup (map Commission._id (full ++ [c]))).
    { rewrite El, Er in Hndp.
      replace (full ++ c :: rest') with ((full ++ [c]) ++ rest') in Hndp
        by (rewrite <- app_assoc; reflexivity).
      rewrite map_app in Hndp. apply NoDup_app_remove_r in Hndp. exact Hndp. }
    rewrite saveUpdates_split.
    + cbn [Db.commissions Db.withCommissions Db.withNextId Db.payoutRequests
           Db.nextId].
      split; [|split; [reflexivity|lia]].
      rewrite map_app. f_equal. cbn [map]. f_equal.
      unfold Ledgers.settled.
      assert (Hid : Commission._id rem = Db.nextId db) by reflexivity.
      rewrite existsb_id_false.
      * destruct (Commission._id c =? Commission._id rem)%nat eqn:E; [|reflexivity].
        apply Nat.eqb_eq in E. rewrite Hid in E.
        specialize (Hlt c Hc_in). lia.
      * rewrite Hid. intro Hin. apply in_map_iff in Hin.
        destruct Hin as (x & Ex & Hx). specialize (Hlt x (Hfull_in x Hx)). lia.
    + cbn [Db.commissions Db.withCommissions Db.withNextId].
      rewrite map_app. cbn [map].
      apply NoDup_app; [exact Hnd|repeat constructor; intros []|].
      intros i Hi [<-|[]]. apply in_map_iff in Hi.
      destruct Hi as (x & Ex & Hx). specialize (Hlt x Hx).
      change (Commission._id rem) with (Db.nextId db) in Ex. lia.
    + exact Hnd2.
    + intros x Hx. cbn [Db.commissions Db.withCommissions Db.withNextId].
      apply in_or_app. left. apply in_app_or in Hx.
      destruct Hx as [Hx|[<-|[]]]; [apply Hfull_in; exact Hx|exact Hc_in].
Qed.

(** ** Sums over the settled ledger *)

Lemma total_filter_map_same (p : Commission.t -> bool)
    (g : Commission.t -> Commission.t) (l : list Commission.t) :
  (forall d, In d l ->
     p (g d) = p d /\ Commission.amount (g d) = Commission.amount d) ->
  Query.totalAmount (filter p (map g l)) = Query.totalAmount (filter p l).
Proof.
  induction l as [|x l IH]; intro H; [reflexivity|].
  cbn [map filter]. destruct (H x (or_introl eq_refl)) as [Hp Ha].
  rewrite Hp. assert (IH' := IH (fun d Hd => H d (or_intror Hd))).
  destruct (p x); rewrite ?totalAmount_cons; lia.
Qed.

Lemma total_filter_map_one (p : Commission.t -> bool)
    (g : Commission.t -> Commission.t) (l : list Commission.t)
    (c : Commission.t) (need : Z) :
  NoDup (map Commission._id l) -> In c l ->
  (forall d, In d l -> p (g d) = p d) ->
  (forall d, In d l -> Commission._id d <> Commission._id c ->
             Commission.amount (g d) = Commission.amount d) ->
  Commission.amount (g c) = need ->
  p c = true ->
  Query.totalAmount (filter p (map g l))
  = Query.totalAmount (filter p l) - (Commission.amount c - need).
Proof.
  induction l as [|x l IH]; intros Hnd Hin Hp Hother Hc Hpc; [contradiction|].
  cbn [map] in Hnd. apply NoDup_cons_iff in Hnd. destruct Hnd as [Hx Hl].
  cbn [map filter]. rewrite (Hp x (or_introl eq_refl)).
  destruct Hin as [->|Hin].
  - rewrite Hpc, !totalAmount_cons.
    rewrite total_filter_map_same; [lia|].
    intros d Hd. split; [apply Hp; right; exact Hd|].
    apply Hother; [right; exact Hd|].
    intro E. apply Hx. rewrite <- E. apply in_map. exact Hd.
  - assert (Hxc : Commission._id x <> Commission._id c).
    { intro E. apply Hx. rewrite E. apply in_map. exact Hin. }
    assert (IH' : Query.totalAmount (filter p (map g l))
                  = Query.totalAmount (filter p l) - (Commission.amount c - need)).
    { apply IH; auto.
      - intros d Hd. apply Hp. right. exact Hd.
      - intros d Hd. apply Hother. right. exact Hd. }
    destruct (p x); rewrite ?totalAmount_cons, ?IH'.
    + rewrite (Hother x (or_introl eq_refl) Hxc). lia.
    + reflexivity.
Qed.

Lemma settled_agentId rid now full split d :
  Commission.agentId (Ledgers.settled rid now full split d)
  = Commission.agentId d.
Proof.
  unfold Ledgers.settled.
  destruct (existsb _ full); [reflexivity|].
  destruct split as [[c need]|]; [|reflexivity].
  destruct (Commission._id c =? Commission._id d)%nat; reflexivity.
Qed.

Lemma settled_amount_kept rid now full split d :
  match split with
  | Some (c, _) => Commission._id d <> Commission._id c
  | None => True
  end ->
  Commission.amount (Ledgers.settled rid now full split d)
  = Commission.amount d.
Proof.
  intro H. unfold Ledgers.settled.
  destruct (existsb _ full); [reflexivity|].
  destruct split as [[c need]|]; [|reflexivity].
  destruct (Commission._id c =? Commission._id d)%nat eqn:E; [|reflexivity].
  apply Nat.eqb_eq in E. congruence.
Qed.

Lemma settled_split rid now full c need :
  ~ In (Commission._id c) (map Commission._id full) ->
  Ledgers.settled rid now full (Some (c, need)) c
  = Ledgers.paidFor rid now (Commission.setAmount need c).
Proof.
  intro H. unfold Ledgers.settled.
  rewrite existsb_id_false by exact H. rewrite Nat.eqb_refl. reflexivity.
Qed.

Lemma settled_full rid now full split d :
  In d full ->
  Ledgers.settled rid now full split d = Ledgers.paidFor rid now d.
Proof.
  intro H. unfold Ledgers.settled. rewrite existsb_id_true by exact H.
  reflexivity.
Qed.

Lemma settled_untouched rid now full split d :
  ~ In (Commission._id d) (Ledgers.paidIds full split) ->
  Ledgers.settled rid now full split d = d.
Proof.
  intro H. unfold Ledgers.settled, Ledgers.paidIds in *.
  rewrite existsb_id_false.
  - destruct split as [[c need]|]; [|reflexivity].
    destruct (Commission._id c =? Commission._id d)%nat eqn:E; [|reflexivity].
    apply Nat.eqb_eq in E. exfalso. apply H. apply in_or_app. right.
    left. exact E.
  - intro Hin. apply H. apply in_or_app. left. exact Hin.
Qed.

(** The sum over all entries of an agent is the same before the
    settlement and after it, the remainder of a split included. *)
Lemma settled_total_conserved copy rid now full split agentId
    (cs : list Commission.t) (id : ObjectId) :
  NoDup (map Commission._id cs) ->
  match split with
  | Some (c, _) =>
      In c cs /\ ~ In (Commission._id c) (map Commission._id full)
      /\ Commission.agentId c = agentId
  | None => True
  end ->
  let ofAgent := fun c => (Commission.agentId c =? agentId)%nat in
  Query.totalAmount
    (filter ofAgent
       (map (Ledgers.settled rid now full split) cs
        ++ Ledgers.remainder copy split now id))
  = Query.totalAmount (filter ofAgent cs).
Proof.
  intros Hnd Hsplit ofAgent.
  rewrite filter_app, totalAmount_app.
  destruct split as [[c need]|]; cbn [Ledgers.remainder].
  - destruct Hsplit as (Hin & Hnot & Hagent).
    assert (Ec : ofAgent c = true) by (apply Nat.eqb_eq; exact Hagent).
    rewrite (total_filter_map_one ofAgent _ cs c need Hnd Hin).
    + cbn [filter]. unfold ofAgent at 2.
      cbn [Ledgers.remainderOf Commission.agentId]. fold (ofAgent c).
      rewrite Ec, totalAmount_cons, totalAmount_nil.
      cbn [Ledgers.remainderOf Commission.amount]. lia.
    + intros d _. unfold ofAgent. rewrite settled_agentId. reflexivity.
    + intros d _ Hd. apply settled_amount_kept. exact Hd.
    + rewrite settled_split by exact Hnot. reflexivity.
    + exact Ec.
  - cbn [filter]. rewrite totalAmount_nil, Z.add_0_r.
    apply total_filter_map_same. intros d _. split.
    + unfold ofAgent. rewrite settled_agentId. reflexivity.
    + apply settled_amount_kept. exact I.
Qed.

(** ** The pending balance after a settlement *)

Lemma paidIds_entries full split :
  Ledgers.paidIds full split
  = map Commission._id (Ledgers.paidEntries full split).
Proof.
  unfold Ledgers.paidIds, Ledgers.paidEntries. rewrite map_app.
  destruct split as [[c need]|]; reflexivity.
Qed.

Lemma settled_paid rid now full split d :
  In (Commission._id d) (Ledgers.paidIds full split) ->
  Commission.status (Ledgers.settled rid now full split d) = Commission.paid.
Proof.
  unfold Ledgers.paidIds, Ledgers.settled. intro H.
  destruct (existsb _ full) eqn:E; [reflexivity|].
  apply in_app_or in H. destruct H as [H|H].
  - apply in_map_iff in H. destruct H as (x & Ex & Hx).
    assert (existsb (fun c => (Commission._id c =? Commission._id d)%nat) full
            = true).
    { apply existsb_exists. exists x. split; [exact Hx|].
      apply Nat.eqb_eq. exact Ex. }
    congruence.
  - destruct split as [[c need]|]; [|contradiction].
    destruct H as [H|[]]. rewrite H, Nat.eqb_refl. reflexivity.
Qed.

Lemma inIds_In ids d : Ledgers.inIds ids d = true <-> In (Commission._id d) ids.
Proof.
  unfold Ledgers.inIds. rewrite existsb_exists. split.
  - intros (x & Hx & E). apply Nat.eqb_eq in E. subst. exact Hx.
  - intro H. exists (Commission._id d). split; [exact H|apply Nat.eqb_refl].
Qed.

Lemma filter_pending_settled rid now full split agentId
    (cs : list Commission.t) :
  filter (Query.isPendingOf agentId)
         (map (Ledgers.settled rid now full split) cs)
  = filter (fun d => Query.isPendingOf agentId d
                     && negb (Ledgers.inIds (Ledgers.paidIds full split) d)) cs.
Proof.
  induction cs as [|d cs IH]; [reflexivity|].
  cbn [map filter]. rewrite IH.
  destruct (Ledgers.inIds (Ledgers.paidIds full split) d) eqn:E.
  - apply inIds_In in E.
    unfold Query.isPendingOf at 1.
    rewrite (settled_paid rid now full split d E).
    cbn [Commission.status_eqb]. rewrite !andb_false_r. reflexivity.
  - rewrite settled_untouched.
    + rewrite andb_true_r. reflexivity.
    + intro H. apply inIds_In in H. congruence.
Qed.

Lemma total_filter_split (p q : Commission.t -> bool) (l : list Commission.t) :
  Query.totalAmount (filter p l)
  = Query.totalAmount (filter (fun d => p d && negb (q d)) l)
    + Query.totalAmount (filter (fun d => p d && q d) l).
Proof.
  induction l as [|x l IH]; [reflexivity|].
  cbn [filter]. destruct (p x), (q x); cbn [andb negb];
    rewrite ?totalAmount_cons; lia.
Qed.

Lemma NoDup_docs (l : list Commission.t) :
  NoDup (map Commission._id l) -> NoDup l.
Proof. apply NoDup_map_inv. Qed.

(** The stored entries whose ids were recorded are the entries paid. *)
Lemma total_paid_entries agentId (cs paidDocs : list Commission.t) :
  NoDup (map Commission._id cs) ->
  NoDup (map Commission._id paidDocs) ->
  (forall c, In c paidDocs ->
     In c cs /\ Query.isPendingOf agentId c = true) ->
  Query.totalAmount
    (filter (fun d => Query.isPendingOf agentId d
                      && Ledgers.inIds (map Commission._id paidDocs) d) cs)
  = Query.totalAmount paidDocs.
Proof.
  intros Hnd Hndp Hin. apply totalAmount_perm. apply NoDup_Permutation.
  - apply NoDup_filter. apply NoDup_docs. exact Hnd.
  - apply NoDup_docs. exact Hndp.
  - intro d. rewrite filter_In, andb_true_iff, inIds_In. split.
    + intros (Hd & _ & Hid). apply in_map_iff in Hid.
      destruct Hid as (c & Ec & Hc).
      destruct (Hin c Hc) as [Hc' _].
      rewrite <- (same_id_same_doc Hnd Hc' Hd Ec). exact Hc.
    + intro Hd. destruct (Hin d Hd) as [Hd' Hp].
      repeat split; try assumption. apply in_map. exact Hd.
Qed.

(** A settlement of [r] shillings lowers the pending balance by [r]. *)
Lemma settled_pending_total copy rid now full split agentId r
    (cs : list Commission.t) (id : ObjectId) :
  NoDup (map Commission._id cs) ->
  NoDup (map Commission._id (Ledgers.paidEntries full split)) ->
  (forall c, In c (Ledgers.paidEntries full split) ->
     In c cs /\ Query.isPendingOf agentId c = true) ->
  match split with
  | None => r = Query.totalAmount full
  | Some (c, need) => need = r - Query.totalAmount full
  end ->
  Query.totalAmount
    (filter (Query.isPendingOf agentId)
       (map (Ledgers.settled rid now full split) cs
        ++ Ledgers.remainder copy split now id))
  = Query.totalAmount (filter (Query.isPendingOf agentId) cs) - r.
Proof.
  intros Hnd Hndp Hin Hr.
  rewrite filter_app, totalAmount_app, filter_pending_settled.
  rewrite (total_filter_split (Query.isPendingOf agentId)
             (Ledgers.inIds (Ledgers.paidIds full split)) cs).
  pose proof (total_paid_entries agentId cs _ Hnd Hndp Hin) as Hpaid.
  rewrite <- paidIds_entries in Hpaid. rewrite Hpaid. clear Hpaid.
  unfold Ledgers.paidEntries in *.
  destruct split as [[c need]|]; cbn [Ledgers.remainder filter].
  - assert (Hc : Query.isPendingOf agentId c = true).
    { apply Hin. apply in_or_app. right. left. reflexivity. }
    assert (Hrem : Query.isPendingOf agentId
                     (Ledgers.remainderOf copy c need now id) = true).
    { unfold Query.isPendingOf in *.
      cbn [Ledgers.remainderOf Commission.agentId Commission.status].
      apply andb_true_iff in Hc. destruct Hc as [Hc _]. rewrite Hc.
      reflexivity. }
    rewrite Hrem, totalAmount_app, !totalAmount_cons, !totalAmount_nil.
    cbn [Ledgers.remainderOf Commission.amount]. lia.
  - rewrite app_nil_r, totalAmount_nil. lia.
Qed.

(** ** The pay action *)

Lemma find_id_payout (l : list PayoutRequest.t) (i : ObjectId)
    (p : PayoutRequest.t) :
  find (fun q => (PayoutRequest._id q =? i)%nat) l = Some p ->
  PayoutRequest._id p = i /\ In p l.
Proof.
  intro H. apply find_some in H. destruct H as [Hin E].
  apply Nat.eqb_eq in E. auto.
Qed.

Lemma savePayoutRequest_lookup (p q : PayoutRequest.t) (db : Db.t) :
  Query.payoutRequestById (PayoutRequest._id p) db = Some q ->
  Query.payoutRequestById (PayoutRequest._id p) (Write.savePayoutRequest p db)
  = Some p.
Proof.
  unfold Query.payoutRequestById, Write.savePayoutRequest.
  cbn [Db.payoutRequests Db.withPayoutRequests].
  induction (Db.payoutRequests db) as [|x l IH]; cbn [find map]; [discriminate|].
  destruct (PayoutRequest._id x =? PayoutRequest._id p)%nat eqn:E.
  - intros _. rewrite Nat.eqb_refl. reflexivity.
  - rewrite E. exact IH.
Qed.

Lemma savePayoutRequest_others (p : PayoutRequest.t) (i : ObjectId) (db : Db.t) :
  i <> PayoutRequest._id p ->
  Query.payoutRequestById i (Write.savePayoutRequest p db)
  = Query.payoutRequestById i db.
Proof.
  intro Hne. unfold Query.payoutRequestById, Write.savePayoutRequest.
  cbn [Db.payoutRequests Db.withPayoutRequests].
  induction (Db.payoutRequests db) as [|x l IH]; cbn [find map]; [reflexivity|].
  destruct (PayoutRequest._id x =? PayoutRequest._id p)%nat eqn:E.
  - apply Nat.eqb_eq in E.
    replace (PayoutRequest._id p =? i)%nat with false
      by (symmetry; apply Nat.eqb_neq; congruence).
    replace (PayoutRequest._id x =? i)%nat with false
      by (symmetry; apply Nat.eqb_neq; congruence).
    exact IH.
  - destruct (PayoutRequest._id x =? i)%nat; [reflexivity|exact IH].
Qed.

Lemma pendingOrApproved_status (p : PayoutRequest.t) :
  Settlement.isPendingOrApproved p = true ->
  PayoutRequest.status p = PayoutRequest.pending
  \/ PayoutRequest.status p = PayoutRequest.approved.
Proof.
  unfold Settlement.isPendingOrApproved.
  destruct (PayoutRequest.status p); cbn; intro H; try discriminate; auto.
Qed.

(** The handler on [action: 'pay'] for a pending or approved request
    whose agent account exists. *)
Lemma processPayoutRequest_pay (id userId : ObjectId) (notes reason : string)
    (now : Date.t) (db : Db.t) (pr : PayoutRequest.t) (agent : User.t) :
  Query.payoutRequestById id db = Some pr ->
  Settlement.isPendingOrApproved pr = true ->
  Query.userById (PayoutRequest.agentId pr) db = Some agent ->
  Settlement.processPayoutRequest id "pay" notes reason userId now db
  = match Settlement.pay pr
            (Query.pendingOldestFirst (PayoutRequest.agentId pr) db)
            userId now db with
    | (Throw response, db1) => (response, db1)
    | (Ok (updated, message), db1) =>
        let db2 :=
          if JS.truthy notes && negb (JS.truthy (PayoutRequest.notes updated))
          then Write.savePayoutRequest
                 (PayoutRequest.setNotes (JS.trim notes) updated) db1
          else db1 in
        (Settlement.Json message
           (Query.payoutRequestById (PayoutRequest._id updated) db2), db2)
    end.
Proof.
  intros Hfind Hst Hagent. unfold Settlement.processPayoutRequest. rewrite Hfind.
  change (existsb (String.eqb "pay") ["approve"; "pay"; "reject"; "hold"; "release"])
    with true.
  cbn [negb].
  assert (Hp : PayoutRequest.status_eqb (PayoutRequest.status pr)
                 PayoutRequest.paid = false)
    by (destruct (pendingOrApproved_status pr Hst) as [-> | ->]; reflexivity).
  assert (Hr : PayoutRequest.status_eqb (PayoutRequest.status pr)
                 PayoutRequest.rejected = false)
    by (destruct (pendingOrApproved_status pr Hst) as [-> | ->]; reflexivity).
  rewrite Hp, Hr. unfold Settlement.dispatch.
  change (String.eqb "pay" "approve") with false.
  change (String.eqb "pay" "pay") with true.
  change (String.eqb "pay" "reject") with false.
  rewrite Hst, Hagent. cbn [negb].
  destruct (Settlement.pay pr _ userId now db) as [[[updated message]|response] db1];
    [|reflexivity].
  rewrite andb_true_r. reflexivity.
Qed.

(** The same action when the agent account has been deleted: the read of
    [payoutRequest.agentId._id] throws and the handler answers from its
    [catch] block, before any commission is read. *)
Lemma processPayoutRequest_pay_deleted (id userId : ObjectId)
    (notes reason : string) (now : Date.t) (db : Db.t) (pr : PayoutRequest.t) :
  Query.payoutRequestById id db = Some pr ->
  Settlement.isPendingOrApproved pr = true ->
  Query.userById (PayoutRequest.agentId pr) db = None ->
  Settlement.processPayoutRequest id "pay" notes reason userId now db
  = (Settlement.Status 400 (Settlement.Thrown Settlement.nullAgentError), db).
Proof.
  intros Hfind Hst Hagent. unfold Settlement.processPayoutRequest. rewrite Hfind.
  change (existsb (String.eqb "pay") ["approve"; "pay"; "reject"; "hold"; "release"])
    with true.
  cbn [negb].
  assert (Hp : PayoutRequest.status_eqb (PayoutRequest.status pr)
                 PayoutRequest.paid = false)
    by (destruct (pendingOrApproved_status pr Hst) as [-> | ->]; reflexivity).
  assert (Hr : PayoutRequest.status_eqb (PayoutRequest.status pr)
                 PayoutRequest.rejected = false)
    by (destruct (pendingOrApproved_status pr Hst) as [-> | ->]; reflexivity).
  rewrite Hp, Hr. unfold Settlement.dispatch.
  change (String.eqb "pay" "approve") with false.
  change (String.eqb "pay" "pay") with true.
  rewrite Hst, Hagent. reflexivity.
Qed.

Lemma markAsPaid_notes (userId : ObjectId) (now : Date.t) (p : PayoutRequest.t) :
  JS.truthy (PayoutRequest.notes (PayoutRequest.markAsPaid userId now p)) = true.
Proof.
  unfold PayoutRequest.markAsPaid, PayoutRequest.appendNote.
  cbn [PayoutRequest.notes PayoutRequest.setNotes PayoutRequest.setProcessed
       PayoutRequest.setStatus].
  destruct (PayoutRequest.notes p) as [|a r]; reflexivity.
Qed.

Lemma pendingOldestFirst_total (agentId : ObjectId) (db : Db.t) :
  Query.totalAmount (Query.pendingOldestFirst agentId db)
  = Ledgers.pendingBalance agentId db.
Proof. apply totalAmount_perm. apply sortByCreatedAt_perm. Qed.

(** The pay action on a request the pending entries cover. *)
Lemma pay_covered (pr : PayoutRequest.t) (userId : ObjectId) (now : Date.t)
    (db : Db.t) :
  Db.wf db = true ->
  0 < PayoutRequest.amount pr ->
  PayoutRequest.amount pr
  <= Query.totalAmount
       (Query.pendingOldestFirst (PayoutRequest.agentId pr) db) ->
  exists full rest split db',
    Query.pendingOldestFirst (PayoutRequest.agentId pr) db = full ++ rest
    /\ (forall pre c post, full = pre ++ c :: post ->
          0 < PayoutRequest.amount pr - Query.totalAmount pre
          /\ Commission.amount c
             <= PayoutRequest.amount pr - Query.totalAmount pre)
    /\ match split with
       | None => PayoutRequest.amount pr = Query.totalAmount full
       | Some (c, need) =>
           need = PayoutRequest.amount pr - Query.totalAmount full
           /\ 0 < need /\ need < Commission.amount c
           /\ exists rest', rest = c :: rest'
       end
    /\ Settlement.pay pr
         (Query.pendingOldestFirst (PayoutRequest.agentId pr) db)
         userId now db
       = (Ok (PayoutRequest.markAsPaid userId now
                (PayoutRequest.setCommissionIds
                   (Ledgers.paidIds full split) pr),
              Settlement.ProcessedSuccessfully (PayoutRequest.amount pr)
                (List.length (Ledgers.paidIds full split))),
          db')
    /\ Db.commissions db'
       = map (Ledgers.settled (PayoutRequest._id pr) now full split)
             (Db.commissions db)
         ++ Ledgers.remainder false split now (Db.nextId db)
    /\ Db.payoutRequests db'
       = map (fun q =>
                if (PayoutRequest._id q =? PayoutRequest._id pr)%nat
                then PayoutRequest.markAsPaid userId now
                       (PayoutRequest.setCommissionIds
                          (Ledgers.paidIds full split) pr)
                else q)
             (Db.payoutRequests db).
Proof.
  intros Hwf Hpos Hcover.
  destruct (settle_commissions false (PayoutRequest._id pr) now db
              (PayoutRequest.agentId pr) (PayoutRequest.amount pr)
              Hwf Hpos Hcover)
    as (full & rest & split & w & db1 & El & Hpre & Hsplit & Hw & Hrem & Hids
        & Hcs & Hps & _).
  exists full, rest, split. eexists.
  split; [exact El|]. split; [exact Hpre|]. split; [exact Hsplit|].
  unfold Settlement.pay.
  replace (Query.totalAmount (Query.pendingOldestFirst (PayoutRequest.agentId pr) db)
           <? PayoutRequest.amount pr) with false
    by (symmetry; apply Z.ltb_ge; exact Hcover).
  rewrite Hw, Hrem, Hids, Z.sub_0_r, Z.eqb_refl. cbn [negb].
  split; [reflexivity|].
  unfold Write.savePayoutRequest.
  cbn [Db.commissions Db.payoutRequests Db.withPayoutRequests].
  rewrite Hcs, Hps. split; reflexivity.
Qed.


Lemma processPayoutRequest_insufficient (db : Db.t) (id userId : ObjectId)
    (notes reason : string) (now : Date.t) (pr : PayoutRequest.t)
    (agent : User.t) :
  Query.payoutRequestById id db = Some pr ->
  Settlement.isPendingOrApproved pr = true ->
  Query.userById (PayoutRequest.agentId pr) db = Some agent ->
  Ledgers.pendingBalance (PayoutRequest.agentId pr) db
  < PayoutRequest.amount pr ->
  Settlement.processPayoutRequest id "pay" notes reason userId now db
  = (Settlement.Status 400
       (Settlement.InsufficientPendingCommissions
          (Ledgers.pendingBalance (PayoutRequest.agentId pr) db)
          (PayoutRequest.amount pr)),
     db).
Proof.
  intros Hfind Hst Hagent Hlt.
  rewrite (processPayoutRequest_pay id userId notes reason now db pr agent
             Hfind Hst Hagent).
  unfold Settlement.pay. rewrite pendingOldestFirst_total.
  replace (Ledgers.pendingBalance (PayoutRequest.agentId pr) db
           <? PayoutRequest.amount pr) with true
    by (symmetry; apply Z.ltb_lt; exact Hlt).
  reflexivity.
Qed.

(** When the account of the agent exists and the amount of a pending or
    approved request exceeds the sum of the agent's pending commissions,
    the pay action answers with the insufficient-balance error, which
    carries the available and the requested amounts, and the database is
    left exactly as it was: no entry changes status or amount, none is
    created and the request keeps its status. *)
Theorem pay_insufficient_changes_nothing (db : Db.t) (id userId : ObjectId)
    (notes reason : string) (now : Date.t) (pr : PayoutRequest.t)
    (agent : User.t) :
  Query.payoutRequestById id db = Some pr ->
  Settlement.isPendingOrApproved pr = true ->
  Query.userById (PayoutRequest.agentId pr) db = Some agent ->
  Ledgers.pendingBalance (PayoutRequest.agentId pr) db
  < PayoutRequest.amount pr ->
  Settlement.processPayoutRequest id "pay" notes reason userId now db
  = (Settlement.Status 400
       (Settlement.InsufficientPendingCommissions
          (Ledgers.pendingBalance (PayoutRequest.agentId pr) db)
          (PayoutRequest.amount pr)),
     db).
Proof. apply processPayoutRequest_insufficient. Qed.

Lemma pay_insufficient_changes_nothing_witness :
  Settlement.processPayoutRequest 4%nat "pay" "" "" 9%nat 1000
    Scenario.overdrawn
  = (Settlement.Status 400
       (Settlement.InsufficientPendingCommissions
          (Ledgers.pendingBalance
             (PayoutRequest.agentId (Scenario.request 4%nat 400
                                       PayoutRequest.approved))
             Scenario.overdrawn)
          (PayoutRequest.amount (Scenario.request 4%nat 400
                                   PayoutRequest.approved))),
     Scenario.overdrawn).
Proof.
  apply (@pay_insufficient_changes_nothing Scenario.overdrawn 4%nat 9%nat
           "" "" 1000 (Scenario.request 4%nat 400 PayoutRequest.approved)
           Scenario.agentA).
  - reflexivity.
  - reflexivity.
  - reflexivity.
  - vm_compute. reflexivity.
Defined.


Lemma find_app (A : Type) (p : A -> bool) (l1 l2 : list A) :
  find p (l1 ++ l2)
  = match find p l1 with Some x => Some x | None => find p l2 end.
Proof.
  induction l1 as [|x l1 IH]; [reflexivity|].
  cbn [app find]. destruct (p x); [reflexivity|exact IH].
Qed.

Lemma find_fresh (g : Commission.t -> Commission.t) (cs : list Commission.t)
    (n : ObjectId) :
  (forall x, Commission._id (g x) = Commission._id x) ->
  (forall c, In c cs -> (Commission._id c < n)%nat) ->
  find (fun x => (Commission._id x =? n)%nat) (map g cs) = None.
Proof.
  intros Hg Hlt. induction cs as [|x l IH]; [reflexivity|].
  cbn [map find]. rewrite Hg.
  replace (Commission._id x =? n)%nat with false.
  - apply IH. intros c Hc. apply Hlt. right. exact Hc.
  - symmetry. apply Nat.eqb_neq.
    specialize (Hlt x (or_introl eq_refl)). lia.
Qed.

(** The handler's answer when the pending entries cover the request. *)
Lemma processPayoutRequest_covered (db : Db.t) (id userId : ObjectId)
    (notes reason : string) (now : Date.t) (pr : PayoutRequest.t)
    (agent : User.t) :
  Db.wf db = true ->
  Query.payoutRequestById id db = Some pr ->
  Settlement.isPendingOrApproved pr = true ->
  Query.userById (PayoutRequest.agentId pr) db = Some agent ->
  PayoutRequest.amount pr
  <= Ledgers.pendingBalance (PayoutRequest.agentId pr) db ->
  exists full rest split db',
    Query.pendingOldestFirst (PayoutRequest.agentId pr) db = full ++ rest
    /\ (forall pre c post, full = pre ++ c :: post ->
          0 < PayoutRequest.amount pr - Query.totalAmount pre
          /\ Commission.amount c
             <= PayoutRequest.amount pr - Query.totalAmount pre)
    /\ match split with
       | None => PayoutRequest.amount pr = Query.totalAmount full
       | Some (c, need) =>
           need = PayoutRequest.amount pr - Query.totalAmount full
           /\ 0 < need /\ need < Commission.amount c
           /\ exists rest', rest = c :: rest'
       end
    /\ Settlement.processPayoutRequest id "pay" notes reason userId now db
       = (Settlement.Json
            (Settlement.ProcessedSuccessfully (PayoutRequest.amount pr)
               (List.length (Ledgers.paidIds full split)))
            (Some (PayoutRequest.markAsPaid userId now
                     (PayoutRequest.setCommissionIds
                        (Ledgers.paidIds full split) pr))),
          db')
    /\ Query.payoutRequestById id db'
       = Some (PayoutRequest.markAsPaid userId now
                 (PayoutRequest.setCommissionIds
                    (Ledgers.paidIds full split) pr))
    /\ Db.commissions db'
       = map (Ledgers.settled id now full split) (Db.commissions db)
         ++ Ledgers.remainder false split now (Db.nextId db)
    /\ (forall i, i <> id ->
          Query.payoutRequestById i db' = Query.payoutRequestById i db).
Proof.
  intros Hwf Hfind Hst Hagent Hcover.
  destruct (find_id_payout _ _ _ Hfind) as [Hid Hin_pr].
  assert (Hpos : 0 < PayoutRequest.amount pr).
  { destruct (wf_parts db Hwf) as (_ & _ & _ & _ & _ & Hamt).
    specialize (Hamt pr Hin_pr). lia. }
  rewrite <- pendingOldestFirst_total in Hcover.
  destruct (pay_covered pr userId now db Hwf Hpos Hcover)
    as (full & rest & split & db1 & El & Hpre & Hsplit & Hpay & Hcs & Hps).
  set (paidRequest := PayoutRequest.markAsPaid userId now
                        (PayoutRequest.setCommissionIds
                           (Ledgers.paidIds full split) pr)) in *.
  assert (Hrid : PayoutRequest._id paidRequest = id) by exact Hid.
  assert (Hlookup : Query.payoutRequestById id db1 = Some paidRequest).
  { unfold Query.payoutRequestById. rewrite Hps. clear - Hfind Hid.
    unfold Query.payoutRequestById in Hfind.
    induction (Db.payoutRequests db) as [|x l IH]; cbn [find map] in *;
      [discriminate|].
    destruct (PayoutRequest._id x =? id)%nat eqn:E.
    - injection Hfind as ->. rewrite Nat.eqb_refl.
      change (PayoutRequest._id paidRequest) with (PayoutRequest._id pr).
      rewrite E. reflexivity.
    - rewrite <- Hid in E at 1. rewrite Hid in E.
      destruct (PayoutRequest._id x =? PayoutRequest._id pr)%nat eqn:E'.
      + rewrite Hid in E'. congruence.
      + rewrite E. apply IH. exact Hfind. }
  exists full, rest, split, db1.
  split; [exact El|]. split; [exact Hpre|]. split; [exact Hsplit|].
  split.
  { rewrite (processPayoutRequest_pay id userId notes reason now db pr agent
               Hfind Hst Hagent).
    rewrite Hpay. cbv zeta.
    assert (Hnotes : JS.truthy (PayoutRequest.notes paidRequest) = true)
      by apply markAsPaid_notes.
    rewrite Hnotes, andb_false_r, Hrid, Hlookup. reflexivity. }
  split; [exact Hlookup|].
  split; [rewrite Hcs, Hid; reflexivity|].
  intros i Hi. unfold Query.payoutRequestById. rewrite Hps.
  clear - Hi Hid. induction (Db.payoutRequests db) as [|x l IH];
    cbn [map find]; [reflexivity|].
  destruct (PayoutRequest._id x =? PayoutRequest._id pr)%nat eqn:E.
  - apply Nat.eqb_eq in E.
    change (PayoutRequest._id paidRequest) with (PayoutRequest._id pr).
    replace (PayoutRequest._id pr =? i)%nat with false
      by (symmetry; apply Nat.eqb_neq; congruence).
    replace (PayoutRequest._id x =? i)%nat with false
      by (symmetry; apply Nat.eqb_neq; congruence).
    exact IH.
  - destruct (PayoutRequest._id x =? i)%nat; [reflexivity|exact IH].
Qed.

(** What the pending list of a covered request consists of. *)
Lemma covered_entries (db : Db.t) (pr : PayoutRequest.t)
    (full rest : list Commission.t) (split : option (Commission.t * Z)) :
  Db.wf db = true ->
  Query.pendingOldestFirst (PayoutRequest.agentId pr) db = full ++ rest ->
  match split with
  | None => True
  | Some (c, _) => exists rest', rest = c :: rest'
  end ->
  NoDup (map Commission._id (Ledgers.paidEntries full split))
  /\ (forall c, In c (Ledgers.paidEntries full split) ->
        In c (Db.commissions db)
        /\ Commission.agentId c = PayoutRequest.agentId pr
        /\ Query.isPendingOf (PayoutRequest.agentId pr) c = true).
Proof.
  intros Hwf El Hsplit.
  destruct (pendingOldestFirst_facts db (PayoutRequest.agentId pr) Hwf)
    as (_ & _ & Hndp & Hpend).
  assert (Hsub : forall c, In c (Ledgers.paidEntries full split) ->
            In c (Query.pendingOldestFirst (PayoutRequest.agentId pr) db)).
  { intros c Hc. rewrite El. unfold Ledgers.paidEntries in Hc.
    apply in_app_or in Hc. apply in_or_app.
    destruct Hc as [Hc|Hc]; [left; exact Hc|right].
    destruct split as [[c0 need]|]; [|contradiction].
    destruct Hsplit as (rest0 & Er). rewrite Er.
    destruct Hc as [<-|[]]. left. reflexivity. }
  split.
  - unfold Ledgers.paidEntries. destruct split as [[c need]|].
    + destruct Hsplit as (rest0 & Er). rewrite El, Er in Hndp.
      replace (full ++ c :: rest0) with ((full ++ [c]) ++ rest0) in Hndp
        by (rewrite <- app_assoc; reflexivity).
      rewrite map_app in Hndp. apply NoDup_app_remove_r in Hndp. exact Hndp.
    + rewrite app_nil_r. rewrite El, map_app in Hndp.
      apply NoDup_app_remove_r in Hndp. exact Hndp.
  - intros c Hc. destruct (Hpend c (Hsub c Hc)) as (Hin & Hag & Hstc & _).
    split; [exact Hin|]. split; [exact Hag|]. unfold Query.isPendingOf.
    rewrite Hag, Hstc, Nat.eqb_refl. reflexivity.
Qed.

(** For a pending or approved request of an agent whose account exists
    and whose pending entries cover the amount, the pay action walks those
    entries oldest first.  A prefix [full] of the walk is paid in full, each entry
    within what was still needed at its turn; when the prefix adds up to
    the request nothing is split, otherwise the next entry is larger than
    the need, its amount is lowered to the need and it is marked paid, and
    a new pending entry for the excess is appended.  The ids recorded on
    the request are those of the entries marked paid, in walk order; every
    other stored entry is untouched; the amount reported as paid is the
    requested amount; and the sum over all entries of the agent is the
    same after the action as before. *)
Theorem pay_allocates_oldest_first (db : Db.t) (id userId : ObjectId)
    (notes reason : string) (now : Date.t) (pr : PayoutRequest.t)
    (agent : User.t) :
  Db.wf db = true ->
  Query.payoutRequestById id db = Some pr ->
  Settlement.isPendingOrApproved pr = true ->
  Query.userById (PayoutRequest.agentId pr) db = Some agent ->
  PayoutRequest.amount pr
  <= Ledgers.pendingBalance (PayoutRequest.agentId pr) db ->
  let pend := Query.pendingOldestFirst (PayoutRequest.agentId pr) db in
  exists full rest split paidRequest db',
    (* the order of the walk *)
    Permutation pend (Query.pendingCommissions (PayoutRequest.agentId pr) db)
    /\ StronglySorted Ledgers.olderOrEqual pend
    /\ pend = full ++ rest
    /\ (forall pre c post, full = pre ++ c :: post ->
          0 < PayoutRequest.amount pr - Query.totalAmount pre
          /\ Commission.amount c
             <= PayoutRequest.amount pr - Query.totalAmount pre)
    /\ match split with
       | None => PayoutRequest.amount pr = Query.totalAmount full
       | Some (c, need) =>
           need = PayoutRequest.amount pr - Query.totalAmount full
           /\ 0 < need /\ need < Commission.amount c
           /\ exists rest', rest = c :: rest'
       end
    (* the answer and the request *)
    /\ Settlement.processPayoutRequest id "pay" notes reason userId now db
       = (Settlement.Json
            (Settlement.ProcessedSuccessfully (PayoutRequest.amount pr)
               (List.length (Ledgers.paidIds full split)))
            (Some paidRequest),
          db')
    /\ Query.payoutRequestById id db' = Some paidRequest
    /\ PayoutRequest.status paidRequest = PayoutRequest.paid
    /\ PayoutRequest.commissionIds paidRequest = Ledgers.paidIds full split
    (* the ledger *)
    /\ Db.commissions db'
       = map (Ledgers.settled id now full split) (Db.commissions db)
         ++ Ledgers.remainder false split now (Db.nextId db)
    /\ (forall c, In c full ->
          Query.commissionById (Commission._id c) db'
          = Some (Ledgers.paidFor id now c))
    /\ (forall c need, split = Some (c, need) ->
          Query.commissionById (Commission._id c) db'
          = Some (Ledgers.paidFor id now (Commission.setAmount need c))
          /\ Query.commissionById (Db.nextId db) db'
             = Some (Ledgers.remainderOf false c need now (Db.nextId db)))
    /\ (forall d, In d (Db.commissions db) ->
          ~ In (Commission._id d) (Ledgers.paidIds full split) ->
          Query.commissionById (Commission._id d) db' = Some d)
    (* the totals *)
    /\ Query.totalAmount full
       + match split with Some (_, need) => need | None => 0 end
       = PayoutRequest.amount pr
    /\ Ledgers.ledgerTotal (PayoutRequest.agentId pr) db'
       = Ledgers.ledgerTotal (PayoutRequest.agentId pr) db.
Proof.
  intros Hwf Hfind Hst Hagent Hcover pend.
  destruct (find_id_payout _ _ _ Hfind) as [Hid _].
  destruct (pendingOldestFirst_facts db (PayoutRequest.agentId pr) Hwf)
    as (Hperm & Hsorted & _ & _).
  destruct (wf_parts db Hwf) as (Hnd & Hlt & _).
  destruct (processPayoutRequest_covered db id userId notes reason now pr
              agent Hwf Hfind Hst Hagent Hcover)
    as (full & rest & split & db1 & El & Hpre & Hsplit & Hproc & Hlookup
        & Hcs & _).
  destruct (covered_entries db pr full rest split Hwf El) as (Hndp & Hpaid).
  { destruct split as [[c need]|]; [apply Hsplit|exact I]. }
  assert (Hfull_in : forall c, In c full -> In c (Db.commissions db)).
  { intros c Hc. apply Hpaid. apply in_or_app. left. exact Hc. }
  assert (Hsplit_facts :
            forall c need, split = Some (c, need) ->
              In c (Db.commissions db)
              /\ ~ In (Commission._id c) (map Commission._id full)
              /\ Commission.agentId c = PayoutRequest.agentId pr).
  { intros c need ->. unfold Ledgers.paidEntries in *.
    destruct (Hpaid c) as (Hc & Hag & _);
      [apply in_or_app; right; left; reflexivity|].
    split; [exact Hc|]. split; [|exact Hag].
    rewrite map_app in Hndp. cbn [map] in Hndp.
    apply NoDup_remove_2 in Hndp. rewrite app_nil_r in Hndp. exact Hndp. }
  assert (Hget : forall d, In d (Db.commissions db) ->
            Query.commissionById (Commission._id d) db1
            = Some (Ledgers.settled id now full split d)).
  { intros d Hd. unfold Query.commissionById. rewrite Hcs.
    rewrite find_app,
      (find_by_id_map (Ledgers.settled id now full split) _ d Hnd Hd
         (settled_id id now full split)).
    reflexivity. }
  eexists full, rest, split, _, db1.
  split; [exact Hperm|]. split; [exact Hsorted|]. split; [exact El|].
  split; [exact Hpre|]. split; [exact Hsplit|].
  split; [exact Hproc|].
  split; [exact Hlookup|]. split; [reflexivity|]. split; [reflexivity|].
  split; [exact Hcs|].
  split.
  { intros c Hc. rewrite (Hget c (Hfull_in c Hc)).
    rewrite settled_full by exact Hc. reflexivity. }
  split.
  { intros c need ->. destruct (Hsplit_facts c need eq_refl) as (Hc & Hnot & _).
    split.
    - rewrite (Hget c Hc), settled_split by exact Hnot. reflexivity.
    - unfold Query.commissionById. rewrite Hcs.
      rewrite find_app, find_fresh;
        [|intro x; apply settled_id|exact Hlt].
      cbn [Ledgers.remainder find Ledgers.remainderOf Commission._id].
      rewrite Nat.eqb_refl. reflexivity. }
  split.
  { intros d Hd Hnot. rewrite (Hget d Hd).
    rewrite settled_untouched by exact Hnot. reflexivity. }
  split.
  { destruct split as [[c need]|]; [destruct Hsplit as (-> & _)|]; lia. }
  unfold Ledgers.ledgerTotal. rewrite Hcs.
  apply (settled_total_conserved false id now full split
           (PayoutRequest.agentId pr) (Db.commissions db) (Db.nextId db) Hnd).
  destruct split as [[c need]|]; [|exact I].
  apply (Hsplit_facts c need eq_refl).
Qed.

Lemma pay_allocates_oldest_first_witness :
  let db := Scenario.threeEntries in
  let id := 4%nat in
  let userId := 9%nat in
  let notes := "" in
  let reason := "" in
  let now := 1000 in
  let pr := Scenario.request 4%nat 180 PayoutRequest.approved in
  let pend := Query.pendingOldestFirst (PayoutRequest.agentId pr) db in
  exists full rest split paidRequest db',
    Permutation pend (Query.pendingCommissions (PayoutRequest.agentId pr) db)
    /\ StronglySorted Ledgers.olderOrEqual pend
    /\ pend = full ++ rest
    /\ (forall pre c post, full = pre ++ c :: post ->
          0 < PayoutRequest.amount pr - Query.totalAmount pre
          /\ Commission.amount c
             <= PayoutRequest.amount pr - Query.totalAmount pre)
    /\ match split with
       | None => PayoutRequest.amount pr = Query.totalAmount full
       | Some (c, need) =>
           need = PayoutRequest.amount pr - Query.totalAmount full
           /\ 0 < need /\ need < Commission.amount c
           /\ exists rest', rest = c :: rest'
       end
    /\ Settlement.processPayoutRequest id "pay" notes reason userId now db
       = (Settlement.Json
            (Settlement.ProcessedSuccessfully (PayoutRequest.amount pr)
               (List.length (Ledgers.paidIds full split)))
            (Some paidRequest),
          db')
    /\ Query.payoutRequestById id db' = Some paidRequest
    /\ PayoutRequest.status paidRequest = PayoutRequest.paid
    /\ PayoutRequest.commissionIds paidRequest = Ledgers.paidIds full split
    /\ Db.commissions db'
       = map (Ledgers.settled id now full split) (Db.commissions db)
         ++ Ledgers.remainder false split now (Db.nextId db)
    /\ (forall c, In c full ->
          Query.commissionById (Commission._id c) db'
          = Some (Ledgers.paidFor id now c))
    /\ (forall c need, split = Some (c, need) ->
          Query.commissionById (Commission._id c) db'
          = Some (Ledgers.paidFor id now (Commission.setAmount need c))
          /\ Query.commissionById (Db.nextId db) db'
             = Some (Ledgers.remainderOf false c need now (Db.nextId db)))
    /\ (forall d, In d (Db.commissions db) ->
          ~ In (Commission._id d) (Ledgers.paidIds full split) ->
          Query.commissionById (Commission._id d) db' = Some d)
    /\ Query.totalAmount full
       + match split with Some (_, need) => need | None => 0 end
       = PayoutRequest.amount pr
    /\ Ledgers.ledgerTotal (PayoutRequest.agentId pr) db'
       = Ledgers.ledgerTotal (PayoutRequest.agentId pr) db.
Proof.
  intros db id userId notes reason now pr pend.
  apply (pay_allocates_oldest_first db id userId notes reason now pr
           Scenario.agentA).
  - reflexivity.
  - reflexivity.
  - reflexivity.
  - reflexivity.
  - vm_compute. discriminate.
Defined.

(** The settlement example: entries of 100, 150 and 80 and a request of
    180.  The first entry is paid, the second is split into 80 paid and 70
    pending, the third is untouched, and the request records the first two
    ids. *)
Lemma pay_example_180 :
  let '(response, db') :=
    Settlement.processPayoutRequest 4%nat "pay" "" "" 9%nat 1000
      Scenario.threeEntries in
  (exists p, response
             = Settlement.Json (Settlement.ProcessedSuccessfully 180 2) (Some p)
             /\ PayoutRequest.commissionIds p = [1%nat; 2%nat]
             /\ PayoutRequest.status p = PayoutRequest.paid)
  /\ map (fun c => (Commission._id c, Commission.amount c, Commission.status c))
         (Db.commissions db')
     = [(1%nat, 100, Commission.paid); (2%nat, 80, Commission.paid);
        (3%nat, 80, Commission.pending); (5%nat, 70, Commission.pending)].
Proof.
  vm_compute. split; [|reflexivity].
  eexists. split; [reflexivity|]. split; reflexivity.
Qed.


(** ** Two pay actions *)

Lemma processPayoutRequest_pay_refused (id userId : ObjectId)
    (notes reason : string) (now : Date.t) (db : Db.t) :
  match Query.payoutRequestById id db with
  | Some pr => Settlement.isPendingOrApproved pr = false
  | None => True
  end ->
  exists code message,
    Settlement.processPayoutRequest id "pay" notes reason userId now db
    = (Settlement.Status code message, db).
Proof.
  unfold Settlement.processPayoutRequest.
  destruct (Query.payoutRequestById id db) as [pr|]; [|eauto].
  intro Hst.
  change (existsb (String.eqb "pay") ["approve"; "pay"; "reject"; "hold"; "release"])
    with true.
  cbn [negb].
  destruct (PayoutRequest.status_eqb (PayoutRequest.status pr) PayoutRequest.paid);
    [eauto|].
  destruct (PayoutRequest.status_eqb (PayoutRequest.status pr)
              PayoutRequest.rejected); [eauto|].
  unfold Settlement.dispatch.
  change (String.eqb "pay" "approve") with false.
  change (String.eqb "pay" "pay") with true.
  rewrite Hst. cbn [negb]. eauto.
Qed.

(** A successful pay action lowers the pending balance of the agent by the
    amount of the request and leaves the other requests as they were. *)
Lemma pay_lowers_balance (db : Db.t) (id userId : ObjectId)
    (notes reason : string) (now : Date.t) (pr : PayoutRequest.t)
    (agent : User.t) :
  Db.wf db = true ->
  Query.payoutRequestById id db = Some pr ->
  Settlement.isPendingOrApproved pr = true ->
  Query.userById (PayoutRequest.agentId pr) db = Some agent ->
  PayoutRequest.amount pr
  <= Ledgers.pendingBalance (PayoutRequest.agentId pr) db ->
  exists message paidRequest db',
    Settlement.processPayoutRequest id "pay" notes reason userId now db
    = (Settlement.Json message (Some paidRequest), db')
    /\ Ledgers.pendingBalance (PayoutRequest.agentId pr) db'
       = Ledgers.pendingBalance (PayoutRequest.agentId pr) db
         - PayoutRequest.amount pr
    /\ Query.payoutRequestById id db' = Some paidRequest
    /\ PayoutRequest.status paidRequest = PayoutRequest.paid
    /\ (forall i, i <> id ->
          Query.payoutRequestById i db' = Query.payoutRequestById i db).
Proof.
  intros Hwf Hfind Hst Hagent Hcover.
  destruct (wf_parts db Hwf) as (Hnd & _).
  destruct (processPayoutRequest_covered db id userId notes reason now pr
              agent Hwf Hfind Hst Hagent Hcover)
    as (full & rest & split & db1 & El & _ & Hsplit & Hproc & Hlookup
        & Hcs & Hothers).
  destruct (covered_entries db pr full rest split Hwf El) as (Hndp & Hpaid).
  { destruct split as [[c need]|]; [apply Hsplit|exact I]. }
  eexists _, _, db1.
  split; [exact Hproc|].
  split; [|split; [exact Hlookup|split; [reflexivity|exact Hothers]]].
  unfold Ledgers.pendingBalance, Query.pendingCommissions. rewrite Hcs.
  apply settled_pending_total; try assumption.
  - intros c Hc. destruct (Hpaid c Hc) as (Hin & _ & Hp). auto.
  - destruct split as [[c need]|]; [apply Hsplit|exact Hsplit].
Qed.

(** A pay action that answers success was the pay of a pending or
    approved request whose agent account exists and whose amount the
    pending balance covers: every other case is answered with a status. *)
Lemma pay_succeeded_was_covered (db db1 : Db.t) (id userId : ObjectId)
    (notes reason : string) (now : Date.t) (pr : PayoutRequest.t)
    (message : Settlement.Message) (paidRequest : option PayoutRequest.t) :
  Query.payoutRequestById id db = Some pr ->
  Settlement.processPayoutRequest id "pay" notes reason userId now db
  = (Settlement.Json message paidRequest, db1) ->
  Settlement.isPendingOrApproved pr = true
  /\ (exists agent, Query.userById (PayoutRequest.agentId pr) db = Some agent)
  /\ PayoutRequest.amount pr
     <= Ledgers.pendingBalance (PayoutRequest.agentId pr) db.
Proof.
  intros Hfind Hpay.
  destruct (Settlement.isPendingOrApproved pr) eqn:Hst.
  2:{ destruct (processPayoutRequest_pay_refused id userId notes reason now db)
        as (code & refusal & E).
      - rewrite Hfind. exact Hst.
      - rewrite E in Hpay. discriminate Hpay. }
  destruct (Query.userById (PayoutRequest.agentId pr) db) as [agent|] eqn:Hu.
  2:{ rewrite (processPayoutRequest_pay_deleted id userId notes reason now db
                 pr Hfind Hst Hu) in Hpay.
      discriminate Hpay. }
  destruct (Z_lt_le_dec (Ledgers.pendingBalance (PayoutRequest.agentId pr) db)
              (PayoutRequest.amount pr)) as [Hlt|Hcover].
  { rewrite (processPayoutRequest_insufficient db id userId notes reason now
               pr agent Hfind Hst Hu Hlt) in Hpay.
    discriminate Hpay. }
  split; [reflexivity|]. split; [exists agent; reflexivity|exact Hcover].
Qed.

(** C3 (as amended): when two pay actions for requests of the same agent
    are served one after the other and the first succeeds, the pending
    balance the second one reads is the former balance less the first
    amount; if the two amounts together exceed the former balance, the
    second action is refused and changes nothing, so the balance is not
    overdrawn. *)
Theorem pay_in_sequence_never_overdraws (db db1 : Db.t)
    (id1 id2 user1 user2 : ObjectId)
    (notes1 reason1 notes2 reason2 : string) (now1 now2 : Date.t)
    (pr1 pr2 : PayoutRequest.t) (message : Settlement.Message)
    (paidRequest : option PayoutRequest.t) :
  Db.wf db = true ->
  Query.payoutRequestById id1 db = Some pr1 ->
  Query.payoutRequestById id2 db = Some pr2 ->
  PayoutRequest.agentId pr2 = PayoutRequest.agentId pr1 ->
  Settlement.processPayoutRequest id1 "pay" notes1 reason1 user1 now1 db
  = (Settlement.Json message paidRequest, db1) ->
  Ledgers.pendingBalance (PayoutRequest.agentId pr1) db1
  = Ledgers.pendingBalance (PayoutRequest.agentId pr1) db
    - PayoutRequest.amount pr1
  /\ (Ledgers.pendingBalance (PayoutRequest.agentId pr1) db
      < PayoutRequest.amount pr1 + PayoutRequest.amount pr2 ->
      exists code refusal,
        Settlement.processPayoutRequest id2 "pay" notes2 reason2 user2 now2 db1
        = (Settlement.Status code refusal, db1)).
Proof.
  intros Hwf H1 H2 Hagent Hfirst.
  destruct (pay_succeeded_was_covered db db1 id1 user1 notes1 reason1 now1 pr1
              message paidRequest H1 Hfirst)
    as (Hst1 & (agent & Hu) & Hcover).
  destruct (pay_lowers_balance db id1 user1 notes1 reason1 now1 pr1 agent
              Hwf H1 Hst1 Hu Hcover)
    as (message' & paidRequest' & db1' & Hproc & Hbal & Hlook & Hpaid
        & Hothers).
  rewrite Hproc in Hfirst. injection Hfirst as _ _ <-.
  split; [exact Hbal|].
  intro Hover.
  destruct (Nat.eq_dec id2 id1) as [->|Hne].
  - apply processPayoutRequest_pay_refused. rewrite Hlook.
    unfold Settlement.isPendingOrApproved. rewrite Hpaid. reflexivity.
  - destruct (Settlement.isPendingOrApproved pr2) eqn:Hst2.
    + assert (H2' : Query.payoutRequestById id2 db1' = Some pr2)
        by (rewrite (Hothers id2 Hne); exact H2).
      destruct (Query.userById (PayoutRequest.agentId pr2) db1')
        as [agent2|] eqn:Hu2.
      * exists 400%nat. eexists.
        apply (processPayoutRequest_insufficient db1' id2 user2 notes2 reason2
                 now2 pr2 agent2 H2' Hst2 Hu2).
        rewrite Hagent, Hbal. lia.
      * exists 400%nat. eexists.
        apply (processPayoutRequest_pay_deleted id2 user2 notes2 reason2 now2
                 db1' pr2 H2' Hst2 Hu2).
    + apply processPayoutRequest_pay_refused.
      rewrite (Hothers id2 Hne), H2. exact Hst2.
Qed.

Lemma pay_in_sequence_never_overdraws_witness :
  exists message paidRequest db1,
    Settlement.processPayoutRequest 2%nat "pay" "" "" 9%nat 1000
      Scenario.twoRequests
    = (Settlement.Json message paidRequest, db1)
    /\ Ledgers.pendingBalance 7%nat db1
       = Ledgers.pendingBalance 7%nat Scenario.twoRequests - 100
    /\ exists code refusal,
         Settlement.processPayoutRequest 3%nat "pay" "" "" 9%nat 2000 db1
         = (Settlement.Status code refusal, db1).
Proof.
  eexists. eexists. eexists.
  split; [vm_compute; reflexivity|].
  destruct (@pay_in_sequence_never_overdraws Scenario.twoRequests _
              2%nat 3%nat 9%nat 9%nat "" "" "" "" 1000 2000
              (Scenario.request 2%nat 100 PayoutRequest.approved)
              (Scenario.request 3%nat 100 PayoutRequest.approved) _ _
              eq_refl eq_refl eq_refl eq_refl eq_refl) as [Hbal Hsecond].
  split; [exact Hbal|].
  apply Hsecond. vm_compute. reflexivity.
Defined.

(** A handler that is served alone, in three moves, answers what the
    sequential handler answers. *)
Lemma eventLoop_alone (id userId : ObjectId) (now : Date.t) (db : Db.t) :
  let (h1, db1) := EventLoop.step now (EventLoop.Received id userId) db in
  let (h2, db2) := EventLoop.step now h1 db1 in
  let (h3, db3) := EventLoop.step now h2 db2 in
  (h3, db3)
  = (EventLoop.Answered
       (fst (Settlement.processPayoutRequest id "pay" "" "" userId now db)),
     snd (Settlement.processPayoutRequest id "pay" "" "" userId now db)).
Proof.
  cbn [EventLoop.step].
  destruct (Query.payoutRequestById id db) as [pr|] eqn:Hfind.
  - destruct (Settlement.isPendingOrApproved pr) eqn:Hst.
    + destruct (Query.userById (PayoutRequest.agentId pr) db) as [agent|]
        eqn:Hagent.
      * rewrite (processPayoutRequest_pay id userId "" "" now db pr agent
                   Hfind Hst Hagent).
        destruct (pendingOrApproved_status pr Hst) as [E|E]; rewrite E;
          cbn [PayoutRequest.status_eqb negb EventLoop.step];
          destruct (Settlement.pay pr _ userId now db)
            as [[[updated message]|response] d]; reflexivity.
      * rewrite (processPayoutRequest_pay_deleted id userId "" "" now db pr
                   Hfind Hst Hagent).
        destruct (pendingOrApproved_status pr Hst) as [E|E]; rewrite E;
          reflexivity.
    + unfold Settlement.processPayoutRequest. rewrite Hfind.
      change (existsb (String.eqb "pay")
                ["approve"; "pay"; "reject"; "hold"; "release"]) with true.
      unfold Settlement.dispatch.
      change (String.eqb "pay" "approve") with false.
      change (String.eqb "pay" "pay") with true.
      rewrite Hst. cbn [negb].
      destruct (PayoutRequest.status_eqb (PayoutRequest.status pr)
                  PayoutRequest.paid); [reflexivity|].
      destruct (PayoutRequest.status_eqb (PayoutRequest.status pr)
                  PayoutRequest.rejected); reflexivity.
  - unfold Settlement.processPayoutRequest. rewrite Hfind. reflexivity.
Qed.

(** C3 (the claim as stated fails): an agent has a pending balance of 100
    and two approved requests of 100 each.  When the event loop serves the
    two pay actions in turn, both read the pending entries before either
    writes; both succeed, both requests end up paid out of the same entry,
    and 200 is paid against a balance of 100. *)
Lemma interleaved_pays_both_succeed :
  let db := Scenario.twoRequests in
  let schedule := [EventLoop.First; EventLoop.Second; EventLoop.First;
                   EventLoop.Second; EventLoop.First; EventLoop.Second] in
  let '(h1, h2, db') :=
    EventLoop.run 1000 schedule (EventLoop.Received 2%nat 9%nat)
      (EventLoop.Received 3%nat 9%nat) db in
  Ledgers.pendingBalance 7%nat db = 100
  /\ map PayoutRequest.amount (Db.payoutRequests db) = [100; 100]
  /\ map PayoutRequest.agentId (Db.payoutRequests db) = [7%nat; 7%nat]
  /\ EventLoop.succeeded h1 = true
  /\ EventLoop.succeeded h2 = true
  /\ map PayoutRequest.status (Db.payoutRequests db')
     = [PayoutRequest.paid; PayoutRequest.paid]
  /\ map PayoutRequest.commissionIds (Db.payoutRequests db')
     = [[1%nat]; [1%nat]]
  /\ Ledgers.ledgerTotal 7%nat db' = 100.
Proof. vm_compute. repeat split; reflexivity. Qed.

(** ** Creating a payout request *)

Lemma find_fresh_payout (l : list PayoutRequest.t) (n : ObjectId) :
  (forall p, In p l -> (PayoutRequest._id p < n)%nat) ->
  find (fun q => (PayoutRequest._id q =? n)%nat) l = None.
Proof.
  intro Hlt. induction l as [|x l IH]; [reflexivity|].
  cbn [find].
  replace (PayoutRequest._id x =? n)%nat with false.
  - apply IH. intros p Hp. apply Hlt. right. exact Hp.
  - symmetry. apply Nat.eqb_neq.
    specialize (Hlt x (or_introl eq_refl)). lia.
Qed.

Lemma find_in_nodup_payout (l : list PayoutRequest.t) (p : PayoutRequest.t) :
  NoDup (map PayoutRequest._id l) -> In p l ->
  find (fun q => (PayoutRequest._id q =? PayoutRequest._id p)%nat) l = Some p.
Proof.
  induction l as [|x l IH]; intros Hnd Hin; [contradiction|].
  cbn [find]. cbn [map] in Hnd. apply NoDup_cons_iff in Hnd.
  destruct Hnd as [Hx Hl]. destruct Hin as [->|Hin].
  - rewrite Nat.eqb_refl. reflexivity.
  - replace (PayoutRequest._id x =? PayoutRequest._id p)%nat with false.
    + apply IH; assumption.
    + symmetry. apply Nat.eqb_neq. intro E. apply Hx. rewrite E.
      apply in_map. exact Hin.
Qed.

Lemma NoDup_distinct l : NoDup l -> Db.distinct l = true.
Proof. apply distinct_NoDup. Qed.

(** Storing a new payout request keeps the database well formed. *)
Lemma createPayoutRequest_stored (fields : PayoutRequest.t) (now : Date.t)
    (db : Db.t) :
  Db.wf db = true ->
  1 <= PayoutRequest.amount fields ->
  JS.truthy (PayoutRequest.accountDetails fields) = true ->
  exists created db1,
    Write.createPayoutRequest fields now db = (Ok created, db1)
    /\ PayoutRequest._id created = Db.nextId db
    /\ PayoutRequest.agentId created = PayoutRequest.agentId fields
    /\ PayoutRequest.amount created = PayoutRequest.amount fields
    /\ PayoutRequest.status created = PayoutRequest.status fields
    /\ PayoutRequest.notes created = PayoutRequest.notes fields
    /\ PayoutRequest.commissionIds created = []
    /\ PayoutRequest.metadata created = PayoutRequest.metadata fields
    /\ Db.commissions db1 = Db.commissions db
    /\ Db.payoutRequests db1 = Db.payoutRequests db ++ [created]
    /\ Query.payoutRequestById (Db.nextId db) db1 = Some created
    /\ Db.wf db1 = true.
Proof.
  intros Hwf Hamt Hdetails. unfold Write.createPayoutRequest.
  cbn [PayoutRequest.amount PayoutRequest.accountDetails].
  replace (1 <=? PayoutRequest.amount fields) with true
    by (symmetry; apply Z.leb_le; exact Hamt).
  rewrite Hdetails. cbn [andb].
  eexists; eexists. split; [reflexivity|].
  destruct (wf_parts db Hwf) as (Hnd & Hlt & Hval & Hndp & Hltp & Hamtp).
  repeat split.
  - unfold Query.payoutRequestById.
    cbn [Db.payoutRequests Db.withNextId Db.withPayoutRequests].
    rewrite find_app, (find_fresh_payout _ _ Hltp). cbn [find PayoutRequest._id].
    rewrite Nat.eqb_refl. reflexivity.
  - unfold Db.wf.
    cbn [Db.commissions Db.payoutRequests Db.nextId Db.withNextId
         Db.withPayoutRequests].
    rewrite !andb_true_iff, !forallb_forall. repeat split.
    + apply NoDup_distinct. exact Hnd.
    + intros c Hc. apply Nat.ltb_lt. specialize (Hlt c Hc). lia.
    + exact Hval.
    + apply NoDup_distinct. rewrite map_app. cbn [map PayoutRequest._id].
      apply NoDup_app; [exact Hndp|repeat constructor; intros []|].
      intros i Hi [<-|[]]. apply in_map_iff in Hi.
      destruct Hi as (p & Ep & Hp). specialize (Hltp p Hp). lia.
    + intros p Hp. apply Nat.ltb_lt. apply in_app_or in Hp.
      destruct Hp as [Hp|[<-|[]]]; [specialize (Hltp p Hp); lia|].
      cbn [PayoutRequest._id]. lia.
    + intros p Hp. apply Z.leb_le. apply in_app_or in Hp.
      destruct Hp as [Hp|[<-|[]]]; [apply Hamtp; exact Hp|].
      cbn [PayoutRequest.amount]. exact Hamt.
Qed.

Lemma pendingBalance_same_commissions agentId db db' :
  Db.commissions db' = Db.commissions db ->
  Ledgers.pendingBalance agentId db' = Ledgers.pendingBalance agentId db.
Proof.
  intro H. unfold Ledgers.pendingBalance, Query.pendingCommissions.
  rewrite H. reflexivity.
Qed.


(** The automatic payment when the pending balance covers the request. *)
Lemma autoPay_covered (p : PayoutRequest.t) (now : Date.t) (db : Db.t) :
  Db.wf db = true ->
  In p (Db.payoutRequests db) ->
  PayoutRequest.amount p <= Ledgers.pendingBalance (PayoutRequest.agentId p) db ->
  exists full rest split,
    Query.pendingOldestFirst (PayoutRequest.agentId p) db = full ++ rest
    /\ Db.commissions (Workflow.autoPay p now db)
       = map (Ledgers.settled (PayoutRequest._id p) now full split)
             (Db.commissions db)
         ++ Ledgers.remainder true split now (Db.nextId db)
    /\ Ledgers.pendingBalance (PayoutRequest.agentId p) (Workflow.autoPay p now db)
       = Ledgers.pendingBalance (PayoutRequest.agentId p) db
         - PayoutRequest.amount p
    /\ Query.payoutRequestById (PayoutRequest._id p) (Workflow.autoPay p now db)
       = Some (PayoutRequest.setNotes
                 ("Auto-approved and auto-paid. Processed "
                  ++ JS.showNat (List.length (Ledgers.paidIds full split))
                  ++ " commission(s).")%string
                 (PayoutRequest.setCommissionIds (Ledgers.paidIds full split)
                    (PayoutRequest.setStatus PayoutRequest.paid p))).
Proof.
  intros Hwf Hin Hcover.
  destruct (wf_parts db Hwf) as (Hnd & _ & _ & Hndp & _ & Hamt).
  assert (Hpos : 0 < PayoutRequest.amount p)
    by (specialize (Hamt p Hin); lia).
  pose proof Hcover as Hcover'. rewrite <- pendingOldestFirst_total in Hcover'.
  destruct (settle_commissions true (PayoutRequest._id p) now db
              (PayoutRequest.agentId p) (PayoutRequest.amount p)
              Hwf Hpos Hcover')
    as (full & rest & split & w & db1 & El & _ & Hsplit & Hw & _ & Hids
        & Hcs & Hps & _).
  destruct (covered_entries db p full rest split Hwf El) as (Hndpaid & Hpaid).
  { destruct split as [[c need]|]; [apply Hsplit|exact I]. }
  set (final := PayoutRequest.setNotes
                  ("Auto-approved and auto-paid. Processed "
                   ++ JS.showNat (List.length (Ledgers.paidIds full split))
                   ++ " commission(s).")%string
                  (PayoutRequest.setCommissionIds (Ledgers.paidIds full split)
                     (PayoutRequest.setStatus PayoutRequest.paid p))).
  assert (Eauto : Workflow.autoPay p now db
                  = Write.savePayoutRequest final
                      (Settlement.saveUpdates (PayoutRequest._id p) now
                         (Settlement.commissionsToUpdate w) db1)).
  { unfold Workflow.autoPay.
    replace (PayoutRequest.amount p
             <=? Query.totalAmount
                   (Query.pendingOldestFirst (PayoutRequest.agentId p) db))
      with true by (symmetry; apply Z.leb_le; exact Hcover').
    rewrite Hw, Hids. reflexivity. }
  assert (Ecs : Db.commissions (Workflow.autoPay p now db)
                = map (Ledgers.settled (PayoutRequest._id p) now full split)
                      (Db.commissions db)
                  ++ Ledgers.remainder true split now (Db.nextId db)).
  { rewrite Eauto. exact Hcs. }
  exists full, rest, split.
  split; [exact El|]. split; [exact Ecs|]. split.
  - unfold Ledgers.pendingBalance, Query.pendingCommissions. rewrite Ecs.
    apply settled_pending_total; try assumption.
    + intros c Hc. destruct (Hpaid c Hc) as (Hc1 & _ & Hc2). auto.
    + destruct split as [[c need]|]; [apply Hsplit|exact Hsplit].
  - rewrite Eauto.
    change (PayoutRequest._id p) with (PayoutRequest._id final) at 1.
    apply savePayoutRequest_lookup with (q := p).
    unfold Query.payoutRequestById. rewrite Hps.
    exact (find_in_nodup_payout _ p Hndp Hin).
Qed.




(** ** One outstanding request at a time *)

Lemma payoutRequestIn_some (agentId : ObjectId)
    (statuses : list PayoutRequest.Status) (db : Db.t) (p : PayoutRequest.t) :
  In p (Db.payoutRequests db) ->
  PayoutRequest.agentId p = agentId ->
  In (PayoutRequest.status p) statuses ->
  exists q, Query.payoutRequestIn agentId statuses db = Some q.
Proof.
  intros Hin Hag Hst. unfold Query.payoutRequestIn.
  destruct (find _ (Db.payoutRequests db)) as [q|] eqn:E; [eauto|].
  exfalso. apply (find_none _ _ E) in Hin.
  rewrite Hag, Nat.eqb_refl in Hin. cbn [andb] in Hin.
  assert (existsb (PayoutRequest.status_eqb (PayoutRequest.status p)) statuses
          = true).
  { apply existsb_exists. exists (PayoutRequest.status p). split; [exact Hst|].
    destruct (PayoutRequest.status p); reflexivity. }
  congruence.
Qed.

Lemma payoutRequestIn_none (agentId : ObjectId)
    (statuses : list PayoutRequest.Status) (db : Db.t) :
  (forall p, In p (Db.payoutRequests db) ->
             PayoutRequest.agentId p = agentId ->
             ~ In (PayoutRequest.status p) statuses) ->
  Query.payoutRequestIn agentId statuses db = None.
Proof.
  intro H. unfold Query.payoutRequestIn.
  destruct (find _ (Db.payoutRequests db)) as [q|] eqn:E; [|reflexivity].
  exfalso. apply find_some in E. destruct E as [Hin Hq].
  apply andb_true_iff in Hq. destruct Hq as [Hag Hst].
  apply Nat.eqb_eq in Hag. apply (H q Hin Hag).
  apply existsb_exists in Hst. destruct Hst as (st & Hst & E).
  destruct (PayoutRequest.status q), st; try discriminate; exact Hst.
Qed.

Lemma in_when (A : Type) (b : bool) (x y : A) :
  In x (Workflow.when b y) -> b = true /\ x = y.
Proof.
  destruct b; cbn; [intros [<-|[]]; auto|intros []].
Qed.

Ltac not_this_error H :=
  apply in_when in H; destruct H as [_ H]; discriminate H.

(** C6 (as amended): when a payout policy is stored, the validation of the
    creation route rejects the request of an agent who has a request in
    pending, approved or on_hold, and the duplicate-request error is among
    the errors it reports; when all the requests of the agent are rejected
    or paid, that error is not among the reported errors. *)
Theorem validatePayoutRequest_one_outstanding (db : Db.t)
    (body : Workflow.Body) (agentId : ObjectId) (now : Date.t)
    (s : PayoutSettings.t) :
  Db.settings db = PayoutSettings.Stored (Some s) ->
  ((exists p, In p (Db.payoutRequests db)
              /\ PayoutRequest.agentId p = agentId
              /\ (PayoutRequest.status p = PayoutRequest.pending
                  \/ PayoutRequest.status p = PayoutRequest.approved
                  \/ PayoutRequest.status p = PayoutRequest.on_hold)) ->
   exists errors warnings,
     Workflow.validatePayoutRequest body agentId now db
     = Workflow.ValidationFailed errors warnings
     /\ In Workflow.AlreadyPending errors)
  /\ ((forall p, In p (Db.payoutRequests db) ->
                 PayoutRequest.agentId p = agentId ->
                 PayoutRequest.status p = PayoutRequest.rejected
                 \/ PayoutRequest.status p = PayoutRequest.paid) ->
      forall errors warnings,
        Workflow.validatePayoutRequest body agentId now db
        = Workflow.ValidationFailed errors warnings ->
        ~ In Workflow.AlreadyPending errors).
Proof.
  intro Hs. unfold Workflow.validatePayoutRequest. rewrite Hs. cbv zeta.
  match goal with
  | |- context [match ?E with [] => _ | _ :: _ => Workflow.ValidationFailed _ ?W end] =>
      remember E as errors eqn:Eerrors; remember W as warnings eqn:Ewarnings
  end.
  split.
  - intros (p & Hin & Hag & Hst).
    destruct (payoutRequestIn_some agentId
                [PayoutRequest.pending; PayoutRequest.approved;
                 PayoutRequest.on_hold] db p Hin Hag) as (q & Hq).
    { cbn [In]. destruct Hst as [E|[E|E]]; rewrite E; auto. }
    assert (Hmem : In Workflow.AlreadyPending errors).
    { rewrite Eerrors, Hq, !in_app_iff.
      right; right; right; right; right; left. left. reflexivity. }
    destruct errors as [|e errors]; [contradiction|].
    eexists; eexists. split; [reflexivity|exact Hmem].
  - intros Hall errors' warnings' Hres.
    assert (Hnone : Query.payoutRequestIn agentId
                      [PayoutRequest.pending; PayoutRequest.approved;
                       PayoutRequest.on_hold] db = None).
    { apply payoutRequestIn_none. intros p Hin Hag Hst.
      destruct (Hall p Hin Hag) as [E|E]; rewrite E in Hst;
        cbn [In] in Hst; intuition discriminate. }
    assert (Hnot : ~ In Workflow.AlreadyPending errors).
    { rewrite Eerrors, Hnone, !in_app_iff.
      intros [H|[H|[H|[H|[H|[H|[H|[H|H]]]]]]]]; try not_this_error H.
      apply in_when in H. destruct H as [H _]. discriminate H. }
    destruct errors as [|e errors]; [discriminate|].
    injection Hres as <- _. exact Hnot.
Qed.

Lemma validatePayoutRequest_one_outstanding_witness :
  let db := Scenario.outstanding
              (PayoutSettings.Stored
                 (Some (Scenario.policy (3 # 100) false false)))
              PayoutRequest.on_hold in
  let body := Workflow.mkBody (Some 500) "mpesa" "0712345678" in
  let agentId := 7%nat in
  let now := Scenario.friday0800 in
  ((exists p, In p (Db.payoutRequests db)
              /\ PayoutRequest.agentId p = agentId
              /\ (PayoutRequest.status p = PayoutRequest.pending
                  \/ PayoutRequest.status p = PayoutRequest.approved
                  \/ PayoutRequest.status p = PayoutRequest.on_hold)) ->
   exists errors warnings,
     Workflow.validatePayoutRequest body agentId now db
     = Workflow.ValidationFailed errors warnings
     /\ In Workflow.AlreadyPending errors)
  /\ ((forall p, In p (Db.payoutRequests db) ->
                 PayoutRequest.agentId p = agentId ->
                 PayoutRequest.status p = PayoutRequest.rejected
                 \/ PayoutRequest.status p = PayoutRequest.paid) ->
      forall errors warnings,
        Workflow.validatePayoutRequest body agentId now db
        = Workflow.ValidationFailed errors warnings ->
        ~ In Workflow.AlreadyPending errors).
Proof.
  intros db body agentId now.
  apply (validatePayoutRequest_one_outstanding db body agentId now
           (Scenario.policy (3 # 100) false false)).
  reflexivity.
Defined.

(** The validation on the stored policy of the scenario: an agent with a
    request on hold is refused for that reason alone. *)
Lemma validatePayoutRequest_on_hold_example :
  Workflow.validatePayoutRequest (Workflow.mkBody (Some 500) "mpesa" "0712345678")
    7%nat Scenario.friday0800
    (Scenario.outstanding
       (PayoutSettings.Stored (Some (Scenario.policy (3 # 100) false false)))
       PayoutRequest.on_hold)
  = Workflow.ValidationFailed [Workflow.AlreadyPending]
      [PayoutRequest.WillAutoApprove 1000; PayoutRequest.PaymentAutomatic].
Proof. vm_compute. reflexivity. Qed.

(** C6 (the claim as stated fails): when no payout policy is stored the
    validation lets every request through unchecked, so an agent with a
    pending request gets a second pending request. *)
Lemma validatePayoutRequest_without_policy_admits_second :
  let db := Scenario.outstanding (PayoutSettings.Stored None)
              PayoutRequest.pending in
  let body := Workflow.mkBody (Some 500) "mpesa" "0712345678" in
  Query.payoutRequestIn 7%nat
    [PayoutRequest.pending; PayoutRequest.approved; PayoutRequest.on_hold] db
  = Some (Scenario.request 2%nat 500 PayoutRequest.pending)
  /\ Workflow.validatePayoutRequest body 7%nat Scenario.friday0800 db
     = Workflow.Next None
  /\ exists p db',
       Workflow.submitPayoutRequest body 7%nat Scenario.friday0800 db
       = (Workflow.Handled
            (Workflow.Created Workflow.CreatedSuccessfully (Some p) [] None false),
          db')
       /\ PayoutRequest.status p = PayoutRequest.pending
       /\ map (fun q => (PayoutRequest.agentId q, PayoutRequest.status q))
              (Db.payoutRequests db')
          = [(7%nat, PayoutRequest.pending); (7%nat, PayoutRequest.pending)].
Proof.
  cbv zeta. split; [reflexivity|]. split; [reflexivity|].
  eexists; eexists. split; [vm_compute; reflexivity|].
  split; reflexivity.
Qed.

(** The dry-run validation of the payout-settings controller looks for
    pending and approved requests only: a request on hold does not make it
    report the duplicate, where the creation route does. *)
Lemma validateWithdrawalRequest_ignores_on_hold :
  PayoutSettingsController.validateWithdrawalRequest 500 (Some 7%nat)
    Scenario.friday0800
    (Scenario.outstanding
       (PayoutSettings.Stored (Some (Scenario.policy (3 # 100) false false)))
       PayoutRequest.on_hold)
  = PayoutSettingsController.Validated true [] [].
Proof. vm_compute. reflexivity. Qed.


(** Account details that are blank pass the handler's own guards for the
    method bank, and [PayoutRequest.create] then refuses them: the answer
    is a bad request and nothing is stored. *)
Example createPayoutRequest_blank_details :
  Workflow.createPayoutRequest (Workflow.mkBody (Some 180) "bank" "   ")
    7%nat None 5000 Scenario.threeEntries
  = (Workflow.BadRequest
       (Workflow.CreateThrown
          "PayoutRequest validation failed: accountDetails: Path `accountDetails` is required."),
     Scenario.threeEntries).
Proof. vm_compute. reflexivity. Qed.
(** ** The payout window *)

(** The window check of [controllers/payoutSettingsController.js], whose
    router is required but not mounted: with the global hold set and the
    schedule disabled it reports the window as open, while the policy's
    own predicate and the window check of the admin-settings controller,
    which is the one served, report payouts as not allowed. *)
Theorem checkPayoutWindow_open_under_global_hold :
  let s := Scenario.policy (3 # 100) true false in
  let db := Scenario.fresh (PayoutSettings.Stored (Some s)) in
  PayoutSettings.globalPayoutHold s = true
  /\ PayoutSettings.enabled (PayoutSettings.payoutSchedule s) = false
  /\ Window.checkPayoutWindow_payoutSettings Scenario.wednesday1030 db
     = Window.Report true None
  /\ PayoutSettings.allowed
       (PayoutSettings.arePayoutsAllowed s Scenario.wednesday1030) = false
  /\ fst (Window.checkPayoutWindow_adminSettings Scenario.wednesday1030 db)
     = Window.Report false None.
Proof. repeat split; reflexivity. Qed.

Lemma createCommission_returns_cancelled_witness :
  exists c,
    Ledger.createCommission 100%nat 7%nat Commission.delivery 30
      Scenario.afterCancel = (Ok c, Scenario.afterCancel)
    /\ In c (Db.commissions Scenario.afterCancel)
    /\ Query.sameKey 100%nat 7%nat Commission.delivery c = true
    /\ Commission.status c = Commission.cancelled.
Proof.
  apply (@createCommission_returns_cancelled Scenario.afterCancel
           100%nat 7%nat Commission.delivery 30
           Scenario.order1 Scenario.agentA).
  - reflexivity.
  - reflexivity.
  - reflexivity.
  - vm_compute. discriminate.
  - intros c Hc. vm_compute in Hc. destruct Hc as [<-|[]].
    split; discriminate.
Defined.

(** ** Clock texts and their order *)

Lemma compare_digitChar (a b : nat) :
  (a < 10)%nat -> (b < 10)%nat ->
  Ascii.compare (JS.digitChar a) (JS.digitChar b) = Nat.compare a b.
Proof.
  intros Ha Hb.
  do 10 (destruct a as [|a];
         [do 10 (destruct b as [|b]; [reflexivity|]); lia|]).
  lia.
Qed.

Lemma isDigit_digitChar (c : ascii) :
  JS.isDigit c = true ->
  exists n, (n < 10)%nat /\ c = JS.digitChar n /\ JS.digitVal c = Z.of_nat n.
Proof.
  intro H. exists (nat_of_ascii c - 48)%nat.
  destruct c as [[] [] [] [] [] [] [] []]; try discriminate H;
    (split; [cbn; lia|split; reflexivity]).
Qed.

Lemma digitChar_not_colon (n : nat) :
  (n < 10)%nat -> Ascii.eqb (JS.digitChar n) ":" = false.
Proof. intro H. do 10 (destruct n as [|n]; [reflexivity|]). lia. Qed.

Lemma digitVal_digitChar (n : nat) :
  (n < 10)%nat -> JS.digitVal (JS.digitChar n) = Z.of_nat n.
Proof. intro H. do 10 (destruct n as [|n]; [reflexivity|]). lia. Qed.

(** A well-formed time is the clock text of its four digits. *)
Lemma isHHMM_clock (s : string) :
  PayoutSettings.isHHMM s = true ->
  exists a b c d,
    (a < 10)%nat /\ (b < 10)%nat /\ (c < 6)%nat /\ (d < 10)%nat
    /\ (10 * a + b < 24)%nat
    /\ s = Date.clock a b c d
    /\ PayoutSettings.minutesOf s
       = Z.of_nat ((10 * a + b) * 60 + (10 * c + d)).
Proof.
  destruct s as [|ca [|cb [|cc [|cd [|ce [|x r]]]]]]; try discriminate.
  unfold PayoutSettings.isHHMM. rewrite !andb_true_iff.
  intros ((((((Ha & Hb) & Hc) & Hd) & He) & Hh) & Hm).
  destruct (isDigit_digitChar ca Ha) as (a & La & -> & Va).
  destruct (isDigit_digitChar cb Hb) as (b & Lb & -> & Vb).
  destruct (isDigit_digitChar cd Hd) as (c & Lc & -> & Vc).
  destruct (isDigit_digitChar ce He) as (d & Ld & -> & Vd).
  apply Ascii.eqb_eq in Hc. subst cc.
  apply Z.ltb_lt in Hh. apply Z.ltb_lt in Hm.
  rewrite Va, Vb in Hh. rewrite Vc in Hm.
  exists a, b, c, d. repeat split; try lia.
  unfold PayoutSettings.minutesOf. rewrite Va, Vb, Vc, Vd. lia.
Qed.

(** The clock reading of an instant is a well-formed time. *)
Lemma hhmm_clock (now : Date.t) :
  exists a b c d,
    (a < 10)%nat /\ (b < 10)%nat /\ (c < 6)%nat /\ (d < 10)%nat
    /\ Date.hhmm now = Date.clock a b c d
    /\ Window.minuteOfDay now = Z.of_nat ((10 * a + b) * 60 + (10 * c + d)).
Proof.
  assert (Hms : 0 <= Date.msOfDay now < Date.msPerDay)
    by (apply Z.mod_pos_bound; reflexivity).
  assert (Hh : 0 <= Date.getHours now < 24).
  { unfold Date.getHours, Date.msPerHour, Date.msPerDay in *.
    split; [apply Z.div_pos; lia|apply Z.div_lt_upper_bound; lia]. }
  assert (Hm : 0 <= Date.getMinutes now < 60)
    by (apply Z.mod_pos_bound; reflexivity).
  exists (Z.to_nat (Date.getHours now / 10)),
         (Z.to_nat (Date.getHours now mod 10)),
         (Z.to_nat (Date.getMinutes now / 10)),
         (Z.to_nat (Date.getMinutes now mod 10)).
  assert (H1 : 0 <= Date.getHours now / 10 < 3)
    by (split; [apply Z.div_pos; lia|apply Z.div_lt_upper_bound; lia]).
  assert (H2 : 0 <= Date.getHours now mod 10 < 10)
    by (apply Z.mod_pos_bound; reflexivity).
  assert (H3 : 0 <= Date.getMinutes now / 10 < 6)
    by (split; [apply Z.div_pos; lia|apply Z.div_lt_upper_bound; lia]).
  assert (H4 : 0 <= Date.getMinutes now mod 10 < 10)
    by (apply Z.mod_pos_bound; reflexivity).
  repeat split; try lia.
  unfold Window.minuteOfDay.
  rewrite (Z.div_mod (Date.getHours now) 10) at 1 by lia.
  rewrite (Z.div_mod (Date.getMinutes now) 10) at 1 by lia.
  lia.
Qed.

(** Clock texts are ordered as the minutes they name. *)
Lemma compare_clock (a b c d a' b' c' d' : nat) :
  (a < 10)%nat -> (b < 10)%nat -> (c < 6)%nat -> (d < 10)%nat ->
  (a' < 10)%nat -> (b' < 10)%nat -> (c' < 6)%nat -> (d' < 10)%nat ->
  String.compare (Date.clock a b c d) (Date.clock a' b' c' d')
  = Nat.compare ((10 * a + b) * 60 + (10 * c + d))
                ((10 * a' + b') * 60 + (10 * c' + d')).
Proof.
  intros. unfold Date.clock. cbn [String.compare].
  rewrite !compare_digitChar by lia.
  change (Ascii.compare ":" ":") with Eq.
  symmetry.
  destruct (Nat.compare_spec a a'); [subst|apply Nat.compare_lt_iff; lia
                                          |apply Nat.compare_gt_iff; lia].
  destruct (Nat.compare_spec b b'); [subst|apply Nat.compare_lt_iff; lia
                                          |apply Nat.compare_gt_iff; lia].
  destruct (Nat.compare_spec c c'); [subst|apply Nat.compare_lt_iff; lia
                                          |apply Nat.compare_gt_iff; lia].
  destruct (Nat.compare_spec d d'); [subst; apply Nat.compare_refl
                                    |apply Nat.compare_lt_iff; lia
                                    |apply Nat.compare_gt_iff; lia].
Qed.

Lemma leb_hhmm_l (s : string) (now : Date.t) :
  PayoutSettings.isHHMM s = true ->
  String.leb s (Date.hhmm now)
  = (PayoutSettings.minutesOf s <=? Window.minuteOfDay now).
Proof.
  intro Hs.
  destruct (isHHMM_clock s Hs) as (a & b & c & d & ? & ? & ? & ? & _ & -> & ->).
  destruct (hhmm_clock now) as (a' & b' & c' & d' & ? & ? & ? & ? & -> & ->).
  unfold String.leb. rewrite compare_clock by assumption.
  destruct (Nat.compare_spec ((10 * a + b) * 60 + (10 * c + d))
              ((10 * a' + b') * 60 + (10 * c' + d')));
    symmetry; [apply Z.leb_le|apply Z.leb_le|apply Z.leb_gt]; lia.
Qed.

Lemma leb_hhmm_r (s : string) (now : Date.t) :
  PayoutSettings.isHHMM s = true ->
  String.leb (Date.hhmm now) s
  = (Window.minuteOfDay now <=? PayoutSettings.minutesOf s).
Proof.
  intro Hs.
  destruct (isHHMM_clock s Hs) as (a & b & c & d & ? & ? & ? & ? & _ & -> & ->).
  destruct (hhmm_clock now) as (a' & b' & c' & d' & ? & ? & ? & ? & -> & ->).
  unfold String.leb. rewrite compare_clock by assumption.
  destruct (Nat.compare_spec ((10 * a' + b') * 60 + (10 * c' + d'))
              ((10 * a + b) * 60 + (10 * c + d)));
    symmetry; [apply Z.leb_le|apply Z.leb_le|apply Z.leb_gt]; lia.
Qed.

Lemma ltb_hhmm_l (s : string) (now : Date.t) :
  PayoutSettings.isHHMM s = true ->
  String.ltb s (Date.hhmm now)
  = (PayoutSettings.minutesOf s <? Window.minuteOfDay now).
Proof.
  intro Hs.
  destruct (isHHMM_clock s Hs) as (a & b & c & d & ? & ? & ? & ? & _ & -> & ->).
  destruct (hhmm_clock now) as (a' & b' & c' & d' & ? & ? & ? & ? & -> & ->).
  unfold String.ltb. rewrite compare_clock by assumption.
  destruct (Nat.compare_spec ((10 * a + b) * 60 + (10 * c + d))
              ((10 * a' + b') * 60 + (10 * c' + d')));
    symmetry; [apply Z.ltb_ge|apply Z.ltb_lt|apply Z.ltb_ge]; lia.
Qed.

(** The string test of the window is the test on minutes. *)
Lemma isWithinTimeRange_minutes (s : PayoutSettings.t) (now : Date.t) :
  PayoutSettings.isHHMM
    (PayoutSettings.startTime (PayoutSettings.payoutSchedule s)) = true ->
  PayoutSettings.isHHMM
    (PayoutSettings.endTime (PayoutSettings.payoutSchedule s)) = true ->
  PayoutSettings.isCorrectDay s now && PayoutSettings.isWithinTimeRange s now
  = Window.inWindow s now.
Proof.
  intros Hs He. unfold PayoutSettings.isWithinTimeRange, Window.inWindow,
    PayoutSettings.isCorrectDay.
  rewrite (leb_hhmm_l _ now Hs), (leb_hhmm_r _ now He). cbv zeta.
  rewrite andb_assoc. reflexivity.
Qed.

(** ** The next window start *)

Lemma splitColon_clock (a b c d : nat) :
  (a < 10)%nat -> (b < 10)%nat -> (c < 10)%nat -> (d < 10)%nat ->
  JS.splitColon (Date.clock a b c d)
  = [String (JS.digitChar a) (String (JS.digitChar b) EmptyString);
     String (JS.digitChar c) (String (JS.digitChar d) EmptyString)].
Proof.
  intros Ha Hb Hc Hd. unfold Date.clock. cbn [JS.splitColon].
  rewrite !digitChar_not_colon by assumption.
  change (Ascii.eqb ":" ":") with true. reflexivity.
Qed.

Lemma parseInt_two_digits (a b : nat) :
  (a < 10)%nat -> (b < 10)%nat ->
  JS.parseInt (String (JS.digitChar a) (String (JS.digitChar b) EmptyString))
  = Some (Z.of_nat (10 * a + b)).
Proof.
  intros Ha Hb.
  do 10 (destruct a as [|a];
         [do 10 (destruct b as [|b]; [reflexivity|]); lia|]).
  lia.
Qed.

Lemma Number_two_digits (a b : nat) :
  (a < 10)%nat -> (b < 10)%nat ->
  JS.Number (String (JS.digitChar a) (String (JS.digitChar b) EmptyString))
  = Some (Z.of_nat (10 * a + b)).
Proof.
  intros Ha Hb.
  do 10 (destruct a as [|a];
         [do 10 (destruct b as [|b]; [reflexivity|]); lia|]).
  lia.
Qed.

Lemma minuteOfDay_ms (now : Date.t) :
  Window.minuteOfDay now = Date.msOfDay now / Date.msPerMinute.
Proof.
  unfold Window.minuteOfDay, Date.getHours, Date.getMinutes,
    Date.msPerHour, Date.msPerMinute.
  generalize (Date.msOfDay now). intro r.
  replace 3600000 with (60000 * 60) by reflexivity.
  rewrite <- Z.div_div by lia.
  rewrite (Z.div_mod (r / 60000) 60) at 3 by lia. lia.
Qed.

(** The instant [j] days after the day of [now], at the start time. *)
Lemma setHours_addDays (now : Date.t) (j h m : Z) :
  Date.setHours (Date.addDays now j) h m
  = (Date.dayNumber now + j) * Date.msPerDay
    + (h * 60 + m) * Date.msPerMinute.
Proof.
  unfold Date.setHours, Date.addDays, Date.dayNumber, Date.msPerDay,
    Date.msPerHour, Date.msPerMinute.
  rewrite Z.div_add by lia. lia.
Qed.

Lemma setHours_today (now : Date.t) (h m : Z) :
  Date.setHours now h m
  = (Date.dayNumber now + 0) * Date.msPerDay
    + (h * 60 + m) * Date.msPerMinute.
Proof.
  rewrite <- setHours_addDays. unfold Date.addDays.
  rewrite Z.mul_0_l, Z.add_0_r. reflexivity.
Qed.

(** The arithmetic of the next window: [j] days ahead at the start minute
    [start] is the first window start after [now] when [j] is the number
    of days until the configured day, or 0 when that day is today and the
    start is still ahead, or 7 when it is today and the start has passed. *)
Lemma next_window_start (s : PayoutSettings.t) (now : Date.t) (j : Z) :
  let schedule := PayoutSettings.payoutSchedule s in
  let start := PayoutSettings.minutesOf (PayoutSettings.startTime schedule) in
  0 <= PayoutSettings.dayOfWeek schedule <= 6 ->
  0 <= start < 1440 ->
  (j = Window.daysUntilNext s now /\ 1 <= j)
  \/ (j = 0 /\ Window.daysUntilNext s now = 0
      /\ Window.minuteOfDay now < start)
  \/ (j = 7 /\ Window.daysUntilNext s now = 0
      /\ start <= Window.minuteOfDay now) ->
  Window.isNextWindowStart s now
    ((Date.dayNumber now + j) * Date.msPerDay + start * Date.msPerMinute).
Proof.
  intros schedule start Hdow Hstart Hj.
  unfold Window.isNextWindowStart, Window.isWindowStart.
  fold schedule. fold start.
  unfold Window.daysUntilNext in Hj. fold schedule in Hj.
  rewrite minuteOfDay_ms in Hj.
  unfold Date.getDay, Date.msOfDay, Date.dayNumber, Date.msPerDay,
    Date.msPerMinute in *.
  set (dow := PayoutSettings.dayOfWeek schedule) in *.
  clearbody dow start. clear schedule s.
  assert (Hg : 0 <= (now / 86400000 + 4) mod 7 < 7)
    by (apply Z.mod_pos_bound; lia).
  rewrite Z.rem_mod_nonneg in Hj by lia.
  assert (Ecand : forall q, (q * 86400000 + start * 60000) / 86400000 = q
                            /\ (q * 86400000 + start * 60000) mod 86400000
                               = start * 60000).
  { intro q. split.
    - rewrite Z.add_comm, Z.div_add by lia. rewrite Z.div_small by lia. lia.
    - rewrite Z.add_comm, Z.mod_add by lia. apply Z.mod_small. lia. }
  destruct (Ecand (now / 86400000 + j)) as [Eq Er].
  rewrite Eq, Er.
  split; [split; [|reflexivity]|split].
  - (* the candidate falls on the configured day *)
    destruct Hj as [[-> _]|[(-> & Hk & _)|(-> & Hk & _)]];
      revert Hg; try revert Hk; Z.div_mod_to_equations; lia.
  - (* it is after now *)
    destruct Hj as [[_ Hj]|[(-> & _ & Hlt)|(-> & _ & _)]];
      try revert Hlt; Z.div_mod_to_equations; lia.
  - (* no window start lies between *)
    intros t [Hday Hms] Hafter.
    destruct Hj as [[-> Hj]|[(-> & Hk & Hlt)|(-> & Hk & Hge)]];
      revert Hday Hms Hafter Hg; try revert Hj; try revert Hk;
      try revert Hlt; try revert Hge;
      Z.div_mod_to_equations; lia.
Qed.

Lemma daysUntilNext_range (s : PayoutSettings.t) (now : Date.t) :
  0 <= PayoutSettings.dayOfWeek (PayoutSettings.payoutSchedule s) <= 6 ->
  0 <= Window.daysUntilNext s now < 7.
Proof.
  intro Hdow. unfold Window.daysUntilNext, Date.getDay.
  assert (Hg : 0 <= (Date.dayNumber now + 4) mod 7 < 7)
    by (apply Z.mod_pos_bound; lia).
  rewrite Z.rem_mod_nonneg by lia. apply Z.mod_pos_bound. lia.
Qed.

Lemma minutesOf_range (s : string) :
  PayoutSettings.isHHMM s = true -> 0 <= PayoutSettings.minutesOf s < 1440.
Proof.
  intro Hs.
  destruct (isHHMM_clock s Hs) as (a & b & c & d & ? & ? & ? & ? & ? & _ & E).
  rewrite E. lia.
Qed.

(** The start time of a well-formed schedule, read the way the admin
    controller reads it: split at the colon, both parts as numbers. *)
Lemma Number_startTime (s : string) :
  PayoutSettings.isHHMM s = true ->
  exists h m,
    map JS.Number (JS.splitColon s) = [Some h; Some m]
    /\ h * 60 + m = PayoutSettings.minutesOf s.
Proof.
  intro Hs.
  destruct (isHHMM_clock s Hs)
    as (a & b & c & d & Ha & Hb & Hc & Hd & _ & E & Emin).
  exists (Z.of_nat (10 * a + b)), (Z.of_nat (10 * c + d)).
  rewrite Emin. split; [|lia]. rewrite E.
  rewrite splitColon_clock by lia. cbn [map].
  rewrite !Number_two_digits by lia. reflexivity.
Qed.

(** The same through [parseInt], as the inline computation reads it. *)
Lemma parseInt_startTime (s : string) :
  PayoutSettings.isHHMM s = true ->
  exists h m hours minutes,
    JS.splitColon s = [hours; minutes]
    /\ JS.parseInt hours = Some h /\ JS.parseInt minutes = Some m
    /\ h * 60 + m = PayoutSettings.minutesOf s.
Proof.
  intro Hs.
  destruct (isHHMM_clock s Hs)
    as (a & b & c & d & Ha & Hb & Hc & Hd & _ & E & Emin).
  exists (Z.of_nat (10 * a + b)), (Z.of_nat (10 * c + d)).
  eexists. eexists. rewrite Emin, E.
  split; [apply splitColon_clock; lia|].
  rewrite !parseInt_two_digits by lia. repeat split. lia.
Qed.

(** The admin controller's next window is the first window start after the
    instant, whatever the instant. *)
Lemma nextWindowAdmin_next (s : PayoutSettings.t) (now : Date.t) :
  let schedule := PayoutSettings.payoutSchedule s in
  0 <= PayoutSettings.dayOfWeek schedule <= 6 ->
  PayoutSettings.isHHMM (PayoutSettings.startTime schedule) = true ->
  exists next,
    Window.nextWindowAdmin s now = Some next
    /\ Window.isNextWindowStart s now next.
Proof.
  intros schedule Hdow Hs.
  destruct (Number_startTime _ Hs) as (h & m & Esplit & Emin).
  pose proof (minutesOf_range _ Hs) as Hrange.
  pose proof (daysUntilNext_range s now Hdow) as Hk.
  unfold Window.nextWindowAdmin. fold schedule. rewrite Esplit.
  fold (Window.minuteOfDay now). rewrite Emin.
  destruct (Window.daysUntilNext s now =? 0) eqn:Ek; cbn [andb].
  - apply Z.eqb_eq in Ek.
    destruct (Window.minuteOfDay now
              <? PayoutSettings.minutesOf (PayoutSettings.startTime schedule))
      eqn:Elt.
    + apply Z.ltb_lt in Elt. eexists. split; [reflexivity|].
      rewrite setHours_today, Emin.
      apply next_window_start; try assumption. right. left. auto.
    + apply Z.ltb_ge in Elt. eexists. split; [reflexivity|].
      rewrite setHours_addDays, Emin.
      apply next_window_start; try assumption. right. right. auto.
  - apply Z.eqb_neq in Ek. eexists. split; [reflexivity|].
    rewrite setHours_addDays, Emin.
    apply next_window_start; try assumption. left. split; [reflexivity|lia].
Qed.

(** The inline computation gives the first window start after the instant
    when the instant is outside the window and the window does not end
    before it starts. *)
Lemma nextWindowInline_next (s : PayoutSettings.t) (now : Date.t) :
  let schedule := PayoutSettings.payoutSchedule s in
  0 <= PayoutSettings.dayOfWeek schedule <= 6 ->
  PayoutSettings.isHHMM (PayoutSettings.startTime schedule) = true ->
  PayoutSettings.isHHMM (PayoutSettings.endTime schedule) = true ->
  PayoutSettings.minutesOf (PayoutSettings.startTime schedule)
  <= PayoutSettings.minutesOf (PayoutSettings.endTime schedule) ->
  Window.inWindow s now = false ->
  exists next,
    Window.nextWindowInline s now = Some next
    /\ Window.isNextWindowStart s now next.
Proof.
  intros schedule Hdow Hs He Hle Hout.
  destruct (parseInt_startTime _ Hs)
    as (h & m & hours & minutes & Esplit & Eh & Em & Emin).
  pose proof (minutesOf_range _ Hs) as Hrange.
  pose proof (daysUntilNext_range s now Hdow) as Hk.
  unfold Window.nextWindowInline. fold schedule.
  rewrite Esplit, Eh, Em, (ltb_hhmm_l _ now He).
  destruct (Window.daysUntilNext s now =? 0) eqn:Ek; cbn [andb].
  - apply Z.eqb_eq in Ek.
    destruct (PayoutSettings.minutesOf (PayoutSettings.endTime schedule)
              <? Window.minuteOfDay now) eqn:Elt.
    + apply Z.ltb_lt in Elt. eexists. split; [reflexivity|].
      rewrite setHours_addDays, Emin.
      apply next_window_start; try assumption. right. right.
      repeat split; try assumption. fold schedule. lia.
    + apply Z.ltb_ge in Elt. eexists. split; [reflexivity|].
      rewrite setHours_addDays, Emin.
      apply next_window_start; try assumption. right. left.
      repeat split; try assumption.
      (* today is the day and the end has not passed: the start is ahead *)
      unfold Window.inWindow in Hout. fold schedule in Hout.
      assert (Eday : (Date.getDay now =? PayoutSettings.dayOfWeek schedule)
                     = true).
      { apply Z.eqb_eq. revert Ek. unfold Window.daysUntilNext, Date.getDay.
        fold schedule.
        assert (Hg : 0 <= (Date.dayNumber now + 4) mod 7 < 7)
          by (apply Z.mod_pos_bound; lia).
        rewrite Z.rem_mod_nonneg by lia.
        revert Hg. generalize ((Date.dayNumber now + 4) mod 7). intros g Hg.
        Z.div_mod_to_equations. lia. }
      rewrite Eday in Hout. cbn [andb] in Hout.
      apply andb_false_iff in Hout. destruct Hout as [Hout|Hout].
      * apply Z.leb_gt in Hout. exact Hout.
      * apply Z.leb_gt in Hout. lia.
  - apply Z.eqb_neq in Ek. eexists. split; [reflexivity|].
    rewrite setHours_addDays, Emin.
    apply next_window_start; try assumption. left. split; [reflexivity|lia].
Qed.

(** ** The window predicate against its description *)

(** The policy's own predicate: not allowed under the global hold, allowed
    when the schedule is disabled, otherwise allowed exactly in the
    window. *)
Lemma arePayoutsAllowed_spec (s : PayoutSettings.t) (now : Date.t) :
  let schedule := PayoutSettings.payoutSchedule s in
  PayoutSettings.isHHMM (PayoutSettings.startTime schedule) = true ->
  PayoutSettings.isHHMM (PayoutSettings.endTime schedule) = true ->
  PayoutSettings.allowed (PayoutSettings.arePayoutsAllowed s now)
  = if PayoutSettings.globalPayoutHold s then false
    else if PayoutSettings.enabled schedule then Window.inWindow s now
    else true.
Proof.
  intros schedule Hs He.
  rewrite <- (isWithinTimeRange_minutes s now Hs He).
  unfold PayoutSettings.arePayoutsAllowed. fold schedule.
  destruct (PayoutSettings.globalPayoutHold s); [reflexivity|].
  destruct (PayoutSettings.enabled schedule); [|reflexivity]. cbn [negb].
  destruct (PayoutSettings.isCorrectDay s now); [|reflexivity].
  destruct (PayoutSettings.isWithinTimeRange s now); reflexivity.
Qed.

(** X15: the window check of the admin-settings controller follows the
    description in full: the predicate above, and the next window start
    exactly when the schedule is what closes the window. *)
Lemma checkPayoutWindow_adminSettings_spec
  (s : PayoutSettings.t) (now : Date.t) (db : Db.t) :
  let schedule := PayoutSettings.payoutSchedule s in
  Db.settings db = PayoutSettings.Stored (Some s) ->
  0 <= PayoutSettings.dayOfWeek schedule <= 6 ->
  PayoutSettings.isHHMM (PayoutSettings.startTime schedule) = true ->
  PayoutSettings.isHHMM (PayoutSettings.endTime schedule) = true ->
  (PayoutSettings.globalPayoutHold s = true ->
   Window.checkPayoutWindow_adminSettings now db
   = (Window.Report false None, db))
  /\ (PayoutSettings.globalPayoutHold s = false ->
      PayoutSettings.enabled schedule = false ->
      Window.checkPayoutWindow_adminSettings now db
      = (Window.Report true None, db))
  /\ (PayoutSettings.globalPayoutHold s = false ->
      PayoutSettings.enabled schedule = true ->
      Window.inWindow s now = true ->
      Window.checkPayoutWindow_adminSettings now db
      = (Window.Report true None, db))
  /\ (PayoutSettings.globalPayoutHold s = false ->
      PayoutSettings.enabled schedule = true ->
      Window.inWindow s now = false ->
      exists next,
        Window.checkPayoutWindow_adminSettings now db
        = (Window.Report false (Some next), db)
        /\ Window.isNextWindowStart s now next).
Proof.
  intros schedule Hdb Hdow Hs He.
  pose proof (arePayoutsAllowed_spec s now Hs He) as Hallowed.
  fold schedule in Hallowed.
  unfold Window.checkPayoutWindow_adminSettings, Write.getCurrentSettings.
  rewrite Hdb. fold schedule. rewrite Hallowed.
  repeat split.
  - intros ->. destruct (PayoutSettings.enabled schedule); reflexivity.
  - intros -> ->. reflexivity.
  - intros -> -> ->. reflexivity.
  - intros -> -> ->. cbn [negb andb].
    destruct (nextWindowAdmin_next s now Hdow Hs) as (next & -> & Hnext).
    exists next. split; [reflexivity|exact Hnext].
Qed.

(** The window check of the payout-settings controller follows the
    description when the global hold is off. *)
Lemma checkPayoutWindow_payoutSettings_spec
  (s : PayoutSettings.t) (now : Date.t) (db : Db.t) :
  let schedule := PayoutSettings.payoutSchedule s in
  Db.settings db = PayoutSettings.Stored (Some s) ->
  PayoutSettings.globalPayoutHold s = false ->
  0 <= PayoutSettings.dayOfWeek schedule <= 6 ->
  PayoutSettings.isHHMM (PayoutSettings.startTime schedule) = true ->
  PayoutSettings.isHHMM (PayoutSettings.endTime schedule) = true ->
  PayoutSettings.minutesOf (PayoutSettings.startTime schedule)
  <= PayoutSettings.minutesOf (PayoutSettings.endTime schedule) ->
  (PayoutSettings.enabled schedule = false ->
   Window.checkPayoutWindow_payoutSettings now db = Window.Report true None)
  /\ (PayoutSettings.enabled schedule = true ->
      Window.inWindow s now = true ->
      Window.checkPayoutWindow_payoutSettings now db
      = Window.Report true None)
  /\ (PayoutSettings.enabled schedule = true ->
      Window.inWindow s now = false ->
      exists next,
        Window.checkPayoutWindow_payoutSettings now db
        = Window.Report false (Some next)
        /\ Window.isNextWindowStart s now next).
Proof.
  intros schedule Hdb Hhold Hdow Hs He Hle.
  unfold Window.checkPayoutWindow_payoutSettings.
  rewrite Hdb. fold schedule.
  rewrite (isWithinTimeRange_minutes s now Hs He), Hhold.
  repeat split.
  - intros ->. reflexivity.
  - intros -> ->. reflexivity.
  - intros -> Hout. rewrite Hout. cbn [negb andb].
    destruct (nextWindowInline_next s now Hdow Hs He Hle Hout)
      as (next & -> & Hnext).
    exists next. split; [reflexivity|exact Hnext].
Qed.

(** Friday 07:00 to 23:59: on Wednesday 10:30 both controllers name the
    coming Friday 07:00. *)
Example checkPayoutWindow_wednesday :
  let s := Scenario.policy (3 # 100) false true in
  let db := Scenario.fresh (PayoutSettings.Stored (Some s)) in
  let friday0700 :=
    Date.setHours (Date.addDays Scenario.wednesday1030 2) 7 0 in
  Window.checkPayoutWindow_payoutSettings Scenario.wednesday1030 db
  = Window.Report false (Some friday0700)
  /\ fst (Window.checkPayoutWindow_adminSettings Scenario.wednesday1030 db)
     = Window.Report false (Some friday0700).
Proof. split; vm_compute; reflexivity. Qed.

(** The schema's pattern also admits a time without the leading zero, and
    the comparison is on text: with the start written ["7:00"], Friday
    10:30 is refused although it lies between 7:00 and 23:59. *)
Example arePayoutsAllowed_unpadded_start :
  let s :=
    PayoutSettings.mk 50%nat 100 50000 (PayoutSettings.mkRates 200 (3 # 100))
      (PayoutSettings.mkSchedule true 5 "7:00" "23:59")
      false "" 0 1000 false 5 100000 in
  let friday1030 := Date.setHours Scenario.friday0800 10 30 in
  PayoutSettings.matchesTimePattern "7:00" = true
  /\ Date.getDay friday1030 = 5
  /\ Date.hhmm friday1030 = "10:30"%string
  /\ PayoutSettings.arePayoutsAllowed s friday1030
     = PayoutSettings.mkAllowed false
         "Payouts are only allowed between 7:00 and 23:59".
Proof. repeat split; vm_compute; reflexivity. Qed.

(** C7 (the code departs from the claim): a window written without the
    leading zero.  The policy below passes the schema's pattern and the
    save hook, so the settings route stores it: Fridays from [7:00] to
    [9:00].  On a Friday at 08:00, which lies in that window, the
    policy's predicate answers not allowed, because it compares the
    times as text; the window status that is served reports the window
    as closed and names the Friday of the week after, and the validation
    middleware refuses the request as outside the window.  The next
    window, which the controller computes from the minutes of the day,
    treats 08:00 as past the start. *)
Theorem window_refuses_unpadded_start :
  let s :=
    PayoutSettings.mk 50%nat 100 50000 (PayoutSettings.mkRates 200 (3 # 100))
      (PayoutSettings.mkSchedule true 5 "7:00" "9:00")
      false "" 0 1000 false 5 100000 in
  let db :=
    Db.mk (PayoutSettings.Stored (Some s)) [Scenario.agentA] [Scenario.order1]
      [Scenario.entry 1%nat 5000 10] [] 60%nat in
  let now := Scenario.friday0800 in
  PayoutSettings.matchesTimePattern "7:00" = true
  /\ PayoutSettings.matchesTimePattern "9:00" = true
  /\ Policy.preSave s = Ok tt
  /\ Date.getDay now = 5
  /\ Date.hhmm now = "08:00"%string
  /\ PayoutSettings.arePayoutsAllowed s now
     = PayoutSettings.mkAllowed false
         "Payouts are only allowed between 7:00 and 9:00"
  /\ fst (Window.checkPayoutWindow_adminSettings now db)
     = Window.Report false (Some (Date.setHours (Date.addDays now 7) 7 0))
  /\ (exists warnings,
        Workflow.validatePayoutRequest
          (Workflow.mkBody (Some 500) "mpesa" "0712345678") 7%nat now db
        = Workflow.ValidationFailed [Workflow.OutsideWindow] warnings).
Proof.
  repeat split; try (vm_compute; reflexivity).
  eexists. vm_compute. reflexivity.
Qed.

(** * Further properties of the commission and payout code *)

(** ** Cancelling the commissions of an order *)

Lemma cancel_commissions (orderId : ObjectId) (now : Date.t) (db : Db.t) :
  Db.commissions (snd (Ledger.cancelCommissionsForOrder orderId now db))
  = map (fun c =>
           if (Commission.orderId c =? orderId)%nat
              && Commission.status_eqb (Commission.status c) Commission.pending
           then Commission.setCancelledAt now
                  (Commission.setStatus Commission.cancelled c)
           else c)
        (Db.commissions db).
Proof. reflexivity. Qed.

Lemma status_eqb_eq (a b : Commission.Status) :
  Commission.status_eqb a b = true <-> a = b.
Proof. destruct a, b; simpl; split; intro H; congruence. Qed.

Lemma cancel_clears (orderId : ObjectId) (now : Date.t) (db : Db.t)
    (c : Commission.t) :
  In c (Db.commissions (snd (Ledger.cancelCommissionsForOrder orderId now db))) ->
  (Commission.orderId c =? orderId)%nat
  && Commission.status_eqb (Commission.status c) Commission.pending = false.
Proof.
  rewrite cancel_commissions. intro Hc.
  apply in_map_iff in Hc. destruct Hc as (d & Ed & _).
  destruct ((Commission.orderId d =? orderId)%nat
            && Commission.status_eqb (Commission.status d) Commission.pending)
    eqn:Hit; subst c.
  - cbn. apply andb_false_r.
  - exact Hit.
Qed.

Lemma filter_none_of (A : Type) (p : A -> bool) (l : list A) :
  (forall x, In x l -> p x = false) -> filter p l = [].
Proof.
  induction l as [|x l IH]; intro H; [reflexivity|].
  cbn [filter]. rewrite (H x (or_introl eq_refl)).
  apply IH. intros y Hy. apply H. right. exact Hy.
Qed.

Lemma map_untouched (A : Type) (p : A -> bool) (g : A -> A) (l : list A) :
  (forall x, In x l -> p x = false) ->
  map (fun x => if p x then g x else x) l = l.
Proof.
  induction l as [|x l IH]; intro H; [reflexivity|].
  cbn [map]. rewrite (H x (or_introl eq_refl)). f_equal.
  apply IH. intros y Hy. apply H. right. exact Hy.
Qed.

(** X1: cancelling the commissions of an order leaves no pending entry of
    that order; each of its pending entries is stored as cancelled with the
    cancellation time, every other entry (paid, already cancelled, or of
    another order) is stored unchanged, ids and amounts stay as they were,
    and nothing outside the commission collection is touched. *)
Theorem cancelCommissionsForOrder_effect (orderId : ObjectId) (now : Date.t)
    (db : Db.t) :
  let db' := snd (Ledger.cancelCommissionsForOrder orderId now db) in
  (forall c, In c (Db.commissions db') ->
             Commission.orderId c = orderId ->
             Commission.status c <> Commission.pending)
  /\ (forall c, In c (Db.commissions db) ->
                Commission.orderId c = orderId ->
                Commission.status c = Commission.pending ->
                In (Commission.setCancelledAt now
                      (Commission.setStatus Commission.cancelled c))
                   (Db.commissions db'))
  /\ (forall c, In c (Db.commissions db) ->
                Commission.orderId c <> orderId
                \/ Commission.status c <> Commission.pending ->
                In c (Db.commissions db'))
  /\ map Commission._id (Db.commissions db')
     = map Commission._id (Db.commissions db)
  /\ map Commission.amount (Db.commissions db')
     = map Commission.amount (Db.commissions db)
  /\ Db.payoutRequests db' = Db.payoutRequests db
  /\ Db.users db' = Db.users db
  /\ Db.orders db' = Db.orders db
  /\ Db.settings db' = Db.settings db
  /\ Db.nextId db' = Db.nextId db.
Proof.
  intro db'. subst db'. rewrite cancel_commissions.
  split; [|split; [|split; [|split; [|split; [|repeat split]]]]].
  - intros c Hc Ho Hs. rewrite <- cancel_commissions in Hc.
    apply cancel_clears in Hc.
    rewrite Ho, Nat.eqb_refl, Hs in Hc. discriminate Hc.
  - intros c Hc Ho Hs. apply in_map_iff. exists c. split; [|exact Hc].
    rewrite Ho, Nat.eqb_refl, Hs. reflexivity.
  - intros c Hc Hno. apply in_map_iff. exists c. split; [|exact Hc].
    destruct ((Commission.orderId c =? orderId)%nat
              && Commission.status_eqb (Commission.status c) Commission.pending)
      eqn:Hit; [|reflexivity].
    apply andb_true_iff in Hit. destruct Hit as [Ho Hs].
    apply Nat.eqb_eq in Ho. apply status_eqb_eq in Hs.
    destruct Hno as [Hno|Hno]; contradiction.
  - rewrite map_map. apply map_ext. intro c.
    destruct (_ && _); reflexivity.
  - rewrite map_map. apply map_ext. intro c.
    destruct (_ && _); reflexivity.
Qed.

(** X2: cancelling is idempotent: a second cancellation of the same order,
    at whatever time, modifies no document and leaves the database as the
    first one left it. *)
Theorem cancelCommissionsForOrder_twice (orderId : ObjectId)
    (now1 now2 : Date.t) (db : Db.t) :
  let db1 := snd (Ledger.cancelCommissionsForOrder orderId now1 db) in
  Ledger.cancelCommissionsForOrder orderId now2 db1 = (0%nat, db1).
Proof.
  intro db1.
  assert (Hnone : forall c, In c (Db.commissions db1) ->
            (Commission.orderId c =? orderId)%nat
            && Commission.status_eqb (Commission.status c) Commission.pending
            = false).
  { intros c Hc. exact (cancel_clears orderId now1 db c Hc). }
  unfold Ledger.cancelCommissionsForOrder at 1.
  rewrite (filter_none_of _ _ _ Hnone), (map_untouched _ _ _ _ Hnone).
  rewrite withCommissions_same. reflexivity.
Qed.

(** X3: cancelling an order lowers an agent's withdrawable balance by
    exactly the pending amounts that agent had on the order, and leaves the
    sum over all the agent's entries as it was: the cancelled entries keep
    their amounts. *)
Theorem cancelCommissionsForOrder_balance (orderId agentId : ObjectId)
    (now : Date.t) (db : Db.t) :
  let db' := snd (Ledger.cancelCommissionsForOrder orderId now db) in
  Ledgers.pendingBalance agentId db'
  = Ledgers.pendingBalance agentId db
    - Query.totalAmount
        (filter (fun c => Query.isPendingOf agentId c
                          && (Commission.orderId c =? orderId)%nat)
                (Db.commissions db))
  /\ Ledgers.ledgerTotal agentId db' = Ledgers.ledgerTotal agentId db.
Proof.
  intro db'. subst db'.
  unfold Ledgers.pendingBalance, Ledgers.ledgerTotal, Query.pendingCommissions.
  rewrite cancel_commissions. split.
  - induction (Db.commissions db) as [|c l IH]; [reflexivity|].
    cbn [map filter].
    assert (Hp : Query.isPendingOf agentId c
                 = (Commission.agentId c =? agentId)%nat
                   && Commission.status_eqb (Commission.status c)
                        Commission.pending) by reflexivity.
    assert (Hc : Query.isPendingOf agentId
                   (Commission.setCancelledAt now
                      (Commission.setStatus Commission.cancelled c)) = false)
      by apply andb_false_r.
    rewrite !Hp.
    destruct (Commission.orderId c =? orderId)%nat,
             (Commission.agentId c =? agentId)%nat,
             (Commission.status_eqb (Commission.status c) Commission.pending);
      cbn [andb]; rewrite ?Hc, ?Hp; cbn [andb];
      rewrite ?totalAmount_cons; lia.
  - apply total_filter_map_same. intros d _.
    destruct (_ && _); split; reflexivity.
Qed.

(** ** Recording a commission *)

Lemma find_some_in (A : Type) (p : A -> bool) (l : list A) (x : A) :
  find p l = Some x -> In x l /\ p x = true.
Proof. apply find_some. Qed.

(** X4: recording a commission only ever appends.  Users, orders and payout
    requests are never touched; a call that throws leaves the commission
    collection as it was; a call that answers an entry either found it
    stored (and then changed nothing at all) or appended it as a new
    pending entry for the requested order, agent and type that passes the
    schema validators, under a fresh id. *)
Theorem createCommission_only_appends (orderId agentId : ObjectId)
    (ty : Commission.Type_) (now : Date.t) (db : Db.t) :
  let r := Ledger.createCommission orderId agentId ty now db in
  Db.users (snd r) = Db.users db
  /\ Db.orders (snd r) = Db.orders db
  /\ Db.payoutRequests (snd r) = Db.payoutRequests db
  /\ match fst r with
     | Throw _ => Db.commissions (snd r) = Db.commissions db
     | Ok c =>
         (snd r = db /\ In c (Db.commissions db))
         \/ (Db.commissions (snd r) = Db.commissions db ++ [c]
             /\ Query.commissionForOrder orderId agentId ty db = None
             /\ Query.sameKey orderId agentId ty c = true
             /\ Commission.status c = Commission.pending
             /\ Commission.valid c = true
             /\ (Db.nextId db <= Commission._id c < Db.nextId (snd r))%nat)
     end.
Proof.
  intro r. subst r. unfold Ledger.createCommission.
  destruct (Query.orderById orderId db) as [order|]; [|repeat split].
  destruct (Query.userById agentId db) as [agent|]; [|repeat split].
  destruct (User.isAgent agent); cbn [negb]; [|repeat split].
  destruct (Query.commissionForOrder orderId agentId ty db) as [c|] eqn:Hc.
  - repeat split. left. split; [reflexivity|].
    apply find_some_in in Hc. apply Hc.
  - unfold Ledger.calculateCommission.
    destruct (getCurrentSettings_keeps db) as (Kc & Ko & Ku & Kp).
    assert (Kn : (Db.nextId db <= Db.nextId (snd (Write.getCurrentSettings db)))%nat).
    { unfold Write.getCurrentSettings.
      destruct (Db.settings db) as [|[s|]]; cbn; lia. }
    destruct (Write.getCurrentSettings db) as [[settings|] db1];
      cbn [snd] in Kc, Ko, Ku, Kp, Kn;
      unfold Write.createCommission;
      match goal with
      | |- context [if Commission.valid ?C then _ else _] =>
          destruct (Commission.valid C) eqn:Hv
      end;
      cbn [fst snd Db.users Db.orders Db.payoutRequests Db.commissions
           Db.nextId Db.withNextId Db.withCommissions];
      repeat split; try assumption; right; rewrite Kc;
      (split; [reflexivity|]); (split; [reflexivity|]);
      (split; [unfold Query.sameKey;
               cbn [Commission.orderId Commission.agentId Commission.type
                    Ledger.newCommissionFields];
               rewrite !Nat.eqb_refl; destruct ty; reflexivity|]);
      (split; [reflexivity|]); (split; [exact Hv|]);
      cbn [Commission._id]; lia.
Qed.

(** ** Processing a payout request: what every action keeps *)

Lemma sameRequest_refl a : sameRequest a a.
Proof. repeat split. Qed.

Lemma sameRequest_trans a b c :
  sameRequest a b -> sameRequest b c -> sameRequest a c.
Proof.
  unfold sameRequest. intros H1 H2.
  repeat match goal with H : _ /\ _ |- _ => destruct H end.
  repeat split; congruence.
Qed.

Lemma sameRequest_setNotes v a : sameRequest (PayoutRequest.setNotes v a) a.
Proof. repeat split. Qed.

Lemma sameLedger_refl db : sameLedger db db.
Proof. repeat split. Qed.

Lemma sameLedger_save p db' db :
  sameLedger db' db -> sameLedger (Write.savePayoutRequest p db') db.
Proof. intro H. exact H. Qed.

Lemma walk_payoutRequests copy now : forall l r db,
  Db.payoutRequests (snd (Settlement.walk copy now l r db))
  = Db.payoutRequests db
  /\ Db.users (snd (Settlement.walk copy now l r db)) = Db.users db
  /\ Db.orders (snd (Settlement.walk copy now l r db)) = Db.orders db
  /\ Db.settings (snd (Settlement.walk copy now l r db)) = Db.settings db.
Proof.
  induction l as [|c l IH]; intros r db; [repeat split|].
  cbn [Settlement.walk].
  destruct (r <=? 0); [repeat split|].
  destruct (Commission.amount c <=? r).
  - specialize (IH (r - Commission.amount c) db).
    destruct (Settlement.walk copy now l (r - Commission.amount c) db)
      as [[w|e] db']; exact IH.
  - unfold Write.createCommission.
    match goal with
    | |- context [if Commission.valid ?C then _ else _] =>
        destruct (Commission.valid C)
    end; repeat split.
Qed.

Lemma saveUpdates_payoutRequests rid now : forall us db,
  Db.payoutRequests (Settlement.saveUpdates rid now us db)
  = Db.payoutRequests db
  /\ Db.users (Settlement.saveUpdates rid now us db) = Db.users db
  /\ Db.orders (Settlement.saveUpdates rid now us db) = Db.orders db
  /\ Db.settings (Settlement.saveUpdates rid now us db) = Db.settings db.
Proof.
  induction us as [|u us IH]; intro db; [repeat split|].
  rewrite saveUpdates_cons.
  destruct (IH (Write.saveCommission (Settlement.applyUpdate rid now u) db))
    as (H1 & H2 & H3 & H4).
  rewrite H1, H2, H3, H4. repeat split.
Qed.

(** The outcome of the [switch]: an early answer leaves the payout
    requests as they were; otherwise the updated request, which differs
    from the one read only in the fields a transition writes, is saved over
    a database whose payout requests are still the ones read.  Unless the
    action is [pay], nothing else has been written. *)
Ltac early_answer :=
  split; [eexists; eexists; reflexivity|repeat split; congruence].

Lemma dispatch_shape (pr : PayoutRequest.t) (action notes reason : string)
    (userId : ObjectId) (now : Date.t) (db : Db.t) :
  match Settlement.dispatch pr action notes reason userId now db with
  | (Throw response, db1) =>
      (exists code message, response = Settlement.Status code message)
      /\ Db.payoutRequests db1 = Db.payoutRequests db
      /\ Db.users db1 = Db.users db /\ Db.orders db1 = Db.orders db
      /\ Db.settings db1 = Db.settings db
      /\ (String.eqb action "pay" = false -> db1 = db)
  | (Ok (updated, _), db1) =>
      exists db0,
        db1 = Write.savePayoutRequest updated db0
        /\ Db.payoutRequests db0 = Db.payoutRequests db
        /\ Db.users db0 = Db.users db /\ Db.orders db0 = Db.orders db
        /\ Db.settings db0 = Db.settings db
        /\ (String.eqb action "pay" = false -> db0 = db)
        /\ sameRequest updated pr
  end.
Proof.
  unfold Settlement.dispatch.
  destruct (String.eqb action "approve") eqn:Ea.
  { apply String.eqb_eq in Ea. subst action.
    destruct (negb _); [early_answer|].
    exists db. repeat split. }
  destruct (String.eqb action "pay") eqn:Ep.
  { destruct (negb _); [early_answer|].
    destruct (Query.userById (PayoutRequest.agentId pr) db); [|early_answer].
    unfold Settlement.pay.
    destruct (_ <? _); [early_answer|].
    pose proof (walk_payoutRequests false now
                  (Query.pendingOldestFirst (PayoutRequest.agentId pr) db)
                  (PayoutRequest.amount pr) db) as Hw.
    destruct (Settlement.walk false now _ (PayoutRequest.amount pr) db)
      as [[w|e] db1]; cbn [snd] in Hw; destruct Hw as (W1 & W2 & W3 & W4).
    - pose proof (saveUpdates_payoutRequests (PayoutRequest._id pr) now
                    (Settlement.commissionsToUpdate w) db1) as Hs.
      destruct Hs as (S1 & S2 & S3 & S4).
      destruct (negb _).
      + early_answer.
      + eexists. split; [reflexivity|].
        repeat split; congruence.
    - early_answer. }
  destruct (String.eqb action "reject").
  { destruct (_ || _); [early_answer|].
    destruct (_ <? _)%nat; [early_answer|].
    destruct (_ <? _)%nat; [early_answer|].
    exists db. repeat split. }
  destruct (String.eqb action "hold").
  { exists db. destruct (JS.truthy notes); repeat split. }
  destruct (negb _); [early_answer|].
  exists db. destruct (JS.truthy notes); repeat split.
Qed.

Lemma find_id_replace (l : list PayoutRequest.t) (p : PayoutRequest.t)
    (i : ObjectId) :
  i <> PayoutRequest._id p ->
  find (fun q => (PayoutRequest._id q =? i)%nat)
       (map (fun q => if (PayoutRequest._id q =? PayoutRequest._id p)%nat
                      then p else q) l)
  = find (fun q => (PayoutRequest._id q =? i)%nat) l.
Proof.
  intro Hne. induction l as [|x l IH]; [reflexivity|].
  cbn [map find].
  destruct (PayoutRequest._id x =? PayoutRequest._id p)%nat eqn:E.
  - apply Nat.eqb_eq in E.
    replace (PayoutRequest._id p =? i)%nat with false
      by (symmetry; apply Nat.eqb_neq; congruence).
    replace (PayoutRequest._id x =? i)%nat with false
      by (symmetry; apply Nat.eqb_neq; congruence).
    exact IH.
  - destruct (PayoutRequest._id x =? i)%nat; [reflexivity|exact IH].
Qed.

Lemma savePayoutRequest_ids (p : PayoutRequest.t) (db : Db.t) :
  map PayoutRequest._id (Db.payoutRequests (Write.savePayoutRequest p db))
  = map PayoutRequest._id (Db.payoutRequests db).
Proof.
  unfold Write.savePayoutRequest. cbn [Db.payoutRequests Db.withPayoutRequests].
  rewrite map_map. apply map_ext_in. intros q _.
  destruct (PayoutRequest._id q =? PayoutRequest._id p)%nat eqn:E;
    [|reflexivity].
  apply Nat.eqb_eq in E. congruence.
Qed.

Lemma savePayoutRequest_found (p q : PayoutRequest.t) (i : ObjectId)
    (db : Db.t) :
  PayoutRequest._id p = i ->
  Query.payoutRequestById i db = Some q ->
  Query.payoutRequestById i (Write.savePayoutRequest p db) = Some p.
Proof.
  intros <- H. exact (savePayoutRequest_lookup p q db H).
Qed.

Lemma payoutRequestById_same_list (i : ObjectId) (db' db : Db.t) :
  Db.payoutRequests db' = Db.payoutRequests db ->
  Query.payoutRequestById i db' = Query.payoutRequestById i db.
Proof. unfold Query.payoutRequestById. intros ->. reflexivity. Qed.

Ltac status_answer :=
  left; cbn [fst snd];
  split; [reflexivity
         |split; [repeat split
                 |split; [intros _; reflexivity
                         |eexists; eexists; reflexivity]]].

(** The handler as a whole, for a request that is found. *)
Lemma processPayoutRequest_shape (id userId : ObjectId)
    (action notes reason : string) (now : Date.t) (db : Db.t)
    (pr : PayoutRequest.t) :
  Query.payoutRequestById id db = Some pr ->
  let r := Settlement.processPayoutRequest id action notes reason userId now db in
  (Db.payoutRequests (snd r) = Db.payoutRequests db
   /\ sameAccounts (snd r) db
   /\ (String.eqb action "pay" = false -> snd r = db)
   /\ exists code message, fst r = Settlement.Status code message)
  \/ (exists updated message db0,
        fst r = Settlement.Json message (Some updated)
        /\ snd r = Write.savePayoutRequest updated db0
        /\ Db.payoutRequests db0 = Db.payoutRequests db
        /\ sameAccounts db0 db
        /\ (String.eqb action "pay" = false -> db0 = db)
        /\ Query.payoutRequestById id (snd r) = Some updated
        /\ sameRequest updated pr).
Proof.
  intros Hfind r. subst r.
  destruct (find_id_payout _ _ _ Hfind) as [Hid _].
  unfold Settlement.processPayoutRequest. rewrite Hfind.
  destruct (negb (existsb _ _)); [status_answer|].
  destruct (PayoutRequest.status_eqb (PayoutRequest.status pr)
              PayoutRequest.paid);
    [status_answer|].
  destruct (PayoutRequest.status_eqb (PayoutRequest.status pr)
              PayoutRequest.rejected);
    [status_answer|].
  pose proof (dispatch_shape pr action notes reason userId now db) as Hd.
  destruct (Settlement.dispatch pr action notes reason userId now db)
    as [[[updated message]|response] db1].
  - right. destruct Hd as (db0 & -> & Hp & Hu & Ho & Hs & Hnp & Hsame).
    assert (Hacc : sameAccounts db0 db) by (repeat split; assumption).
    assert (Hid' : PayoutRequest._id updated = id)
      by (destruct Hsame as [E _]; congruence).
    assert (Hfind0 : Query.payoutRequestById id db0 = Some pr)
      by (rewrite (payoutRequestById_same_list id db0 db Hp); exact Hfind).
    assert (Hfind1 : Query.payoutRequestById id
                       (Write.savePayoutRequest updated db0) = Some updated)
      by (eapply savePayoutRequest_found; eauto).
    destruct (JS.truthy notes && negb (JS.truthy (PayoutRequest.notes updated))
              && negb (String.eqb action "reject")).
    + exists (PayoutRequest.setNotes (JS.trim notes) updated), message, db0.
      cbn [fst snd].
      assert (Hfind2 :
                Query.payoutRequestById id
                  (Write.savePayoutRequest
                     (PayoutRequest.setNotes (JS.trim notes) updated)
                     (Write.savePayoutRequest updated db0))
                = Some (PayoutRequest.setNotes (JS.trim notes) updated))
        by (eapply savePayoutRequest_found; eauto).
      rewrite Hid'.
      split; [rewrite Hfind2; reflexivity|].
      split.
      { unfold Write.savePayoutRequest, Db.withPayoutRequests.
        cbn [Db.payoutRequests Db.settings Db.users
             Db.orders Db.commissions Db.nextId PayoutRequest._id
             PayoutRequest.setNotes].
        f_equal. rewrite map_map. apply map_ext. intro q.
        destruct (PayoutRequest._id q =? PayoutRequest._id updated)%nat eqn:E;
          cbn [PayoutRequest._id]; rewrite ?Nat.eqb_refl, ?E; reflexivity. }
      split; [exact Hp|]. split; [exact Hacc|]. split; [exact Hnp|].
      split; [exact Hfind2|].
      eapply sameRequest_trans; [apply sameRequest_setNotes|exact Hsame].
    + exists updated, message, db0. cbn [fst snd]. rewrite Hid', Hfind1.
      repeat split; auto; apply Hsame.
  - left. cbn [fst snd]. destruct Hd as (Hresp & Hp & Hu & Ho & Hs & Hnp).
    split; [exact Hp|]. split; [repeat split; assumption|].
    split; [exact Hnp|exact Hresp].
Qed.

Lemma processPayoutRequest_not_found (id userId : ObjectId)
    (action notes reason : string) (now : Date.t) (db : Db.t) :
  Query.payoutRequestById id db = None ->
  Settlement.processPayoutRequest id action notes reason userId now db
  = (Settlement.Status 404 Settlement.PayoutRequestNotFound, db).
Proof. intro H. unfold Settlement.processPayoutRequest. rewrite H. reflexivity. Qed.

(** X5: a paid or rejected request is final: whatever the action, the notes
    and the reason, processing it is refused with status 400 and changes
    nothing in the database. *)
Theorem processPayoutRequest_final_states (id userId : ObjectId)
    (action notes reason : string) (now : Date.t) (db : Db.t)
    (pr : PayoutRequest.t) :
  Query.payoutRequestById id db = Some pr ->
  PayoutRequest.status pr = PayoutRequest.paid
  \/ PayoutRequest.status pr = PayoutRequest.rejected ->
  exists message,
    Settlement.processPayoutRequest id action notes reason userId now db
    = (Settlement.Status 400 message, db).
Proof.
  intros Hfind Hst. unfold Settlement.processPayoutRequest. rewrite Hfind.
  destruct (negb (existsb _ _)); [eexists; reflexivity|].
  destruct Hst as [-> | ->]; cbn [PayoutRequest.status_eqb];
    eexists; reflexivity.
Qed.

Lemma processPayoutRequest_final_states_witness :
  exists message,
    Settlement.processPayoutRequest 2%nat "pay" "" "" 9%nat 50
      (Scenario.outstanding (PayoutSettings.Stored None) PayoutRequest.paid)
    = (Settlement.Status 400 message,
       Scenario.outstanding (PayoutSettings.Stored None) PayoutRequest.paid).
Proof.
  apply (processPayoutRequest_final_states 2%nat 9%nat "pay" "" "" 50
           (Scenario.outstanding (PayoutSettings.Stored None) PayoutRequest.paid)
           (Scenario.request 2%nat 500 PayoutRequest.paid)).
  - reflexivity.
  - left. reflexivity.
Defined.

(** X6: only the [pay] action writes to the ledger: under any other action
    (approve, reject, hold, release, or an unknown one), the commissions,
    the users, the orders, the policy and the id counter are left exactly
    as they were, whether or not the request is found. *)
Theorem processPayoutRequest_only_pay_writes_ledger (id userId : ObjectId)
    (action notes reason : string) (now : Date.t) (db : Db.t) :
  action <> "pay" ->
  let db' :=
    snd (Settlement.processPayoutRequest id action notes reason userId now db) in
  Db.commissions db' = Db.commissions db
  /\ Db.users db' = Db.users db
  /\ Db.orders db' = Db.orders db
  /\ Db.settings db' = Db.settings db
  /\ Db.nextId db' = Db.nextId db.
Proof.
  intros Hne db'. subst db'.
  assert (Hp : String.eqb action "pay" = false)
    by (apply String.eqb_neq; exact Hne).
  destruct (Query.payoutRequestById id db) as [pr|] eqn:Hfind.
  - destruct (processPayoutRequest_shape id userId action notes reason now db
                pr Hfind) as [(_ & _ & Hsame & _)|Hjson].
    + rewrite (Hsame Hp). repeat split.
    + destruct Hjson as (updated & message & db0 & _ & -> & _ & _ & Hdb0 & _).
      rewrite (Hdb0 Hp). repeat split.
  - rewrite (processPayoutRequest_not_found _ _ _ _ _ _ _ Hfind).
    repeat split.
Qed.

Lemma processPayoutRequest_only_pay_writes_ledger_witness :
  let db := Scenario.outstanding (PayoutSettings.Stored None)
              PayoutRequest.pending in
  let db' := snd (Settlement.processPayoutRequest 2%nat "approve" "" "" 9%nat
                    50 db) in
  Db.commissions db' = Db.commissions db
  /\ Db.users db' = Db.users db
  /\ Db.orders db' = Db.orders db
  /\ Db.settings db' = Db.settings db
  /\ Db.nextId db' = Db.nextId db.
Proof.
  apply (processPayoutRequest_only_pay_writes_ledger 2%nat 9%nat "approve"
           "" "" 50
           (Scenario.outstanding (PayoutSettings.Stored None)
              PayoutRequest.pending)).
  discriminate.
Defined.

(** X7: processing never adds, removes or re-keys a payout request and
    never touches another one: the ids of the collection stay as they were,
    every request other than the addressed one reads back unchanged, the
    addressed one keeps its agent, amount, method, account details and
    metadata, and users, orders and the policy are untouched - for every
    action, [pay] included. *)
Theorem processPayoutRequest_frame (id userId : ObjectId)
    (action notes reason : string) (now : Date.t) (db : Db.t) :
  let db' :=
    snd (Settlement.processPayoutRequest id action notes reason userId now db) in
  map PayoutRequest._id (Db.payoutRequests db')
  = map PayoutRequest._id (Db.payoutRequests db)
  /\ (forall i, i <> id ->
        Query.payoutRequestById i db' = Query.payoutRequestById i db)
  /\ (forall pr pr',
        Query.payoutRequestById id db = Some pr ->
        Query.payoutRequestById id db' = Some pr' ->
        PayoutRequest.agentId pr' = PayoutRequest.agentId pr
        /\ PayoutRequest.amount pr' = PayoutRequest.amount pr
        /\ PayoutRequest.method pr' = PayoutRequest.method pr
        /\ PayoutRequest.accountDetails pr' = PayoutRequest.accountDetails pr
        /\ PayoutRequest.metadata pr' = PayoutRequest.metadata pr)
  /\ Db.users db' = Db.users db
  /\ Db.orders db' = Db.orders db
  /\ Db.settings db' = Db.settings db.
Proof.
  intro db'. subst db'.
  destruct (Query.payoutRequestById id db) as [pr|] eqn:Hfind.
  - destruct (processPayoutRequest_shape id userId action notes reason now db
                pr Hfind) as [(Hp & (Hu & Ho & Hs) & _ & _)|Hjson].
    + rewrite Hp. split; [reflexivity|].
      split; [intros i _; apply payoutRequestById_same_list; exact Hp|].
      split; [|repeat split; assumption].
      intros pr0 pr' E0 E'.
      rewrite (payoutRequestById_same_list id _ db Hp), Hfind in E'.
      injection E0 as <-. injection E' as <-. repeat split.
    + destruct Hjson as (updated & message & db0 & _ & Hdb & Hp
                         & (Hu & Ho & Hs) & _ & Hfound & Hsame).
      destruct (find_id_payout _ _ _ Hfind) as [Hid _].
      assert (Hid' : PayoutRequest._id updated = id)
        by (destruct Hsame as [E _]; congruence).
      rewrite Hdb in *.
      split; [rewrite savePayoutRequest_ids, Hp; reflexivity|].
      split.
      { intros i Hi. rewrite savePayoutRequest_others by congruence.
        apply payoutRequestById_same_list. exact Hp. }
      split; [|repeat split; assumption].
      intros pr0 pr' E0 E'. rewrite Hfound in E'.
      injection E0 as <-. injection E' as <-.
      destruct Hsame as (_ & ? & ? & ? & ? & _ & ? & _). repeat split; assumption.
  - rewrite (processPayoutRequest_not_found _ _ _ _ _ _ _ Hfind).
    cbn [snd]. repeat split; discriminate.
Qed.

(** ** Hold, release and reject *)

Lemma dispatch_hold pr notes reason userId now db :
  Settlement.dispatch pr "hold" notes reason userId now db
  = (Ok (heldRequest notes userId now pr, Settlement.PutOnHoldSuccessfully),
     Write.savePayoutRequest (heldRequest notes userId now pr) db).
Proof. reflexivity. Qed.

Lemma dispatch_release pr notes reason userId now db :
  PayoutRequest.status pr = PayoutRequest.on_hold ->
  Settlement.dispatch pr "release" notes reason userId now db
  = (Ok (releasedRequest notes userId now pr, Settlement.ReleasedSuccessfully),
     Write.savePayoutRequest (releasedRequest notes userId now pr) db).
Proof.
  intro H. unfold Settlement.dispatch.
  change (String.eqb "release" "approve") with false.
  change (String.eqb "release" "pay") with false.
  change (String.eqb "release" "reject") with false.
  change (String.eqb "release" "hold") with false.
  cbv iota. rewrite H. reflexivity.
Qed.

Lemma save_twice (p p' : PayoutRequest.t) (db : Db.t) :
  PayoutRequest._id p' = PayoutRequest._id p ->
  Write.savePayoutRequest p' (Write.savePayoutRequest p db)
  = Write.savePayoutRequest p' db.
Proof.
  intro E. unfold Write.savePayoutRequest, Db.withPayoutRequests.
  cbn [Db.payoutRequests Db.settings Db.users Db.orders Db.commissions
       Db.nextId].
  f_equal. rewrite map_map. apply map_ext. intro q. rewrite E.
  destruct (PayoutRequest._id q =? PayoutRequest._id p)%nat eqn:Eq;
    rewrite ?Nat.eqb_refl, ?Eq; reflexivity.
Qed.

(** The handler on a request that is found, is neither paid nor rejected,
    and whose transition succeeds. *)
Lemma processPayoutRequest_done (id userId : ObjectId)
    (action notes reason : string) (now : Date.t) (db db0 : Db.t)
    (pr updated : PayoutRequest.t) (message : Settlement.Message) :
  Query.payoutRequestById id db = Some pr ->
  existsb (String.eqb action) ["approve"; "pay"; "reject"; "hold"; "release"]
  = true ->
  PayoutRequest.status pr <> PayoutRequest.paid ->
  PayoutRequest.status pr <> PayoutRequest.rejected ->
  Settlement.dispatch pr action notes reason userId now db
  = (Ok (updated, message), Write.savePayoutRequest updated db0) ->
  Db.payoutRequests db0 = Db.payoutRequests db ->
  PayoutRequest._id updated = PayoutRequest._id pr ->
  Settlement.processPayoutRequest id action notes reason userId now db
  = (Settlement.Json message (Some (withBodyNotes action notes updated)),
     Write.savePayoutRequest (withBodyNotes action notes updated) db0).
Proof.
  intros Hfind Hact Hpaid Hrej Hd Hp Hid.
  destruct (find_id_payout _ _ _ Hfind) as [Hidpr _].
  unfold Settlement.processPayoutRequest.
  rewrite Hfind, Hact, Hd. cbn [negb].
  replace (PayoutRequest.status_eqb (PayoutRequest.status pr) PayoutRequest.paid)
    with false by (destruct (PayoutRequest.status pr); try reflexivity; contradiction).
  replace (PayoutRequest.status_eqb (PayoutRequest.status pr)
             PayoutRequest.rejected)
    with false by (destruct (PayoutRequest.status pr); try reflexivity; contradiction).
  assert (Hfind0 : Query.payoutRequestById id db0 = Some pr)
    by (rewrite (payoutRequestById_same_list id db0 db Hp); exact Hfind).
  unfold withBodyNotes.
  destruct (JS.truthy notes && negb (JS.truthy (PayoutRequest.notes updated))
            && negb (String.eqb action "reject")).
  - rewrite save_twice by reflexivity.
    cbn [PayoutRequest._id PayoutRequest.setNotes].
    rewrite (savePayoutRequest_found
               (PayoutRequest.setNotes (JS.trim notes) updated) pr
               (PayoutRequest._id updated) db0);
      [reflexivity|reflexivity|congruence].
  - rewrite (savePayoutRequest_found updated pr (PayoutRequest._id updated) db0);
      [reflexivity|reflexivity|congruence].
Qed.

Lemma withBodyNotes_status action notes p :
  PayoutRequest.status (withBodyNotes action notes p) = PayoutRequest.status p.
Proof. unfold withBodyNotes. destruct (_ && _); reflexivity. Qed.

Lemma withBodyNotes_same action notes p : sameRequest (withBodyNotes action notes p) p.
Proof. unfold withBodyNotes. destruct (_ && _); repeat split. Qed.

Lemma heldRequest_facts notes userId now pr :
  PayoutRequest.status (heldRequest notes userId now pr) = PayoutRequest.on_hold
  /\ sameRequest (heldRequest notes userId now pr) pr.
Proof. unfold heldRequest. destruct (JS.truthy notes); repeat split. Qed.

Lemma releasedRequest_facts notes userId now pr :
  PayoutRequest.status (releasedRequest notes userId now pr)
  = PayoutRequest.pending
  /\ sameRequest (releasedRequest notes userId now pr) pr.
Proof. unfold releasedRequest. destruct (JS.truthy notes); repeat split. Qed.

(** X8: any request that is not paid or rejected can be put on hold -
    an approved one too - and releasing a held request always makes it
    pending: an approved request that is held and released has lost its
    approval.  Neither step touches the ledger, and the request keeps its
    agent and amount. *)
Theorem hold_then_release_is_pending (id admin1 admin2 : ObjectId)
    (notes1 reason1 notes2 reason2 : string) (now1 now2 : Date.t)
    (db : Db.t) (pr : PayoutRequest.t) :
  Query.payoutRequestById id db = Some pr ->
  PayoutRequest.status pr <> PayoutRequest.paid ->
  PayoutRequest.status pr <> PayoutRequest.rejected ->
  exists held db1 released db2,
    Settlement.processPayoutRequest id "hold" notes1 reason1 admin1 now1 db
    = (Settlement.Json Settlement.PutOnHoldSuccessfully (Some held), db1)
    /\ PayoutRequest.status held = PayoutRequest.on_hold
    /\ Query.payoutRequestById id db1 = Some held
    /\ Settlement.processPayoutRequest id "release" notes2 reason2 admin2
         now2 db1
       = (Settlement.Json Settlement.ReleasedSuccessfully (Some released), db2)
    /\ PayoutRequest.status released = PayoutRequest.pending
    /\ Query.payoutRequestById id db2 = Some released
    /\ PayoutRequest.agentId released = PayoutRequest.agentId pr
    /\ PayoutRequest.amount released = PayoutRequest.amount pr
    /\ Db.commissions db2 = Db.commissions db.
Proof.
  intros Hfind Hpaid Hrej.
  destruct (find_id_payout _ _ _ Hfind) as [Hid _].
  destruct (heldRequest_facts notes1 admin1 now1 pr) as [Hst Hsame].
  set (h := heldRequest notes1 admin1 now1 pr) in *.
  set (held := withBodyNotes "hold" notes1 h).
  assert (Hheld : PayoutRequest.status held = PayoutRequest.on_hold)
    by (unfold held; rewrite withBodyNotes_status; exact Hst).
  assert (Hsame1 : sameRequest held pr)
    by (eapply sameRequest_trans; [apply withBodyNotes_same|exact Hsame]).
  assert (Hidh : PayoutRequest._id held = id)
    by (destruct Hsame1 as [E _]; congruence).
  assert (H1 : Settlement.processPayoutRequest id "hold" notes1 reason1 admin1
                 now1 db
               = (Settlement.Json Settlement.PutOnHoldSuccessfully (Some held),
                  Write.savePayoutRequest held db)).
  { exact (processPayoutRequest_done id admin1 "hold" notes1 reason1 now1 db db
             pr h Settlement.PutOnHoldSuccessfully Hfind eq_refl Hpaid Hrej
             (dispatch_hold pr notes1 reason1 admin1 now1 db) eq_refl
             (proj1 Hsame)). }
  assert (Hfind1 : Query.payoutRequestById id (Write.savePayoutRequest held db)
                   = Some held)
    by (eapply savePayoutRequest_found; eauto).
  destruct (releasedRequest_facts notes2 admin2 now2 held) as [Hst2 Hsame2].
  set (r := releasedRequest notes2 admin2 now2 held) in *.
  set (released := withBodyNotes "release" notes2 r).
  assert (Hsame3 : sameRequest released pr).
  { eapply sameRequest_trans; [apply withBodyNotes_same|].
    eapply sameRequest_trans; [exact Hsame2|exact Hsame1]. }
  assert (H2 : Settlement.processPayoutRequest id "release" notes2 reason2
                 admin2 now2 (Write.savePayoutRequest held db)
               = (Settlement.Json Settlement.ReleasedSuccessfully
                    (Some released),
                  Write.savePayoutRequest released
                    (Write.savePayoutRequest held db))).
  { refine (processPayoutRequest_done id admin2 "release" notes2 reason2 now2
              (Write.savePayoutRequest held db)
              (Write.savePayoutRequest held db) held r
              Settlement.ReleasedSuccessfully Hfind1 eq_refl _ _
              (dispatch_release held notes2 reason2 admin2 now2 _ Hheld)
              eq_refl (proj1 Hsame2));
      rewrite Hheld; discriminate. }
  exists held, (Write.savePayoutRequest held db), released,
         (Write.savePayoutRequest released (Write.savePayoutRequest held db)).
  split; [exact H1|]. split; [exact Hheld|]. split; [exact Hfind1|].
  split; [exact H2|].
  split; [unfold released; rewrite withBodyNotes_status; exact Hst2|].
  split.
  { eapply savePayoutRequest_found; [|exact Hfind1].
    destruct Hsame3 as [E _]. congruence. }
  destruct Hsame3 as (_ & Ha & Hm & _).
  repeat split; assumption.
Qed.

Lemma hold_then_release_is_pending_witness :
  exists held db1 released db2,
    Settlement.processPayoutRequest 2%nat "hold" "check" "" 9%nat 50
      (Scenario.outstanding (PayoutSettings.Stored None) PayoutRequest.approved)
    = (Settlement.Json Settlement.PutOnHoldSuccessfully (Some held), db1)
    /\ PayoutRequest.status held = PayoutRequest.on_hold
    /\ Query.payoutRequestById 2%nat db1 = Some held
    /\ Settlement.processPayoutRequest 2%nat "release" "" "" 9%nat 60 db1
       = (Settlement.Json Settlement.ReleasedSuccessfully (Some released), db2)
    /\ PayoutRequest.status released = PayoutRequest.pending
    /\ Query.payoutRequestById 2%nat db2 = Some released
    /\ PayoutRequest.agentId released
       = PayoutRequest.agentId (Scenario.request 2%nat 500 PayoutRequest.approved)
    /\ PayoutRequest.amount released
       = PayoutRequest.amount (Scenario.request 2%nat 500 PayoutRequest.approved)
    /\ Db.commissions db2
       = Db.commissions
           (Scenario.outstanding (PayoutSettings.Stored None)
              PayoutRequest.approved).
Proof.
  apply (hold_then_release_is_pending 2%nat 9%nat 9%nat "check" "" "" "" 50 60
           (Scenario.outstanding (PayoutSettings.Stored None)
              PayoutRequest.approved)
           (Scenario.request 2%nat 500 PayoutRequest.approved)).
  - reflexivity.
  - discriminate.
  - discriminate.
Defined.

Lemma dispatch_reject pr notes reason userId now db :
  Settlement.dispatch pr "reject" notes reason userId now db
  = if negb (JS.truthy reason)
       || (String.length (JS.trim reason) =? 0)%nat
    then (Throw (Settlement.Status 400 Settlement.RejectionReasonRequired), db)
    else if (String.length (JS.trim reason) <? 3)%nat
    then (Throw (Settlement.Status 400 Settlement.RejectionReasonTooShort), db)
    else if (500 <? String.length (JS.trim reason))%nat
    then (Throw (Settlement.Status 400 Settlement.RejectionReasonTooLong), db)
    else (Ok (rejectedRequest reason userId now pr,
              Settlement.RejectedSuccessfully),
          Write.savePayoutRequest (rejectedRequest reason userId now pr) db).
Proof. reflexivity. Qed.

(** X9: rejecting a request that is neither paid nor rejected - pending,
    approved or on hold - succeeds exactly when the trimmed reason has
    between 3 and 500 characters.  The request is then stored as rejected
    with the trimmed reason, and the notes sent with the rejection are not
    stored; otherwise the answer is a status 400 and nothing changes. *)
Theorem reject_needs_a_reason (id userId : ObjectId) (notes reason : string)
    (now : Date.t) (db : Db.t) (pr : PayoutRequest.t) :
  Query.payoutRequestById id db = Some pr ->
  PayoutRequest.status pr <> PayoutRequest.paid ->
  PayoutRequest.status pr <> PayoutRequest.rejected ->
  let n := String.length (JS.trim reason) in
  ((3 <= n <= 500)%nat ->
   exists rejected,
     Settlement.processPayoutRequest id "reject" notes reason userId now db
     = (Settlement.Json Settlement.RejectedSuccessfully (Some rejected),
        Write.savePayoutRequest rejected db)
     /\ PayoutRequest.status rejected = PayoutRequest.rejected
     /\ PayoutRequest.rejectionReason rejected = Some (JS.trim reason)
     /\ PayoutRequest.processedBy rejected = Some userId
     /\ PayoutRequest.notes rejected = PayoutRequest.notes pr
     /\ PayoutRequest.amount rejected = PayoutRequest.amount pr)
  /\ ((n < 3 \/ 500 < n)%nat ->
      exists message,
        Settlement.processPayoutRequest id "reject" notes reason userId now db
        = (Settlement.Status 400 message, db)).
Proof.
  intros Hfind Hpaid Hrej n.
  assert (Hpaid' : PayoutRequest.status_eqb (PayoutRequest.status pr)
                     PayoutRequest.paid = false)
    by (destruct (PayoutRequest.status pr); try reflexivity; contradiction).
  assert (Hrej' : PayoutRequest.status_eqb (PayoutRequest.status pr)
                    PayoutRequest.rejected = false)
    by (destruct (PayoutRequest.status pr); try reflexivity; contradiction).
  assert (Hempty : JS.truthy reason = false -> n = 0%nat).
  { subst n. destruct reason; [reflexivity|discriminate]. }
  split.
  - intro Hn. exists (rejectedRequest reason userId now pr).
    assert (Hd : Settlement.dispatch pr "reject" notes reason userId now db
                 = (Ok (rejectedRequest reason userId now pr,
                        Settlement.RejectedSuccessfully),
                    Write.savePayoutRequest
                      (rejectedRequest reason userId now pr) db)).
    { rewrite dispatch_reject. fold n.
      destruct (JS.truthy reason) eqn:Et;
        [|specialize (Hempty eq_refl); lia].
      cbn [negb orb].
      replace (n =? 0)%nat with false by (symmetry; apply Nat.eqb_neq; lia).
      replace (n <? 3)%nat with false by (symmetry; apply Nat.ltb_ge; lia).
      replace (500 <? n)%nat with false by (symmetry; apply Nat.ltb_ge; lia).
      reflexivity. }
    rewrite (processPayoutRequest_done id userId "reject" notes reason now db
               db pr _ _ Hfind eq_refl Hpaid Hrej Hd eq_refl eq_refl).
    unfold withBodyNotes.
    change (String.eqb "reject" "reject") with true.
    cbn [negb]. rewrite andb_false_r. repeat split.
  - intro Hn. unfold Settlement.processPayoutRequest.
    rewrite Hfind.
    change (existsb (String.eqb "reject")
              ["approve"; "pay"; "reject"; "hold"; "release"]) with true.
    cbn [negb]. rewrite Hpaid', Hrej', dispatch_reject. fold n.
    destruct (negb (JS.truthy reason) || (n =? 0)%nat) eqn:E1;
      [eexists; reflexivity|].
    destruct (n <? 3)%nat eqn:E2; [eexists; reflexivity|].
    destruct (500 <? n)%nat eqn:E3; [eexists; reflexivity|].
    apply Nat.ltb_ge in E2. apply Nat.ltb_ge in E3. lia.
Qed.

Lemma reject_needs_a_reason_witness :
  let db := Scenario.outstanding (PayoutSettings.Stored None)
              PayoutRequest.approved in
  let pr := Scenario.request 2%nat 500 PayoutRequest.approved in
  let n := String.length (JS.trim "  wrong account  ") in
  ((3 <= n <= 500)%nat ->
   exists rejected,
     Settlement.processPayoutRequest 2%nat "reject" "see mail"
       "  wrong account  " 9%nat 50 db
     = (Settlement.Json Settlement.RejectedSuccessfully (Some rejected),
        Write.savePayoutRequest rejected db)
     /\ PayoutRequest.status rejected = PayoutRequest.rejected
     /\ PayoutRequest.rejectionReason rejected
        = Some (JS.trim "  wrong account  ")
     /\ PayoutRequest.processedBy rejected = Some 9%nat
     /\ PayoutRequest.notes rejected = PayoutRequest.notes pr
     /\ PayoutRequest.amount rejected = PayoutRequest.amount pr)
  /\ ((n < 3 \/ 500 < n)%nat ->
      exists message,
        Settlement.processPayoutRequest 2%nat "reject" "see mail"
          "  wrong account  " 9%nat 50 db
        = (Settlement.Status 400 message, db)).
Proof.
  apply (reject_needs_a_reason 2%nat 9%nat "see mail" "  wrong account  " 50
           (Scenario.outstanding (PayoutSettings.Stored None)
              PayoutRequest.approved)
           (Scenario.request 2%nat 500 PayoutRequest.approved)).
  - reflexivity.
  - discriminate.
  - discriminate.
Defined.

(** Lengths are counted in code units and the no-break space is white
    space: a reason of two letters e-acute (code unit 233), and one of
    three letters of which the outer two are no-break spaces (160), are
    both refused as too short. *)
Example reject_short_reasons_refused :
  let e_acute := ascii_of_nat 233 in
  let nbsp := ascii_of_nat 160 in
  let db := Scenario.outstanding (PayoutSettings.Stored None)
              PayoutRequest.pending in
  Settlement.processPayoutRequest 2%nat "reject" ""
    (String e_acute (String e_acute EmptyString)) 9%nat 50 db
  = (Settlement.Status 400 Settlement.RejectionReasonTooShort, db)
  /\ Settlement.processPayoutRequest 2%nat "reject" ""
       (String nbsp (String "n" (String "o" (String nbsp EmptyString))))
       9%nat 50 db
     = (Settlement.Status 400 Settlement.RejectionReasonTooShort, db).
Proof. split; vm_compute; reflexivity. Qed.

(** ** The answers of the pay action *)

(** X10: a request whose agent account has been deleted cannot be paid.
    For a pending or approved request whose joined agent is missing, the
    pay action answers status 400 with the message of the [TypeError]
    thrown by the read of [payoutRequest.agentId._id], whatever the
    pending balance, the notes and the time, and the database is left
    exactly as it was. *)
Theorem pay_for_deleted_agent_throws (id userId : ObjectId)
    (notes reason : string) (now : Date.t) (db : Db.t) (pr : PayoutRequest.t) :
  Query.payoutRequestById id db = Some pr ->
  Settlement.isPendingOrApproved pr = true ->
  Query.userById (PayoutRequest.agentId pr) db = None ->
  Settlement.processPayoutRequest id "pay" notes reason userId now db
  = (Settlement.Status 400 (Settlement.Thrown Settlement.nullAgentError), db).
Proof. exact (processPayoutRequest_pay_deleted id userId notes reason now db pr). Qed.

Lemma pay_for_deleted_agent_throws_witness :
  Settlement.processPayoutRequest 4%nat "pay" "" "" 9%nat 50
    Scenario.threeEntriesDeleted
  = (Settlement.Status 400 (Settlement.Thrown Settlement.nullAgentError),
     Scenario.threeEntriesDeleted).
Proof.
  apply (pay_for_deleted_agent_throws 4%nat 9%nat "" "" 50
           Scenario.threeEntriesDeleted
           (Scenario.request 4%nat 180 PayoutRequest.approved));
    reflexivity.
Defined.

(** ** The validation middleware and the creation route *)

Lemma when_app_nil (A : Type) (b : bool) (x : A) (l : list A) :
  Workflow.when b x ++ l = [] -> b = false /\ l = [].
Proof. destruct b; cbn; [discriminate|auto]. Qed.

Lemma when_nil (A : Type) (b : bool) (x : A) :
  Workflow.when b x = [] -> b = false.
Proof. destruct b; cbn; [discriminate|auto]. Qed.

(** Everything the middleware has checked when it lets a request through
    under a stored policy. *)
Lemma validatePayoutRequest_next (db : Db.t) (body : Workflow.Body)
    (agentId : ObjectId) (now : Date.t) (s : PayoutSettings.t)
    (v : option Workflow.PayoutValidation) :
  Db.settings db = PayoutSettings.Stored (Some s) ->
  Workflow.validatePayoutRequest body agentId now db = Workflow.Next v ->
  let schedule := PayoutSettings.payoutSchedule s in
  let recent :=
    Query.payoutRequestsSince agentId (now - 24 * 60 * 60 * 1000) db in
  exists pv,
    v = Some pv
    /\ Workflow.settings pv = s
    /\ Workflow.availableBalance pv = Ledgers.pendingBalance agentId db
    /\ PayoutSettings.globalPayoutHold s = false
    /\ (PayoutSettings.enabled schedule = true ->
        PayoutSettings.isCorrectDay s now = true
        /\ PayoutSettings.isWithinTimeRange s now = true)
    /\ (forall p, In p (Db.payoutRequests db) ->
                  PayoutRequest.agentId p = agentId ->
                  PayoutRequest.status p = PayoutRequest.paid
                  \/ PayoutRequest.status p = PayoutRequest.rejected)
    /\ match Workflow.amount body with
       | Some amount_ =>
           Workflow.willAutoApprove pv
           = Workflow.shouldAutoApprove (Some pv) amount_
           /\ PayoutSettings.minWithdrawalAmount s <= amount_
              <= PayoutSettings.maxWithdrawalAmount s
           /\ amount_ <= Ledgers.pendingBalance agentId db
           /\ (Workflow.willAutoApprove pv = true ->
               (forall u, Query.userById agentId db = Some u ->
                          User.isHeld (User.payoutHold u) = false)
               /\ (PayoutSettings.maxPayoutsPerDay s <> 0 ->
                   Z.of_nat (List.length recent)
                   < PayoutSettings.maxPayoutsPerDay s)
               /\ (PayoutSettings.maxPayoutAmountPerDay s <> 0 ->
                   fold_left (fun sum p => sum + PayoutRequest.amount p)
                     recent 0
                   + amount_
                   <= PayoutSettings.maxPayoutAmountPerDay s))
       | None =>
           Workflow.willAutoApprove pv = false
           /\ Workflow.willRequireApproval pv = false
       end.
Proof.
  intros Hs Hres schedule recent.
  unfold Workflow.validatePayoutRequest in Hres. rewrite Hs in Hres.
  cbv zeta in Hres.
  match type of Hres with
  | match ?E with [] => _ | _ :: _ => _ end = _ =>
      destruct E as [|e errors] eqn:Eerrors; [|discriminate Hres]
  end.
  injection Hres as <-.
  apply when_app_nil in Eerrors. destruct Eerrors as [Hhold Eerrors].
  apply when_app_nil in Eerrors. destruct Eerrors as [Hmin Eerrors].
  apply when_app_nil in Eerrors. destruct Eerrors as [Hmax Eerrors].
  apply when_app_nil in Eerrors. destruct Eerrors as [Hclosed Eerrors].
  apply when_app_nil in Eerrors. destruct Eerrors as [Hbal Eerrors].
  apply when_app_nil in Eerrors. destruct Eerrors as [Hdup Eerrors].
  apply when_app_nil in Eerrors. destruct Eerrors as [Hheld Eerrors].
  apply when_app_nil in Eerrors. destruct Eerrors as [Hcount Hamount].
  apply when_nil in Hamount.
  eexists. split; [reflexivity|].
  cbn [Workflow.settings Workflow.availableBalance Workflow.willAutoApprove
       Workflow.willRequireApproval Workflow.shouldAutoApprove].
  split; [reflexivity|]. split; [reflexivity|].
  split; [exact Hhold|]. split.
  { intro Hen. fold schedule in Hclosed. rewrite Hen in Hclosed.
    cbn [andb] in Hclosed. apply orb_false_iff in Hclosed.
    destruct Hclosed as [H1 H2].
    apply negb_false_iff in H1. apply negb_false_iff in H2. auto. }
  split.
  { intros p Hp Hag.
    destruct (Query.payoutRequestIn agentId
                [PayoutRequest.pending; PayoutRequest.approved;
                 PayoutRequest.on_hold] db) as [q|] eqn:Hq;
      [discriminate Hdup|].
    unfold Query.payoutRequestIn in Hq.
    pose proof (find_none _ _ Hq p Hp) as Hnone. cbv beta in Hnone.
    rewrite Hag, Nat.eqb_refl in Hnone. cbn [andb existsb] in Hnone.
    destruct (PayoutRequest.status p); cbn in Hnone;
      try discriminate Hnone; auto. }
  destruct (Workflow.amount body) as [amount_|];
    cbn [Workflow.amountLt Workflow.amountGt Workflow.amountLe] in *.
  2:{ rewrite !andb_false_r. split; reflexivity. }
  split; [reflexivity|].
  apply Z.ltb_ge in Hmin. apply Z.ltb_ge in Hmax. apply Z.ltb_ge in Hbal.
  split; [lia|]. split; [exact Hbal|].
  intro Hauto. rewrite Hauto in Hheld, Hcount, Hamount.
  cbn [andb] in Hheld, Hcount, Hamount. split; [|split].
  - intros u Hu. rewrite Hu in Hheld. exact Hheld.
  - intro Hne. fold recent in Hcount.
    replace (PayoutSettings.maxPayoutsPerDay s =? 0) with false in Hcount
      by (symmetry; apply Z.eqb_neq; exact Hne).
    cbn [negb andb] in Hcount. apply Z.leb_gt in Hcount. exact Hcount.
  - intro Hne. fold recent in Hamount.
    replace (PayoutSettings.maxPayoutAmountPerDay s =? 0) with false in Hamount
      by (symmetry; apply Z.eqb_neq; exact Hne).
    cbn [negb andb] in Hamount. apply Z.ltb_ge in Hamount. exact Hamount.
Qed.

(** X11: what an admitted request has passed.  When a policy is stored and
    the validation middleware lets a request through, the global hold is
    off, the window is open if scheduling is enabled, and every request of
    the agent is paid or rejected.  If the body carries an amount, it lies
    between the policy's minimum and maximum and is covered by the
    agent's pending balance, and the agent's own payout hold and the daily
    limits have been checked only if the request will be auto-approved.
    A body without an amount passes every comparison, since each is made
    with [undefined]: it is let through as well, marked neither for
    auto-approval nor for manager approval. *)
Theorem validatePayoutRequest_admission (db : Db.t) (body : Workflow.Body)
    (agentId : ObjectId) (now : Date.t) (s : PayoutSettings.t)
    (v : option Workflow.PayoutValidation) :
  Db.settings db = PayoutSettings.Stored (Some s) ->
  Workflow.validatePayoutRequest body agentId now db = Workflow.Next v ->
  let schedule := PayoutSettings.payoutSchedule s in
  let recent :=
    Query.payoutRequestsSince agentId (now - 24 * 60 * 60 * 1000) db in
  exists pv,
    v = Some pv
    /\ Workflow.settings pv = s
    /\ Workflow.availableBalance pv = Ledgers.pendingBalance agentId db
    /\ PayoutSettings.globalPayoutHold s = false
    /\ (PayoutSettings.enabled schedule = true ->
        PayoutSettings.isCorrectDay s now = true
        /\ PayoutSettings.isWithinTimeRange s now = true)
    /\ (forall p, In p (Db.payoutRequests db) ->
                  PayoutRequest.agentId p = agentId ->
                  PayoutRequest.status p = PayoutRequest.paid
                  \/ PayoutRequest.status p = PayoutRequest.rejected)
    /\ match Workflow.amount body with
       | Some amount_ =>
           Workflow.willAutoApprove pv
           = Workflow.shouldAutoApprove (Some pv) amount_
           /\ PayoutSettings.minWithdrawalAmount s <= amount_
              <= PayoutSettings.maxWithdrawalAmount s
           /\ amount_ <= Ledgers.pendingBalance agentId db
           /\ (Workflow.willAutoApprove pv = true ->
               (forall u, Query.userById agentId db = Some u ->
                          User.isHeld (User.payoutHold u) = false)
               /\ (PayoutSettings.maxPayoutsPerDay s <> 0 ->
                   Z.of_nat (List.length recent)
                   < PayoutSettings.maxPayoutsPerDay s)
               /\ (PayoutSettings.maxPayoutAmountPerDay s <> 0 ->
                   fold_left (fun sum p => sum + PayoutRequest.amount p)
                     recent 0
                   + amount_
                   <= PayoutSettings.maxPayoutAmountPerDay s))
       | None =>
           Workflow.willAutoApprove pv = false
           /\ Workflow.willRequireApproval pv = false
       end.
Proof. exact (validatePayoutRequest_next db body agentId now s v). Qed.

(** A body without amount is let through by the middleware, and refused
    by the handler for its missing field. *)
Example submitPayoutRequest_without_amount :
  let s := Scenario.policy (3 # 100) false false in
  let db := Scenario.outstanding (PayoutSettings.Stored (Some s))
              PayoutRequest.paid in
  let body := Workflow.mkBody None "mpesa" "0712345678" in
  (exists pv, Workflow.validatePayoutRequest body 7%nat
                Scenario.wednesday1030 db = Workflow.Next (Some pv))
  /\ Workflow.submitPayoutRequest body 7%nat Scenario.wednesday1030 db
     = (Workflow.Handled (Workflow.BadRequest Workflow.MissingFields), db).
Proof. split; [eexists|]; vm_compute; reflexivity. Qed.

(** X12: a submission that is not answered with a created request stores
    nothing: whether the middleware refuses it or the handler answers a bad
    request (missing field, unknown method, malformed M-Pesa number, amount
    not above the fee, schema refusal), the database is left as it was. *)
Theorem submitPayoutRequest_refusal_stores_nothing (body : Workflow.Body)
    (agentId : ObjectId) (now : Date.t) (db : Db.t) :
  match Workflow.submitPayoutRequest body agentId now db with
  | (Workflow.Handled (Workflow.Created _ _ _ _ _), _) => True
  | (_, db') => db' = db
  end.
Proof.
  unfold Workflow.submitPayoutRequest.
  destruct (Workflow.validatePayoutRequest body agentId now db)
    as [validation|errors warnings|]; [|reflexivity|reflexivity].
  unfold Workflow.createPayoutRequest.
  destruct (Workflow.amount body) as [amount_|]; [|reflexivity].
  destruct (_ || _); [reflexivity|].
  destruct (if String.eqb (Workflow.method body) "mpesa"
            then Some PayoutRequest.mpesa
            else if String.eqb (Workflow.method body) "bank"
                 then Some PayoutRequest.bank else None) as [m|];
    [|reflexivity].
  destruct (String.eqb (Workflow.method body) "mpesa"
            && negb (Workflow.mpesaRegex (JS.trim (Workflow.accountDetails body))));
    [reflexivity|].
  destruct (match validation with
            | Some v => _
            | None => false
            end); [reflexivity|].
  unfold Write.createPayoutRequest.
  destruct ((1 <=? _) && _); [exact I|reflexivity].
Qed.

(** A created answer, read backwards. *)
Lemma createPayoutRequest_created (body : Workflow.Body) (agentId : ObjectId)
    (validation : option Workflow.PayoutValidation) (now : Date.t)
    (db db' : Db.t) (message : Workflow.CreateMessage)
    (final : option PayoutRequest.t) (ws : list PayoutRequest.Warning)
    (threshold : option Z) (autoPaid : bool) :
  Workflow.createPayoutRequest body agentId validation now db
  = (Workflow.Created message final ws threshold autoPaid, db') ->
  exists amount_ m created db1,
    Workflow.amount body = Some amount_
    /\ Write.createPayoutRequest
         (Workflow.payoutRequestData amount_ body m agentId validation now)
         now db
       = (Ok created, db1)
    /\ 1 <= amount_
    /\ JS.truthy (JS.trim (Workflow.accountDetails body)) = true
    /\ db' = (if Workflow.shouldAutoApprove validation amount_
              then Workflow.autoPay created now db1 else db1)
    /\ final = Query.payoutRequestById (PayoutRequest._id created) db'
    /\ message
       = (if Workflow.shouldAutoApprove validation amount_
          then (if match final with
                   | Some p => PayoutRequest.status_eqb (PayoutRequest.status p)
                                 PayoutRequest.paid
                   | None => false
                   end
                then Workflow.AutoApprovedAndPaid else Workflow.AutoApproved)
          else Workflow.CreatedSuccessfully)
    /\ autoPaid
       = Workflow.shouldAutoApprove validation amount_
         && match final with
            | Some p => PayoutRequest.status_eqb (PayoutRequest.status p)
                          PayoutRequest.paid
            | None => false
            end.
Proof.
  unfold Workflow.createPayoutRequest.
  destruct (Workflow.amount body) as [amount_|]; [|discriminate].
  destruct (_ || _); [discriminate|].
  destruct (if String.eqb (Workflow.method body) "mpesa"
            then Some PayoutRequest.mpesa
            else if String.eqb (Workflow.method body) "bank"
                 then Some PayoutRequest.bank else None) as [m|];
    [|discriminate].
  destruct (String.eqb (Workflow.method body) "mpesa"
            && negb (Workflow.mpesaRegex (JS.trim (Workflow.accountDetails body))));
    [discriminate|].
  destruct (match validation with
            | Some v => _
            | None => false
            end); [discriminate|].
  destruct (Write.createPayoutRequest
              (Workflow.payoutRequestData amount_ body m agentId validation now)
              now db)
    as [[created|e] db1] eqn:Hc; [|discriminate].
  cbv zeta. intro H. injection H as <- <- _ _ <- <-.
  exists amount_, m, created, db1. split; [reflexivity|]. split; [exact Hc|].
  unfold Write.createPayoutRequest in Hc.
  cbn [PayoutRequest.amount PayoutRequest.accountDetails
       Workflow.payoutRequestData] in Hc.
  destruct (1 <=? amount_) eqn:E; [|discriminate Hc].
  destruct (JS.truthy (JS.trim (Workflow.accountDetails body))) eqn:E';
    [|discriminate Hc].
  split; [apply Z.leb_le; exact E|]. repeat split.
Qed.

(** X13: an auto-approved request is paid at once when the handler finds
    the database as the middleware left it, that is, when no other request
    is served between the two.  The middleware has checked the pending
    balance against the amount, so on a well-formed database with a stored
    policy the automatic payment that follows does not take its
    insufficient-balance branch: a created request is either
    auto-approved and paid, the balance dropping by its amount, or stored
    as pending with the ledger untouched.  (The approved-but-unpaid branch
    is for a balance that another request has lowered in between.) *)
Theorem undisturbed_auto_approved_is_paid (db db' : Db.t)
    (body : Workflow.Body) (agentId : ObjectId) (now : Date.t)
    (s : PayoutSettings.t) (validation : option Workflow.PayoutValidation)
    (message : Workflow.CreateMessage)
    (final : option PayoutRequest.t) (ws : list PayoutRequest.Warning)
    (threshold : option Z) (autoPaid : bool) :
  Db.wf db = true ->
  Db.settings db = PayoutSettings.Stored (Some s) ->
  Workflow.validatePayoutRequest body agentId now db
  = Workflow.Next validation ->
  Workflow.createPayoutRequest body agentId validation now db
  = (Workflow.Created message final ws threshold autoPaid, db') ->
  exists amount_ p,
    Workflow.amount body = Some amount_
    /\ final = Some p
    /\ Query.payoutRequestById (Db.nextId db) db' = Some p
    /\ PayoutRequest.agentId p = agentId
    /\ PayoutRequest.amount p = amount_
    /\ (negb (PayoutSettings.requireManagerApproval s)
        && (amount_ <=? PayoutSettings.autoApprovalThreshold s) = true ->
        PayoutRequest.status p = PayoutRequest.paid
        /\ message = Workflow.AutoApprovedAndPaid
        /\ autoPaid = true
        /\ Ledgers.pendingBalance agentId db'
           = Ledgers.pendingBalance agentId db - amount_)
    /\ (negb (PayoutSettings.requireManagerApproval s)
        && (amount_ <=? PayoutSettings.autoApprovalThreshold s) = false ->
        PayoutRequest.status p = PayoutRequest.pending
        /\ message = Workflow.CreatedSuccessfully
        /\ autoPaid = false
        /\ Db.commissions db' = Db.commissions db).
Proof.
  intros Hwf Hs Hv Hc.
  destruct (createPayoutRequest_created _ _ _ _ _ _ _ _ _ _ _ Hc)
    as (amount_ & m & created & db1 & Hbody & Hcreate & Hamt & Hdetails
        & Hdb' & Hfinal & Hmsg & Hpaid).
  destruct (validatePayoutRequest_next db body agentId now s validation Hs Hv)
    as (pv & -> & Hset & _ & _ & _ & _ & Hnum).
  rewrite Hbody in Hnum. destruct Hnum as (_ & _ & Hbal & _).
  set (auto := negb (PayoutSettings.requireManagerApproval s)
               && (amount_ <=? PayoutSettings.autoApprovalThreshold s)).
  assert (Eauto : Workflow.shouldAutoApprove (Some pv) amount_ = auto).
  { unfold Workflow.shouldAutoApprove. rewrite Hset. reflexivity. }
  rewrite Eauto in Hdb', Hmsg, Hpaid.
  destruct (createPayoutRequest_stored
              (Workflow.payoutRequestData amount_ body m agentId (Some pv) now)
              now db Hwf Hamt Hdetails)
    as (created' & db1' & Hcreate' & Hid & Hag & Hamount & Hstatus & _ & _ & _
        & Hcs & Hps & Hlook & Hwf1).
  rewrite Hcreate in Hcreate'. injection Hcreate' as <- <-.
  cbn [Workflow.payoutRequestData PayoutRequest.agentId PayoutRequest.amount
       PayoutRequest.status] in Hag, Hamount, Hstatus.
  rewrite Eauto in Hstatus. rewrite Hid in Hfinal.
  exists amount_. fold auto.
  destruct auto eqn:Ea.
  - assert (Hin : In created (Db.payoutRequests db1))
      by (rewrite Hps; apply in_or_app; right; left; reflexivity).
    assert (Hcov : PayoutRequest.amount created
                   <= Ledgers.pendingBalance (PayoutRequest.agentId created) db1).
    { rewrite Hamount, Hag, (pendingBalance_same_commissions agentId db db1 Hcs).
      exact Hbal. }
    destruct (autoPay_covered created now db1 Hwf1 Hin Hcov)
      as (full & rest & split & _ & _ & Hbal' & Hlook').
    rewrite <- Hdb' in Hbal', Hlook'. rewrite Hid in Hlook'.
    rewrite Hlook' in Hfinal. eexists. split; [exact Hbody|].
    split; [exact Hfinal|]. split; [exact Hlook'|].
    cbn [PayoutRequest.agentId PayoutRequest.amount PayoutRequest.setNotes
         PayoutRequest.setCommissionIds PayoutRequest.setStatus
         PayoutRequest.status].
    split; [exact Hag|]. split; [exact Hamount|]. split; [|discriminate].
    intros _. rewrite Hfinal in Hmsg, Hpaid.
    split; [reflexivity|]. split; [exact Hmsg|]. split; [exact Hpaid|].
    rewrite Hag, Hamount in Hbal'.
    rewrite (pendingBalance_same_commissions agentId db db1 Hcs) in Hbal'.
    exact Hbal'.
  - subst db'. rewrite Hlook in Hfinal. exists created.
    split; [exact Hbody|].
    split; [exact Hfinal|]. split; [exact Hlook|].
    split; [exact Hag|]. split; [exact Hamount|]. split; [discriminate|].
    intros _. split; [exact Hstatus|]. split; [exact Hmsg|].
    split; [exact Hpaid|exact Hcs].
Qed.

Lemma validatePayoutRequest_admission_witness :
  let s := Scenario.policy (3 # 100) false false in
  let db := Scenario.outstanding (PayoutSettings.Stored (Some s))
              PayoutRequest.paid in
  let body := Workflow.mkBody (Some 500) "mpesa" "0712345678" in
  let agentId := 7%nat in
  let now := Scenario.wednesday1030 in
  exists pv,
    Workflow.validatePayoutRequest body agentId now db
    = Workflow.Next (Some pv)
    /\ Workflow.settings pv = s
    /\ Workflow.willAutoApprove pv = true
    /\ PayoutSettings.minWithdrawalAmount s <= 500
       <= PayoutSettings.maxWithdrawalAmount s
    /\ 500 <= Ledgers.pendingBalance agentId db.
Proof.
  cbv zeta.
  destruct (validatePayoutRequest_admission
              (Scenario.outstanding
                 (PayoutSettings.Stored
                    (Some (Scenario.policy (3 # 100) false false)))
                 PayoutRequest.paid)
              (Workflow.mkBody (Some 500) "mpesa" "0712345678") 7%nat
              Scenario.wednesday1030 (Scenario.policy (3 # 100) false false)
              (Some (Workflow.mkValidation
                       (Scenario.policy (3 # 100) false false)
                       [PayoutRequest.WillAutoApprove 1000;
                        PayoutRequest.PaymentAutomatic]
                       5000 true false))
              eq_refl)
    as (pv & Hv & Hset & _ & _ & _ & _ & Hauto & Hbounds & Hbal & _).
  - vm_compute. reflexivity.
  - injection Hv as <-. eexists. split; [vm_compute; reflexivity|].
    split; [reflexivity|]. split; [reflexivity|].
    split; [exact Hbounds|exact Hbal].
Defined.

Lemma undisturbed_auto_approved_is_paid_witness :
  let s := Scenario.policy (3 # 100) false false in
  let db := Scenario.outstanding (PayoutSettings.Stored (Some s))
              PayoutRequest.paid in
  let body := Workflow.mkBody (Some 500) "mpesa" "0712345678" in
  exists validation message final ws threshold autoPaid db',
    Workflow.validatePayoutRequest body 7%nat Scenario.wednesday1030 db
    = Workflow.Next validation
    /\ Workflow.createPayoutRequest body 7%nat validation
         Scenario.wednesday1030 db
       = (Workflow.Created message final ws threshold autoPaid, db')
    /\ exists p,
         final = Some p
         /\ PayoutRequest.status p = PayoutRequest.paid
         /\ Ledgers.pendingBalance 7%nat db'
            = Ledgers.pendingBalance 7%nat db - 500.
Proof.
  cbv zeta. do 7 eexists.
  split; [vm_compute; reflexivity|].
  split; [vm_compute; reflexivity|].
  match goal with
  | |- exists p, ?final = Some p /\ _ /\ Ledgers.pendingBalance _ ?d' = _ =>
      destruct (undisturbed_auto_approved_is_paid
                  (Scenario.outstanding
                     (PayoutSettings.Stored
                        (Some (Scenario.policy (3 # 100) false false)))
                     PayoutRequest.paid)
                  d'
                  (Workflow.mkBody (Some 500) "mpesa" "0712345678") 7%nat
                  Scenario.wednesday1030
                  (Scenario.policy (3 # 100) false false)
                  _ _ final _ _ _ eq_refl eq_refl eq_refl eq_refl)
        as (amount_ & p & Hbody & Hfinal & _ & _ & _ & Hauto & _)
  end.
  injection Hbody as <-.
  exists p. split; [exact Hfinal|].
  destruct (Hauto eq_refl) as (Hst & _ & _ & Hbal).
  split; [exact Hst|exact Hbal].
Defined.

(** ** The dry run against the middleware *)

(** X14: the dry-run validation of the payout-settings controller accepts
    what the middleware admits.  When a policy is stored and the middleware
    lets a request of positive amount through, for an agent whose account
    exists and is not on payout hold, the dry run at the same instant
    reports the request as valid with no error. *)
Theorem validateWithdrawalRequest_accepts_admitted (db : Db.t)
    (body : Workflow.Body) (agentId : ObjectId) (now : Date.t)
    (s : PayoutSettings.t) (v : option Workflow.PayoutValidation)
    (u : User.t) (amount_ : Z) :
  Db.settings db = PayoutSettings.Stored (Some s) ->
  Workflow.amount body = Some amount_ ->
  Workflow.validatePayoutRequest body agentId now db = Workflow.Next v ->
  Query.userById agentId db = Some u ->
  User.isHeld (User.payoutHold u) = false ->
  0 < amount_ ->
  exists warnings,
    PayoutSettingsController.validateWithdrawalRequest (amount_)
      (Some agentId) now db
    = PayoutSettingsController.Validated true [] warnings.
Proof.
  intros Hs Hbody Hv Hu Hheld Hpos.
  destruct (validatePayoutRequest_next db body agentId now s v Hs Hv)
    as (pv & _ & _ & _ & Hhold & Hwin & Hnone & Hnum).
  rewrite Hbody in Hnum. destruct Hnum as (_ & Hrange & Hbal & _).
  unfold PayoutSettingsController.validateWithdrawalRequest.
  replace (amount_ =? 0) with false
    by (symmetry; apply Z.eqb_neq; lia).
  replace (amount_ <=? 0) with false
    by (symmetry; apply Z.leb_gt; lia).
  cbn [orb]. rewrite Hs, Hu. cbv zeta beta.
  replace (amount_ <? PayoutSettings.minWithdrawalAmount s)
    with false by (symmetry; apply Z.ltb_ge; lia).
  replace (PayoutSettings.maxWithdrawalAmount s <? amount_)
    with false by (symmetry; apply Z.ltb_ge; lia).
  rewrite Hhold, Hheld.
  assert (Hclosed :
            PayoutSettings.enabled (PayoutSettings.payoutSchedule s)
            && negb (PayoutSettings.isCorrectDay s now
                     && PayoutSettings.isWithinTimeRange s now && negb false)
            = false).
  { destruct (PayoutSettings.enabled (PayoutSettings.payoutSchedule s));
      [|reflexivity].
    destruct (Hwin eq_refl) as [-> ->]. reflexivity. }
  rewrite Hclosed.
  fold (Ledgers.pendingBalance agentId db).
  replace (Ledgers.pendingBalance agentId db <? amount_)
    with false by (symmetry; apply Z.ltb_ge; lia).
  rewrite (payoutRequestIn_none agentId
             [PayoutRequest.pending; PayoutRequest.approved] db).
  - cbn [Workflow.when app]. eexists. reflexivity.
  - intros p Hp Hag Hst. destruct (Hnone p Hp Hag) as [E|E];
      rewrite E in Hst; cbn [In] in Hst; intuition discriminate.
Qed.

Lemma validateWithdrawalRequest_accepts_admitted_witness :
  let s := Scenario.policy (3 # 100) false false in
  let db := Scenario.outstanding (PayoutSettings.Stored (Some s))
              PayoutRequest.paid in
  exists warnings,
    PayoutSettingsController.validateWithdrawalRequest 500 (Some 7%nat)
      Scenario.wednesday1030 db
    = PayoutSettingsController.Validated true [] warnings.
Proof.
  eapply (validateWithdrawalRequest_accepts_admitted
            (Scenario.outstanding
               (PayoutSettings.Stored
                  (Some (Scenario.policy (3 # 100) false false)))
               PayoutRequest.paid)
            (Workflow.mkBody (Some 500) "mpesa" "0712345678") 7%nat
            Scenario.wednesday1030 (Scenario.policy (3 # 100) false false)).
  - reflexivity.
  - reflexivity.
  - vm_compute. reflexivity.
  - vm_compute. reflexivity.
  - reflexivity.
  - reflexivity.
Defined.

(** ** The next window named by the middleware *)

(** X16: when the middleware refuses a request for being outside the
    scheduled window, the warning it attaches names the first window start
    after the instant of the request - for a stored policy whose day of the
    week is 0..6 and whose start and end are zero-padded times with the
    start not after the end. *)
Theorem validatePayoutRequest_names_next_window (db : Db.t)
    (body : Workflow.Body) (agentId : ObjectId) (now : Date.t)
    (s : PayoutSettings.t) :
  let schedule := PayoutSettings.payoutSchedule s in
  Db.settings db = PayoutSettings.Stored (Some s) ->
  PayoutSettings.enabled schedule = true ->
  0 <= PayoutSettings.dayOfWeek schedule <= 6 ->
  PayoutSettings.isHHMM (PayoutSettings.startTime schedule) = true ->
  PayoutSettings.isHHMM (PayoutSettings.endTime schedule) = true ->
  PayoutSettings.minutesOf (PayoutSettings.startTime schedule)
  <= PayoutSettings.minutesOf (PayoutSettings.endTime schedule) ->
  Window.inWindow s now = false ->
  exists errors warnings next,
    Workflow.validatePayoutRequest body agentId now db
    = Workflow.ValidationFailed errors warnings
    /\ In Workflow.OutsideWindow errors
    /\ In (PayoutRequest.NextPayoutWindow (Some next)) warnings
    /\ Window.isNextWindowStart s now next.
Proof.
  intros schedule Hs Hen Hdow Hst Het Hle Hout.
  destruct (nextWindowInline_next s now Hdow Hst Het Hle Hout)
    as (next & Hnext & Hisnext).
  assert (Hclosed :
            PayoutSettings.enabled schedule
            && (negb (PayoutSettings.isCorrectDay s now)
                || negb (PayoutSettings.isWithinTimeRange s now)) = true).
  { rewrite Hen, <- negb_andb, (isWithinTimeRange_minutes s now Hst Het), Hout.
    reflexivity. }
  unfold Workflow.validatePayoutRequest. rewrite Hs. cbv zeta.
  fold schedule. rewrite Hclosed, Hnext.
  match goal with
  | |- context [match ?E with [] => _ | _ :: _ => Workflow.ValidationFailed _ ?W end] =>
      remember E as errors eqn:Eerrors; remember W as warnings eqn:Ewarnings
  end.
  assert (Hin : In Workflow.OutsideWindow errors).
  { rewrite Eerrors, !in_app_iff. right. right. right. left. left. reflexivity. }
  assert (Hw : In (PayoutRequest.NextPayoutWindow (Some next)) warnings).
  { rewrite Ewarnings. apply in_or_app. left. left. reflexivity. }
  destruct errors as [|e errors]; [contradiction|].
  exists (e :: errors), warnings, next.
  split; [reflexivity|]. split; [exact Hin|]. split; [exact Hw|exact Hisnext].
Qed.

Lemma validatePayoutRequest_names_next_window_witness :
  let s := Scenario.policy (3 # 100) false true in
  let db := Scenario.fresh (PayoutSettings.Stored (Some s)) in
  exists errors warnings next,
    Workflow.validatePayoutRequest (Workflow.mkBody (Some 500) "mpesa" "0712345678")
      7%nat Scenario.wednesday1030 db
    = Workflow.ValidationFailed errors warnings
    /\ In Workflow.OutsideWindow errors
    /\ In (PayoutRequest.NextPayoutWindow (Some next)) warnings
    /\ Window.isNextWindowStart s Scenario.wednesday1030 next.
Proof.
  apply (validatePayoutRequest_names_next_window
           (Scenario.fresh
              (PayoutSettings.Stored
                 (Some (Scenario.policy (3 # 100) false true))))
           (Workflow.mkBody (Some 500) "mpesa" "0712345678") 7%nat
           Scenario.wednesday1030 (Scenario.policy (3 # 100) false true)).
  - reflexivity.
  - reflexivity.
  - cbn. lia.
  - reflexivity.
  - reflexivity.
  - vm_compute. discriminate.
  - reflexivity.
Defined.

Lemma checkPayoutWindow_adminSettings_spec_witness :
  let s := Scenario.policy (3 # 100) false true in
  let db := Scenario.fresh (PayoutSettings.Stored (Some s)) in
  let now := Scenario.wednesday1030 in
  let schedule := PayoutSettings.payoutSchedule s in
  (PayoutSettings.globalPayoutHold s = true ->
   Window.checkPayoutWindow_adminSettings now db
   = (Window.Report false None, db))
  /\ (PayoutSettings.globalPayoutHold s = false ->
      PayoutSettings.enabled schedule = false ->
      Window.checkPayoutWindow_adminSettings now db
      = (Window.Report true None, db))
  /\ (PayoutSettings.globalPayoutHold s = false ->
      PayoutSettings.enabled schedule = true ->
      Window.inWindow s now = true ->
      Window.checkPayoutWindow_adminSettings now db
      = (Window.Report true None, db))
  /\ (PayoutSettings.globalPayoutHold s = false ->
      PayoutSettings.enabled schedule = true ->
      Window.inWindow s now = false ->
      exists next,
        Window.checkPayoutWindow_adminSettings now db
        = (Window.Report false (Some next), db)
        /\ Window.isNextWindowStart s now next).
Proof.
  apply (checkPayoutWindow_adminSettings_spec
           (Scenario.policy (3 # 100) false true) Scenario.wednesday1030
           (Scenario.fresh
              (PayoutSettings.Stored
                 (Some (Scenario.policy (3 # 100) false true))))).
  - reflexivity.
  - cbn. lia.
  - reflexivity.
  - reflexivity.
Defined.

(** ** The policy's own calculator, the displayed rates and the save hook *)

(** X17: the calculator written on the policy document and the one written
    on the commission model compute the same amount for every policy,
    order total, type and delivery count - the replacement of a zero
    agent-order rate by 3% included. *)
Theorem calculateCommission_methods_agree (s : PayoutSettings.t)
    (orderTotal : Z) (ty : Commission.Type_) (deliveryCount : Z) :
  Policy.calculateCommission s orderTotal ty deliveryCount
  = Commission.c_amount
      (Commission.calculateWith s orderTotal ty deliveryCount).
Proof. destruct ty; reflexivity. Qed.

(** X18: the example calculations shown to agents are the amounts the
    calculator credits.  For a stored policy whose agent-order rate is not
    zero, every example of [getCommissionRates] lists, for its order value,
    the commission the calculator records for an agent order of that value
    and for one delivery; the request itself changes nothing. *)
Theorem getCommissionRates_examples_match_calculator (db : Db.t)
    (s : PayoutSettings.t) :
  Db.settings db = PayoutSettings.Stored (Some s) ->
  ~ (PayoutSettings.agentOrder (PayoutSettings.commissionRates s) == 0)%Q ->
  exists rates,
    Rates.getCommissionRates db = (Some rates, db)
    /\ map Rates.orderValue (Rates.examples rates) = [1000; 5000; 10000; 20000]
    /\ forall e, In e (Rates.examples rates) ->
         Rates.agentOrderCommission e
         = Commission.c_amount
             (fst (Ledger.calculateCommission (Rates.orderValue e)
                     Commission.agent_order 1 db))
         /\ Rates.deliveryCommission e
            = Commission.c_amount
                (fst (Ledger.calculateCommission (Rates.orderValue e)
                        Commission.delivery 1 db)).
Proof.
  intros Hs Hrate.
  assert (Hq : Qeq_bool (PayoutSettings.agentOrder
                           (PayoutSettings.commissionRates s)) 0 = false).
  { destruct (Qeq_bool _ 0) eqn:E; [|reflexivity].
    apply Qeq_bool_iff in E. contradiction. }
  unfold Rates.getCommissionRates, Ledger.calculateCommission,
    Write.getCurrentSettings.
  rewrite Hs. eexists. split; [reflexivity|].
  cbn [Rates.examples]. split; [reflexivity|].
  intros e He. apply in_map_iff in He. destruct He as (v & <- & _).
  cbn [fst Rates.agentOrderCommission Rates.deliveryCommission Rates.orderValue
       Commission.calculateWith Commission.c_amount].
  rewrite Hq. split; [reflexivity|lia].
Qed.

Lemma getCommissionRates_examples_match_calculator_witness :
  let s := Scenario.policy (3 # 100) false false in
  let db := Scenario.fresh (PayoutSettings.Stored (Some s)) in
  exists rates,
    Rates.getCommissionRates db = (Some rates, db)
    /\ map Rates.orderValue (Rates.examples rates) = [1000; 5000; 10000; 20000]
    /\ forall e, In e (Rates.examples rates) ->
         Rates.agentOrderCommission e
         = Commission.c_amount
             (fst (Ledger.calculateCommission (Rates.orderValue e)
                     Commission.agent_order 1 db))
         /\ Rates.deliveryCommission e
            = Commission.c_amount
                (fst (Ledger.calculateCommission (Rates.orderValue e)
                        Commission.delivery 1 db)).
Proof.
  apply (getCommissionRates_examples_match_calculator
           (Scenario.fresh
              (PayoutSettings.Stored
                 (Some (Scenario.policy (3 # 100) false false))))
           (Scenario.policy (3 # 100) false false)).
  - reflexivity.
  - vm_compute. discriminate.
Defined.

Lemma leb_clock_texts (s1 s2 : string) :
  PayoutSettings.isHHMM s1 = true -> PayoutSettings.isHHMM s2 = true ->
  String.leb s1 s2
  = (PayoutSettings.minutesOf s1 <=? PayoutSettings.minutesOf s2).
Proof.
  intros H1 H2.
  destruct (isHHMM_clock s1 H1) as (a & b & c & d & ? & ? & ? & ? & _ & -> & ->).
  destruct (isHHMM_clock s2 H2)
    as (a' & b' & c' & d' & ? & ? & ? & ? & _ & -> & ->).
  unfold String.leb. rewrite compare_clock by assumption.
  destruct (Nat.compare_spec ((10 * a + b) * 60 + (10 * c + d))
              ((10 * a' + b') * 60 + (10 * c' + d')));
    symmetry; [apply Z.leb_le|apply Z.leb_le|apply Z.leb_gt]; lia.
Qed.

(** X19: what the save hook of the policy guarantees.  For zero-padded
    start and end times, the hook accepts a policy exactly when the minimum
    withdrawal is below the maximum and the window starts strictly before
    it ends, compared as times of day; equal bounds and equal times are
    refused. *)
Theorem preSave_accepts_ordered_bounds (s : PayoutSettings.t) :
  let schedule := PayoutSettings.payoutSchedule s in
  PayoutSettings.isHHMM (PayoutSettings.startTime schedule) = true ->
  PayoutSettings.isHHMM (PayoutSettings.endTime schedule) = true ->
  Policy.preSave s = Ok tt
  <-> PayoutSettings.minWithdrawalAmount s < PayoutSettings.maxWithdrawalAmount s
      /\ PayoutSettings.minutesOf (PayoutSettings.startTime schedule)
         < PayoutSettings.minutesOf (PayoutSettings.endTime schedule).
Proof.
  intros schedule Hst Het. unfold Policy.preSave. fold schedule.
  rewrite (leb_clock_texts _ _ Het Hst).
  destruct (PayoutSettings.maxWithdrawalAmount s
            <=? PayoutSettings.minWithdrawalAmount s) eqn:E1.
  - apply Z.leb_le in E1. split; [discriminate|lia].
  - apply Z.leb_gt in E1.
    destruct (PayoutSettings.minutesOf (PayoutSettings.endTime schedule)
              <=? PayoutSettings.minutesOf (PayoutSettings.startTime schedule))
      eqn:E2.
    + apply Z.leb_le in E2. split; [discriminate|lia].
    + apply Z.leb_gt in E2. split; [intros _; lia|reflexivity].
Qed.

Lemma preSave_accepts_ordered_bounds_witness :
  let s := PayoutSettings.defaults 1%nat in
  let schedule := PayoutSettings.payoutSchedule s in
  Policy.preSave s = Ok tt
  <-> PayoutSettings.minWithdrawalAmount s < PayoutSettings.maxWithdrawalAmount s
      /\ PayoutSettings.minutesOf (PayoutSettings.startTime schedule)
         < PayoutSettings.minutesOf (PayoutSettings.endTime schedule).
Proof.
  apply (preSave_accepts_ordered_bounds (PayoutSettings.defaults 1%nat));
    reflexivity.
Defined.

(** ** The agent's statistics *)

Lemma filter_twice (A : Type) (p q : A -> bool) (l : list A) :
  filter p (filter q l) = filter (fun x => q x && p x) l.
Proof.
  induction l as [|x l IH]; [reflexivity|].
  cbn [filter]. destruct (q x); cbn [filter andb]; [|exact IH].
  destruct (p x); rewrite IH; reflexivity.
Qed.

Lemma total_by_status (l : list Commission.t) :
  Query.totalAmount l
  = Query.totalAmount (filter (Stats.withStatus Commission.pending) l)
    + Query.totalAmount (filter (Stats.withStatus Commission.paid) l)
    + Query.totalAmount (filter (Stats.withStatus Commission.cancelled) l).
Proof.
  unfold Stats.withStatus.
  induction l as [|c l IH]; [reflexivity|].
  cbn [filter].
  destruct (Commission.status c); cbn [Commission.status_eqb];
    rewrite !totalAmount_cons; lia.
Qed.

Lemma count_by_status (l : list Commission.t) :
  List.length l
  = (List.length (filter (Stats.withStatus Commission.pending) l)
     + List.length (filter (Stats.withStatus Commission.paid) l)
     + List.length (filter (Stats.withStatus Commission.cancelled) l))%nat.
Proof.
  unfold Stats.withStatus.
  induction l as [|c l IH]; [reflexivity|].
  cbn [filter].
  destruct (Commission.status c); cbn [Commission.status_eqb List.length]; lia.
Qed.

(** The statistics as sums over the agent's entries. *)
Lemma summarize_aggregate (agentId : ObjectId) (db : Db.t) :
  let mine := filter (Stats.ofAgent agentId) (Db.commissions db) in
  let pending := filter (Stats.withStatus Commission.pending) mine in
  let paid := filter (Stats.withStatus Commission.paid) mine in
  let cancelled := filter (Stats.withStatus Commission.cancelled) mine in
  Stats.summarize (Stats.aggregate agentId db)
  = Stats.mkStats
      (Query.totalAmount pending + Query.totalAmount paid
       + Query.totalAmount cancelled)
      (Query.totalAmount pending) (Query.totalAmount paid)
      (Query.totalAmount cancelled)
      (List.length pending + List.length paid + List.length cancelled)
      (List.length pending) (List.length paid) (List.length cancelled).
Proof.
  intros mine pending paid cancelled.
  unfold Stats.summarize, Stats.aggregate, Stats.groupFor.
  fold mine. fold pending. fold paid. fold cancelled.
  destruct pending as [|p1 lp], paid as [|p2 ld], cancelled as [|p3 lc];
    cbn [app fold_left]; unfold Stats.addGroup, Stats.initial;
    cbn [Stats.g_status Stats.total
         Stats.count Stats.totalEarnings Stats.pendingCommissions
         Stats.paidCommissions Stats.cancelledCommissions
         Stats.totalCommissionsCount Stats.pendingCount Stats.paidCount
         Stats.cancelledCount];
    rewrite ?totalAmount_nil; f_equal; cbn [List.length]; lia.
Qed.

Lemma stats_sums (agentId : ObjectId) (now : Date.t)
    (db : Db.t) :
  let final := Stats.getCommissionStats agentId now db in
  let stats := Stats.commissionStats final in
  let mine := filter (Stats.ofAgent agentId) (Db.commissions db) in
  Stats.currentBalance final = Ledgers.pendingBalance agentId db
  /\ Stats.pendingCommissions stats = Ledgers.pendingBalance agentId db
  /\ Stats.paidCommissions stats
     = Query.totalAmount (filter (Stats.withStatus Commission.paid) mine)
  /\ Stats.cancelledCommissions stats
     = Query.totalAmount (filter (Stats.withStatus Commission.cancelled) mine)
  /\ Stats.totalEarnings stats = Ledgers.ledgerTotal agentId db
  /\ Stats.totalEarnings stats
     = Stats.pendingCommissions stats + Stats.paidCommissions stats
       + Stats.cancelledCommissions stats
  /\ Stats.totalCommissionsCount stats = List.length mine
  /\ Stats.totalCommissionsCount stats
     = (Stats.pendingCount stats + Stats.paidCount stats
        + Stats.cancelledCount stats)%nat.
Proof.
  intros final stats mine. subst final stats.
  unfold Stats.getCommissionStats.
  cbn [Stats.commissionStats Stats.currentBalance].
  rewrite summarize_aggregate.
  cbn [Stats.totalEarnings Stats.pendingCommissions Stats.paidCommissions
       Stats.cancelledCommissions Stats.totalCommissionsCount
       Stats.pendingCount Stats.paidCount Stats.cancelledCount].
  fold mine.
  assert (Hp : Query.totalAmount
                 (filter (Stats.withStatus Commission.pending) mine)
               = Ledgers.pendingBalance agentId db).
  { unfold mine, Ledgers.pendingBalance, Query.pendingCommissions.
    rewrite filter_twice. reflexivity. }
  rewrite Hp.
  repeat split; try reflexivity.
  - unfold Ledgers.ledgerTotal. fold (Stats.ofAgent agentId). fold mine.
    rewrite (total_by_status mine), Hp. reflexivity.
  - symmetry. apply count_by_status.
Qed.

(** X20: the statistics are sums over the agent's entries.  The pending
    total, which is also the balance reported as current, is the balance
    the pay action and the validation check the amount against; the paid
    and cancelled totals are the sums of the entries in those states; and
    the total earnings are the sum over all the agent's entries - the
    cancelled ones included. *)
Theorem getCommissionStats_sums (agentId : ObjectId) (now : Date.t)
    (db : Db.t) :
  let final := Stats.getCommissionStats agentId now db in
  let stats := Stats.commissionStats final in
  let mine := filter (Stats.ofAgent agentId) (Db.commissions db) in
  Stats.currentBalance final = Ledgers.pendingBalance agentId db
  /\ Stats.pendingCommissions stats = Ledgers.pendingBalance agentId db
  /\ Stats.paidCommissions stats
     = Query.totalAmount (filter (Stats.withStatus Commission.paid) mine)
  /\ Stats.cancelledCommissions stats
     = Query.totalAmount (filter (Stats.withStatus Commission.cancelled) mine)
  /\ Stats.totalEarnings stats = Ledgers.ledgerTotal agentId db
  /\ Stats.totalEarnings stats
     = Stats.pendingCommissions stats + Stats.paidCommissions stats
       + Stats.cancelledCommissions stats
  /\ Stats.totalCommissionsCount stats = List.length mine
  /\ Stats.totalCommissionsCount stats
     = (Stats.pendingCount stats + Stats.paidCount stats
        + Stats.cancelledCount stats)%nat.
Proof. exact (stats_sums agentId now db). Qed.

Lemma addGroup_commutes (acc : Stats.CommissionStats) (g1 g2 : Stats.Group) :
  Stats.g_status g1 <> Stats.g_status g2 ->
  Stats.addGroup (Stats.addGroup acc g1) g2
  = Stats.addGroup (Stats.addGroup acc g2) g1.
Proof.
  intro Hne. unfold Stats.addGroup.
  destruct (Stats.g_status g1), (Stats.g_status g2);
    try (exfalso; apply Hne; reflexivity);
    cbn [Stats.totalEarnings Stats.pendingCommissions Stats.paidCommissions
         Stats.cancelledCommissions Stats.totalCommissionsCount
         Stats.pendingCount Stats.paidCount Stats.cancelledCount];
    f_equal; lia.
Qed.

(** The order in which the groups reach the loop does not matter. *)
Lemma summarize_any_order (gs gs' : list Stats.Group) :
  Permutation gs gs' ->
  NoDup (map Stats.g_status gs) ->
  forall acc, fold_left Stats.addGroup gs acc = fold_left Stats.addGroup gs' acc.
Proof.
  induction 1 as [|x l l' Hperm IH|x y l|l l' l'' H1 IH1 H2 IH2];
    intros Hnd acc.
  - reflexivity.
  - cbn [fold_left]. apply IH. cbn [map] in Hnd.
    apply NoDup_cons_iff in Hnd. apply Hnd.
  - cbn [fold_left]. rewrite addGroup_commutes; [reflexivity|].
    cbn [map] in Hnd. apply NoDup_cons_iff in Hnd. destruct Hnd as [Hy _].
    intro E. apply Hy. left. symmetry. exact E.
  - rewrite IH1 by exact Hnd. apply IH2.
    apply (Permutation_NoDup (Permutation_map Stats.g_status H1)). exact Hnd.
Qed.

Lemma aggregate_statuses (agentId : ObjectId) (db : Db.t) :
  NoDup (map Stats.g_status (Stats.aggregate agentId db)).
Proof.
  unfold Stats.aggregate, Stats.groupFor.
  destruct (filter (Stats.withStatus Commission.pending) _),
           (filter (Stats.withStatus Commission.paid) _),
           (filter (Stats.withStatus Commission.cancelled) _);
    cbn [app map Stats.g_status];
    repeat (apply NoDup_cons; [cbn [In]; intuition discriminate|]);
    apply NoDup_nil.
Qed.

Lemma getCommissionStats_any_order (agentId : ObjectId) (db : Db.t)
    (gs : list Stats.Group) :
  Permutation (Stats.aggregate agentId db) gs ->
  Stats.summarize gs = Stats.summarize (Stats.aggregate agentId db).
Proof.
  intro H. symmetry. unfold Stats.summarize.
  apply summarize_any_order; [exact H|apply aggregate_statuses].
Qed.

(** ** A payment as the statistics see it *)

Lemma total_filter_map_kept (p : Commission.t -> bool)
    (g : Commission.t -> Commission.t) (l : list Commission.t) :
  (forall d, In d l ->
     p (g d) = p d /\ (p d = true -> Commission.amount (g d) = Commission.amount d)) ->
  Query.totalAmount (filter p (map g l)) = Query.totalAmount (filter p l).
Proof.
  induction l as [|x l IH]; intro H; [reflexivity|].
  cbn [map filter]. destruct (H x (or_introl eq_refl)) as [Hp Ha].
  rewrite Hp. assert (IH' := IH (fun d Hd => H d (or_intror Hd))).
  destruct (p x); rewrite ?totalAmount_cons, ?Ha; auto; lia.
Qed.

(** A covered payment: the pending total drops by the amount, while the
    sum over all the agent's entries and the cancelled total stay. *)
Lemma pay_totals (db : Db.t) (id userId : ObjectId)
    (notes reason : string) (now : Date.t) (pr : PayoutRequest.t)
    (agent : User.t) :
  Db.wf db = true ->
  Query.payoutRequestById id db = Some pr ->
  Settlement.isPendingOrApproved pr = true ->
  Query.userById (PayoutRequest.agentId pr) db = Some agent ->
  PayoutRequest.amount pr
  <= Ledgers.pendingBalance (PayoutRequest.agentId pr) db ->
  let agentId := PayoutRequest.agentId pr in
  let db' :=
    snd (Settlement.processPayoutRequest id "pay" notes reason userId now db) in
  let cancelledOf := fun db =>
    Query.totalAmount
      (filter (Stats.withStatus Commission.cancelled)
         (filter (Stats.ofAgent agentId) (Db.commissions db))) in
  Ledgers.pendingBalance agentId db'
  = Ledgers.pendingBalance agentId db - PayoutRequest.amount pr
  /\ Ledgers.ledgerTotal agentId db' = Ledgers.ledgerTotal agentId db
  /\ cancelledOf db' = cancelledOf db.
Proof.
  intros Hwf Hfind Hst Hagent Hcover agentId db' cancelledOf.
  destruct (wf_parts db Hwf) as (Hnd & _).
  destruct (processPayoutRequest_covered db id userId notes reason now pr
              agent Hwf Hfind Hst Hagent Hcover)
    as (full & rest & split & db1 & El & _ & Hsplit & Hproc & _ & Hcs & _).
  destruct (covered_entries db pr full rest split Hwf El) as (Hndp & Hpaid).
  { destruct split as [[c need]|]; [apply Hsplit|exact I]. }
  subst db'. rewrite Hproc. cbn [snd].
  split; [|split].
  - unfold Ledgers.pendingBalance, Query.pendingCommissions. rewrite Hcs.
    apply settled_pending_total; try assumption.
    + intros c Hc. destruct (Hpaid c Hc) as (Hin & _ & Hp). auto.
    + destruct split as [[c need]|]; [apply Hsplit|exact Hsplit].
  - unfold Ledgers.ledgerTotal. rewrite Hcs.
    apply (settled_total_conserved false id now full split agentId
             (Db.commissions db) (Db.nextId db) Hnd).
    destruct split as [[c need]|]; [|exact I].
    destruct (Hpaid c) as (Hc & Hag & _);
      [unfold Ledgers.paidEntries; apply in_or_app; right; left; reflexivity|].
    split; [exact Hc|]. split; [|exact Hag].
    unfold Ledgers.paidEntries in Hndp.
    rewrite map_app in Hndp. cbn [map] in Hndp.
    apply NoDup_remove_2 in Hndp. rewrite app_nil_r in Hndp. exact Hndp.
  - unfold cancelledOf. rewrite !filter_twice, Hcs, filter_app, totalAmount_app.
    assert (Hrem : filter (fun x => Stats.ofAgent agentId x
                                    && Stats.withStatus Commission.cancelled x)
                     (Ledgers.remainder false split now (Db.nextId db)) = []).
    { destruct split as [[c need]|]; [|reflexivity].
      cbn [Ledgers.remainder filter]. unfold Stats.withStatus.
      cbn [Ledgers.remainderOf Commission.status Commission.status_eqb].
      rewrite andb_false_r. reflexivity. }
    rewrite Hrem, totalAmount_nil, Z.add_0_r.
    apply total_filter_map_kept. intros d Hd.
    destruct (in_dec Nat.eq_dec (Commission._id d) (Ledgers.paidIds full split))
      as [Hin|Hnot].
    + assert (Hpend : Commission.status d = Commission.pending).
      { rewrite paidIds_entries in Hin. apply in_map_iff in Hin.
        destruct Hin as (e & Ee & He).
        destruct (Hpaid e He) as (Hein & _ & Hep).
        rewrite <- (same_id_same_doc Hnd Hein Hd Ee).
        unfold Query.isPendingOf in Hep. apply andb_true_iff in Hep.
        destruct Hep as [_ Hep].
        destruct (Commission.status e); simpl in Hep; congruence. }
      unfold Stats.withStatus.
      rewrite (settled_paid id now full split d Hin), Hpend.
      cbn [Commission.status_eqb]. rewrite !andb_false_r.
      split; [reflexivity|discriminate].
    + rewrite (settled_untouched id now full split d Hnot).
      split; reflexivity.
Qed.

(** X21: a payment as the agent's statistics show it.  After a pay action
    that answers success on a well-formed database, the pending total of
    the requesting agent is lower by the amount of the request, the paid
    total is higher by the amount, and the cancelled total and the total
    earnings are unchanged: the amount moves from pending to paid, a split
    entry included. *)
Theorem pay_moves_pending_to_paid (db db' : Db.t) (id userId : ObjectId)
    (notes reason : string) (now later : Date.t) (pr : PayoutRequest.t)
    (message : Settlement.Message) (paidRequest : option PayoutRequest.t) :
  Db.wf db = true ->
  Query.payoutRequestById id db = Some pr ->
  Settlement.processPayoutRequest id "pay" notes reason userId now db
  = (Settlement.Json message paidRequest, db') ->
  let agentId := PayoutRequest.agentId pr in
  let before :=
    Stats.commissionStats (Stats.getCommissionStats agentId later db) in
  let after :=
    Stats.commissionStats (Stats.getCommissionStats agentId later db') in
  Stats.pendingCommissions after
  = Stats.pendingCommissions before - PayoutRequest.amount pr
  /\ Stats.paidCommissions after
     = Stats.paidCommissions before + PayoutRequest.amount pr
  /\ Stats.cancelledCommissions after = Stats.cancelledCommissions before
  /\ Stats.totalEarnings after = Stats.totalEarnings before.
Proof.
  intros Hwf Hfind Hpay agentId before after.
  destruct (pay_succeeded_was_covered db db' id userId notes reason now pr
              message paidRequest Hfind Hpay)
    as (Hst & (agent & Hagent) & Hcover).
  destruct (pay_totals db id userId notes reason now pr agent Hwf Hfind Hst
              Hagent Hcover)
    as (Hp & Ht & Hc).
  rewrite Hpay in Hp, Ht, Hc. cbn [snd] in Hp, Ht, Hc.
  fold agentId in Hp, Ht, Hc. cbv beta in Hc.
  destruct (stats_sums agentId later db)
    as (_ & Bp & _ & Bc & Bt & Bsum & _).
  destruct (stats_sums agentId later db')
    as (_ & Ap & _ & Ac & At & Asum & _).
  cbv zeta in Bp, Bc, Bt, Bsum, Ap, Ac, At, Asum.
  fold before in Bp, Bc, Bt, Bsum. fold after in Ap, Ac, At, Asum.
  rewrite Ap, Bp, Ac, Bc, At, Bt in *.
  repeat split; lia.
Qed.

Lemma pay_moves_pending_to_paid_witness :
  let db := Scenario.threeEntries in
  exists message paidRequest db',
    Settlement.processPayoutRequest 4%nat "pay" "" "" 9%nat 50 db
    = (Settlement.Json message paidRequest, db')
    /\ let before :=
         Stats.commissionStats (Stats.getCommissionStats 7%nat 60 db) in
       let after :=
         Stats.commissionStats (Stats.getCommissionStats 7%nat 60 db') in
       Stats.pendingCommissions after = Stats.pendingCommissions before - 180
       /\ Stats.paidCommissions after = Stats.paidCommissions before + 180
       /\ Stats.cancelledCommissions after = Stats.cancelledCommissions before
       /\ Stats.totalEarnings after = Stats.totalEarnings before.
Proof.
  cbv zeta. do 3 eexists. split; [vm_compute; reflexivity|].
  apply (pay_moves_pending_to_paid Scenario.threeEntries _ 4%nat 9%nat "" ""
           50 60 (Scenario.request 4%nat 180 PayoutRequest.approved) _ _
           eq_refl eq_refl eq_refl).
Defined.

(** ** Bulk processing *)

Lemma allocate_taken rid now : forall cs amount totalPaid db,
  Bulk.allocate rid now cs amount totalPaid db
  = (map Commission._id (taken cs amount totalPaid),
     Settlement.saveUpdates rid now
       (map Ledgers.fullUpdate (taken cs amount totalPaid)) db).
Proof.
  induction cs as [|c cs IH]; intros amount totalPaid db; [reflexivity|].
  cbn [Bulk.allocate taken].
  destruct (totalPaid + Commission.amount c <=? amount); [|apply IH].
  destruct (amount <=? totalPaid + Commission.amount c); [reflexivity|].
  rewrite IH. reflexivity.
Qed.

Lemma taken_incl : forall cs amount totalPaid c,
  In c (taken cs amount totalPaid) -> In c cs.
Proof.
  induction cs as [|x cs IH]; intros amount totalPaid c H; [contradiction|].
  cbn [taken] in H.
  destruct (totalPaid + Commission.amount x <=? amount).
  - destruct H as [->|H]; [left; reflexivity|].
    destruct (amount <=? totalPaid + Commission.amount x); [contradiction|].
    right. eapply IH. exact H.
  - right. eapply IH. exact H.
Qed.

Lemma taken_NoDup : forall cs amount totalPaid,
  NoDup (map Commission._id cs) ->
  NoDup (map Commission._id (taken cs amount totalPaid)).
Proof.
  induction cs as [|x cs IH]; intros amount totalPaid Hnd; [constructor|].
  cbn [map] in Hnd. apply NoDup_cons_iff in Hnd. destruct Hnd as [Hx Hcs].
  cbn [taken].
  destruct (totalPaid + Commission.amount x <=? amount); [|apply IH; exact Hcs].
  cbn [map]. apply NoDup_cons.
  - destruct (amount <=? totalPaid + Commission.amount x); [intros []|].
    intro Hin. apply Hx. apply in_map_iff in Hin.
    destruct Hin as (d & Ed & Hd). apply in_map_iff. exists d.
    split; [exact Ed|eapply taken_incl; exact Hd].
  - destruct (amount <=? totalPaid + Commission.amount x); [constructor|].
    apply IH. exact Hcs.
Qed.

(** The loop never takes more than what is left of the amount. *)
Lemma taken_total : forall cs amount totalPaid,
  (forall c, In c cs -> 0 <= Commission.amount c) ->
  totalPaid <= amount ->
  0 <= Query.totalAmount (taken cs amount totalPaid)
  /\ totalPaid + Query.totalAmount (taken cs amount totalPaid) <= amount.
Proof.
  induction cs as [|x cs IH]; intros amount totalPaid Hpos Hle.
  - cbn [taken]. rewrite totalAmount_nil. lia.
  - cbn [taken].
    assert (Hx : 0 <= Commission.amount x) by (apply Hpos; left; reflexivity).
    assert (Hcs : forall c, In c cs -> 0 <= Commission.amount c)
      by (intros c Hc; apply Hpos; right; exact Hc).
    destruct (totalPaid + Commission.amount x <=? amount) eqn:E.
    + apply Z.leb_le in E. rewrite totalAmount_cons.
      destruct (amount <=? totalPaid + Commission.amount x).
      * rewrite totalAmount_nil. lia.
      * destruct (IH amount (totalPaid + Commission.amount x) Hcs E). lia.
    + apply IH; assumption.
Qed.

Lemma firstn_incl (A : Type) (n : nat) (l : list A) (x : A) :
  In x (firstn n l) -> In x l.
Proof.
  intro H. rewrite <- (firstn_skipn n l). apply in_or_app. left. exact H.
Qed.

Lemma firstn_NoDup_ids (n : nat) (l : list Commission.t) :
  NoDup (map Commission._id l) -> NoDup (map Commission._id (firstn n l)).
Proof.
  intro H. rewrite <- (firstn_skipn n l), map_app in H.
  apply NoDup_app_remove_r in H. exact H.
Qed.

(** The candidates of a request are distinct pending entries of its
    agent, stored and schema-valid. *)
Lemma bulkCandidates_facts (db : Db.t) (p : PayoutRequest.t) :
  Db.wf db = true ->
  NoDup (map Commission._id (bulkCandidates db p))
  /\ (forall c, In c (bulkCandidates db p) ->
        In c (Db.commissions db)
        /\ Query.isPendingOf (PayoutRequest.agentId p) c = true
        /\ 0 <= Commission.amount c).
Proof.
  intro Hwf. unfold bulkCandidates.
  destruct (pendingOldestFirst_facts db (PayoutRequest.agentId p) Hwf)
    as (_ & _ & Hnd & Hall).
  destruct (Query.userById (PayoutRequest.agentId p) db).
  - split; [apply firstn_NoDup_ids; exact Hnd|].
    intros c Hc. apply firstn_incl in Hc.
    destruct (Hall c Hc) as (Hin & Hag & Hst & Hval).
    split; [exact Hin|]. split.
    + unfold Query.isPendingOf. rewrite Hag, Nat.eqb_refl, Hst. reflexivity.
    + unfold Commission.valid in Hval. rewrite !andb_true_iff in Hval.
      destruct Hval as [[Ha _] _]. apply Z.leb_le. exact Ha.
  - split; [constructor|intros c []].
Qed.

(** The body of the loop over the paid requests, spelled out. *)
Lemma settleOne_unfold (now : Date.t) (db : Db.t) (p : PayoutRequest.t) :
  Db.wf db = true ->
  let chosen := taken (bulkCandidates db p) (PayoutRequest.amount p) 0 in
  Bulk.settleOne now db p
  = Db.mk (Db.settings db) (Db.users db) (Db.orders db)
      (map (Ledgers.settled (PayoutRequest._id p) now chosen None)
           (Db.commissions db))
      (map (fun q =>
              if (PayoutRequest._id q =? PayoutRequest._id p)%nat
              then PayoutRequest.setCommissionIds (map Commission._id chosen) q
              else q)
           (Db.payoutRequests db))
      (Db.nextId db).
Proof.
  intros Hwf chosen. unfold Bulk.settleOne.
  fold (bulkCandidates db p). rewrite allocate_taken. fold chosen.
  destruct (wf_parts db Hwf) as (Hnd & _).
  destruct (bulkCandidates_facts db p Hwf) as (Hndc & Hall).
  rewrite saveUpdates_full.
  - reflexivity.
  - exact Hnd.
  - apply taken_NoDup. exact Hndc.
  - intros c Hc. apply taken_incl in Hc. apply Hall. exact Hc.
Qed.

Lemma wf_intro (db : Db.t) :
  NoDup (map Commission._id (Db.commissions db)) ->
  (forall c, In c (Db.commissions db) -> (Commission._id c < Db.nextId db)%nat) ->
  (forall c, In c (Db.commissions db) -> Commission.valid c = true) ->
  NoDup (map PayoutRequest._id (Db.payoutRequests db)) ->
  (forall p, In p (Db.payoutRequests db) ->
             (PayoutRequest._id p < Db.nextId db)%nat) ->
  (forall p, In p (Db.payoutRequests db) -> 1 <= PayoutRequest.amount p) ->
  Db.wf db = true.
Proof.
  intros H1 H2 H3 H4 H5 H6. unfold Db.wf.
  rewrite !andb_true_iff, !forallb_forall, !distinct_NoDup.
  repeat split; try assumption.
  - intros c Hc. apply Nat.ltb_lt. auto.
  - intros p Hp. apply Nat.ltb_lt. auto.
  - intros p Hp. apply Z.leb_le. auto.
Qed.

Lemma total_nonneg (l : list Commission.t) :
  (forall c, In c l -> 0 <= Commission.amount c) -> 0 <= Query.totalAmount l.
Proof.
  induction l as [|x l IH]; intro H; [rewrite totalAmount_nil; lia|].
  rewrite totalAmount_cons.
  assert (0 <= Commission.amount x) by (apply H; left; reflexivity).
  assert (0 <= Query.totalAmount l)
    by (apply IH; intros c Hc; apply H; right; exact Hc).
  lia.
Qed.

Lemma settled_valid rid now full d :
  Commission.valid (Ledgers.settled rid now full None d) = Commission.valid d.
Proof.
  unfold Ledgers.settled. destruct (existsb _ full); reflexivity.
Qed.

Lemma settled_amount_none rid now full d :
  Commission.amount (Ledgers.settled rid now full None d) = Commission.amount d.
Proof. apply settled_amount_kept. exact I. Qed.

Lemma settledFrom_refl db : settledFrom db db.
Proof.
  unfold settledFrom. do 7 (split; [reflexivity|]).
  split; [intro a; lia|reflexivity].
Qed.

Lemma settledFrom_trans db1 db2 db3 :
  settledFrom db1 db2 -> settledFrom db2 db3 -> settledFrom db1 db3.
Proof.
  intros (A1 & A2 & A3 & A4 & A5 & A6 & A7 & A8 & A9)
         (B1 & B2 & B3 & B4 & B5 & B6 & B7 & B8 & B9).
  unfold settledFrom.
  do 6 (split; [congruence|]).
  split; [intro a; rewrite B7; apply A7|].
  split; [intro a; specialize (A8 a); specialize (B8 a); lia|congruence].
Qed.

(** One settlement of the bulk payment. *)
Lemma settleOne_effect (now : Date.t) (db : Db.t) (p : PayoutRequest.t) :
  Db.wf db = true ->
  0 <= PayoutRequest.amount p ->
  let chosen := taken (bulkCandidates db p) (PayoutRequest.amount p) 0 in
  let db' := Bulk.settleOne now db p in
  Db.wf db' = true
  /\ settledFrom db db'
  /\ 0 <= Query.totalAmount chosen <= PayoutRequest.amount p
  /\ Ledgers.pendingBalance (PayoutRequest.agentId p) db'
     = Ledgers.pendingBalance (PayoutRequest.agentId p) db
       - Query.totalAmount chosen.
Proof.
  intros Hwf Hamt chosen db'. subst db'.
  rewrite (settleOne_unfold now db p Hwf). fold chosen.
  destruct (wf_parts db Hwf) as (Hnd & Hlt & Hval & Hndp & Hltp & Hamtp).
  destruct (bulkCandidates_facts db p Hwf) as (Hndc & Hall).
  assert (Hchosen : forall c, In c chosen ->
            In c (Db.commissions db)
            /\ Query.isPendingOf (PayoutRequest.agentId p) c = true).
  { intros c Hc. apply taken_incl in Hc. destruct (Hall c Hc) as (? & ? & _).
    auto. }
  assert (Hndchosen : NoDup (map Commission._id chosen))
    by (apply taken_NoDup; exact Hndc).
  assert (Hpos : forall c, In c (Db.commissions db) -> 0 <= Commission.amount c).
  { intros c Hc. specialize (Hval c Hc). unfold Commission.valid in Hval.
    rewrite !andb_true_iff in Hval. destruct Hval as [[Ha _] _].
    apply Z.leb_le. exact Ha. }
  assert (Hids : map Commission._id
                   (map (Ledgers.settled (PayoutRequest._id p) now chosen None)
                        (Db.commissions db))
                 = map Commission._id (Db.commissions db)).
  { rewrite map_map. apply map_ext. intro d. apply settled_id. }
  assert (Hpids : map PayoutRequest._id
                    (map (fun q =>
                            if (PayoutRequest._id q =? PayoutRequest._id p)%nat
                            then PayoutRequest.setCommissionIds
                                   (map Commission._id chosen) q
                            else q)
                         (Db.payoutRequests db))
                  = map PayoutRequest._id (Db.payoutRequests db)).
  { rewrite map_map. apply map_ext. intro q.
    destruct (PayoutRequest._id q =? PayoutRequest._id p)%nat; reflexivity. }
  assert (Hpending : forall agentId,
            Query.totalAmount
              (filter (Query.isPendingOf agentId)
                 (map (Ledgers.settled (PayoutRequest._id p) now chosen None)
                      (Db.commissions db)))
            <= Query.totalAmount
                 (filter (Query.isPendingOf agentId) (Db.commissions db))).
  { intro a. rewrite filter_pending_settled.
    rewrite (total_filter_split (Query.isPendingOf a)
               (Ledgers.inIds (Ledgers.paidIds chosen None))
               (Db.commissions db)).
    assert (0 <= Query.totalAmount
                   (filter (fun d => Query.isPendingOf a d
                                     && Ledgers.inIds
                                          (Ledgers.paidIds chosen None) d)
                           (Db.commissions db))).
    { apply total_nonneg. intros c Hc. apply filter_In in Hc.
      apply Hpos. apply Hc. }
    lia. }
  split; [|split; [|split]].
  - apply wf_intro;
      cbn [Db.commissions Db.payoutRequests Db.nextId].
    + rewrite Hids. exact Hnd.
    + intros c Hc. apply in_map_iff in Hc. destruct Hc as (d & <- & Hd).
      rewrite settled_id. apply Hlt. exact Hd.
    + intros c Hc. apply in_map_iff in Hc. destruct Hc as (d & <- & Hd).
      rewrite settled_valid. apply Hval. exact Hd.
    + rewrite Hpids. exact Hndp.
    + intros q Hq. apply in_map_iff in Hq. destruct Hq as (q0 & <- & Hq0).
      destruct (PayoutRequest._id q0 =? PayoutRequest._id p)%nat;
        cbn [PayoutRequest._id PayoutRequest.setCommissionIds];
        apply Hltp; exact Hq0.
    + intros q Hq. apply in_map_iff in Hq. destruct Hq as (q0 & <- & Hq0).
      destruct (PayoutRequest._id q0 =? PayoutRequest._id p)%nat;
        cbn [PayoutRequest.amount PayoutRequest.setCommissionIds];
        apply Hamtp; exact Hq0.
  - unfold settledFrom.
    cbn [Db.commissions Db.payoutRequests Db.nextId Db.users Db.orders
         Db.settings].
    split; [exact Hids|]. split.
    { rewrite map_map. apply map_ext. intro d. apply settled_amount_none. }
    split; [reflexivity|]. split; [reflexivity|]. split; [reflexivity|].
    split; [reflexivity|]. split.
    { intro a. unfold Ledgers.ledgerTotal. cbn [Db.commissions].
      apply total_filter_map_same. intros d _.
      rewrite settled_agentId, settled_amount_none. split; reflexivity. }
    split.
    { intro a. unfold Ledgers.pendingBalance, Query.pendingCommissions.
      cbn [Db.commissions]. apply Hpending. }
    rewrite map_map. apply map_ext. intro q.
    destruct (PayoutRequest._id q =? PayoutRequest._id p)%nat; reflexivity.
  - destruct (taken_total (bulkCandidates db p) (PayoutRequest.amount p) 0)
      as [H0 H1]; [|exact Hamt|fold chosen in H0, H1; lia].
    intros c Hc. apply Hall. exact Hc.
  - unfold Ledgers.pendingBalance, Query.pendingCommissions.
    cbn [Db.commissions].
    rewrite <- (app_nil_r (map _ (Db.commissions db))).
    apply (settled_pending_total false (PayoutRequest._id p) now chosen None
             (PayoutRequest.agentId p) (Query.totalAmount chosen)
             (Db.commissions db) (Db.nextId db) Hnd).
    + unfold Ledgers.paidEntries. rewrite app_nil_r. exact Hndchosen.
    + unfold Ledgers.paidEntries. rewrite app_nil_r. exact Hchosen.
    + reflexivity.
Qed.

(** X22: one settlement of the bulk payment takes whole entries only.  On
    a well-formed database, settling a stored request marks pending
    entries of its agent paid without splitting or creating any: the
    agent's pending balance drops by at most the amount of the request -
    possibly by less, or by nothing - every entry keeps its id and its
    amount, and every agent's ledger total is unchanged. *)
Theorem bulk_settlement_never_overpays (now : Date.t) (db : Db.t)
    (p : PayoutRequest.t) :
  Db.wf db = true ->
  In p (Db.payoutRequests db) ->
  let agentId := PayoutRequest.agentId p in
  let db' := Bulk.settleOne now db p in
  Ledgers.pendingBalance agentId db - PayoutRequest.amount p
  <= Ledgers.pendingBalance agentId db'
  <= Ledgers.pendingBalance agentId db
  /\ map Commission._id (Db.commissions db')
     = map Commission._id (Db.commissions db)
  /\ map Commission.amount (Db.commissions db')
     = map Commission.amount (Db.commissions db)
  /\ Db.nextId db' = Db.nextId db
  /\ (forall a, Ledgers.ledgerTotal a db' = Ledgers.ledgerTotal a db)
  /\ Db.wf db' = true.
Proof.
  intros Hwf Hin agentId db'.
  destruct (wf_parts db Hwf) as (_ & _ & _ & _ & _ & Hamt).
  assert (H0 : 0 <= PayoutRequest.amount p)
    by (specialize (Hamt p Hin); lia).
  destruct (settleOne_effect now db p Hwf H0)
    as (Hwf' & (Hids & Hamts & Hn & _ & _ & _ & Hl & _) & Hrange & Hbal).
  fold db' in Hwf', Hids, Hamts, Hn, Hl, Hbal. fold agentId in Hbal.
  split; [lia|]. repeat split; assumption.
Qed.

Lemma bulk_settlement_never_overpays_witness :
  let db := Scenario.threeEntries in
  let p := Scenario.request 4%nat 180 PayoutRequest.approved in
  let agentId := PayoutRequest.agentId p in
  let db' := Bulk.settleOne 50 db p in
  Ledgers.pendingBalance agentId db - PayoutRequest.amount p
  <= Ledgers.pendingBalance agentId db'
  <= Ledgers.pendingBalance agentId db
  /\ map Commission._id (Db.commissions db')
     = map Commission._id (Db.commissions db)
  /\ map Commission.amount (Db.commissions db')
     = map Commission.amount (Db.commissions db)
  /\ Db.nextId db' = Db.nextId db
  /\ (forall a, Ledgers.ledgerTotal a db' = Ledgers.ledgerTotal a db)
  /\ Db.wf db' = true.
Proof.
  apply (bulk_settlement_never_overpays 50 Scenario.threeEntries
           (Scenario.request 4%nat 180 PayoutRequest.approved)).
  - reflexivity.
  - left. reflexivity.
Defined.

(** The entries 100, 150 and 80 against a request of 180: the bulk payment
    takes the first and the third entry and skips the second, where the
    single payment splits the second. *)
Example bulk_settlement_skips_an_entry :
  let db' := Bulk.settleOne 50 Scenario.threeEntries
               (Scenario.request 4%nat 180 PayoutRequest.approved) in
  map Commission.status (Db.commissions db')
  = [Commission.paid; Commission.pending; Commission.paid]
  /\ map PayoutRequest.commissionIds (Db.payoutRequests db') = [[1%nat; 3%nat]]
  /\ Ledgers.pendingBalance 7%nat db' = 150.
Proof. vm_compute. repeat split; reflexivity. Qed.

Lemma settleOne_core (now : Date.t) (db : Db.t) (p : PayoutRequest.t) :
  map requestCore (Db.payoutRequests (Bulk.settleOne now db p))
  = map requestCore (Db.payoutRequests db).
Proof.
  unfold Bulk.settleOne. rewrite allocate_taken.
  cbn [Db.payoutRequests Db.withPayoutRequests].
  match goal with
  | |- context [Settlement.saveUpdates ?r ?n ?u db] =>
      destruct (saveUpdates_payoutRequests r n u db) as (-> & _)
  end.
  rewrite map_map. apply map_ext. intro q.
  destruct (PayoutRequest._id q =? PayoutRequest._id p)%nat; reflexivity.
Qed.

Lemma fold_settleOne_core (now : Date.t) : forall ps db,
  map requestCore (Db.payoutRequests (fold_left (Bulk.settleOne now) ps db))
  = map requestCore (Db.payoutRequests db).
Proof.
  induction ps as [|p ps IH]; intro db; [reflexivity|].
  cbn [fold_left]. rewrite IH. apply settleOne_core.
Qed.

Lemma fold_settleOne_effect (now : Date.t) : forall ps db,
  Db.wf db = true ->
  (forall p, In p ps -> 0 <= PayoutRequest.amount p) ->
  Db.wf (fold_left (Bulk.settleOne now) ps db) = true
  /\ settledFrom db (fold_left (Bulk.settleOne now) ps db).
Proof.
  induction ps as [|p ps IH]; intros db Hwf Hamt.
  - split; [exact Hwf|apply settledFrom_refl].
  - cbn [fold_left].
    destruct (settleOne_effect now db p Hwf (Hamt p (or_introl eq_refl)))
      as (Hwf1 & Hfrom & _).
    destruct (IH (Bulk.settleOne now db p) Hwf1
                (fun q Hq => Hamt q (or_intror Hq))) as (Hwf2 & Hfrom2).
    split; [exact Hwf2|].
    eapply settledFrom_trans; eassumption.
Qed.

Lemma update_core (action notes : string) (userId : ObjectId) (now : Date.t)
    (p : PayoutRequest.t) :
  requestCore (Bulk.update action notes userId now p)
  = (PayoutRequest._id p, PayoutRequest.agentId p, PayoutRequest.amount p,
     Bulk.newStatus action (PayoutRequest.status p), PayoutRequest.metadata p).
Proof. unfold Bulk.update. destruct (JS.truthy notes); reflexivity. Qed.

(** X23: the bulk payment has no balance check.  Every listed request
    that is pending or approved is stored as paid, with its agent, amount
    and metadata unchanged - whatever the pending balance of its agent. *)
Theorem bulk_pay_marks_paid_unchecked (payoutIds : list ObjectId)
    (notes reason : string) (userId : ObjectId) (now : Date.t) (db : Db.t)
    (p : PayoutRequest.t) :
  In p (Db.payoutRequests db) ->
  In (PayoutRequest._id p) payoutIds ->
  PayoutRequest.status p = PayoutRequest.pending
  \/ PayoutRequest.status p = PayoutRequest.approved ->
  let r := Bulk.bulkProcessPayouts (Some payoutIds) "pay" notes reason userId
             now db in
  (exists modified, fst r = Bulk.Updated modified modified /\ (0 < modified)%nat)
  /\ exists p',
       In p' (Db.payoutRequests (snd r))
       /\ PayoutRequest._id p' = PayoutRequest._id p
       /\ PayoutRequest.status p' = PayoutRequest.paid
       /\ PayoutRequest.agentId p' = PayoutRequest.agentId p
       /\ PayoutRequest.amount p' = PayoutRequest.amount p
       /\ PayoutRequest.metadata p' = PayoutRequest.metadata p.
Proof.
  intros Hin Hid Hst r. subst r.
  assert (Hmatch : Bulk.matches payoutIds "pay" p = true).
  { unfold Bulk.matches. apply andb_true_iff. split.
    - apply existsb_exists. exists (PayoutRequest._id p).
      split; [exact Hid|apply Nat.eqb_refl].
    - change (Bulk.allowedStatuses "pay")
        with [PayoutRequest.pending; PayoutRequest.approved].
      destruct Hst as [-> | ->]; reflexivity. }
  destruct payoutIds as [|i ids]; [contradiction|].
  set (payoutIds := i :: ids) in *.
  unfold Bulk.bulkProcessPayouts.
  change (existsb (String.eqb "pay")
            ["approve"; "pay"; "reject"; "hold"; "release"]) with true.
  change (String.eqb "pay" "reject") with false.
  change (String.eqb "pay" "pay") with true.
  cbv iota zeta. cbn [negb andb fst snd].
  set (matched := filter (Bulk.matches payoutIds "pay") (Db.payoutRequests db)).
  set (db1 := Db.withPayoutRequests _ db).
  assert (Hpos : (0 < List.length matched)%nat).
  { assert (In p matched) by (apply filter_In; split; assumption).
    destruct matched; [contradiction|cbn; lia]. }
  split; [exists (List.length matched); split; [reflexivity|exact Hpos]|].
  assert (Hin1 : In (requestCore (Bulk.update "pay" notes userId now p))
                    (map requestCore (Db.payoutRequests db1))).
  { apply in_map. unfold db1. cbn [Db.payoutRequests Db.withPayoutRequests].
    apply in_map_iff. exists p. rewrite Hmatch. split; [reflexivity|exact Hin]. }
  assert (Hin2 : In (requestCore (Bulk.update "pay" notes userId now p))
                    (map requestCore
                       (Db.payoutRequests
                          (if (0 <? List.length matched)%nat
                           then fold_left (Bulk.settleOne now)
                                  (filter
                                     (fun q =>
                                        existsb (Nat.eqb (PayoutRequest._id q))
                                          payoutIds
                                        && PayoutRequest.status_eqb
                                             (PayoutRequest.status q)
                                             PayoutRequest.paid)
                                     (Db.payoutRequests db1)) db1
                           else db1)))).
  { destruct (0 <? List.length matched)%nat; [|exact Hin1].
    rewrite fold_settleOne_core. exact Hin1. }
  apply in_map_iff in Hin2. destruct Hin2 as (p' & Ecore & Hp').
  exists p'. split; [exact Hp'|].
  rewrite update_core in Ecore. unfold requestCore in Ecore.
  injection Ecore as E1 E2 E3 E4 E5.
  repeat split; assumption.
Qed.

Lemma bulk_pay_marks_paid_unchecked_witness :
  let db := Scenario.overdrawn in
  let p := Scenario.request 4%nat 400 PayoutRequest.approved in
  let r := Bulk.bulkProcessPayouts (Some [4%nat]) "pay" "" "" 9%nat 50 db in
  (exists modified, fst r = Bulk.Updated modified modified /\ (0 < modified)%nat)
  /\ exists p',
       In p' (Db.payoutRequests (snd r))
       /\ PayoutRequest._id p' = PayoutRequest._id p
       /\ PayoutRequest.status p' = PayoutRequest.paid
       /\ PayoutRequest.agentId p' = PayoutRequest.agentId p
       /\ PayoutRequest.amount p' = PayoutRequest.amount p
       /\ PayoutRequest.metadata p' = PayoutRequest.metadata p.
Proof.
  apply (bulk_pay_marks_paid_unchecked [4%nat] "" "" 9%nat 50
           Scenario.overdrawn
           (Scenario.request 4%nat 400 PayoutRequest.approved)).
  - left. reflexivity.
  - left. reflexivity.
  - right. reflexivity.
Defined.

Lemma same_id_same_request {l : list PayoutRequest.t} {p q : PayoutRequest.t} :
  NoDup (map PayoutRequest._id l) -> In p l -> In q l ->
  PayoutRequest._id p = PayoutRequest._id q -> p = q.
Proof.
  induction l as [|x l IH]; simpl; [contradiction|].
  intros Hnd Hp Hq E. inversion Hnd as [|? ? Hx Hl]; subst.
  destruct Hp as [->|Hp], Hq as [->|Hq]; try reflexivity.
  - exfalso. apply Hx. rewrite E. apply in_map. exact Hq.
  - exfalso. apply Hx. rewrite <- E. apply in_map. exact Hp.
  - auto.
Qed.

(** Saving a document over the stored one of its id. *)
Lemma wf_save (db : Db.t) (x p0 : PayoutRequest.t) :
  Db.wf db = true ->
  In p0 (Db.payoutRequests db) ->
  PayoutRequest._id x = PayoutRequest._id p0 ->
  1 <= PayoutRequest.amount x ->
  Db.wf (Write.savePayoutRequest x db) = true.
Proof.
  intros Hwf Hin Hid Hamt.
  destruct (wf_parts db Hwf) as (Hnd & Hlt & Hval & Hndp & Hltp & Hamtp).
  apply wf_intro; try assumption.
  - rewrite savePayoutRequest_ids. exact Hndp.
  - intros q Hq. unfold Write.savePayoutRequest in Hq.
    cbn [Db.payoutRequests Db.withPayoutRequests] in Hq.
    apply in_map_iff in Hq. destruct Hq as (q0 & <- & Hq0).
    cbn [Db.nextId Write.savePayoutRequest Db.withPayoutRequests].
    destruct (PayoutRequest._id q0 =? PayoutRequest._id x)%nat.
    + rewrite Hid. apply Hltp. exact Hin.
    + apply Hltp. exact Hq0.
  - intros q Hq. unfold Write.savePayoutRequest in Hq.
    cbn [Db.payoutRequests Db.withPayoutRequests] in Hq.
    apply in_map_iff in Hq. destruct Hq as (q0 & <- & Hq0).
    destruct (PayoutRequest._id q0 =? PayoutRequest._id x)%nat.
    + exact Hamt.
    + apply Hamtp. exact Hq0.
Qed.

Lemma save_members (db : Db.t) (x p0 : PayoutRequest.t) :
  NoDup (map PayoutRequest._id (Db.payoutRequests db)) ->
  In p0 (Db.payoutRequests db) ->
  PayoutRequest._id x = PayoutRequest._id p0 ->
  In x (Db.payoutRequests (Write.savePayoutRequest x db))
  /\ (forall q, In q (Db.payoutRequests db) -> q <> p0 ->
                In q (Db.payoutRequests (Write.savePayoutRequest x db)))
  /\ (forall q', In q' (Db.payoutRequests (Write.savePayoutRequest x db)) ->
                 q' = x \/ In q' (Db.payoutRequests db)).
Proof.
  intros Hnd Hin Hid. unfold Write.savePayoutRequest.
  cbn [Db.payoutRequests Db.withPayoutRequests].
  split; [|split].
  - apply in_map_iff. exists p0. rewrite Hid, Nat.eqb_refl. auto.
  - intros q Hq Hne. apply in_map_iff. exists q. split; [|exact Hq].
    destruct (PayoutRequest._id q =? PayoutRequest._id x)%nat eqn:E;
      [|reflexivity].
    apply Nat.eqb_eq in E. exfalso. apply Hne.
    apply (same_id_same_request Hnd Hq Hin). congruence.
  - intros q' Hq'. apply in_map_iff in Hq'. destruct Hq' as (q & <- & Hq).
    destruct (PayoutRequest._id q =? PayoutRequest._id x)%nat; auto.
Qed.

(** The rejection loop. *)
Lemma fold_rejectOne (reason : string) (userId : ObjectId) (now : Date.t) :
  forall ids n errs db0,
  Db.wf db0 = true ->
  exists n' errs' db',
    fold_left (Bulk.rejectOne reason userId now) ids (n, errs, db0)
    = (n', errs', db')
    /\ (n' + List.length errs' = n + List.length errs + List.length ids)%nat
    /\ Db.wf db' = true
    /\ sameLedger db' db0
    /\ map PayoutRequest._id (Db.payoutRequests db')
       = map PayoutRequest._id (Db.payoutRequests db0)
    /\ (forall q, In q (Db.payoutRequests db0) ->
          PayoutRequest.status q <> PayoutRequest.pending
          \/ ~ In (PayoutRequest._id q) ids ->
          In q (Db.payoutRequests db'))
    /\ (forall q, In q (Db.payoutRequests db0) ->
          PayoutRequest.status q = PayoutRequest.pending ->
          In (PayoutRequest._id q) ids ->
          In (PayoutRequest.reject reason userId now q) (Db.payoutRequests db'))
    /\ (forall q', In q' (Db.payoutRequests db') ->
          In q' (Db.payoutRequests db0)
          \/ exists q, In q (Db.payoutRequests db0)
                       /\ PayoutRequest.status q = PayoutRequest.pending
                       /\ In (PayoutRequest._id q) ids
                       /\ q' = PayoutRequest.reject reason userId now q).
Proof.
  induction ids as [|i ids IH]; intros n errs db0 Hwf.
  - exists n, errs, db0. cbn [fold_left List.length].
    split; [reflexivity|]. split; [lia|]. split; [exact Hwf|].
    split; [apply sameLedger_refl|]. split; [reflexivity|].
    split; [auto|]. split; [intros q _ _ []|auto].
  - cbn [fold_left]. unfold Bulk.rejectOne at 2.
    destruct (wf_parts db0 Hwf) as (_ & _ & _ & Hndp & _ & Hamtp).
    destruct (Query.payoutRequestById i db0) as [p0|] eqn:Hfind.
    + destruct (find_id_payout _ _ _ Hfind) as [Hid0 Hin0].
      destruct (PayoutRequest.status_eqb (PayoutRequest.status p0)
                  PayoutRequest.pending) eqn:Est.
      * (* rejected *)
        assert (Hst0 : PayoutRequest.status p0 = PayoutRequest.pending)
          by (destruct (PayoutRequest.status p0); simpl in Est; congruence).
        set (x := PayoutRequest.reject reason userId now p0).
        assert (Hidx : PayoutRequest._id x = PayoutRequest._id p0)
          by reflexivity.
        assert (Hwf1 : Db.wf (Write.savePayoutRequest x db0) = true).
        { apply (wf_save db0 x p0 Hwf Hin0 Hidx).
          apply (Hamtp p0 Hin0). }
        destruct (save_members db0 x p0 Hndp Hin0 Hidx) as (Mx & Mo & Mb).
        destruct (IH (S n) errs (Write.savePayoutRequest x db0) Hwf1)
          as (n' & errs' & db' & Hfold & Hcount & Hwf' & Hledger & Hids
              & HA & HB & HC).
        exists n', errs', db'. split; [exact Hfold|].
        split; [cbn [List.length]; lia|]. split; [exact Hwf'|].
        split; [exact Hledger|].
        split; [rewrite Hids; apply savePayoutRequest_ids|].
        split; [|split].
        -- intros q Hq Hor. apply HA.
           ++ apply Mo; [exact Hq|]. intros ->.
              destruct Hor as [Hor|Hor]; [contradiction|].
              apply Hor. left. symmetry. exact Hid0.
           ++ destruct Hor as [Hor|Hor]; [left; exact Hor|].
              right. intro Hin. apply Hor. right. exact Hin.
        -- intros q Hq Hst Hinq.
           destruct (Nat.eq_dec (PayoutRequest._id q) i) as [E|E].
           ++ assert (q = p0)
                by (apply (same_id_same_request Hndp Hq Hin0); congruence).
              subst q. apply HA; [exact Mx|left; discriminate].
           ++ apply HB.
              ** apply Mo; [exact Hq|]. intros ->. apply E. exact Hid0.
              ** exact Hst.
              ** destruct Hinq as [Hinq|Hinq]; [congruence|exact Hinq].
        -- intros q' Hq'. destruct (HC q' Hq') as [Hq0|(q & Hq & Hst & Hinq & ->)].
           ++ destruct (Mb q' Hq0) as [->|Hold]; [|left; exact Hold].
              right. exists p0. repeat split; try assumption.
              left. symmetry. exact Hid0.
           ++ destruct (Mb q Hq) as [->|Hold]; [discriminate Hst|].
              right. exists q. repeat split; try assumption.
              right. exact Hinq.
      * (* not pending *)
        destruct (IH n (errs ++ [Bulk.NotPending i]) db0 Hwf)
          as (n' & errs' & db' & Hfold & Hcount & Hwf' & Hledger & Hids
              & HA & HB & HC).
        exists n', errs', db'. split; [exact Hfold|].
        rewrite length_app in Hcount. cbn [List.length] in Hcount |- *.
        split; [lia|]. split; [exact Hwf'|]. split; [exact Hledger|].
        split; [exact Hids|]. split; [|split].
        -- intros q Hq Hor. apply HA; [exact Hq|].
           destruct Hor as [Hor|Hor]; [left; exact Hor|].
           right. intro Hin. apply Hor. right. exact Hin.
        -- intros q Hq Hst Hinq. apply HB; [exact Hq|exact Hst|].
           destruct Hinq as [E|Hinq]; [|exact Hinq].
           exfalso.
           assert (q = p0)
             by (apply (same_id_same_request Hndp Hq Hin0); congruence).
           subst q. rewrite Hst in Est. discriminate Est.
        -- intros q' Hq'. destruct (HC q' Hq') as [Hq0|(q & Hq & Hst & Hinq & ->)];
             [left; exact Hq0|].
           right. exists q. repeat split; try assumption. right. exact Hinq.
    + (* not found *)
      destruct (IH n (errs ++ [Bulk.NotFound i]) db0 Hwf)
        as (n' & errs' & db' & Hfold & Hcount & Hwf' & Hledger & Hids
            & HA & HB & HC).
      exists n', errs', db'. split; [exact Hfold|].
      rewrite length_app in Hcount. cbn [List.length] in Hcount |- *.
      split; [lia|]. split; [exact Hwf'|]. split; [exact Hledger|].
      split; [exact Hids|]. split; [|split].
      * intros q Hq Hor. apply HA; [exact Hq|].
        destruct Hor as [Hor|Hor]; [left; exact Hor|].
        right. intro Hin. apply Hor. right. exact Hin.
      * intros q Hq Hst Hinq. apply HB; [exact Hq|exact Hst|].
        destruct Hinq as [E|Hinq]; [|exact Hinq].
        exfalso. unfold Query.payoutRequestById in Hfind.
        pose proof (find_none _ _ Hfind q Hq) as Hnone. cbv beta in Hnone.
        rewrite <- E, Nat.eqb_refl in Hnone. discriminate Hnone.
      * intros q' Hq'. destruct (HC q' Hq') as [Hq0|(q & Hq & Hst & Hinq & ->)];
          [left; exact Hq0|].
        right. exists q. repeat split; try assumption. right. exact Hinq.
Qed.

Lemma update_map_wf (db : Db.t) (f : PayoutRequest.t -> PayoutRequest.t) :
  Db.wf db = true ->
  (forall q, PayoutRequest._id (f q) = PayoutRequest._id q
             /\ PayoutRequest.amount (f q) = PayoutRequest.amount q) ->
  Db.wf (Db.withPayoutRequests (map f (Db.payoutRequests db)) db) = true.
Proof.
  intros Hwf Hf.
  destruct (wf_parts db Hwf) as (Hnd & Hlt & Hval & Hndp & Hltp & Hamtp).
  apply wf_intro; cbn [Db.commissions Db.payoutRequests Db.nextId
                       Db.withPayoutRequests]; try assumption.
  - rewrite map_map.
    rewrite (map_ext _ PayoutRequest._id (fun q => proj1 (Hf q))).
    exact Hndp.
  - intros p Hp. apply in_map_iff in Hp. destruct Hp as (q & <- & Hq).
    rewrite (proj1 (Hf q)). auto.
  - intros p Hp. apply in_map_iff in Hp. destruct Hp as (q & <- & Hq).
    rewrite (proj2 (Hf q)). auto.
Qed.

Lemma bulk_update_keeps (payoutIds : list ObjectId) (action notes : string)
    (userId : ObjectId) (now : Date.t) (q : PayoutRequest.t) :
  let f := fun p => if Bulk.matches payoutIds action p
                    then Bulk.update action notes userId now p else p in
  PayoutRequest._id (f q) = PayoutRequest._id q
  /\ PayoutRequest.amount (f q) = PayoutRequest.amount q.
Proof.
  cbv beta zeta. destruct (Bulk.matches payoutIds action q); [|auto].
  pose proof (update_core action notes userId now q) as H.
  unfold requestCore in H. injection H. intros. split; assumption.
Qed.

Lemma core_ids (l l' : list PayoutRequest.t) :
  map requestCore l' = map requestCore l ->
  map PayoutRequest._id l' = map PayoutRequest._id l
  /\ map PayoutRequest.amount l' = map PayoutRequest.amount l.
Proof.
  intro H. split.
  - apply (f_equal (map (fun x : ObjectId * ObjectId * Z * PayoutRequest.Status
                                 * PayoutRequest.Metadata =>
                           fst (fst (fst (fst x)))))) in H.
    rewrite !map_map in H. exact H.
  - apply (f_equal (map (fun x : ObjectId * ObjectId * Z * PayoutRequest.Status
                                 * PayoutRequest.Metadata =>
                           snd (fst (fst x))))) in H.
    rewrite !map_map in H. exact H.
Qed.

Lemma save_amounts (db : Db.t) (x p0 : PayoutRequest.t) :
  NoDup (map PayoutRequest._id (Db.payoutRequests db)) ->
  In p0 (Db.payoutRequests db) ->
  PayoutRequest._id x = PayoutRequest._id p0 ->
  PayoutRequest.amount x = PayoutRequest.amount p0 ->
  map PayoutRequest.amount (Db.payoutRequests (Write.savePayoutRequest x db))
  = map PayoutRequest.amount (Db.payoutRequests db).
Proof.
  intros Hnd Hin Hid Hamt. unfold Write.savePayoutRequest.
  cbn [Db.payoutRequests Db.withPayoutRequests].
  rewrite map_map. apply map_ext_in. intros q Hq.
  destruct (PayoutRequest._id q =? PayoutRequest._id x)%nat eqn:E;
    [|reflexivity].
  apply Nat.eqb_eq in E.
  assert (q = p0)
    by (apply (same_id_same_request Hnd Hq Hin); congruence).
  subst q. exact Hamt.
Qed.

Lemma fold_rejectOne_amounts (reason : string) (userId : ObjectId)
    (now : Date.t) : forall ids n errs db0,
  Db.wf db0 = true ->
  map PayoutRequest.amount
    (Db.payoutRequests
       (snd (fold_left (Bulk.rejectOne reason userId now) ids (n, errs, db0))))
  = map PayoutRequest.amount (Db.payoutRequests db0).
Proof.
  induction ids as [|i ids IH]; intros n errs db0 Hwf; [reflexivity|].
  cbn [fold_left]. unfold Bulk.rejectOne at 2.
  destruct (wf_parts db0 Hwf) as (_ & _ & _ & Hndp & _ & Hamtp).
  destruct (Query.payoutRequestById i db0) as [p0|] eqn:Hfind;
    [|apply IH; exact Hwf].
  destruct (find_id_payout _ _ _ Hfind) as [Hid0 Hin0].
  destruct (PayoutRequest.status_eqb (PayoutRequest.status p0)
              PayoutRequest.pending); [|apply IH; exact Hwf].
  rewrite IH.
  - apply (save_amounts db0 _ p0 Hndp Hin0); reflexivity.
  - apply (wf_save db0 _ p0 Hwf Hin0); [reflexivity|].
    apply (Hamtp p0 Hin0).
Qed.

(** X24: bulk rejection.  With a non-empty list of ids and a reason of at
    least three characters after trimming (the default one when none is
    sent), every listed id is either counted as rejected or reported as an
    error.  The stored pending requests named in the list become rejected
    with the trimmed reason; every other request, and every collection
    other than the payout requests, is left as it was. *)
Theorem bulk_reject_only_pending (payoutIds : list ObjectId)
    (notes rejectionReason : string) (userId : ObjectId) (now : Date.t)
    (db : Db.t) :
  Db.wf db = true ->
  payoutIds <> [] ->
  let reason :=
    JS.trim (if JS.truthy rejectionReason then rejectionReason
             else Bulk.defaultReason) in
  (3 <= String.length reason)%nat ->
  exists processedCount errors db',
    Bulk.bulkProcessPayouts (Some payoutIds) "reject" notes rejectionReason
      userId now db
    = (Bulk.Rejected processedCount (List.length payoutIds) errors, db')
    /\ (processedCount + List.length errors = List.length payoutIds)%nat
    /\ sameLedger db' db
    /\ (forall q, In q (Db.payoutRequests db) ->
          PayoutRequest.status q <> PayoutRequest.pending
          \/ ~ In (PayoutRequest._id q) payoutIds ->
          In q (Db.payoutRequests db'))
    /\ (forall q, In q (Db.payoutRequests db) ->
          PayoutRequest.status q = PayoutRequest.pending ->
          In (PayoutRequest._id q) payoutIds ->
          In (PayoutRequest.reject reason userId now q)
             (Db.payoutRequests db'))
    /\ (forall q', In q' (Db.payoutRequests db') ->
          In q' (Db.payoutRequests db)
          \/ exists q, In q (Db.payoutRequests db)
                       /\ PayoutRequest.status q = PayoutRequest.pending
                       /\ In (PayoutRequest._id q) payoutIds
                       /\ q' = PayoutRequest.reject reason userId now q).
Proof.
  intros Hwf Hne reason Hlen.
  destruct (fold_rejectOne reason userId now payoutIds 0%nat [] db Hwf)
    as (n' & errs' & db' & Hfold & Hcount & _ & Hledger & _ & HA & HB & HC).
  exists n', errs', db'.
  split.
  - unfold Bulk.bulkProcessPayouts.
    destruct payoutIds as [|i ids]; [contradiction Hne; reflexivity|].
    cbn [existsb String.eqb Ascii.eqb Bool.eqb negb orb andb].
    fold reason.
    destruct (String.length reason <? 3)%nat eqn:E;
      [apply Nat.ltb_lt in E; lia|].
    rewrite Hfold. reflexivity.
  - cbn [List.length] in Hcount.
    split; [lia|]. split; [exact Hledger|]. split; [exact HA|].
    split; [exact HB|exact HC].
Qed.

Lemma bulk_reject_only_pending_witness :
  exists processedCount errors db',
    Bulk.bulkProcessPayouts (Some [2%nat; 9%nat]) "reject" "" "" 2%nat 50
      (Scenario.outstanding (PayoutSettings.Stored None)
                 PayoutRequest.pending)
    = (Bulk.Rejected processedCount 2 errors, db')
    /\ (processedCount + List.length errors = 2)%nat
    /\ In (PayoutRequest.reject
             "Bulk rejection - Contact support for specific details" 2%nat 50
             (Scenario.request 2%nat 500 PayoutRequest.pending))
          (Db.payoutRequests db').
Proof.
  destruct (bulk_reject_only_pending [2%nat; 9%nat] "" "" 2%nat 50
              (Scenario.outstanding (PayoutSettings.Stored None)
                 PayoutRequest.pending))
    as (n & errors & db' & Hr & Hcount & _ & _ & HB & _).
  - vm_compute. reflexivity.
  - discriminate.
  - vm_compute. lia.
  - exists n, errors, db'. split; [exact Hr|]. split; [exact Hcount|].
    apply (HB (Scenario.request 2%nat 500 PayoutRequest.pending)).
    + vm_compute. left. reflexivity.
    + reflexivity.
    + left. reflexivity.
Defined.

(** A reason of two code units is refused, as one letter e-acute (code
    unit 233) twice is. *)
Example bulk_reject_short_reason_refused :
  Bulk.bulkProcessPayouts (Some [2%nat]) "reject" ""
    (String (ascii_of_nat 233) (String (ascii_of_nat 233) EmptyString))
    9%nat 50
    (Scenario.outstanding (PayoutSettings.Stored None) PayoutRequest.pending)
  = (Bulk.ReasonTooShort,
     Scenario.outstanding (PayoutSettings.Stored None) PayoutRequest.pending).
Proof. vm_compute. reflexivity. Qed.

(** What a database keeps when only stored payout requests were rewritten
    in place, ids and amounts untouched. *)
Lemma requests_rewritten (action : string) (db db' : Db.t) :
  Db.wf db' = true ->
  sameLedger db' db ->
  map PayoutRequest._id (Db.payoutRequests db')
  = map PayoutRequest._id (Db.payoutRequests db) ->
  map PayoutRequest.amount (Db.payoutRequests db')
  = map PayoutRequest.amount (Db.payoutRequests db) ->
  Db.wf db' = true
  /\ map Commission._id (Db.commissions db')
     = map Commission._id (Db.commissions db)
  /\ map Commission.amount (Db.commissions db')
     = map Commission.amount (Db.commissions db)
  /\ Db.nextId db' = Db.nextId db
  /\ (forall agentId,
        Ledgers.ledgerTotal agentId db' = Ledgers.ledgerTotal agentId db)
  /\ (forall agentId,
        Ledgers.pendingBalance agentId db' <= Ledgers.pendingBalance agentId db)
  /\ map PayoutRequest._id (Db.payoutRequests db')
     = map PayoutRequest._id (Db.payoutRequests db)
  /\ map PayoutRequest.amount (Db.payoutRequests db')
     = map PayoutRequest.amount (Db.payoutRequests db)
  /\ (action <> "pay" -> Db.commissions db' = Db.commissions db).
Proof.
  intros Hwf (Hc & _ & _ & _ & Hn) Hids Hamts.
  split; [exact Hwf|]. split; [rewrite Hc; reflexivity|].
  split; [rewrite Hc; reflexivity|]. split; [exact Hn|].
  split; [intro a; unfold Ledgers.ledgerTotal; rewrite Hc; reflexivity|].
  split; [intro a; rewrite (pendingBalance_same_commissions a db db' Hc); lia|].
  split; [exact Hids|]. split; [exact Hamts|]. intros _. exact Hc.
Qed.

(** X25: whatever the list of ids, the action, the notes and the reason,
    bulk processing of payout requests keeps a well-formed database
    well-formed and never creates, removes or re-prices a commission or a
    payout request: ids and amounts are unchanged, every agent's ledger
    total is unchanged and no agent's pending balance grows.  Only the
    action pay touches the commissions at all. *)
Theorem bulkProcessPayouts_keeps_ledger (payoutIds : option (list ObjectId))
    (action notes rejectionReason : string) (userId : ObjectId)
    (now : Date.t) (db : Db.t) :
  Db.wf db = true ->
  let db' := snd (Bulk.bulkProcessPayouts payoutIds action notes
                    rejectionReason userId now db) in
  Db.wf db' = true
  /\ map Commission._id (Db.commissions db')
     = map Commission._id (Db.commissions db)
  /\ map Commission.amount (Db.commissions db')
     = map Commission.amount (Db.commissions db)
  /\ Db.nextId db' = Db.nextId db
  /\ (forall agentId,
        Ledgers.ledgerTotal agentId db' = Ledgers.ledgerTotal agentId db)
  /\ (forall agentId,
        Ledgers.pendingBalance agentId db' <= Ledgers.pendingBalance agentId db)
  /\ map PayoutRequest._id (Db.payoutRequests db')
     = map PayoutRequest._id (Db.payoutRequests db)
  /\ map PayoutRequest.amount (Db.payoutRequests db')
     = map PayoutRequest.amount (Db.payoutRequests db)
  /\ (action <> "pay" -> Db.commissions db' = Db.commissions db).
Proof.
  intros Hwf db'. subst db'.
  assert (Hsame : forall r : Bulk.Response,
            let db' := snd (r, db) in
            Db.wf db' = true
            /\ map Commission._id (Db.commissions db')
               = map Commission._id (Db.commissions db)
            /\ map Commission.amount (Db.commissions db')
               = map Commission.amount (Db.commissions db)
            /\ Db.nextId db' = Db.nextId db
            /\ (forall agentId,
                  Ledgers.ledgerTotal agentId db'
                  = Ledgers.ledgerTotal agentId db)
            /\ (forall agentId,
                  Ledgers.pendingBalance agentId db'
                  <= Ledgers.pendingBalance agentId db)
            /\ map PayoutRequest._id (Db.payoutRequests db')
               = map PayoutRequest._id (Db.payoutRequests db)
            /\ map PayoutRequest.amount (Db.payoutRequests db')
               = map PayoutRequest.amount (Db.payoutRequests db)
            /\ (action <> "pay" -> Db.commissions db' = Db.commissions db)).
  { intro r. cbn [snd].
    apply (requests_rewritten action db db Hwf (sameLedger_refl db));
      reflexivity. }
  unfold Bulk.bulkProcessPayouts.
  destruct payoutIds as [[|i ids]|]; try apply Hsame.
  set (payoutIds := i :: ids).
  destruct (negb (existsb (String.eqb action)
                    ["approve"; "pay"; "reject"; "hold"; "release"]));
    [apply Hsame|].
  destruct (String.eqb action "reject") eqn:Erej.
  - (* the rejection loop *)
    match goal with
    | |- context [String.length ?r] => set (reason := r)
    end.
    destruct (String.length reason <? 3)%nat; [apply Hsame|].
    pose proof (fold_rejectOne_amounts reason userId now payoutIds 0%nat []
                  db Hwf) as Hamts.
    destruct (fold_rejectOne reason userId now payoutIds 0%nat [] db Hwf)
      as (n' & errs' & db' & Hfold & _ & Hwf' & Hledger & Hids & _).
    rewrite Hfold in Hamts |- *. cbn [snd] in Hamts |- *.
    apply (requests_rewritten action db db' Hwf' Hledger Hids Hamts).
  - (* updateMany, and the settlements of the action pay *)
    set (f := fun p => if Bulk.matches payoutIds action p
                       then Bulk.update action notes userId now p else p).
    set (db1 := Db.withPayoutRequests (map f (Db.payoutRequests db)) db).
    assert (Hf : forall q, PayoutRequest._id (f q) = PayoutRequest._id q
                           /\ PayoutRequest.amount (f q)
                              = PayoutRequest.amount q)
      by (intro q; apply bulk_update_keeps).
    assert (Hwf1 : Db.wf db1 = true) by (apply update_map_wf; assumption).
    assert (Hids1 : map PayoutRequest._id (Db.payoutRequests db1)
                    = map PayoutRequest._id (Db.payoutRequests db)).
    { subst db1. cbn [Db.payoutRequests Db.withPayoutRequests].
      rewrite map_map. apply map_ext. intro q. apply Hf. }
    assert (Hamts1 : map PayoutRequest.amount (Db.payoutRequests db1)
                     = map PayoutRequest.amount (Db.payoutRequests db)).
    { subst db1. cbn [Db.payoutRequests Db.withPayoutRequests].
      rewrite map_map. apply map_ext. intro q. apply Hf. }
    assert (Hledger1 : sameLedger db1 db) by (repeat split).
    destruct (String.eqb action "pay"
              && (0 <? List.length
                         (filter (Bulk.matches payoutIds action)
                                 (Db.payoutRequests db)))%nat) eqn:Epay.
    + cbn [snd].
      match goal with
      | |- context [fold_left (Bulk.settleOne now) ?ps db1] =>
          set (paidPayouts := ps)
      end.
      destruct (wf_parts db1 Hwf1) as (_ & _ & _ & _ & _ & Hamtp).
      assert (Hpos : forall p, In p paidPayouts -> 0 <= PayoutRequest.amount p).
      { intros p Hp. subst paidPayouts. apply filter_In in Hp.
        destruct Hp as [Hp _]. specialize (Hamtp p Hp). lia. }
      destruct (fold_settleOne_effect now paidPayouts db1 Hwf1 Hpos)
        as (Hwf2 & Hfrom).
      destruct Hfrom as (Fi & Fa & Fn & _ & _ & _ & Ft & Fp & Fcore).
      destruct (core_ids _ _ Fcore) as (Fids & Famts).
      destruct Hledger1 as (Hc1 & _ & _ & _ & Hn1).
      split; [exact Hwf2|].
      split; [rewrite Fi, Hc1; reflexivity|].
      split; [rewrite Fa, Hc1; reflexivity|].
      split; [congruence|].
      split; [intro a; rewrite Ft; unfold Ledgers.ledgerTotal;
              rewrite Hc1; reflexivity|].
      split; [intro a; rewrite <- (pendingBalance_same_commissions a db db1 Hc1);
              apply Fp|].
      split; [congruence|]. split; [congruence|].
      intro Hnot. exfalso. apply andb_true_iff in Epay.
      destruct Epay as [E _]. apply String.eqb_eq in E. contradiction.
    + cbn [snd].
      apply (requests_rewritten action db db1 Hwf1 Hledger1 Hids1 Hamts1).
Qed.

Lemma bulkProcessPayouts_keeps_ledger_witness :
  let db := Scenario.threeEntries in
  let db' := snd (Bulk.bulkProcessPayouts (Some [4%nat]) "pay" "" "" 9%nat 50
                    db) in
  Db.wf db' = true
  /\ map Commission._id (Db.commissions db')
     = map Commission._id (Db.commissions db)
  /\ map Commission.amount (Db.commissions db')
     = map Commission.amount (Db.commissions db)
  /\ Db.nextId db' = Db.nextId db
  /\ (forall agentId,
        Ledgers.ledgerTotal agentId db' = Ledgers.ledgerTotal agentId db)
  /\ (forall agentId,
        Ledgers.pendingBalance agentId db' <= Ledgers.pendingBalance agentId db)
  /\ map PayoutRequest._id (Db.payoutRequests db')
     = map PayoutRequest._id (Db.payoutRequests db)
  /\ map PayoutRequest.amount (Db.payoutRequests db')
     = map PayoutRequest.amount (Db.payoutRequests db)
  /\ ("pay" <> "pay" -> Db.commissions db' = Db.commissions db).
Proof.
  apply (bulkProcessPayouts_keeps_ledger (Some [4%nat]) "pay" "" "" 9%nat 50
           Scenario.threeEntries).
  reflexivity.
Defined.

(** ** Auto-approval: the model's own check and the analytics *)

(** X26: the eligibility check of the payout-request model agrees with the
    middleware.  When a policy is stored, the middleware lets a request
    through, the agent's account exists, manager approval is not required
    and the amount is within the auto-approval threshold, the static check
    answers eligible, with that threshold. *)
Theorem admitted_auto_approval_is_eligible (db : Db.t) (body : Workflow.Body)
    (agentId : ObjectId) (now : Date.t) (s : PayoutSettings.t)
    (v : option Workflow.PayoutValidation) (agent : User.t) (amount_ : Z) :
  Db.settings db = PayoutSettings.Stored (Some s) ->
  Workflow.amount body = Some amount_ ->
  Workflow.validatePayoutRequest body agentId now db = Workflow.Next v ->
  Query.userById agentId db = Some agent ->
  PayoutSettings.requireManagerApproval s = false ->
  amount_ <= PayoutSettings.autoApprovalThreshold s ->
  AutoApproval.checkAutoApprovalEligibility agentId amount_ db
  = AutoApproval.Eligible (PayoutSettings.autoApprovalThreshold s).
Proof.
  intros Hs Hbody Hnext Hu Hreq Hthr.
  destruct (validatePayoutRequest_next db body agentId now s v Hs Hnext)
    as (pv & -> & Hpv & _ & _ & _ & Hreqs & Hnum).
  rewrite Hbody in Hnum. destruct Hnum as (Hauto & _ & _ & Hwhen).
  assert (Hwill : Workflow.willAutoApprove pv = true).
  { rewrite Hauto. unfold Workflow.shouldAutoApprove. rewrite Hpv, Hreq.
    cbn [negb andb]. apply Z.leb_le. exact Hthr. }
  destruct (Hwhen Hwill) as (Hheld & _).
  unfold AutoApproval.checkAutoApprovalEligibility.
  rewrite Hs, Hu, Hreq, (Hheld agent Hu).
  destruct (PayoutSettings.autoApprovalThreshold s <? amount_)
    eqn:E; [apply Z.ltb_lt in E; lia|].
  rewrite payoutRequestIn_none; [reflexivity|].
  intros p Hp Hag Hin.
  destruct (Hreqs p Hp Hag) as [Hst|Hst]; rewrite Hst in Hin;
    cbn [In] in Hin; intuition discriminate.
Qed.

Lemma admitted_auto_approval_is_eligible_witness :
  let s := Scenario.policy (3 # 100) false false in
  let db := Scenario.outstanding (PayoutSettings.Stored (Some s))
              PayoutRequest.paid in
  let body := Workflow.mkBody (Some 500) "mpesa" "0712345678" in
  (exists v, Workflow.validatePayoutRequest body 7%nat Scenario.wednesday1030 db
             = Workflow.Next v)
  /\ AutoApproval.checkAutoApprovalEligibility 7%nat 500 db
     = AutoApproval.Eligible 1000.
Proof.
  cbv zeta. split; [eexists; vm_compute; reflexivity|].
  eapply (admitted_auto_approval_is_eligible
            (Scenario.outstanding
               (PayoutSettings.Stored (Some (Scenario.policy (3 # 100) false false)))
               PayoutRequest.paid)
            (Workflow.mkBody (Some 500) "mpesa" "0712345678") 7%nat
            Scenario.wednesday1030 (Scenario.policy (3 # 100) false false)).
  - reflexivity.
  - reflexivity.
  - vm_compute. reflexivity.
  - vm_compute. reflexivity.
  - reflexivity.
  - vm_compute. discriminate.
Defined.

Lemma never_same_requests (db db' : Db.t) :
  Db.payoutRequests db' = Db.payoutRequests db ->
  neverAutoPaid db -> neverAutoPaid db'.
Proof. unfold neverAutoPaid. intros E H p Hp. rewrite E in Hp. auto. Qed.

Lemma never_save (x : PayoutRequest.t) (db : Db.t) :
  neverAutoPaid db ->
  PayoutRequest.autoPaid (PayoutRequest.metadata x) = false ->
  neverAutoPaid (Write.savePayoutRequest x db).
Proof.
  unfold neverAutoPaid, Write.savePayoutRequest.
  cbn [Db.payoutRequests Db.withPayoutRequests].
  intros H Hx p Hp. apply in_map_iff in Hp. destruct Hp as (q & <- & Hq).
  destruct (PayoutRequest._id q =? PayoutRequest._id x)%nat; auto.
Qed.

Lemma never_same_core (db db' : Db.t) :
  map requestCore (Db.payoutRequests db')
  = map requestCore (Db.payoutRequests db) ->
  neverAutoPaid db -> neverAutoPaid db'.
Proof.
  unfold neverAutoPaid. intros E H p Hp.
  assert (Hin : In (requestCore p) (map requestCore (Db.payoutRequests db)))
    by (rewrite <- E; apply in_map; exact Hp).
  apply in_map_iff in Hin. destruct Hin as (q & Hq & Hinq).
  unfold requestCore in Hq. injection Hq. intros <- _ _ _ _. auto.
Qed.

Lemma never_autoPay (created : PayoutRequest.t) (now : Date.t) (db : Db.t) :
  neverAutoPaid db ->
  PayoutRequest.autoPaid (PayoutRequest.metadata created) = false ->
  neverAutoPaid (Workflow.autoPay created now db).
Proof.
  intros H Hc. unfold Workflow.autoPay.
  destruct (PayoutRequest.amount created <=? _).
  - match goal with
    | |- context [Settlement.walk ?c ?n ?l ?r db] =>
        pose proof (walk_payoutRequests c n l r db) as (Hw & _);
        destruct (Settlement.walk c n l r db) as [[w|e] db1]
    end; cbn [snd] in Hw.
    + apply never_save; [|exact Hc].
      match goal with
      | |- neverAutoPaid (Settlement.saveUpdates ?rid ?n ?us db1) =>
          destruct (saveUpdates_payoutRequests rid n us db1) as (Hs & _)
      end.
      eapply never_same_requests; [exact Hs|].
      eapply never_same_requests; [exact Hw|exact H].
    + apply never_save; [|exact Hc].
      eapply never_same_requests; [exact Hw|exact H].
  - apply never_save; assumption.
Qed.

Lemma createPayoutRequest_bad_request (body : Workflow.Body)
    (agentId : ObjectId) (validation : option Workflow.PayoutValidation)
    (now : Date.t) (db db' : Db.t) (e : Workflow.CreateError) :
  Workflow.createPayoutRequest body agentId validation now db
  = (Workflow.BadRequest e, db') ->
  db' = db.
Proof.
  unfold Workflow.createPayoutRequest.
  destruct (Workflow.amount body) as [amount_|]; [|congruence].
  destruct (_ || _); [congruence|].
  destruct (if String.eqb (Workflow.method body) "mpesa"
            then Some PayoutRequest.mpesa
            else if String.eqb (Workflow.method body) "bank"
                 then Some PayoutRequest.bank else None) as [m|];
    [|congruence].
  destruct (String.eqb (Workflow.method body) "mpesa"
            && negb (Workflow.mpesaRegex (JS.trim (Workflow.accountDetails body))));
    [congruence|].
  destruct (match validation with
            | Some v => _
            | None => false
            end); [congruence|].
  unfold Write.createPayoutRequest.
  destruct ((1 <=? _) && _); [discriminate|congruence].
Qed.

Lemma never_submit (body : Workflow.Body) (agentId : ObjectId) (now : Date.t)
    (db : Db.t) :
  neverAutoPaid db ->
  neverAutoPaid (snd (Workflow.submitPayoutRequest body agentId now db)).
Proof.
  intro H. unfold Workflow.submitPayoutRequest.
  destruct (Workflow.validatePayoutRequest body agentId now db)
    as [validation|errors warnings|]; [|exact H|exact H].
  destruct (Workflow.createPayoutRequest body agentId validation now db)
    as [[message final ws threshold autoPaid|e] db'] eqn:Hcreate; cbn [snd].
  - destruct (createPayoutRequest_created body agentId validation now db db'
                message final ws threshold autoPaid Hcreate)
      as (amount_ & m & created & db1 & _ & Hw & _ & _ & -> & _).
    unfold Write.createPayoutRequest in Hw.
    destruct ((1 <=? _) && _); [|discriminate Hw].
    injection Hw as <- <-.
    match goal with
    | |- neverAutoPaid (if _ then Workflow.autoPay ?c now ?d else ?d) =>
        assert (Hd : neverAutoPaid d);
        [|destruct (Workflow.shouldAutoApprove validation amount_);
          [apply never_autoPay; [exact Hd|reflexivity]|exact Hd]]
    end.
    unfold neverAutoPaid.
    cbn [Db.payoutRequests Db.withPayoutRequests Db.withNextId].
    intros p Hp. apply in_app_or in Hp. destruct Hp as [Hp|[<-|[]]];
      [apply H; exact Hp|reflexivity].
  - rewrite (createPayoutRequest_bad_request body agentId validation now db
               db' e Hcreate).
    exact H.
Qed.

Lemma never_process (id userId : ObjectId) (action notes reason : string)
    (now : Date.t) (db : Db.t) :
  neverAutoPaid db ->
  neverAutoPaid
    (snd (Settlement.processPayoutRequest id action notes reason userId now db)).
Proof.
  intro H.
  destruct (Query.payoutRequestById id db) as [pr|] eqn:Hfind.
  - destruct (find_id_payout _ _ _ Hfind) as [_ Hin].
    destruct (processPayoutRequest_shape id userId action notes reason now db
                pr Hfind)
      as [(Hreqs & _)
         |(updated & message & db0 & _ & -> & Hreqs & _ & _ & _ & Hsame)].
    + eapply never_same_requests; [exact Hreqs|exact H].
    + apply never_save.
      * eapply never_same_requests; [exact Hreqs|exact H].
      * destruct Hsame as (_ & _ & _ & _ & _ & _ & -> & _). apply H. exact Hin.
  - rewrite (processPayoutRequest_not_found id userId action notes reason now
               db Hfind).
    exact H.
Qed.

Lemma never_rejectOne (reason : string) (userId : ObjectId) (now : Date.t) :
  forall ids n errs db,
  neverAutoPaid db ->
  neverAutoPaid
    (snd (fold_left (Bulk.rejectOne reason userId now) ids (n, errs, db))).
Proof.
  induction ids as [|i ids IH]; intros n errs db H; [exact H|].
  cbn [fold_left]. unfold Bulk.rejectOne at 2.
  destruct (Query.payoutRequestById i db) as [p0|] eqn:Hfind;
    [|apply IH; exact H].
  destruct (find_id_payout _ _ _ Hfind) as [_ Hin].
  destruct (PayoutRequest.status_eqb _ PayoutRequest.pending);
    [|apply IH; exact H].
  apply IH. apply never_save; [exact H|]. apply (H p0 Hin).
Qed.

Lemma never_bulk (payoutIds : option (list ObjectId))
    (action notes rejectionReason : string) (userId : ObjectId)
    (now : Date.t) (db : Db.t) :
  neverAutoPaid db ->
  neverAutoPaid
    (snd (Bulk.bulkProcessPayouts payoutIds action notes rejectionReason
            userId now db)).
Proof.
  intro H. unfold Bulk.bulkProcessPayouts.
  destruct payoutIds as [[|i ids]|]; try exact H.
  set (payoutIds := i :: ids).
  destruct (negb _); [exact H|].
  destruct (String.eqb action "reject").
  - match goal with
    | |- context [String.length ?r] => set (reason := r)
    end.
    destruct (String.length reason <? 3)%nat; [exact H|].
    pose proof (never_rejectOne reason userId now payoutIds 0%nat [] db H)
      as Hfold.
    destruct (fold_left _ payoutIds _) as [[n' errs'] db']. exact Hfold.
  - set (f := fun p => if Bulk.matches payoutIds action p
                       then Bulk.update action notes userId now p else p).
    assert (H1 : neverAutoPaid
                   (Db.withPayoutRequests (map f (Db.payoutRequests db)) db)).
    { unfold neverAutoPaid. cbn [Db.payoutRequests Db.withPayoutRequests].
      intros p Hp. apply in_map_iff in Hp. destruct Hp as (q & <- & Hq).
      subst f. cbv beta. destruct (Bulk.matches payoutIds action q); [|auto].
      pose proof (update_core action notes userId now q) as Hcore.
      unfold requestCore in Hcore. injection Hcore. intros -> _ _ _ _. auto. }
    destruct (String.eqb action "pay" && _); cbn [snd]; [|exact H1].
    eapply never_same_core; [apply fold_settleOne_core|exact H1].
Qed.

Lemma never_counted (startDate endDate : option Date.t) (db : Db.t) :
  neverAutoPaid db ->
  AutoApproval.autoPaidCount (AutoApproval.counts startDate endDate db) = 0%nat.
Proof.
  intro H. unfold AutoApproval.counts. cbn [AutoApproval.autoPaidCount].
  unfold neverAutoPaid in H.
  induction (Db.payoutRequests db) as [|p l IH]; [reflexivity|].
  cbn [filter].
  assert (IH' : List.length
                  (filter (fun p => PayoutRequest.autoPaid (PayoutRequest.metadata p))
                          (filter (AutoApproval.inRange startDate endDate) l))
                = 0%nat)
    by (apply IH; intros q Hq; apply H; right; exact Hq).
  destruct (AutoApproval.inRange startDate endDate p); [|exact IH'].
  cbn [filter]. rewrite (H p (or_introl eq_refl)). exact IH'.
Qed.

(** X27: no handler sets the auto-paid flag.  When no stored request
    carries [metadata.autoPaid], none does after a submission through the
    creation route - auto-approved and paid or not -, after the processing
    of a request, or after a bulk operation; and the analytics then report
    an auto-paid count of zero for every range of dates. *)
Theorem autoPaid_flag_never_set (db : Db.t) (body : Workflow.Body)
    (id agentId userId : ObjectId) (payoutIds : option (list ObjectId))
    (action notes reason : string) (now : Date.t)
    (startDate endDate : option Date.t) :
  neverAutoPaid db ->
  neverAutoPaid (snd (Workflow.submitPayoutRequest body agentId now db))
  /\ neverAutoPaid
       (snd (Settlement.processPayoutRequest id action notes reason userId
               now db))
  /\ neverAutoPaid
       (snd (Bulk.bulkProcessPayouts payoutIds action notes reason userId
               now db))
  /\ (forall summary,
        AutoApproval.getAutoApprovalAnalytics startDate endDate db
        = Some summary ->
        AutoApproval.autoPaidCount summary = 0%nat).
Proof.
  intro H.
  split; [apply never_submit; exact H|].
  split; [apply never_process; exact H|].
  split; [apply never_bulk; exact H|].
  intros summary. unfold AutoApproval.getAutoApprovalAnalytics.
  destruct (Db.settings db); intro E; try discriminate E.
  injection E as <-. apply never_counted. exact H.
Qed.

Lemma autoPaid_flag_never_set_witness :
  let s := Scenario.policy (3 # 100) false false in
  let db := Scenario.outstanding (PayoutSettings.Stored (Some s))
              PayoutRequest.paid in
  let body := Workflow.mkBody (Some 500) "mpesa" "0712345678" in
  let db' := snd (Workflow.submitPayoutRequest body 7%nat
                    Scenario.wednesday1030 db) in
  (exists p, Query.payoutRequestById 60%nat db' = Some p
             /\ PayoutRequest.status p = PayoutRequest.paid)
  /\ neverAutoPaid db'.
Proof.
  cbv zeta. split.
  - eexists. split; vm_compute; reflexivity.
  - apply (autoPaid_flag_never_set
             (Scenario.outstanding
                (PayoutSettings.Stored (Some (Scenario.policy (3 # 100) false false)))
                PayoutRequest.paid)
             (Workflow.mkBody (Some 500) "mpesa" "0712345678") 0%nat 7%nat 0%nat None
             "" "" "" Scenario.wednesday1030 None None).
    intros p [<-|[]]. reflexivity.
Defined.

